(** * gsplat: the host-side dispatch layer of the rasterizer

    A shallow embedding of [gsplat/cuda/csrc/Rasterization.cpp].  The file
    holds the eight entry points that validate their tensor arguments,
    allocate the output buffers, pick the kernel specialisation for the
    channel width and launch it:

    - [rasterize_to_pixels_3dgs_fwd], [rasterize_to_pixels_3dgs_bwd],
      [rasterize_to_indices_3dgs];
    - [rasterize_to_pixels_2dgs_fwd], [rasterize_to_pixels_2dgs_bwd],
      [rasterize_to_indices_2dgs];
    - [rasterize_to_pixels_from_world_3dgs_fwd],
      [rasterize_to_pixels_from_world_3dgs_bwd].

    Device memory is a store of buffers, a tensor is a handle on one of them,
    and every entry point is a computation in a state-and-error monad whose
    state carries the store and the list of kernel launches made so far. *)

From stdpp Require Import base numbers list strings.
From Stdlib Require Import ZArith Lia.

Open Scope Z_scope.

(** ** Machine integers *)

(** [uint32_t x = e]: the value of [e] reduced modulo [2^32]. *)
Definition to_uint32 (z : Z) : Z := z `mod` 2 ^ 32.

(** A value stored in an [int32] tensor or computed by [int32] tensor
    arithmetic: two's complement wrap-around. *)
Definition to_int32 (z : Z) : Z := (z + 2 ^ 31) `mod` 2 ^ 32 - 2 ^ 31.

(** ** Tensors and device memory *)

Inductive ScalarType := kFloat | kDouble | kHalf | kInt | kLong | kBool.

(** An [at::Tensor] is a handle: it names a buffer of the store and carries
    the metadata the wrapper inspects.  Copies of a handle alias the buffer. *)
Record Tensor := mkTensor {
  storage : nat;
  sizes : list Z;
  dtype : ScalarType;
  is_cuda : bool;
  is_contiguous : bool
}.

(** [at::TensorOptions], as far as this file uses it: dtype and device. *)
Record TensorOptions := mkOptions {
  opt_dtype : ScalarType;
  opt_cuda : bool
}.

(** A memory cell is [None] while it is uninitialised ([at::empty]).  Floats
    are kept as their bit pattern, so [Some 0] is both the integer [0] and the
    float [+0.0]. *)
Abbreviation cell := (option Z).
Abbreviation buffer := (list (option Z)).
Abbreviation heap := (list (list (option Z))).

(** One store of a kernel: buffer, flat index, value. *)
Abbreviation write := (nat * nat * Z)%type.

Definition apply_write (h : heap) (w : write) : heap :=
  let '(b, i, v) := w in alter (λ buf, <[i := Some v]> buf) b h.

Definition apply_writes (ws : list write) (h : heap) : heap :=
  foldl apply_write h ws.

Definition read (h : heap) (t : Tensor) : buffer :=
  default [] (h !! storage t).

(** ** Errors *)

Inductive error :=
  | MustBeCuda (name : string)
  | MustBeContiguous (name : string)
  | UnsupportedChannels (channels : Z)
  | IndexError
  | InvalidSlice
  | NegativeDimension.

(** How a call ends: it returns, it throws a [c10::Error], it aborts on a
    failed [assert], or it runs into undefined behaviour. *)
Inductive result (A : Type) :=
  | Ok (a : A)
  | Throw (e : error)
  | Abort
  | Undefined.
Arguments Ok {A} a.
Arguments Throw {A} e.
Arguments Abort {A}.
Arguments Undefined {A}.

(** ** Tensor metadata *)

Definition dim (t : Tensor) : Z := Z.of_nat (length (sizes t)).

Definition numel (t : Tensor) : Z := foldr Z.mul 1 (sizes t).

Definition options (t : Tensor) : TensorOptions :=
  {| opt_dtype := dtype t; opt_cuda := is_cuda t |}.

(** [opt.dtype(d)] *)
Definition with_dtype (o : TensorOptions) (d : ScalarType) : TensorOptions :=
  {| opt_dtype := d; opt_cuda := opt_cuda o |}.

(** [t.size(d)]: a negative [d] counts from the end; a dimension outside
    [-dim, dim) is an [IndexError]. *)
Definition size (t : Tensor) (d : Z) : result Z :=
  let n := dim t in
  if (- n <=? d) && (d <? n) then
    match sizes t !! Z.to_nat (if d <? 0 then d + n else d) with
    | Some x => Ok x
    | None => Throw IndexError
    end
  else Throw IndexError.

(** [ArrayRef::slice(N, M)] with [N = 0]: the first [M] elements.  [M] is a
    [size_t], so a negative [int64_t] becomes huge and the bounds check of
    [slice] fails. *)
Definition slice0 (l : list Z) (m : Z) : result (list Z) :=
  if (0 <=? m) && (m <=? Z.of_nat (length l)) then Ok (take (Z.to_nat m) l)
  else Throw InvalidSlice.

(** [sizes[0] * sizes[1] * ...] of a shape about to be allocated. *)
Definition shape_numel (dims : list Z) : Z := foldr Z.mul 1 dims.

(** ** Integer tensor arithmetic *)

Definition cell_add (a b : cell) : cell :=
  match a, b with
  | Some x, Some y => Some (to_int32 (x + y))
  | _, _ => None
  end.

Definition cell_sub (a b : cell) : cell :=
  match a, b with
  | Some x, Some y => Some (to_int32 (x - y))
  | _, _ => None
  end.

(** The running sums of [at::cumsum] over an [int32] buffer; the accumulator
    has the dtype of the result, here [int32]. *)
Fixpoint cumsum_from (acc : cell) (l : buffer) : buffer :=
  match l with
  | [] => []
  | c :: l' => let acc' := cell_add acc c in acc' :: cumsum_from acc' l'
  end.

Definition cumsum_int32 (l : buffer) : buffer := cumsum_from (Some 0) l.

Definition sub_int32 (a b : buffer) : buffer := zip_with cell_sub a b.

(** ** Prefix sums, as the specification words them *)



Definition total (counts : list Z) : Z := foldr Z.add 0 counts.

(** ** The channel widths with a compiled kernel *)

Definition supported_channels : list Z :=
  [1; 2; 3; 4; 5; 8; 9; 16; 17; 32; 33; 64; 65; 128; 129; 256; 257; 512; 513].

(** The undefined tensor of a default-constructed [at::Tensor] handle. *)
Inductive at_Tensor :=
  | UndefinedTensor
  | DefinedTensor (t : Tensor).

(** What [CHECK_INPUT] accepts. *)
Definition checked (t : Tensor) : Prop :=
  is_cuda t = true ∧ is_contiguous t = true.

Definition checked_opt (o : option Tensor) : Prop :=
  ∀ t, o = Some t → checked t.

(** The sizes of a tensor are never negative. *)
Definition shape_ok (t : Tensor) : Prop := Forall (Z.le 0) (sizes t).

(** ** Kernel launches *)

Section Rasterization.

(** Types declared in [Cameras.h]; the wrapper only forwards their values. *)
Context {CameraModelType UnscentedTransformParameters ShutterType
         FThetaCameraDistortionParameters : Type}.

(** The argument lists of the eight [launch_*_kernel] functions, in the order
    of their call sites. *)

Record args_3dgs_fwd := {
  k3f_means2d : Tensor; k3f_conics : Tensor; k3f_colors : Tensor;
  k3f_opacities : Tensor;
  k3f_backgrounds : option Tensor; k3f_masks : option Tensor;
  k3f_image_width : Z; k3f_image_height : Z; k3f_tile_size : Z;
  k3f_tile_offsets : Tensor; k3f_flatten_ids : Tensor;
  k3f_renders : Tensor; k3f_alphas : Tensor; k3f_last_ids : Tensor
}.

Record args_3dgs_bwd := {
  k3b_means2d : Tensor; k3b_conics : Tensor; k3b_colors : Tensor;
  k3b_opacities : Tensor;
  k3b_backgrounds : option Tensor; k3b_masks : option Tensor;
  k3b_image_width : Z; k3b_image_height : Z; k3b_tile_size : Z;
  k3b_tile_offsets : Tensor; k3b_flatten_ids : Tensor;
  k3b_render_alphas : Tensor; k3b_last_ids : Tensor;
  k3b_v_render_colors : Tensor; k3b_v_render_alphas : Tensor;
  k3b_v_means2d_abs : option at_Tensor;
  k3b_v_means2d : Tensor; k3b_v_conics : Tensor; k3b_v_colors : Tensor;
  k3b_v_opacities : Tensor
}.

Record args_3dgs_indices := {
  k3i_range_start : Z; k3i_range_end : Z; k3i_transmittances : Tensor;
  k3i_means2d : Tensor; k3i_conics : Tensor; k3i_opacities : Tensor;
  k3i_image_width : Z; k3i_image_height : Z; k3i_tile_size : Z;
  k3i_tile_offsets : Tensor; k3i_flatten_ids : Tensor;
  k3i_chunk_starts : option at_Tensor; k3i_chunk_cnts : option Tensor;
  k3i_gaussian_ids : option Tensor; k3i_pixel_ids : option Tensor
}.

Record args_2dgs_fwd := {
  k2f_means2d : Tensor; k2f_ray_transforms : Tensor; k2f_colors : Tensor;
  k2f_opacities : Tensor; k2f_normals : Tensor;
  k2f_backgrounds : option Tensor; k2f_masks : option Tensor;
  k2f_image_width : Z; k2f_image_height : Z; k2f_tile_size : Z;
  k2f_tile_offsets : Tensor; k2f_flatten_ids : Tensor;
  k2f_renders : Tensor; k2f_alphas : Tensor; k2f_render_normals : Tensor;
  k2f_render_distort : Tensor; k2f_render_median : Tensor;
  k2f_last_ids : Tensor; k2f_median_ids : Tensor
}.

Record args_2dgs_bwd := {
  k2b_means2d : Tensor; k2b_ray_transforms : Tensor; k2b_colors : Tensor;
  k2b_opacities : Tensor; k2b_normals : Tensor; k2b_densify : Tensor;
  k2b_backgrounds : option Tensor; k2b_masks : option Tensor;
  k2b_image_width : Z; k2b_image_height : Z; k2b_tile_size : Z;
  k2b_tile_offsets : Tensor; k2b_flatten_ids : Tensor;
  k2b_render_colors : Tensor; k2b_render_alphas : Tensor;
  k2b_last_ids : Tensor; k2b_median_ids : Tensor;
  k2b_v_render_colors : Tensor; k2b_v_render_alphas : Tensor;
  k2b_v_render_normals : Tensor; k2b_v_render_distort : Tensor;
  k2b_v_render_median : Tensor;
  k2b_v_means2d_abs : option at_Tensor;
  k2b_v_means2d : Tensor; k2b_v_ray_transforms : Tensor;
  k2b_v_colors : Tensor; k2b_v_opacities : Tensor; k2b_v_normals : Tensor;
  k2b_v_densify : Tensor
}.

Record args_2dgs_indices := {
  k2i_range_start : Z; k2i_range_end : Z; k2i_transmittances : Tensor;
  k2i_means2d : Tensor; k2i_ray_transforms : Tensor; k2i_opacities : Tensor;
  k2i_image_width : Z; k2i_image_height : Z; k2i_tile_size : Z;
  k2i_tile_offsets : Tensor; k2i_flatten_ids : Tensor;
  k2i_chunk_starts : option at_Tensor; k2i_chunk_cnts : option Tensor;
  k2i_gaussian_ids : option Tensor; k2i_pixel_ids : option Tensor
}.

Record args_from_world_3dgs_fwd := {
  kwf_means : Tensor; kwf_quats : Tensor; kwf_scales : Tensor;
  kwf_colors : Tensor; kwf_opacities : Tensor;
  kwf_backgrounds : option Tensor; kwf_masks : option Tensor;
  kwf_image_width : Z; kwf_image_height : Z; kwf_tile_size : Z;
  kwf_viewmats0 : Tensor; kwf_viewmats1 : option Tensor; kwf_Ks : Tensor;
  kwf_camera_model : CameraModelType;
  kwf_ut_params : UnscentedTransformParameters;
  kwf_rs_type : ShutterType;
  kwf_radial_coeffs : option Tensor; kwf_tangential_coeffs : option Tensor;
  kwf_thin_prism_coeffs : option Tensor;
  kwf_ftheta_coeffs : FThetaCameraDistortionParameters;
  kwf_tile_offsets : Tensor; kwf_flatten_ids : Tensor;
  kwf_renders : Tensor; kwf_alphas : Tensor; kwf_last_ids : Tensor
}.

Record args_from_world_3dgs_bwd := {
  kwb_means : Tensor; kwb_quats : Tensor; kwb_scales : Tensor;
  kwb_colors : Tensor; kwb_opacities : Tensor;
  kwb_backgrounds : option Tensor; kwb_masks : option Tensor;
  kwb_image_width : Z; kwb_image_height : Z; kwb_tile_size : Z;
  kwb_viewmats0 : Tensor; kwb_viewmats1 : option Tensor; kwb_Ks : Tensor;
  kwb_camera_model : CameraModelType;
  kwb_ut_params : UnscentedTransformParameters;
  kwb_rs_type : ShutterType;
  kwb_radial_coeffs : option Tensor; kwb_tangential_coeffs : option Tensor;
  kwb_thin_prism_coeffs : option Tensor;
  kwb_ftheta_coeffs : FThetaCameraDistortionParameters;
  kwb_tile_offsets : Tensor; kwb_flatten_ids : Tensor;
  kwb_render_alphas : Tensor; kwb_last_ids : Tensor;
  kwb_v_render_colors : Tensor; kwb_v_render_alphas : Tensor;
  kwb_v_means : Tensor; kwb_v_quats : Tensor; kwb_v_scales : Tensor;
  kwb_v_colors : Tensor; kwb_v_opacities : Tensor
}.

(** What an index kernel reads, apart from the output buffers. *)
Definition inputs_3dgs_indices (a : args_3dgs_indices) :=
  (k3i_range_start a, k3i_range_end a, k3i_transmittances a, k3i_means2d a,
   k3i_conics a, k3i_opacities a, k3i_image_width a, k3i_image_height a,
   k3i_tile_size a, k3i_tile_offsets a, k3i_flatten_ids a).

Definition inputs_2dgs_indices (a : args_2dgs_indices) :=
  (k2i_range_start a, k2i_range_end a, k2i_transmittances a, k2i_means2d a,
   k2i_ray_transforms a, k2i_opacities a, k2i_image_width a,
   k2i_image_height a, k2i_tile_size a, k2i_tile_offsets a,
   k2i_flatten_ids a).

(** The output buffers of an index kernel, in the order [chunk_starts],
    [chunk_cnts], [gaussian_ids], [pixel_ids].  The counting pass passes only
    the counts, the compaction pass everything but the counts. *)
Definition outputs_3dgs_indices (a : args_3dgs_indices) :=
  (k3i_chunk_starts a, k3i_chunk_cnts a, k3i_gaussian_ids a,
   k3i_pixel_ids a).

Definition outputs_2dgs_indices (a : args_2dgs_indices) :=
  (k2i_chunk_starts a, k2i_chunk_cnts a, k2i_gaussian_ids a,
   k2i_pixel_ids a).

(** A launch names the kernel, its template argument [CDIM] where it has one,
    and the arguments. *)
Inductive KernelLaunch :=
  | launch_rasterize_to_pixels_3dgs_fwd_kernel (CDIM : Z) (a : args_3dgs_fwd)
  | launch_rasterize_to_pixels_3dgs_bwd_kernel (CDIM : Z) (a : args_3dgs_bwd)
  | launch_rasterize_to_indices_3dgs_kernel (a : args_3dgs_indices)
  | launch_rasterize_to_pixels_2dgs_fwd_kernel (CDIM : Z) (a : args_2dgs_fwd)
  | launch_rasterize_to_pixels_2dgs_bwd_kernel (CDIM : Z) (a : args_2dgs_bwd)
  | launch_rasterize_to_indices_2dgs_kernel (a : args_2dgs_indices)
  | launch_rasterize_to_pixels_from_world_3dgs_fwd_kernel
      (CDIM : Z) (a : args_from_world_3dgs_fwd)
  | launch_rasterize_to_pixels_from_world_3dgs_bwd_kernel
      (CDIM : Z) (a : args_from_world_3dgs_bwd).

(** ** The state-and-error monad of the wrapper *)

(** The store, and the launches so far, oldest first, each with the store it
    started from. *)
Record state := mkState {
  mem : heap;
  launches : list (KernelLaunch * heap)
}.

Definition M (A : Type) : Type := state → result A * state.

Definition ret {A} (a : A) : M A := λ s, (Ok a, s).

Definition bind {A B} (m : M A) (k : A → M B) : M B :=
  λ s, match m s with
       | (Ok a, s') => k a s'
       | (Throw e, s') => (Throw e, s')
       | (Abort, s') => (Abort, s')
       | (Undefined, s') => (Undefined, s')
       end.

Definition lift {A} (r : result A) : M A := λ s, (r, s).

Definition throw {A} (e : error) : M A := lift (Throw e).

Notation "x <- m ;; k" := (bind m (λ x, k))
  (at level 100, m at next level, right associativity, only parsing).
Notation "'let*' p := m 'in' k" := (bind m (λ x, match x with p => k end))
  (at level 100, p pattern, m at next level, right associativity,
   only parsing).
Notation "m ;;; k" := (bind m (λ _, k))
  (at level 100, right associativity, only parsing).

(** The kernels are CUDA code outside this file.  A kernel is taken as what
    it stores, given its launch and the store it starts from. *)
Variable kernel : KernelLaunch → heap → list write.

(** Whether the file is compiled with [NDEBUG], which turns [assert] off. *)
Variable NDEBUG : bool.

Definition launch (k : KernelLaunch) : M unit :=
  λ s, (Ok (),
        {| mem := apply_writes (kernel k (mem s)) (mem s);
           launches := launches s ++ [(k, mem s)] |}).

(** A fresh buffer at the end of the store. *)
Definition alloc (buf : buffer) : M nat :=
  λ s, (Ok (length (mem s)),
        {| mem := mem s ++ [buf]; launches := launches s |}).

(** [assert(cond)] of [<cassert>]. *)
Definition assert_ (cond : bool) : M unit :=
  if NDEBUG then ret () else if cond then ret () else lift Abort.

(** [AT_ERROR("Unsupported number of channels: ", channels)] *)
Definition AT_ERROR {A} (channels : Z) : M A :=
  throw (UnsupportedChannels channels).

(** Modelled from the spec: [DEVICE_GUARD] is a macro of [Common.h], which
    is not among the sources.  The device guard selects the device of its
    tensor for the rest of the call; it stores nothing and launches
    nothing. *)
Definition DEVICE_GUARD (t : Tensor) : M unit := ret ().

(** Modelled from the spec: [CHECK_INPUT] is a macro of [Common.h], which is
    not among the sources.  The configuration errors of one tensor are a
    wrong device and a layout that is not contiguous; [CHECK_INPUT(x)] takes
    [x] alone, so it compares [x] with no other argument, and it names [x]
    in the message. *)
Definition CHECK_INPUT (name : string) (t : Tensor) : M unit :=
  if is_cuda t then
    if is_contiguous t then ret () else throw (MustBeContiguous name)
  else throw (MustBeCuda name).

(** [if (x.has_value()) { CHECK_INPUT(x.value()); }] *)
Definition CHECK_INPUT_opt (name : string) (t : option Tensor) : M unit :=
  match t with
  | Some t' => CHECK_INPUT name t'
  | None => ret ()
  end.

(** ** Allocation *)

Definition new_tensor (dims : list Z) (o : TensorOptions) (fill : cell)
  : M Tensor :=
  if forallb (Z.leb 0) dims then
    id <- alloc (replicate (Z.to_nat (shape_numel dims)) fill) ;;
    ret {| storage := id; sizes := dims; dtype := opt_dtype o;
           is_cuda := opt_cuda o; is_contiguous := true |}
  else throw NegativeDimension.

(** [at::empty(dims, opt)]: the cells are uninitialised. *)
Definition at_empty (dims : list Z) (o : TensorOptions) : M Tensor :=
  new_tensor dims o None.

(** [at::zeros(dims, opt)] *)
Definition at_zeros (dims : list Z) (o : TensorOptions) : M Tensor :=
  new_tensor dims o (Some 0).

(** [at::zeros_like(t)]: a zero-filled tensor with the sizes, dtype and
    device of [t]. *)
Definition at_zeros_like (t : Tensor) : M Tensor :=
  id <- alloc (replicate (Z.to_nat (numel t)) (Some 0)) ;;
  ret {| storage := id; sizes := sizes t; dtype := dtype t;
         is_cuda := is_cuda t; is_contiguous := true |}.

(** [at::cumsum(t, 0, t.scalar_type())] of a one-dimensional [int32] tensor. *)
Definition at_cumsum (t : Tensor) : M Tensor :=
  λ s, (id <- alloc (cumsum_int32 (read (mem s) t)) ;;
        ret {| storage := id; sizes := sizes t; dtype := dtype t;
               is_cuda := is_cuda t; is_contiguous := true |}) s.

(** [at::sub(a, b)] of two [int32] tensors of one shape. *)
Definition at_sub (a b : Tensor) : M Tensor :=
  λ s, (id <- alloc (sub_int32 (read (mem s) a) (read (mem s) b)) ;;
        ret {| storage := id; sizes := sizes a; dtype := dtype a;
               is_cuda := is_cuda a; is_contiguous := true |}) s.

(** [t[-1].item<int64_t>()] of a one-dimensional tensor: indexing an empty
    tensor is an [IndexError]; the value of an uninitialised cell is
    indeterminate. *)
Definition last_item (t : Tensor) : M Z :=
  λ s, match last (read (mem s) t) with
       | None => (Throw IndexError, s)
       | Some None => (Undefined, s)
       | Some (Some v) => (Ok v, s)
       end.

(** The [switch (channels)] of every pixel entry point: one [case] for each
    compiled width, each running the [__LAUNCH_KERNEL__] macro of the
    enclosing function and breaking; [default:] raises. *)
Definition switch_channels (channels : Z) (__LAUNCH_KERNEL__ : Z → M unit)
  : M unit :=
  match channels with
  | 1 => __LAUNCH_KERNEL__ 1
  | 2 => __LAUNCH_KERNEL__ 2
  | 3 => __LAUNCH_KERNEL__ 3
  | 4 => __LAUNCH_KERNEL__ 4
  | 5 => __LAUNCH_KERNEL__ 5
  | 8 => __LAUNCH_KERNEL__ 8
  | 9 => __LAUNCH_KERNEL__ 9
  | 16 => __LAUNCH_KERNEL__ 16
  | 17 => __LAUNCH_KERNEL__ 17
  | 32 => __LAUNCH_KERNEL__ 32
  | 33 => __LAUNCH_KERNEL__ 33
  | 64 => __LAUNCH_KERNEL__ 64
  | 65 => __LAUNCH_KERNEL__ 65
  | 128 => __LAUNCH_KERNEL__ 128
  | 129 => __LAUNCH_KERNEL__ 129
  | 256 => __LAUNCH_KERNEL__ 256
  | 257 => __LAUNCH_KERNEL__ 257
  | 512 => __LAUNCH_KERNEL__ 512
  | 513 => __LAUNCH_KERNEL__ 513
  | _ => AT_ERROR channels
  end.

(** ** 3DGS *)

Definition rasterize_to_pixels_3dgs_fwd
    (means2d conics colors opacities : Tensor)
    (backgrounds masks : option Tensor)
    (image_width image_height tile_size : Z)
    (tile_offsets flatten_ids : Tensor)
  : M (Tensor * Tensor * Tensor) :=
  DEVICE_GUARD means2d ;;;
  CHECK_INPUT "means2d" means2d ;;;
  CHECK_INPUT "conics" conics ;;;
  CHECK_INPUT "colors" colors ;;;
  CHECK_INPUT "opacities" opacities ;;;
  CHECK_INPUT "tile_offsets" tile_offsets ;;;
  CHECK_INPUT "flatten_ids" flatten_ids ;;;
  CHECK_INPUT_opt "backgrounds.value()" backgrounds ;;;
  CHECK_INPUT_opt "masks.value()" masks ;;;
  let opt := options means2d in
  image_dims <- lift (slice0 (sizes tile_offsets) (dim tile_offsets - 2)) ;;
  colors_size <- lift (size colors (-1)) ;;
  let channels := to_uint32 colors_size in
  let renders_dims := image_dims ++ [image_height; image_width; channels] in
  renders <- at_empty renders_dims opt ;;
  let alphas_dims := image_dims ++ [image_height; image_width; 1] in
  alphas <- at_empty alphas_dims opt ;;
  let last_ids_dims := image_dims ++ [image_height; image_width] in
  last_ids <- at_empty last_ids_dims (with_dtype opt kInt) ;;
  switch_channels channels (λ N,
    launch (launch_rasterize_to_pixels_3dgs_fwd_kernel N
      {| k3f_means2d := means2d; k3f_conics := conics; k3f_colors := colors;
         k3f_opacities := opacities; k3f_backgrounds := backgrounds;
         k3f_masks := masks; k3f_image_width := image_width;
         k3f_image_height := image_height; k3f_tile_size := tile_size;
         k3f_tile_offsets := tile_offsets; k3f_flatten_ids := flatten_ids;
         k3f_renders := renders; k3f_alphas := alphas;
         k3f_last_ids := last_ids |})) ;;;
  ret (renders, alphas, last_ids).

Definition rasterize_to_pixels_3dgs_bwd
    (means2d conics colors opacities : Tensor)
    (backgrounds masks : option Tensor)
    (image_width image_height tile_size : Z)
    (tile_offsets flatten_ids : Tensor)
    (render_alphas last_ids : Tensor)
    (v_render_colors v_render_alphas : Tensor)
    (absgrad : bool)
  : M (at_Tensor * Tensor * Tensor * Tensor * Tensor) :=
  DEVICE_GUARD means2d ;;;
  CHECK_INPUT "means2d" means2d ;;;
  CHECK_INPUT "conics" conics ;;;
  CHECK_INPUT "colors" colors ;;;
  CHECK_INPUT "opacities" opacities ;;;
  CHECK_INPUT "tile_offsets" tile_offsets ;;;
  CHECK_INPUT "flatten_ids" flatten_ids ;;;
  CHECK_INPUT "render_alphas" render_alphas ;;;
  CHECK_INPUT "last_ids" last_ids ;;;
  CHECK_INPUT "v_render_colors" v_render_colors ;;;
  CHECK_INPUT "v_render_alphas" v_render_alphas ;;;
  CHECK_INPUT_opt "backgrounds.value()" backgrounds ;;;
  CHECK_INPUT_opt "masks.value()" masks ;;;
  colors_size <- lift (size colors (-1)) ;;
  let channels := to_uint32 colors_size in
  v_means2d <- at_zeros_like means2d ;;
  v_conics <- at_zeros_like conics ;;
  v_colors <- at_zeros_like colors ;;
  v_opacities <- at_zeros_like opacities ;;
  v_means2d_abs <-
    (if absgrad then t <- at_zeros_like means2d ;; ret (DefinedTensor t)
     else ret UndefinedTensor) ;;
  switch_channels channels (λ N,
    launch (launch_rasterize_to_pixels_3dgs_bwd_kernel N
      {| k3b_means2d := means2d; k3b_conics := conics; k3b_colors := colors;
         k3b_opacities := opacities; k3b_backgrounds := backgrounds;
         k3b_masks := masks; k3b_image_width := image_width;
         k3b_image_height := image_height; k3b_tile_size := tile_size;
         k3b_tile_offsets := tile_offsets; k3b_flatten_ids := flatten_ids;
         k3b_render_alphas := render_alphas; k3b_last_ids := last_ids;
         k3b_v_render_colors := v_render_colors;
         k3b_v_render_alphas := v_render_alphas;
         k3b_v_means2d_abs := if absgrad then Some v_means2d_abs else None;
         k3b_v_means2d := v_means2d; k3b_v_conics := v_conics;
         k3b_v_colors := v_colors; k3b_v_opacities := v_opacities |})) ;;;
  ret (v_means2d_abs, v_means2d, v_conics, v_colors, v_opacities).

Definition rasterize_to_indices_3dgs
    (range_start range_end : Z)
    (transmittances : Tensor)
    (means2d conics opacities : Tensor)
    (image_width image_height tile_size : Z)
    (tile_offsets flatten_ids : Tensor)
  : M (Tensor * Tensor) :=
  DEVICE_GUARD means2d ;;;
  CHECK_INPUT "means2d" means2d ;;;
  CHECK_INPUT "conics" conics ;;;
  CHECK_INPUT "opacities" opacities ;;;
  CHECK_INPUT "tile_offsets" tile_offsets ;;;
  CHECK_INPUT "flatten_ids" flatten_ids ;;;
  let opt := options means2d in
  means2d_size <- lift (size means2d (-2)) ;;
  let N := to_uint32 means2d_size in
  (* [numel() / (2 * N)]: the divisor is a [uint32_t] product *)
  let divisor := to_uint32 (2 * N) in
  I <- (if divisor =? 0 then lift Undefined
        else ret (to_uint32 (numel means2d `quot` divisor))) ;;
  flatten_ids_size <- lift (size flatten_ids 0) ;;
  let n_isects := to_uint32 flatten_ids_size in
  (* First pass: count the number of gaussians that contribute to each
     pixel *)
  let* (n_elems, chunk_starts) :=
    (if negb (n_isects =? 0) then
       chunk_cnts <-
         at_zeros [to_uint32 (to_uint32 (I * image_height) * image_width)]
                  (with_dtype opt kInt) ;;
       launch (launch_rasterize_to_indices_3dgs_kernel
         {| k3i_range_start := range_start; k3i_range_end := range_end;
            k3i_transmittances := transmittances; k3i_means2d := means2d;
            k3i_conics := conics; k3i_opacities := opacities;
            k3i_image_width := image_width;
            k3i_image_height := image_height; k3i_tile_size := tile_size;
            k3i_tile_offsets := tile_offsets;
            k3i_flatten_ids := flatten_ids;
            k3i_chunk_starts := None; k3i_chunk_cnts := Some chunk_cnts;
            k3i_gaussian_ids := None; k3i_pixel_ids := None |}) ;;;
       cumsum <- at_cumsum chunk_cnts ;;
       n_elems <- last_item cumsum ;;
       chunk_starts <- at_sub cumsum chunk_cnts ;;
       ret (n_elems, DefinedTensor chunk_starts)
     else ret (0, UndefinedTensor)) in
  (* Second pass: allocate memory and write out the gaussian and pixel
     ids. *)
  gaussian_ids <- at_empty [n_elems] (with_dtype opt kLong) ;;
  pixel_ids <- at_empty [n_elems] (with_dtype opt kLong) ;;
  (if negb (n_elems =? 0) then
     launch (launch_rasterize_to_indices_3dgs_kernel
       {| k3i_range_start := range_start; k3i_range_end := range_end;
          k3i_transmittances := transmittances; k3i_means2d := means2d;
          k3i_conics := conics; k3i_opacities := opacities;
          k3i_image_width := image_width;
          k3i_image_height := image_height; k3i_tile_size := tile_size;
          k3i_tile_offsets := tile_offsets;
          k3i_flatten_ids := flatten_ids;
          k3i_chunk_starts := Some chunk_starts; k3i_chunk_cnts := None;
          k3i_gaussian_ids := Some gaussian_ids;
          k3i_pixel_ids := Some pixel_ids |})
   else ret ()) ;;;
  ret (gaussian_ids, pixel_ids).

(** ** 2DGS *)

Definition rasterize_to_pixels_2dgs_fwd
    (means2d ray_transforms colors opacities normals : Tensor)
    (backgrounds masks : option Tensor)
    (image_width image_height tile_size : Z)
    (tile_offsets flatten_ids : Tensor)
  : M (Tensor * Tensor * Tensor * Tensor * Tensor * Tensor * Tensor) :=
  DEVICE_GUARD means2d ;;;
  CHECK_INPUT "means2d" means2d ;;;
  CHECK_INPUT "ray_transforms" ray_transforms ;;;
  CHECK_INPUT "colors" colors ;;;
  CHECK_INPUT "opacities" opacities ;;;
  CHECK_INPUT "normals" normals ;;;
  CHECK_INPUT "tile_offsets" tile_offsets ;;;
  CHECK_INPUT "flatten_ids" flatten_ids ;;;
  CHECK_INPUT_opt "backgrounds.value()" backgrounds ;;;
  CHECK_INPUT_opt "masks.value()" masks ;;;
  let opt := options means2d in
  image_dims <- lift (slice0 (sizes tile_offsets) (dim tile_offsets - 2)) ;;
  colors_size <- lift (size colors (-1)) ;;
  let channels := to_uint32 colors_size in
  let renders_dims := image_dims ++ [image_height; image_width; channels] in
  renders <- at_empty renders_dims opt ;;
  let alphas_dims := image_dims ++ [image_height; image_width; 1] in
  alphas <- at_empty alphas_dims opt ;;
  let last_ids_dims := image_dims ++ [image_height; image_width] in
  last_ids <- at_empty last_ids_dims (with_dtype opt kInt) ;;
  let median_ids_dims := image_dims ++ [image_height; image_width] in
  median_ids <- at_empty median_ids_dims (with_dtype opt kInt) ;;
  let render_normals_dims := image_dims ++ [image_height; image_width; 3] in
  render_normals <- at_empty render_normals_dims opt ;;
  let render_distort_dims := image_dims ++ [image_height; image_width; 1] in
  render_distort <- at_empty render_distort_dims opt ;;
  let render_median_dims := image_dims ++ [image_height; image_width; 1] in
  render_median <- at_empty render_median_dims opt ;;
  switch_channels channels (λ N,
    launch (launch_rasterize_to_pixels_2dgs_fwd_kernel N
      {| k2f_means2d := means2d; k2f_ray_transforms := ray_transforms;
         k2f_colors := colors; k2f_opacities := opacities;
         k2f_normals := normals; k2f_backgrounds := backgrounds;
         k2f_masks := masks; k2f_image_width := image_width;
         k2f_image_height := image_height; k2f_tile_size := tile_size;
         k2f_tile_offsets := tile_offsets; k2f_flatten_ids := flatten_ids;
         k2f_renders := renders; k2f_alphas := alphas;
         k2f_render_normals := render_normals;
         k2f_render_distort := render_distort;
         k2f_render_median := render_median;
         k2f_last_ids := last_ids; k2f_median_ids := median_ids |})) ;;;
  ret (renders, alphas, render_normals, render_distort, render_median,
       last_ids, median_ids).

Definition rasterize_to_pixels_2dgs_bwd
    (means2d ray_transforms colors opacities normals densify : Tensor)
    (backgrounds masks : option Tensor)
    (image_width image_height tile_size : Z)
    (tile_offsets flatten_ids : Tensor)
    (render_colors render_alphas last_ids median_ids : Tensor)
    (v_render_colors v_render_alphas v_render_normals v_render_distort
     v_render_median : Tensor)
    (absgrad : bool)
  : M (at_Tensor * Tensor * Tensor * Tensor * Tensor * Tensor * Tensor) :=
  DEVICE_GUARD means2d ;;;
  CHECK_INPUT "means2d" means2d ;;;
  CHECK_INPUT "ray_transforms" ray_transforms ;;;
  CHECK_INPUT "colors" colors ;;;
  CHECK_INPUT "opacities" opacities ;;;
  CHECK_INPUT "normals" normals ;;;
  CHECK_INPUT "densify" densify ;;;
  CHECK_INPUT "tile_offsets" tile_offsets ;;;
  CHECK_INPUT "flatten_ids" flatten_ids ;;;
  CHECK_INPUT "render_colors" render_colors ;;;
  CHECK_INPUT "render_alphas" render_alphas ;;;
  CHECK_INPUT "last_ids" last_ids ;;;
  CHECK_INPUT "median_ids" median_ids ;;;
  CHECK_INPUT "v_render_colors" v_render_colors ;;;
  CHECK_INPUT "v_render_alphas" v_render_alphas ;;;
  CHECK_INPUT "v_render_normals" v_render_normals ;;;
  CHECK_INPUT "v_render_distort" v_render_distort ;;;
  CHECK_INPUT "v_render_median" v_render_median ;;;
  CHECK_INPUT_opt "backgrounds.value()" backgrounds ;;;
  CHECK_INPUT_opt "masks.value()" masks ;;;
  colors_size <- lift (size colors (-1)) ;;
  let channels := to_uint32 colors_size in
  v_means2d <- at_zeros_like means2d ;;
  v_ray_transforms <- at_zeros_like ray_transforms ;;
  v_colors <- at_zeros_like colors ;;
  v_normals <- at_zeros_like normals ;;
  v_opacities <- at_zeros_like opacities ;;
  v_means2d_abs <-
    (if absgrad then t <- at_zeros_like means2d ;; ret (DefinedTensor t)
     else ret UndefinedTensor) ;;
  v_densify <- at_zeros_like densify ;;
  switch_channels channels (λ N,
    launch (launch_rasterize_to_pixels_2dgs_bwd_kernel N
      {| k2b_means2d := means2d; k2b_ray_transforms := ray_transforms;
         k2b_colors := colors; k2b_opacities := opacities;
         k2b_normals := normals; k2b_densify := densify;
         k2b_backgrounds := backgrounds; k2b_masks := masks;
         k2b_image_width := image_width; k2b_image_height := image_height;
         k2b_tile_size := tile_size; k2b_tile_offsets := tile_offsets;
         k2b_flatten_ids := flatten_ids; k2b_render_colors := render_colors;
         k2b_render_alphas := render_alphas; k2b_last_ids := last_ids;
         k2b_median_ids := median_ids;
         k2b_v_render_colors := v_render_colors;
         k2b_v_render_alphas := v_render_alphas;
         k2b_v_render_normals := v_render_normals;
         k2b_v_render_distort := v_render_distort;
         k2b_v_render_median := v_render_median;
         k2b_v_means2d_abs := if absgrad then Some v_means2d_abs else None;
         k2b_v_means2d := v_means2d;
         k2b_v_ray_transforms := v_ray_transforms;
         k2b_v_colors := v_colors; k2b_v_opacities := v_opacities;
         k2b_v_normals := v_normals; k2b_v_densify := v_densify |})) ;;;
  ret (v_means2d_abs, v_means2d, v_ray_transforms, v_colors, v_opacities,
       v_normals, v_densify).

Definition rasterize_to_indices_2dgs
    (range_start range_end : Z)
    (transmittances : Tensor)
    (means2d ray_transforms opacities : Tensor)
    (image_width image_height tile_size : Z)
    (tile_offsets flatten_ids : Tensor)
  : M (Tensor * Tensor) :=
  DEVICE_GUARD means2d ;;;
  CHECK_INPUT "means2d" means2d ;;;
  CHECK_INPUT "ray_transforms" ray_transforms ;;;
  CHECK_INPUT "opacities" opacities ;;;
  CHECK_INPUT "tile_offsets" tile_offsets ;;;
  CHECK_INPUT "flatten_ids" flatten_ids ;;;
  let opt := options means2d in
  means2d_size <- lift (size means2d (-2)) ;;
  let N := to_uint32 means2d_size in
  (* [numel() / (2 * N)]: the divisor is a [uint32_t] product *)
  let divisor := to_uint32 (2 * N) in
  I <- (if divisor =? 0 then lift Undefined
        else ret (to_uint32 (numel means2d `quot` divisor))) ;;
  flatten_ids_size <- lift (size flatten_ids 0) ;;
  let n_isects := to_uint32 flatten_ids_size in
  (* First pass: count the number of gaussians that contribute to each
     pixel *)
  let* (n_elems, chunk_starts) :=
    (if negb (n_isects =? 0) then
       chunk_cnts <-
         at_zeros [to_uint32 (to_uint32 (I * image_height) * image_width)]
                  (with_dtype opt kInt) ;;
       launch (launch_rasterize_to_indices_2dgs_kernel
         {| k2i_range_start := range_start; k2i_range_end := range_end;
            k2i_transmittances := transmittances; k2i_means2d := means2d;
            k2i_ray_transforms := ray_transforms;
            k2i_opacities := opacities;
            k2i_image_width := image_width;
            k2i_image_height := image_height; k2i_tile_size := tile_size;
            k2i_tile_offsets := tile_offsets;
            k2i_flatten_ids := flatten_ids;
            k2i_chunk_starts := None; k2i_chunk_cnts := Some chunk_cnts;
            k2i_gaussian_ids := None; k2i_pixel_ids := None |}) ;;;
       cumsum <- at_cumsum chunk_cnts ;;
       n_elems <- last_item cumsum ;;
       chunk_starts <- at_sub cumsum chunk_cnts ;;
       ret (n_elems, DefinedTensor chunk_starts)
     else ret (0, UndefinedTensor)) in
  (* Second pass: allocate memory and write out the gaussian and pixel
     ids. *)
  gaussian_ids <- at_empty [n_elems] (with_dtype opt kLong) ;;
  pixel_ids <- at_empty [n_elems] (with_dtype opt kLong) ;;
  (if negb (n_elems =? 0) then
     launch (launch_rasterize_to_indices_2dgs_kernel
       {| k2i_range_start := range_start; k2i_range_end := range_end;
          k2i_transmittances := transmittances; k2i_means2d := means2d;
          k2i_ray_transforms := ray_transforms;
          k2i_opacities := opacities;
          k2i_image_width := image_width;
          k2i_image_height := image_height; k2i_tile_size := tile_size;
          k2i_tile_offsets := tile_offsets;
          k2i_flatten_ids := flatten_ids;
          k2i_chunk_starts := Some chunk_starts; k2i_chunk_cnts := None;
          k2i_gaussian_ids := Some gaussian_ids;
          k2i_pixel_ids := Some pixel_ids |})
   else ret ()) ;;;
  ret (gaussian_ids, pixel_ids).

(** ** 3DGS (from world) *)

Definition rasterize_to_pixels_from_world_3dgs_fwd
    (means quats scales colors opacities : Tensor)
    (backgrounds masks : option Tensor)
    (image_width image_height tile_size : Z)
    (viewmats0 : Tensor) (viewmats1 : option Tensor) (Ks : Tensor)
    (camera_model : CameraModelType)
    (ut_params : UnscentedTransformParameters)
    (rs_type : ShutterType)
    (radial_coeffs tangential_coeffs thin_prism_coeffs : option Tensor)
    (ftheta_coeffs : FThetaCameraDistortionParameters)
    (tile_offsets flatten_ids : Tensor)
  : M (Tensor * Tensor * Tensor) :=
  DEVICE_GUARD means ;;;
  CHECK_INPUT "means" means ;;;
  CHECK_INPUT "quats" quats ;;;
  CHECK_INPUT "scales" scales ;;;
  CHECK_INPUT "colors" colors ;;;
  CHECK_INPUT "opacities" opacities ;;;
  CHECK_INPUT "tile_offsets" tile_offsets ;;;
  CHECK_INPUT "flatten_ids" flatten_ids ;;;
  CHECK_INPUT_opt "backgrounds.value()" backgrounds ;;;
  CHECK_INPUT_opt "masks.value()" masks ;;;
  let opt := options means in
  batch_dims <- lift (slice0 (sizes means) (dim means - 2)) ;;
  viewmats0_size <- lift (size viewmats0 (-3)) ;;
  let C := to_uint32 viewmats0_size in
  colors_size <- lift (size colors (-1)) ;;
  let channels := to_uint32 colors_size in
  assert_ (channels =? 3) ;;;
  let renders_shape :=
    batch_dims ++ [C; image_height; image_width; channels] in
  renders <- at_empty renders_shape opt ;;
  let alphas_shape := batch_dims ++ [C; image_height; image_width; 1] in
  alphas <- at_empty alphas_shape opt ;;
  let last_ids_shape := batch_dims ++ [C; image_height; image_width] in
  last_ids <- at_empty last_ids_shape (with_dtype opt kInt) ;;
  switch_channels channels (λ N,
    launch (launch_rasterize_to_pixels_from_world_3dgs_fwd_kernel N
      {| kwf_means := means; kwf_quats := quats; kwf_scales := scales;
         kwf_colors := colors; kwf_opacities := opacities;
         kwf_backgrounds := backgrounds; kwf_masks := masks;
         kwf_image_width := image_width; kwf_image_height := image_height;
         kwf_tile_size := tile_size; kwf_viewmats0 := viewmats0;
         kwf_viewmats1 := viewmats1; kwf_Ks := Ks;
         kwf_camera_model := camera_model; kwf_ut_params := ut_params;
         kwf_rs_type := rs_type; kwf_radial_coeffs := radial_coeffs;
         kwf_tangential_coeffs := tangential_coeffs;
         kwf_thin_prism_coeffs := thin_prism_coeffs;
         kwf_ftheta_coeffs := ftheta_coeffs;
         kwf_tile_offsets := tile_offsets; kwf_flatten_ids := flatten_ids;
         kwf_renders := renders; kwf_alphas := alphas;
         kwf_last_ids := last_ids |})) ;;;
  ret (renders, alphas, last_ids).

Definition rasterize_to_pixels_from_world_3dgs_bwd
    (means quats scales colors opacities : Tensor)
    (backgrounds masks : option Tensor)
    (image_width image_height tile_size : Z)
    (viewmats0 : Tensor) (viewmats1 : option Tensor) (Ks : Tensor)
    (camera_model : CameraModelType)
    (ut_params : UnscentedTransformParameters)
    (rs_type : ShutterType)
    (radial_coeffs tangential_coeffs thin_prism_coeffs : option Tensor)
    (ftheta_coeffs : FThetaCameraDistortionParameters)
    (tile_offsets flatten_ids : Tensor)
    (render_alphas last_ids : Tensor)
    (v_render_colors v_render_alphas : Tensor)
  : M (Tensor * Tensor * Tensor * Tensor * Tensor) :=
  DEVICE_GUARD means ;;;
  CHECK_INPUT "means" means ;;;
  CHECK_INPUT "quats" quats ;;;
  CHECK_INPUT "scales" scales ;;;
  CHECK_INPUT "colors" colors ;;;
  CHECK_INPUT "opacities" opacities ;;;
  CHECK_INPUT "tile_offsets" tile_offsets ;;;
  CHECK_INPUT "flatten_ids" flatten_ids ;;;
  CHECK_INPUT "render_alphas" render_alphas ;;;
  CHECK_INPUT "last_ids" last_ids ;;;
  CHECK_INPUT "v_render_colors" v_render_colors ;;;
  CHECK_INPUT "v_render_alphas" v_render_alphas ;;;
  CHECK_INPUT_opt "backgrounds.value()" backgrounds ;;;
  CHECK_INPUT_opt "masks.value()" masks ;;;
  colors_size <- lift (size colors (-1)) ;;
  let channels := to_uint32 colors_size in
  v_means <- at_zeros_like means ;;
  v_quats <- at_zeros_like quats ;;
  v_scales <- at_zeros_like scales ;;
  v_colors <- at_zeros_like colors ;;
  v_opacities <- at_zeros_like opacities ;;
  switch_channels channels (λ N,
    launch (launch_rasterize_to_pixels_from_world_3dgs_bwd_kernel N
      {| kwb_means := means; kwb_quats := quats; kwb_scales := scales;
         kwb_colors := colors; kwb_opacities := opacities;
         kwb_backgrounds := backgrounds; kwb_masks := masks;
         kwb_image_width := image_width; kwb_image_height := image_height;
         kwb_tile_size := tile_size; kwb_viewmats0 := viewmats0;
         kwb_viewmats1 := viewmats1; kwb_Ks := Ks;
         kwb_camera_model := camera_model; kwb_ut_params := ut_params;
         kwb_rs_type := rs_type; kwb_radial_coeffs := radial_coeffs;
         kwb_tangential_coeffs := tangential_coeffs;
         kwb_thin_prism_coeffs := thin_prism_coeffs;
         kwb_ftheta_coeffs := ftheta_coeffs;
         kwb_tile_offsets := tile_offsets; kwb_flatten_ids := flatten_ids;
         kwb_render_alphas := render_alphas; kwb_last_ids := last_ids;
         kwb_v_render_colors := v_render_colors;
         kwb_v_render_alphas := v_render_alphas;
         kwb_v_means := v_means; kwb_v_quats := v_quats;
         kwb_v_scales := v_scales; kwb_v_colors := v_colors;
         kwb_v_opacities := v_opacities |})) ;;;
  ret (v_means, v_quats, v_scales, v_colors, v_opacities).

(** ** Specifications of computations *)

(** [wp m s Q]: whatever [m] does from [s], its outcome and final state
    satisfy [Q]. *)
Definition wp {A} (m : M A) (s : state) (Q : result A → state → Prop) : Prop :=
  ∀ r s', m s = (r, s') → Q r s'.

(** The kernels launched between two states. *)
Definition launched (s s' : state) (ks : list (KernelLaunch * heap)) : Prop :=
  launches s' = launches s ++ ks.

(** Nothing ran on the device between [s] and [s']: no launch, and every
    buffer of [s] is still there with its contents. *)
Definition untouched (s s' : state) : Prop :=
  launched s s' [] ∧ mem s `prefix_of` mem s'.


Definition returns {A} (r : result A) : Prop :=
  match r with Ok _ => True | _ => False end.


(** [g] is a gradient buffer for the array [x] in the launch [k], which
    started from the store [h] and left the store [h']: [g] has the shape and
    dtype of [x], all its cells were zero when the kernel started, and every
    cell the kernel did not store to is still zero when it is done. *)
Definition zero_gradient_of (x g : Tensor) (k : KernelLaunch) (h h' : heap)
  : Prop :=
  sizes g = sizes x ∧ dtype g = dtype x ∧
  read h g = replicate (Z.to_nat (numel x)) (Some 0) ∧
  ∀ i, (i < Z.to_nat (numel x))%nat →
    (∀ w, w ∈ kernel k h → ¬ (w.1.1 = storage g ∧ w.1.2 = i)) →
    read h' g !! i = Some (Some 0).




(** The dispatch on a channel width [ch]: a width outside the list raises
    before any launch; a width of the list returns after exactly one launch,
    of a kernel [is_kernel] accepts for that width. *)
Definition dispatches {A} (m : M A) (ch : Z)
    (is_kernel : Z → KernelLaunch → Prop) : Prop :=
  ∀ s r s', m s = (r, s') →
    (In ch supported_channels →
       returns r ∧ ∃ k h, launched s s' [(k, h)] ∧ is_kernel ch k) ∧
    (¬ In ch supported_channels →
       r = Throw (UnsupportedChannels ch) ∧ untouched s s').

End Rasterization.

(** ** The forward kernels on masked tiles *)

Section ForwardKernel.

Context {CameraModelType UnscentedTransformParameters ShutterType
         FThetaCameraDistortionParameters : Type}.

(** What the forward kernels have in common: the optional background and
    mask, the image and tile geometry, and the output images.  Colors have
    [CDIM] channels, alphas one; [fv_others] lists the remaining per-pixel
    outputs with their widths. *)
Record forward_view := {
  fv_CDIM : Z;
  fv_backgrounds : option Tensor;
  fv_masks : option Tensor;
  fv_image_width : Z;
  fv_image_height : Z;
  fv_tile_size : Z;
  fv_tile_offsets : Tensor;
  fv_renders : Tensor;
  fv_alphas : Tensor;
  fv_others : list (Tensor * Z)
}.

Definition view_3dgs_fwd (CDIM : Z) (a : args_3dgs_fwd) : forward_view :=
  {| fv_CDIM := CDIM;
     fv_backgrounds := k3f_backgrounds a; fv_masks := k3f_masks a;
     fv_image_width := k3f_image_width a;
     fv_image_height := k3f_image_height a;
     fv_tile_size := k3f_tile_size a;
     fv_tile_offsets := k3f_tile_offsets a;
     fv_renders := k3f_renders a; fv_alphas := k3f_alphas a;
     fv_others := [(k3f_last_ids a, 1)] |}.

Definition view_2dgs_fwd (CDIM : Z) (a : args_2dgs_fwd) : forward_view :=
  {| fv_CDIM := CDIM;
     fv_backgrounds := k2f_backgrounds a; fv_masks := k2f_masks a;
     fv_image_width := k2f_image_width a;
     fv_image_height := k2f_image_height a;
     fv_tile_size := k2f_tile_size a;
     fv_tile_offsets := k2f_tile_offsets a;
     fv_renders := k2f_renders a; fv_alphas := k2f_alphas a;
     fv_others := [(k2f_render_normals a, 3); (k2f_render_distort a, 1);
                   (k2f_render_median a, 1); (k2f_last_ids a, 1);
                   (k2f_median_ids a, 1)] |}.

(** The from-world kernel returns the same three images. *)
Definition view_from_world_3dgs_fwd (CDIM : Z)
    (a : @args_from_world_3dgs_fwd CameraModelType
           UnscentedTransformParameters ShutterType
           FThetaCameraDistortionParameters)
  : forward_view :=
  {| fv_CDIM := CDIM;
     fv_backgrounds := kwf_backgrounds a; fv_masks := kwf_masks a;
     fv_image_width := kwf_image_width a;
     fv_image_height := kwf_image_height a;
     fv_tile_size := kwf_tile_size a;
     fv_tile_offsets := kwf_tile_offsets a;
     fv_renders := kwf_renders a; fv_alphas := kwf_alphas a;
     fv_others := [(kwf_last_ids a, 1)] |}.

(** Modelled from the spec: the pixels are those of the images to render.
    [alphas] is [..., image_height, image_width, 1], and its leading
    dimensions count the images. *)
Definition n_images (v : forward_view) : Z :=
  shape_numel (take (length (sizes (fv_alphas v)) - 3)
                    (sizes (fv_alphas v))).

(** [tile_offsets] is [..., tile_height, tile_width]: the last two
    dimensions count the tiles of one image. *)
Definition tile_height (v : forward_view) : Z :=
  default 0 (sizes (fv_tile_offsets v)
               !! (length (sizes (fv_tile_offsets v)) - 2)%nat).

Definition tile_width (v : forward_view) : Z :=
  default 0 (sizes (fv_tile_offsets v)
               !! (length (sizes (fv_tile_offsets v)) - 1)%nat).

(** The flat index of pixel [(y, x)] of image [img], and the tile it lies
    in. *)
Definition pixel_id (v : forward_view) (img y x : Z) : Z :=
  (img * fv_image_height v + y) * fv_image_width v + x.

Definition tile_id (v : forward_view) (img y x : Z) : Z :=
  (img * tile_height v + y `div` fv_tile_size v) * tile_width v
  + x `div` fv_tile_size v.

(** The column, row and image of a flat pixel index. *)
Definition pixel_col (v : forward_view) (pix : Z) : Z :=
  pix `mod` fv_image_width v.
Definition pixel_row (v : forward_view) (pix : Z) : Z :=
  (pix `div` fv_image_width v) `mod` fv_image_height v.
Definition pixel_image (v : forward_view) (pix : Z) : Z :=
  (pix `div` fv_image_width v) `div` fv_image_height v.

(** Modelled from the spec: a tile is excluded when a mask is given and its
    entry is false. *)
Definition tile_excluded (h : heap) (v : forward_view) (tile : Z) : bool :=
  match fv_masks v with
  | Some m =>
      match read h m !! Z.to_nat tile with
      | Some (Some 0) => true
      | _ => false
      end
  | None => false
  end.

(** Modelled from the spec: channel [k] of the background of image [img];
    zero without one. *)
Definition background_or_zero (h : heap) (v : forward_view) (img k : Z) : Z :=
  match fv_backgrounds v with
  | Some b =>
      match read h b !! Z.to_nat (img * fv_CDIM v + k) with
      | Some (Some c) => c
      | _ => 0
      end
  | None => 0
  end.

(** The compositing of a pixel whose tile is not excluded: the value of
    channel [k] of the output stored in buffer [b].  The walk over the
    primitives is not needed here and stays a parameter. *)
Variable composite : heap → forward_view → Z → nat → Z → Z.

(** Modelled from the spec: the forward kernels are CUDA code that is not
    among the sources.  One task per pixel stores every output of that
    pixel.  In a tile that the mask excludes it evaluates no primitive and
    stores the background, or zero without one, as the color and zero as
    every other output; elsewhere it stores what the compositing yields. *)
Definition pixel_writes (h : heap) (v : forward_view) (pix : Z) : list write :=
  let img := pixel_image v pix in
  let excluded :=
    tile_excluded h v (tile_id v img (pixel_row v pix) (pixel_col v pix)) in
  let out (t : Tensor) (width : Z) (skipped : Z → Z) : list write :=
    (λ k, (storage t, Z.to_nat (pix * width + k),
           if excluded then skipped k else composite h v pix (storage t) k))
      <$> seqZ 0 width in
  out (fv_renders v) (fv_CDIM v) (background_or_zero h v img)
  ++ out (fv_alphas v) 1 (λ _, 0)
  ++ flat_map (λ o, out o.1 o.2 (λ _, 0)) (fv_others v).

(** Modelled from the spec: the outputs of a pixel of image [img], each with
    the number of values per pixel and what a pixel of an excluded tile
    gets, as [pixel_writes] lists them. *)
Definition forward_outputs (h : heap) (v : forward_view) (img : Z)
  : list (Tensor * Z * (Z → Z)) :=
  (fv_renders v, fv_CDIM v, background_or_zero h v img)
  :: (fv_alphas v, 1, λ _, 0)
  :: ((λ o : Tensor * Z, (o.1, o.2, λ _ : Z, 0)) <$> fv_others v).

(** The tensors a forward launch stores to. *)
Definition forward_tensors (v : forward_view) : list Tensor :=
  fv_renders v :: fv_alphas v :: (fv_others v).*1.

(** Modelled from the spec: the stores of one forward launch, which runs
    the task of every pixel of every image. *)
Definition forward_kernel_writes (h : heap) (v : forward_view) : list write :=
  flat_map (pixel_writes h v)
    (seqZ 0 (n_images v * fv_image_height v * fv_image_width v)).

End ForwardKernel.

(** ** The index kernels, pass by pass *)

Section IndexKernel.

(** What a launch of an index kernel is given: the window, the image and
    tile geometry, the tensors it reads (transmittances, the primitive
    arrays, [tile_offsets] and [flatten_ids]) and the output slots. *)
Record index_view := {
  iv_range_start : Z;
  iv_range_end : Z;
  iv_image_width : Z;
  iv_image_height : Z;
  iv_tile_size : Z;
  iv_inputs : list Tensor;
  iv_chunk_starts : option at_Tensor;
  iv_chunk_cnts : option Tensor;
  iv_gaussian_ids : option Tensor;
  iv_pixel_ids : option Tensor
}.

Definition view_3dgs_indices (a : args_3dgs_indices) : index_view :=
  {| iv_range_start := k3i_range_start a; iv_range_end := k3i_range_end a;
     iv_image_width := k3i_image_width a;
     iv_image_height := k3i_image_height a;
     iv_tile_size := k3i_tile_size a;
     iv_inputs := [k3i_transmittances a; k3i_means2d a; k3i_conics a;
                   k3i_opacities a; k3i_tile_offsets a; k3i_flatten_ids a];
     iv_chunk_starts := k3i_chunk_starts a;
     iv_chunk_cnts := k3i_chunk_cnts a;
     iv_gaussian_ids := k3i_gaussian_ids a;
     iv_pixel_ids := k3i_pixel_ids a |}.

Definition view_2dgs_indices (a : args_2dgs_indices) : index_view :=
  {| iv_range_start := k2i_range_start a; iv_range_end := k2i_range_end a;
     iv_image_width := k2i_image_width a;
     iv_image_height := k2i_image_height a;
     iv_tile_size := k2i_tile_size a;
     iv_inputs := [k2i_transmittances a; k2i_means2d a;
                   k2i_ray_transforms a; k2i_opacities a;
                   k2i_tile_offsets a; k2i_flatten_ids a];
     iv_chunk_starts := k2i_chunk_starts a;
     iv_chunk_cnts := k2i_chunk_cnts a;
     iv_gaussian_ids := k2i_gaussian_ids a;
     iv_pixel_ids := k2i_pixel_ids a |}.

(** The walk of one pixel with its skip rule is arithmetic of the kernel and
    stays a parameter: from the window, the geometry, the shapes and
    contents of the tensors read and the pixel, the primitives that
    contribute, in the order of the walk. *)
Variable walk : Z → Z → Z → Z → Z → list (list Z * buffer) → Z → list Z.

(** Modelled from the spec: the primitives a pass finds for pixel [pix]:
    the walk of its contribution range restricted to
    [[range_start, range_end)], on the data the launch finds in memory. *)
Definition contributing (h : heap) (v : index_view) (pix : Z) : list Z :=
  walk (iv_range_start v) (iv_range_end v) (iv_image_width v)
    (iv_image_height v) (iv_tile_size v)
    ((λ t, (sizes t, read h t)) <$> iv_inputs v) pix.

(** Modelled from the spec: a pass has one task per pixel, and one cell per
    pixel in the buffer it is given for them: the counts in the counting
    pass, the write offsets in the compaction pass. *)
Definition index_pixels (v : index_view) : Z :=
  match iv_chunk_cnts v, iv_chunk_starts v with
  | Some t, _ | None, Some (DefinedTensor t) => numel t
  | _, _ => 0
  end.

(** Modelled from the spec: the (primitive, pixel) pairs a pass
    enumerates, pixel by pixel. *)
Definition enumerated (h : heap) (v : index_view) : list (Z * Z) :=
  flat_map (λ pix, (λ g, (g, pix)) <$> contributing h v pix)
    (seqZ 0 (index_pixels v)).

(** Modelled from the spec: the counting pass writes, per pixel, the number
    of contributing primitives. *)
Definition counting_writes (h : heap) (v : index_view) (chunk_cnts : Tensor)
  : list write :=
  (λ pix, (storage chunk_cnts, Z.to_nat pix,
           Z.of_nat (length (contributing h v pix))))
    <$> seqZ 0 (index_pixels v).

(** Modelled from the spec: the compaction pass walks again and writes the
    pairs of a pixel from the offset of the pixel on, moving a cursor. *)
Definition compaction_writes (h : heap) (v : index_view)
    (chunk_starts gaussian_ids pixel_ids : Tensor) : list write :=
  flat_map (λ pix,
    match read h chunk_starts !! Z.to_nat pix with
    | Some (Some offset) =>
        flat_map (λ p : nat * Z,
                    let cursor := Z.to_nat (offset + Z.of_nat p.1) in
                    [(storage gaussian_ids, cursor, p.2);
                     (storage pixel_ids, cursor, pix)])
          (imap pair (contributing h v pix))
    | _ => []
    end) (seqZ 0 (index_pixels v)).

(** Modelled from the spec: the index kernels are CUDA code that is not
    among the sources.  A launch that is given a buffer of counts is the
    counting pass; one that is given offsets and the two id buffers is the
    compaction pass. *)
Definition index_kernel_writes (h : heap) (v : index_view) : list write :=
  match iv_chunk_cnts v with
  | Some chunk_cnts => counting_writes h v chunk_cnts
  | None =>
      match iv_chunk_starts v, iv_gaussian_ids v, iv_pixel_ids v with
      | Some (DefinedTensor chunk_starts), Some gaussian_ids,
        Some pixel_ids =>
          compaction_writes h v chunk_starts gaussian_ids pixel_ids
      | _, _, _ => []
      end
  end.

End IndexKernel.

(** ** What a call leaves alone *)

(** The tensor behind an [at::Tensor] handle, if it is defined. *)
Definition defined_tensors (t : at_Tensor) : list Tensor :=
  match t with
  | UndefinedTensor => []
  | DefinedTensor t' => [t']
  end.

Section Frame.

Context {CameraModelType UnscentedTransformParameters ShutterType
         FThetaCameraDistortionParameters : Type}.

Local Abbreviation KernelLaunch_ :=
  (@KernelLaunch CameraModelType UnscentedTransformParameters ShutterType
     FThetaCameraDistortionParameters).
Local Abbreviation state_ :=
  (@state CameraModelType UnscentedTransformParameters ShutterType
     FThetaCameraDistortionParameters).

Variable kernel : KernelLaunch_ → heap → list write.

(** The launch [k], started from the store [h], stores nothing into the
    buffer of [t]. *)
Definition spares (k : KernelLaunch_) (h : heap) (t : Tensor) : Prop :=
  ∀ w, w ∈ kernel k h → w.1.1 ≠ storage t.

(** From [s] to [s'] launches were only appended and the store only grew, and
    a tensor of [s] that every launch in between spares holds the data of [s]
    at the start of each of these launches and in [s']. *)
Definition preserved (s s' : state_) : Prop :=
  ∃ ks, launched s s' ks ∧
    (length (mem s) ≤ length (mem s'))%nat ∧
    ∀ t, (storage t < length (mem s))%nat →
      Forall (λ kh, spares kh.1 kh.2 t) ks →
      Forall (λ kh, read kh.2 t = read (mem s) t) ks ∧
      read (mem s') t = read (mem s) t.

(** The tensors [outs] were allocated between [s] and [s'], each in a buffer
    of its own. *)
Definition fresh (s s' : state_) (outs : list Tensor) : Prop :=
  NoDup (storage <$> outs) ∧
  Forall (λ t, (length (mem s) ≤ storage t < length (mem s'))%nat) outs.

End Frame.

(** ** Small scenes, for the examples *)

Definition on_device (id : nat) (dims : list Z) (d : ScalarType) : Tensor :=
  {| storage := id; sizes := dims; dtype := d;
     is_cuda := true; is_contiguous := true |}.

Definition filled (t : Tensor) (c : Z) : list (option Z) :=
  replicate (Z.to_nat (numel t)) (Some c).

(** One image of 2 x 2 pixels in a single tile, four primitives with three
    channels, three intersections. *)
Definition demo_means2d := on_device 0 [1; 4; 2] kFloat.
Definition demo_conics := on_device 1 [1; 4; 3] kFloat.
Definition demo_colors := on_device 2 [1; 4; 3] kFloat.
Definition demo_opacities := on_device 3 [1; 4] kFloat.
Definition demo_tile_offsets := on_device 4 [1; 1; 1] kInt.
Definition demo_flatten_ids := on_device 5 [3] kInt.
Definition demo_masks := on_device 6 [1; 1; 1] kBool.
Definition demo_backgrounds := on_device 7 [1; 3] kFloat.
Definition demo_transmittances := on_device 8 [1; 2; 2] kFloat.
Definition demo_render_alphas := on_device 9 [1; 2; 2; 1] kFloat.
Definition demo_last_ids := on_device 10 [1; 2; 2] kInt.
Definition demo_v_render_colors := on_device 11 [1; 2; 2; 3] kFloat.
Definition demo_v_render_alphas := on_device 12 [1; 2; 2; 1] kFloat.
Definition demo_ray_transforms := on_device 13 [1; 4; 3; 3] kFloat.
Definition demo_normals := on_device 14 [1; 4; 3] kFloat.
Definition demo_densify := on_device 15 [1; 4; 2] kFloat.
Definition demo_render_colors := on_device 16 [1; 2; 2; 3] kFloat.
Definition demo_median_ids := on_device 17 [1; 2; 2] kInt.
Definition demo_v_render_normals := on_device 18 [1; 2; 2; 3] kFloat.
Definition demo_v_render_distort := on_device 19 [1; 2; 2; 1] kFloat.
Definition demo_v_render_median := on_device 20 [1; 2; 2; 1] kFloat.
Definition demo_means := on_device 21 [4; 3] kFloat.
Definition demo_quats := on_device 22 [4; 4] kFloat.
Definition demo_scales := on_device 23 [4; 3] kFloat.
Definition demo_viewmats0 := on_device 24 [1; 4; 4] kFloat.
Definition demo_Ks := on_device 25 [1; 3; 3] kFloat.
(** Colors with four channels. *)
Definition demo_colors4 := on_device 26 [1; 4; 4] kFloat.

(** The store of the scene.  The only mask entry is false and the
    background is the color (1, 2, 3); every other cell holds 7. *)
Definition demo_heap : heap :=
  [filled demo_means2d 7; filled demo_conics 7; filled demo_colors 7;
   filled demo_opacities 7; [Some 0]; filled demo_flatten_ids 7;
   [Some 0]; [Some 1; Some 2; Some 3]; filled demo_transmittances 7;
   filled demo_render_alphas 7; filled demo_last_ids 7;
   filled demo_v_render_colors 7; filled demo_v_render_alphas 7;
   filled demo_ray_transforms 7; filled demo_normals 7;
   filled demo_densify 7; filled demo_render_colors 7;
   filled demo_median_ids 7; filled demo_v_render_normals 7;
   filled demo_v_render_distort 7; filled demo_v_render_median 7;
   filled demo_means 7; filled demo_quats 7; filled demo_scales 7;
   filled demo_viewmats0 7; filled demo_Ks 7; filled demo_colors4 7].

(** The types of [Cameras.h] play no role; the examples take [unit]. *)
Definition demo_state : @state unit unit unit unit :=
  {| mem := demo_heap; launches := [] |}.

(** A kernel that stores nothing. *)
Definition idle_kernel
  : @KernelLaunch unit unit unit unit → heap → list write :=
  λ _ _, [].

(** An index kernel whose counting pass counts [counts] and whose
    compaction pass stores nothing. *)
Definition counting_kernel (counts : list Z)
  : @KernelLaunch unit unit unit unit → heap → list write :=
  λ k _,
    match k with
    | launch_rasterize_to_indices_3dgs_kernel a =>
        match k3i_chunk_cnts a with
        | Some t => imap (λ i c, (storage t, i, c)) counts
        | None => []
        end
    | launch_rasterize_to_indices_2dgs_kernel a =>
        match k2i_chunk_cnts a with
        | Some t => imap (λ i c, (storage t, i, c)) counts
        | None => []
        end
    | _ => []
    end.

(** The forward kernels of the specification, with a compositing that
    yields 9 everywhere; the other kernels store nothing. *)
Definition demo_forward_kernel
  : @KernelLaunch unit unit unit unit → heap → list write :=
  λ k h,
    match k with
    | launch_rasterize_to_pixels_3dgs_fwd_kernel N a =>
        forward_kernel_writes (λ _ _ _ _ _, 9) h (view_3dgs_fwd N a)
    | launch_rasterize_to_pixels_2dgs_fwd_kernel N a =>
        forward_kernel_writes (λ _ _ _ _ _, 9) h (view_2dgs_fwd N a)
    | launch_rasterize_to_pixels_from_world_3dgs_fwd_kernel N a =>
        forward_kernel_writes (λ _ _ _ _ _, 9) h
          (view_from_world_3dgs_fwd N a)
    | _ => []
    end.

(** A scene without primitives whose colors are 2^32 + 3 wide. *)
Definition wide_means2d := on_device 0 [0; 2] kFloat.
Definition wide_conics := on_device 1 [0; 3] kFloat.
Definition wide_colors := on_device 2 [0; 4294967299] kFloat.
Definition wide_opacities := on_device 3 [0] kFloat.
Definition wide_tile_offsets := on_device 4 [1; 1; 1] kInt.
Definition wide_flatten_ids := on_device 5 [0] kInt.

Definition wide_state : @state unit unit unit unit :=
  {| mem := [[]; []; []; []; [Some 0]; []]; launches := [] |}.





(** An intersection list without entries. *)
Definition demo_no_flatten_ids := on_device 5 [0] kInt.

(** Calls on the small scene. *)
Definition demo_forward :=
  rasterize_to_pixels_3dgs_fwd demo_forward_kernel demo_means2d demo_conics
    demo_colors demo_opacities (Some demo_backgrounds) (Some demo_masks)
    2 2 16 demo_tile_offsets demo_flatten_ids demo_state.

Definition demo_backward (absgrad : bool) :=
  rasterize_to_pixels_3dgs_bwd idle_kernel demo_means2d demo_conics
    demo_colors demo_opacities (Some demo_backgrounds) (Some demo_masks)
    2 2 16 demo_tile_offsets demo_flatten_ids demo_render_alphas
    demo_last_ids demo_v_render_colors demo_v_render_alphas absgrad
    demo_state.

Definition demo_indices (flatten_ids : Tensor) :=
  rasterize_to_indices_3dgs (counting_kernel [2; 0; 1; 0]) 0 10
    demo_transmittances demo_means2d demo_conics demo_opacities 2 2 16
    demo_tile_offsets flatten_ids demo_state.

(** The from-world forward pass on colors with four channels. *)
Definition demo_from_world (NDEBUG : bool) :=
  rasterize_to_pixels_from_world_3dgs_fwd idle_kernel NDEBUG demo_means
    demo_quats demo_scales demo_colors4 demo_opacities None None 2 2 16
    demo_viewmats0 None demo_Ks () () () None None None ()
    demo_tile_offsets demo_flatten_ids demo_state.

(** The 3DGS forward pass on colors that are 2^32 + 3 wide. *)
Definition wide_forward :=
  rasterize_to_pixels_3dgs_fwd idle_kernel wide_means2d wide_conics
    wide_colors wide_opacities None None 2 2 16 wide_tile_offsets
    wide_flatten_ids wide_state.





(** More calls on the small scene. *)

(** The from-world forward pass on RGB colors, built with assertions. *)
Definition demo_from_world_rgb :=
  rasterize_to_pixels_from_world_3dgs_fwd idle_kernel false demo_means
    demo_quats demo_scales demo_colors demo_opacities None None 2 2 16
    demo_viewmats0 None demo_Ks () () () None None None ()
    demo_tile_offsets demo_flatten_ids demo_state.

(** Colors with six channels, a width without a kernel. *)
Definition demo_colors6 := on_device 2 [1; 4; 6] kFloat.

Definition demo_forward_six :=
  rasterize_to_pixels_3dgs_fwd idle_kernel demo_means2d demo_conics
    demo_colors6 demo_opacities None None 2 2 16 demo_tile_offsets
    demo_flatten_ids demo_state.

(** Tile offsets of rank one. *)
Definition flat_tile_offsets := on_device 4 [1] kInt.

Definition demo_forward_flat :=
  rasterize_to_pixels_3dgs_fwd idle_kernel demo_means2d demo_conics
    demo_colors demo_opacities None None 2 2 16 flat_tile_offsets
    demo_flatten_ids demo_state.

(** A scene without primitives. *)
Definition no_means2d := on_device 0 [1; 0; 2] kFloat.
Definition no_conics := on_device 1 [1; 0; 3] kFloat.
Definition no_opacities := on_device 3 [1; 0] kFloat.

Definition demo_indices_no_primitives :=
  rasterize_to_indices_3dgs idle_kernel 0 10 demo_transmittances no_means2d
    no_conics no_opacities 2 2 16 demo_tile_offsets demo_no_flatten_ids
    demo_state.

(** The forward pass with a kernel that stores nothing, and the backward
    pass on the images it returns. *)
Definition demo_forward_idle :=
  rasterize_to_pixels_3dgs_fwd idle_kernel demo_means2d demo_conics
    demo_colors demo_opacities (Some demo_backgrounds) (Some demo_masks)
    2 2 16 demo_tile_offsets demo_flatten_ids demo_state.

Definition demo_backward_after (alphas last_ids : Tensor) :=
  rasterize_to_pixels_3dgs_bwd idle_kernel demo_means2d demo_conics
    demo_colors demo_opacities (Some demo_backgrounds) (Some demo_masks)
    2 2 16 demo_tile_offsets demo_flatten_ids alphas last_ids
    demo_v_render_colors demo_v_render_alphas false.

(** The 2DGS and from-world calls on the small scene. *)
Definition demo_forward_2dgs :=
  rasterize_to_pixels_2dgs_fwd demo_forward_kernel demo_means2d
    demo_ray_transforms demo_colors demo_opacities demo_normals
    (Some demo_backgrounds) (Some demo_masks) 2 2 16 demo_tile_offsets
    demo_flatten_ids demo_state.

Definition demo_backward_2dgs (absgrad : bool) :=
  rasterize_to_pixels_2dgs_bwd idle_kernel demo_means2d demo_ray_transforms
    demo_colors demo_opacities demo_normals demo_densify
    (Some demo_backgrounds) (Some demo_masks) 2 2 16 demo_tile_offsets
    demo_flatten_ids demo_render_colors demo_render_alphas demo_last_ids
    demo_median_ids demo_v_render_colors demo_v_render_alphas
    demo_v_render_normals demo_v_render_distort demo_v_render_median absgrad
    demo_state.

Definition demo_from_world_forward :=
  rasterize_to_pixels_from_world_3dgs_fwd demo_forward_kernel false demo_means
    demo_quats demo_scales demo_colors demo_opacities (Some demo_backgrounds)
    (Some demo_masks) 2 2 16 demo_viewmats0 None demo_Ks () () () None None
    None () demo_tile_offsets demo_flatten_ids demo_state.

Definition demo_from_world_backward :=
  rasterize_to_pixels_from_world_3dgs_bwd idle_kernel demo_means demo_quats
    demo_scales demo_colors demo_opacities (Some demo_backgrounds)
    (Some demo_masks) 2 2 16 demo_viewmats0 None demo_Ks () () () None None
    None () demo_tile_offsets demo_flatten_ids demo_render_alphas
    demo_last_ids demo_v_render_colors demo_v_render_alphas demo_state.

(** The index kernels of the specification, with a walk that finds
    primitive 0 at pixel 0 and primitives 1 and 2 at pixel 2. *)
Definition demo_walk
  : Z → Z → Z → Z → Z → list (list Z * buffer) → Z → list Z :=
  λ _ _ _ _ _ _ pix,
    if pix =? 0 then [0] else if pix =? 2 then [1; 2] else [].

Definition demo_index_kernel
  : @KernelLaunch unit unit unit unit → heap → list write :=
  λ k h,
    match k with
    | launch_rasterize_to_indices_3dgs_kernel a =>
        index_kernel_writes demo_walk h (view_3dgs_indices a)
    | launch_rasterize_to_indices_2dgs_kernel a =>
        index_kernel_writes demo_walk h (view_2dgs_indices a)
    | _ => []
    end.

Definition demo_pairs_3dgs :=
  rasterize_to_indices_3dgs demo_index_kernel 0 10 demo_transmittances
    demo_means2d demo_conics demo_opacities 2 2 16 demo_tile_offsets
    demo_flatten_ids demo_state.

Definition demo_pairs_2dgs :=
  rasterize_to_indices_2dgs demo_index_kernel 0 10 demo_transmittances
    demo_means2d demo_ray_transforms demo_opacities 2 2 16 demo_tile_offsets
    demo_flatten_ids demo_state.

(** The 2DGS index extraction with the counting kernel, and on the scene
    without primitives. *)
Definition demo_indices_2dgs (flatten_ids : Tensor) :=
  rasterize_to_indices_2dgs (counting_kernel [2; 0; 1; 0]) 0 10
    demo_transmittances demo_means2d demo_ray_transforms demo_opacities 2 2 16
    demo_tile_offsets flatten_ids demo_state.

Definition no_ray_transforms := on_device 13 [1; 0; 3; 3] kFloat.

Definition demo_indices_2dgs_no_primitives :=
  rasterize_to_indices_2dgs idle_kernel 0 10 demo_transmittances no_means2d
    no_ray_transforms no_opacities 2 2 16 demo_tile_offsets
    demo_no_flatten_ids demo_state.









(** * Proofs *)

Section Proofs.

Context {CameraModelType UnscentedTransformParameters ShutterType
         FThetaCameraDistortionParameters : Type}.

Local Abbreviation KL :=
  (@KernelLaunch CameraModelType UnscentedTransformParameters ShutterType
     FThetaCameraDistortionParameters).
Local Abbreviation ST :=
  (@state CameraModelType UnscentedTransformParameters ShutterType
     FThetaCameraDistortionParameters).
Local Abbreviation MM :=
  (@M CameraModelType UnscentedTransformParameters ShutterType
     FThetaCameraDistortionParameters).

Variable kernel : KL → heap → list write.
Variable NDEBUG : bool.

(** ** Rules of [wp], one for each operation of the monad *)

Lemma wp_bind {A B} (m : MM A) (k : A → MM B) (s : ST) Q :
  wp m s (λ r s1, match r with
                  | Ok a => wp (k a) s1 Q
                  | Throw e => Q (Throw e) s1
                  | Abort => Q Abort s1
                  | Undefined => Q Undefined s1
                  end) →
  wp (bind m k) s Q.
Proof.
  unfold wp, bind. intros H r s' E.
  destruct (m s) as [[a|e| |] s1] eqn:Em;
    specialize (H _ _ eq_refl); simpl in H.
  - by apply H.
  - by inversion E; subst.
  - by inversion E; subst.
  - by inversion E; subst.
Qed.

Lemma wp_ret {A} (a : A) (s : ST) (Q : result A → ST → Prop) :
  Q (Ok a) s → wp (ret a) s Q.
Proof. unfold wp, ret. intros H r s' E. by inversion E; subst. Qed.

Lemma wp_lift {A} (r : result A) (s : ST) (Q : result A → ST → Prop) :
  Q r s → wp (lift r) s Q.
Proof. unfold wp, lift. intros H r' s' E. by inversion E; subst. Qed.

Lemma wp_throw {A} e s (Q : result A → ST → Prop) :
  Q (Throw e) s → wp (throw e) s Q.
Proof. apply wp_lift. Qed.

Lemma wp_DEVICE_GUARD t s (Q : result unit → ST → Prop) :
  Q (Ok ()) s → wp (DEVICE_GUARD t) s Q.
Proof. apply wp_ret. Qed.

Lemma wp_CHECK_INPUT n t s (Q : result unit → ST → Prop) :
  (is_cuda t = true → is_contiguous t = true → Q (Ok ()) s) →
  (is_cuda t = false → Q (Throw (MustBeCuda n)) s) →
  (is_contiguous t = false → Q (Throw (MustBeContiguous n)) s) →
  wp (CHECK_INPUT n t) s Q.
Proof.
  unfold CHECK_INPUT. intros H1 H2 H3.
  destruct (is_cuda t), (is_contiguous t);
    try (apply wp_ret; auto); apply wp_lift; auto.
Qed.

Lemma wp_CHECK_INPUT_opt n t s (Q : result unit → ST → Prop) :
  (checked_opt t → Q (Ok ()) s) →
  (¬ checked_opt t → Q (Throw (MustBeCuda n)) s) →
  (¬ checked_opt t → Q (Throw (MustBeContiguous n)) s) →
  wp (CHECK_INPUT_opt n t) s Q.
Proof.
  intros H1 H2 H3. destruct t as [t'|]; simpl.
  - apply wp_CHECK_INPUT.
    + intros ? ?. apply H1. by intros ? [= <-].
    + intros E. apply H2. intros H. destruct (H t' eq_refl). congruence.
    + intros E. apply H3. intros H. destruct (H t' eq_refl). congruence.
  - apply wp_ret. apply H1. by intros.
Qed.

Lemma wp_alloc buf s (Q : result nat → ST → Prop) :
  Q (Ok (length (mem s)))
    {| mem := mem s ++ [buf]; launches := launches s |} →
  wp (alloc buf) s Q.
Proof. unfold wp, alloc. intros H r s' E. by inversion E; subst. Qed.

Lemma wp_launch k s (Q : result unit → ST → Prop) :
  Q (Ok ()) {| mem := apply_writes (kernel k (mem s)) (mem s);
               launches := launches s ++ [(k, mem s)] |} →
  wp (launch kernel k) s Q.
Proof. unfold wp, launch. intros H r s' E. by inversion E; subst. Qed.

Lemma wp_new_tensor dims o fill s (Q : result Tensor → ST → Prop) :
  (Forall (Z.le 0) dims →
   Q (Ok {| storage := length (mem s); sizes := dims; dtype := opt_dtype o;
            is_cuda := opt_cuda o; is_contiguous := true |})
     {| mem := mem s ++ [replicate (Z.to_nat (shape_numel dims)) fill];
        launches := launches s |}) →
  (¬ Forall (Z.le 0) dims → Q (Throw NegativeDimension) s) →
  wp (new_tensor dims o fill) s Q.
Proof.
  intros H1 H2. unfold new_tensor.
  destruct (forallb (Z.leb 0) dims) eqn:E.
  - apply wp_bind, wp_alloc, wp_ret, H1.
    apply Forall_forall. intros x Hx. apply list_elem_of_In in Hx.
    rewrite forallb_forall in E. apply Z.leb_le. by apply E.
  - apply wp_throw, H2. intros HF.
    assert (forallb (Z.leb 0) dims = true); [|congruence].
    apply forallb_forall. intros x Hx. apply Z.leb_le.
    rewrite Forall_forall in HF. by apply HF, list_elem_of_In.
Qed.

Lemma wp_at_zeros_like t s (Q : result Tensor → ST → Prop) :
  Q (Ok {| storage := length (mem s); sizes := sizes t; dtype := dtype t;
           is_cuda := is_cuda t; is_contiguous := true |})
    {| mem := mem s ++ [replicate (Z.to_nat (numel t)) (Some 0)];
       launches := launches s |} →
  wp (at_zeros_like t) s Q.
Proof.
  intros H. unfold at_zeros_like. by apply wp_bind, wp_alloc, wp_ret.
Qed.

Lemma wp_at_cumsum t s (Q : result Tensor → ST → Prop) :
  Q (Ok {| storage := length (mem s); sizes := sizes t; dtype := dtype t;
           is_cuda := is_cuda t; is_contiguous := true |})
    {| mem := mem s ++ [cumsum_int32 (read (mem s) t)];
       launches := launches s |} →
  wp (at_cumsum t) s Q.
Proof. intros H. unfold at_cumsum. by apply wp_bind, wp_alloc, wp_ret. Qed.

Lemma wp_at_sub a b s (Q : result Tensor → ST → Prop) :
  Q (Ok {| storage := length (mem s); sizes := sizes a; dtype := dtype a;
           is_cuda := is_cuda a; is_contiguous := true |})
    {| mem := mem s ++ [sub_int32 (read (mem s) a) (read (mem s) b)];
       launches := launches s |} →
  wp (at_sub a b) s Q.
Proof. intros H. unfold at_sub. by apply wp_bind, wp_alloc, wp_ret. Qed.

Lemma wp_last_item t s (Q : result Z → ST → Prop) :
  (∀ v, last (read (mem s) t) = Some (Some v) → Q (Ok v) s) →
  (last (read (mem s) t) = None → Q (Throw IndexError) s) →
  (last (read (mem s) t) = Some None → Q Undefined s) →
  wp (last_item t) s Q.
Proof.
  intros H1 H2 H3 r s' E. unfold last_item in E.
  destruct (last (read (mem s) t)) as [[v|]|]; inversion E; subst; auto.
Qed.

Lemma wp_assert cond s (Q : result unit → ST → Prop) :
  (NDEBUG = true ∨ cond = true → Q (Ok ()) s) →
  (NDEBUG = false → cond = false → Q Abort s) →
  wp (assert_ NDEBUG cond) s Q.
Proof.
  intros H1 H2. unfold assert_. destruct NDEBUG; [apply wp_ret; auto|].
  destruct cond; [apply wp_ret|apply wp_lift]; auto.
Qed.

Lemma wp_size t d s (Q : result Z → ST → Prop) :
  (∀ x, size t d = Ok x → Q (Ok x) s) →
  (size t d = Throw IndexError → Q (Throw IndexError) s) →
  wp (lift (size t d)) s Q.
Proof.
  intros H1 H2. apply wp_lift.
  destruct (size t d) as [x|e| |] eqn:E; auto;
    unfold size in E; repeat case_match; simplify_eq; auto.
Qed.

Lemma wp_slice0 l m s (Q : result (list Z) → ST → Prop) :
  (0 ≤ m ≤ Z.of_nat (length l) → Q (Ok (take (Z.to_nat m) l)) s) →
  (¬ (0 ≤ m ≤ Z.of_nat (length l)) → Q (Throw InvalidSlice) s) →
  wp (lift (slice0 l m)) s Q.
Proof.
  intros H1 H2. apply wp_lift. unfold slice0.
  destruct (0 <=? m) eqn:E1, (m <=? Z.of_nat (length l)) eqn:E2; simpl;
    [apply H1|apply H2..]; lia.
Qed.

(** ** The switch and the list of supported widths agree *)

Lemma supported_channels_dec (ch : Z) :
  {In ch supported_channels} + {¬ In ch supported_channels}.
Proof. apply in_dec, Z.eq_dec. Qed.

Lemma switch_channels_supported ch (L : Z → MM unit) :
  In ch supported_channels → switch_channels ch L = L ch.
Proof.
  intros H. simpl in H.
  repeat (destruct H as [<-|H]; [reflexivity|]). destruct H.
Qed.

Lemma switch_channels_unsupported ch (L : Z → MM unit) :
  ¬ In ch supported_channels → switch_channels ch L = AT_ERROR ch.
Proof.
  intros H.
  destruct ch as [|p|p]; try reflexivity.
  do 10 (destruct p as [p|p|]; try reflexivity;
         try (exfalso; apply H; simpl; tauto)).
Qed.

Lemma wp_switch_channels ch L s (Q : result unit → ST → Prop) :
  (In ch supported_channels → wp (L ch) s Q) →
  (¬ In ch supported_channels → Q (Throw (UnsupportedChannels ch)) s) →
  wp (switch_channels ch L) s Q.
Proof.
  intros H1 H2. destruct (supported_channels_dec ch) as [Hin|Hout].
  - rewrite switch_channels_supported by done. auto.
  - rewrite switch_channels_unsupported by done. apply wp_throw. auto.
Qed.

(** ** Symbolic execution *)

Ltac wp_prim :=
  lazymatch goal with
  | |- wp (bind _ _) _ _ => apply wp_bind
  | |- wp (ret _) _ _ => apply wp_ret
  | |- wp (throw _) _ _ => apply wp_throw
  | |- wp (DEVICE_GUARD _) _ _ => apply wp_DEVICE_GUARD
  | |- wp (CHECK_INPUT _ _) _ _ =>
      apply wp_CHECK_INPUT; [intros ? ? | intros ? | intros ?]
  | |- wp (CHECK_INPUT_opt _ _) _ _ =>
      apply wp_CHECK_INPUT_opt; intros ?
  | |- wp (lift (size _ _)) _ _ => apply wp_size; [intros ? ? | intros ?]
  | |- wp (lift (slice0 _ _)) _ _ => apply wp_slice0; intros ?
  | |- wp (lift _) _ _ => apply wp_lift
  | |- wp (at_empty _ _) _ _ => apply wp_new_tensor; intros ?
  | |- wp (at_zeros _ _) _ _ => apply wp_new_tensor; intros ?
  | |- wp (at_zeros_like _) _ _ => apply wp_at_zeros_like
  | |- wp (at_cumsum _) _ _ => apply wp_at_cumsum
  | |- wp (at_sub _ _) _ _ => apply wp_at_sub
  | |- wp (last_item _) _ _ =>
      apply wp_last_item; [intros ? ? | intros ? | intros ?]
  | |- wp (assert_ _ _) _ _ => apply wp_assert; [intros ? | intros ? ?]
  | |- wp (launch _ _) _ _ => apply wp_launch
  | |- wp (switch_channels _ _) _ _ => apply wp_switch_channels; intros ?
  | |- wp (if ?b then _ else _) _ _ => destruct b eqn:?
  end; cbn beta iota zeta delta [mem launches].

(** Run the computation of the goal; [tac] closes the branches it can. *)
Ltac wp_run tac := repeat (wp_prim; try solve [tac]).

(** Turn a goal about the outcome of a run [H] into a [wp] goal. *)
Ltac wp_of H :=
  lazymatch type of H with
  | ?m ?s = (?r, ?s') =>
      pattern r, s';
      lazymatch goal with
      | |- ?Q r s' => revert r s' H; change (wp m s Q)
      end
  end.

Ltac solve_untouched :=
  split; [unfold launched; simpl; by rewrite app_nil_r
         | simpl; repeat apply prefix_app_r; done].

Ltac unify_sizes :=
  repeat match goal with
         | H1 : ?e = Ok ?a, H2 : ?e = Ok ?b |- _ =>
             rewrite H1 in H2; injection H2 as <-
         end.

(** ** Failures come before the launch *)












(** ** The dispatch on the channel width *)

Lemma to_uint32_range z : 0 ≤ to_uint32 z < 2 ^ 32.
Proof. unfold to_uint32. apply Z.mod_pos_bound. lia. Qed.

Lemma alloc_dims_ok t n tail :
  shape_ok t → Forall (Z.le 0) tail →
  Forall (Z.le 0) (take n (sizes t) ++ tail).
Proof.
  intros Ht Htail. apply Forall_app. split; [by apply Forall_take|done].
Qed.

Ltac split_checked :=
  repeat match goal with
         | H : Forall checked (_ :: _) |- _ =>
             apply Forall_cons in H; destruct H as [[? ?] H]
         | H : Forall checked [] |- _ => clear H
         end.

(** A branch the hypotheses on the inputs exclude. *)
Ltac absurd_branch :=
  exfalso; unify_sizes;
  solve
    [ match goal with
      | H1 : ?b = true, H2 : ?b = false |- _ =>
          rewrite H1 in H2; discriminate H2
      | H1 : ?e = Ok _, H2 : ?e = Throw _ |- _ =>
          rewrite H1 in H2; discriminate H2
      end
    | contradiction
    | unfold dim in *; lia
    | match goal with
      | H : ¬ Forall (Z.le 0) _ |- _ =>
          apply H; apply alloc_dims_ok; [assumption|];
          repeat apply Forall_cons_2; try apply Forall_nil_2;
          first [assumption | lia | apply to_uint32_range]
      end
    | match goal with
      | H : (_ =? _) = false, H1 : ?b = true ∨ _, H2 : ?b = false |- _ =>
          apply Z.eqb_neq in H;
          destruct H1 as [H1|H1]; [rewrite H1 in H2; discriminate H2|lia]
      end
    | match goal with
      | H : _ ∨ (_ =? _) = true |- _ =>
          destruct H as [H|H]; [|apply Z.eqb_eq in H; lia];
          match goal with
          | H2 : ?b = false |- _ => rewrite H in H2; discriminate H2
          end
      end ].

Ltac solve_dispatch :=
  split;
  [ intros ?;
    first [ absurd_branch
          | split; [exact I|];
            do 2 eexists; split; [reflexivity|]; by eexists ]
  | intros ?;
    first [ absurd_branch | split; [reflexivity|solve_untouched] ] ].

Lemma rasterize_to_pixels_3dgs_fwd_dispatches
    means2d conics colors opacities backgrounds masks image_width image_height
    tile_size tile_offsets flatten_ids c :
  Forall checked
    [means2d; conics; colors; opacities; tile_offsets; flatten_ids] →
  checked_opt backgrounds →
  checked_opt masks →
  2 ≤ dim tile_offsets →
  shape_ok tile_offsets →
  0 ≤ image_height →
  0 ≤ image_width →
  size colors (-1) = Ok c →
  dispatches
    (rasterize_to_pixels_3dgs_fwd kernel means2d conics colors opacities
      backgrounds masks image_width image_height tile_size tile_offsets
      flatten_ids)
    (to_uint32 c) (λ N k, ∃ a, k = launch_rasterize_to_pixels_3dgs_fwd_kernel N a).
Proof.
  intros Hchecked. intros. intros s r s' Hrun.
  split_checked. wp_of Hrun. unfold rasterize_to_pixels_3dgs_fwd.
  wp_run ltac:(absurd_branch); unify_sizes; solve_dispatch.
Qed.

Lemma rasterize_to_pixels_3dgs_bwd_dispatches
    means2d conics colors opacities backgrounds masks image_width image_height
    tile_size tile_offsets flatten_ids render_alphas last_ids v_render_colors
    v_render_alphas absgrad c :
  Forall checked
    [means2d; conics; colors; opacities; tile_offsets; flatten_ids; render_alphas; last_ids; v_render_colors; v_render_alphas] →
  checked_opt backgrounds →
  checked_opt masks →
  size colors (-1) = Ok c →
  dispatches
    (rasterize_to_pixels_3dgs_bwd kernel means2d conics colors opacities
      backgrounds masks image_width image_height tile_size tile_offsets
      flatten_ids render_alphas last_ids v_render_colors v_render_alphas
      absgrad)
    (to_uint32 c) (λ N k, ∃ a, k = launch_rasterize_to_pixels_3dgs_bwd_kernel N a).
Proof.
  intros Hchecked. intros. intros s r s' Hrun.
  split_checked. wp_of Hrun. unfold rasterize_to_pixels_3dgs_bwd.
  wp_run ltac:(absurd_branch); unify_sizes; solve_dispatch.
Qed.

Lemma rasterize_to_pixels_2dgs_fwd_dispatches
    means2d ray_transforms colors opacities normals backgrounds masks
    image_width image_height tile_size tile_offsets flatten_ids c :
  Forall checked
    [means2d; ray_transforms; colors; opacities; normals; tile_offsets; flatten_ids] →
  checked_opt backgrounds →
  checked_opt masks →
  2 ≤ dim tile_offsets →
  shape_ok tile_offsets →
  0 ≤ image_height →
  0 ≤ image_width →
  size colors (-1) = Ok c →
  dispatches
    (rasterize_to_pixels_2dgs_fwd kernel means2d ray_transforms colors opacities
      normals backgrounds masks image_width image_height tile_size
      tile_offsets flatten_ids)
    (to_uint32 c) (λ N k, ∃ a, k = launch_rasterize_to_pixels_2dgs_fwd_kernel N a).
Proof.
  intros Hchecked. intros. intros s r s' Hrun.
  split_checked. wp_of Hrun. unfold rasterize_to_pixels_2dgs_fwd.
  wp_run ltac:(absurd_branch); unify_sizes; solve_dispatch.
Qed.

Lemma rasterize_to_pixels_2dgs_bwd_dispatches
    means2d ray_transforms colors opacities normals densify backgrounds masks
    image_width image_height tile_size tile_offsets flatten_ids render_colors
    render_alphas last_ids median_ids v_render_colors v_render_alphas
    v_render_normals v_render_distort v_render_median absgrad c :
  Forall checked
    [means2d; ray_transforms; colors; opacities; normals; densify; tile_offsets; flatten_ids; render_colors; render_alphas; last_ids; median_ids; v_render_colors; v_render_alphas; v_render_normals; v_render_distort; v_render_median] →
  checked_opt backgrounds →
  checked_opt masks →
  size colors (-1) = Ok c →
  dispatches
    (rasterize_to_pixels_2dgs_bwd kernel means2d ray_transforms colors opacities
      normals densify backgrounds masks image_width image_height tile_size
      tile_offsets flatten_ids render_colors render_alphas last_ids median_ids
      v_render_colors v_render_alphas v_render_normals v_render_distort
      v_render_median absgrad)
    (to_uint32 c) (λ N k, ∃ a, k = launch_rasterize_to_pixels_2dgs_bwd_kernel N a).
Proof.
  intros Hchecked. intros. intros s r s' Hrun.
  split_checked. wp_of Hrun. unfold rasterize_to_pixels_2dgs_bwd.
  wp_run ltac:(absurd_branch); unify_sizes; solve_dispatch.
Qed.

Lemma rasterize_to_pixels_from_world_3dgs_fwd_dispatches
    means quats scales colors opacities backgrounds masks image_width
    image_height tile_size viewmats0 viewmats1 Ks camera_model ut_params
    rs_type radial_coeffs tangential_coeffs thin_prism_coeffs ftheta_coeffs
    tile_offsets flatten_ids n_cameras c :
  Forall checked
    [means; quats; scales; colors; opacities; tile_offsets; flatten_ids] →
  checked_opt backgrounds →
  checked_opt masks →
  2 ≤ dim means →
  shape_ok means →
  0 ≤ image_height →
  0 ≤ image_width →
  size viewmats0 (-3) = Ok n_cameras →
  size colors (-1) = Ok c →
  NDEBUG = true ∨ to_uint32 c = 3 →
  dispatches
    (rasterize_to_pixels_from_world_3dgs_fwd kernel NDEBUG means quats scales
      colors opacities backgrounds masks image_width image_height tile_size
      viewmats0 viewmats1 Ks camera_model ut_params rs_type radial_coeffs
      tangential_coeffs thin_prism_coeffs ftheta_coeffs tile_offsets
      flatten_ids)
    (to_uint32 c) (λ N k, ∃ a, k = launch_rasterize_to_pixels_from_world_3dgs_fwd_kernel N a).
Proof.
  intros Hchecked. intros. intros s r s' Hrun.
  split_checked. wp_of Hrun. unfold rasterize_to_pixels_from_world_3dgs_fwd.
  wp_run ltac:(absurd_branch); unify_sizes; solve_dispatch.
Qed.

Lemma rasterize_to_pixels_from_world_3dgs_bwd_dispatches
    means quats scales colors opacities backgrounds masks image_width
    image_height tile_size viewmats0 viewmats1 Ks camera_model ut_params
    rs_type radial_coeffs tangential_coeffs thin_prism_coeffs ftheta_coeffs
    tile_offsets flatten_ids render_alphas last_ids v_render_colors
    v_render_alphas c :
  Forall checked
    [means; quats; scales; colors; opacities; tile_offsets; flatten_ids; render_alphas; last_ids; v_render_colors; v_render_alphas] →
  checked_opt backgrounds →
  checked_opt masks →
  size colors (-1) = Ok c →
  dispatches
    (rasterize_to_pixels_from_world_3dgs_bwd kernel means quats scales colors
      opacities backgrounds masks image_width image_height tile_size viewmats0
      viewmats1 Ks camera_model ut_params rs_type radial_coeffs
      tangential_coeffs thin_prism_coeffs ftheta_coeffs tile_offsets
      flatten_ids render_alphas last_ids v_render_colors v_render_alphas)
    (to_uint32 c) (λ N k, ∃ a, k = launch_rasterize_to_pixels_from_world_3dgs_bwd_kernel N a).
Proof.
  intros Hchecked. intros. intros s r s' Hrun.
  split_checked. wp_of Hrun. unfold rasterize_to_pixels_from_world_3dgs_bwd.
  wp_run ltac:(absurd_branch); unify_sizes; solve_dispatch.
Qed.

(** Built with assertions, the from-world forward pass stops at
    [assert (channels == 3)], before it allocates anything. *)
Lemma rasterize_to_pixels_from_world_3dgs_fwd_aborts
    means quats scales colors opacities backgrounds masks image_width
    image_height tile_size viewmats0 viewmats1 Ks camera_model ut_params
    rs_type radial_coeffs tangential_coeffs thin_prism_coeffs ftheta_coeffs
    tile_offsets flatten_ids n_cameras c s :
  Forall checked
    [means; quats; scales; colors; opacities; tile_offsets; flatten_ids] →
  checked_opt backgrounds →
  checked_opt masks →
  2 ≤ dim means →
  size viewmats0 (-3) = Ok n_cameras →
  size colors (-1) = Ok c →
  NDEBUG = false → to_uint32 c ≠ 3 →
  (rasterize_to_pixels_from_world_3dgs_fwd kernel NDEBUG means quats scales
   colors opacities backgrounds masks image_width image_height tile_size
   viewmats0 viewmats1 Ks camera_model ut_params rs_type radial_coeffs
   tangential_coeffs thin_prism_coeffs ftheta_coeffs tile_offsets flatten_ids) s = (Abort, s).
Proof.
  intros Hchecked. intros.
  destruct ((rasterize_to_pixels_from_world_3dgs_fwd kernel NDEBUG means quats scales
             colors opacities backgrounds masks image_width image_height
             tile_size viewmats0 viewmats1 Ks camera_model ut_params rs_type
             radial_coeffs tangential_coeffs thin_prism_coeffs ftheta_coeffs
             tile_offsets flatten_ids) s)
    as [r s'] eqn:Hrun.
  enough (r = Abort ∧ s' = s) as [-> ->] by done.
  split_checked. wp_of Hrun. unfold rasterize_to_pixels_from_world_3dgs_fwd.
  wp_run ltac:(absurd_branch). done.
Qed.

(** A computation that dispatches on a supported width returns. *)
Lemma dispatches_returns {A} (m : MM A) ch K s :
  dispatches m ch K → In ch supported_channels →
  ∃ out s', m s = (Ok out, s').
Proof.
  intros Hd Hin. destruct (m s) as [r s'] eqn:E.
  destruct (Hd s r s' E) as [Hyes _]. destruct (Hyes Hin) as [Hret _].
  destruct r; try done. by eexists _, _.
Qed.

Lemma to_uint32_small z : 0 ≤ z < 2 ^ 32 → to_uint32 z = z.
Proof. intros Hz. unfold to_uint32. by apply Z.mod_small. Qed.

(** C1, amended.  Take a call of one of the six pixel entry points whose
    tensors pass [CHECK_INPUT] and have the ranks the wrapper reads, and
    whose channel count [colors.size(-1)] is below 2^32.  If the count is
    not one of the supported widths, the call raises "Unsupported number of
    channels" and nothing has run on the device; if it is, the call returns
    after exactly one launch, of the kernel of that entry point specialised
    for that width.  For [rasterize_to_pixels_from_world_3dgs_fwd] this
    holds when [assert] is compiled out or the count is 3; built with
    assertions, every other count aborts before anything is allocated or
    launched. *)
Theorem channel_dispatch :
  (∀ means2d conics colors opacities backgrounds masks image_width image_height tile_size tile_offsets flatten_ids c,
     Forall checked
    [means2d; conics; colors; opacities; tile_offsets; flatten_ids] →
     checked_opt backgrounds →
     checked_opt masks →
     2 ≤ dim tile_offsets →
     shape_ok tile_offsets →
     0 ≤ image_height →
     0 ≤ image_width →
     size colors (-1) = Ok c →
     0 ≤ c < 2 ^ 32 →
     dispatches
       (rasterize_to_pixels_3dgs_fwd kernel means2d conics colors opacities
         backgrounds masks image_width image_height tile_size tile_offsets
         flatten_ids)
       c (λ N k, ∃ a, k = launch_rasterize_to_pixels_3dgs_fwd_kernel N a)) ∧
  (∀ means2d conics colors opacities backgrounds masks image_width image_height tile_size tile_offsets flatten_ids render_alphas last_ids v_render_colors v_render_alphas absgrad c,
     Forall checked
    [means2d; conics; colors; opacities; tile_offsets; flatten_ids; render_alphas; last_ids; v_render_colors; v_render_alphas] →
     checked_opt backgrounds →
     checked_opt masks →
     size colors (-1) = Ok c →
     0 ≤ c < 2 ^ 32 →
     dispatches
       (rasterize_to_pixels_3dgs_bwd kernel means2d conics colors opacities
         backgrounds masks image_width image_height tile_size tile_offsets
         flatten_ids render_alphas last_ids v_render_colors v_render_alphas
         absgrad)
       c (λ N k, ∃ a, k = launch_rasterize_to_pixels_3dgs_bwd_kernel N a)) ∧
  (∀ means2d ray_transforms colors opacities normals backgrounds masks image_width image_height tile_size tile_offsets flatten_ids c,
     Forall checked
    [means2d; ray_transforms; colors; opacities; normals; tile_offsets; flatten_ids] →
     checked_opt backgrounds →
     checked_opt masks →
     2 ≤ dim tile_offsets →
     shape_ok tile_offsets →
     0 ≤ image_height →
     0 ≤ image_width →
     size colors (-1) = Ok c →
     0 ≤ c < 2 ^ 32 →
     dispatches
       (rasterize_to_pixels_2dgs_fwd kernel means2d ray_transforms colors opacities
         normals backgrounds masks image_width image_height tile_size
         tile_offsets flatten_ids)
       c (λ N k, ∃ a, k = launch_rasterize_to_pixels_2dgs_fwd_kernel N a)) ∧
  (∀ means2d ray_transforms colors opacities normals densify backgrounds masks image_width image_height tile_size tile_offsets flatten_ids render_colors render_alphas last_ids median_ids v_render_colors v_render_alphas v_render_normals v_render_distort v_render_median absgrad c,
     Forall checked
    [means2d; ray_transforms; colors; opacities; normals; densify; tile_offsets; flatten_ids; render_colors; render_alphas; last_ids; median_ids; v_render_colors; v_render_alphas; v_render_normals; v_render_distort; v_render_median] →
     checked_opt backgrounds →
     checked_opt masks →
     size colors (-1) = Ok c →
     0 ≤ c < 2 ^ 32 →
     dispatches
       (rasterize_to_pixels_2dgs_bwd kernel means2d ray_transforms colors opacities
         normals densify backgrounds masks image_width image_height tile_size
         tile_offsets flatten_ids render_colors render_alphas last_ids
         median_ids v_render_colors v_render_alphas v_render_normals
         v_render_distort v_render_median absgrad)
       c (λ N k, ∃ a, k = launch_rasterize_to_pixels_2dgs_bwd_kernel N a)) ∧
  (∀ means quats scales colors opacities backgrounds masks image_width image_height tile_size viewmats0 viewmats1 Ks camera_model ut_params rs_type radial_coeffs tangential_coeffs thin_prism_coeffs ftheta_coeffs tile_offsets flatten_ids n_cameras c,
     Forall checked
    [means; quats; scales; colors; opacities; tile_offsets; flatten_ids] →
     checked_opt backgrounds →
     checked_opt masks →
     2 ≤ dim means →
     shape_ok means →
     0 ≤ image_height →
     0 ≤ image_width →
     size viewmats0 (-3) = Ok n_cameras →
     size colors (-1) = Ok c →
     0 ≤ c < 2 ^ 32 →
     NDEBUG = true ∨ c = 3 →
     dispatches
       (rasterize_to_pixels_from_world_3dgs_fwd kernel NDEBUG means quats scales
         colors opacities backgrounds masks image_width image_height tile_size
         viewmats0 viewmats1 Ks camera_model ut_params rs_type radial_coeffs
         tangential_coeffs thin_prism_coeffs ftheta_coeffs tile_offsets
         flatten_ids)
       c (λ N k, ∃ a, k = launch_rasterize_to_pixels_from_world_3dgs_fwd_kernel N a)) ∧
  (∀ means quats scales colors opacities backgrounds masks image_width image_height tile_size viewmats0 viewmats1 Ks camera_model ut_params rs_type radial_coeffs tangential_coeffs thin_prism_coeffs ftheta_coeffs tile_offsets flatten_ids render_alphas last_ids v_render_colors v_render_alphas c,
     Forall checked
    [means; quats; scales; colors; opacities; tile_offsets; flatten_ids; render_alphas; last_ids; v_render_colors; v_render_alphas] →
     checked_opt backgrounds →
     checked_opt masks →
     size colors (-1) = Ok c →
     0 ≤ c < 2 ^ 32 →
     dispatches
       (rasterize_to_pixels_from_world_3dgs_bwd kernel means quats scales colors
         opacities backgrounds masks image_width image_height tile_size
         viewmats0 viewmats1 Ks camera_model ut_params rs_type radial_coeffs
         tangential_coeffs thin_prism_coeffs ftheta_coeffs tile_offsets
         flatten_ids render_alphas last_ids v_render_colors v_render_alphas)
       c (λ N k, ∃ a, k = launch_rasterize_to_pixels_from_world_3dgs_bwd_kernel N a)) ∧
  (∀ means quats scales colors opacities backgrounds masks image_width image_height tile_size viewmats0 viewmats1 Ks camera_model ut_params rs_type radial_coeffs tangential_coeffs thin_prism_coeffs ftheta_coeffs tile_offsets flatten_ids n_cameras c s,
     Forall checked
    [means; quats; scales; colors; opacities; tile_offsets; flatten_ids] →
     checked_opt backgrounds →
     checked_opt masks →
     2 ≤ dim means →
     size viewmats0 (-3) = Ok n_cameras →
     size colors (-1) = Ok c →
     0 ≤ c < 2 ^ 32 →
     NDEBUG = false → c ≠ 3 →
     (rasterize_to_pixels_from_world_3dgs_fwd kernel NDEBUG means quats scales
      colors opacities backgrounds masks image_width image_height tile_size
      viewmats0 viewmats1 Ks camera_model ut_params rs_type radial_coeffs
      tangential_coeffs thin_prism_coeffs ftheta_coeffs tile_offsets
      flatten_ids) s = (Abort, s)).
Proof.
  repeat apply conj.
  - intros * ? ? ? ? ? ? ? ? Hc. rewrite <- (to_uint32_small c Hc).
    by eapply rasterize_to_pixels_3dgs_fwd_dispatches.
  - intros * ? ? ? ? Hc. rewrite <- (to_uint32_small c Hc).
    by eapply rasterize_to_pixels_3dgs_bwd_dispatches.
  - intros * ? ? ? ? ? ? ? ? Hc. rewrite <- (to_uint32_small c Hc).
    by eapply rasterize_to_pixels_2dgs_fwd_dispatches.
  - intros * ? ? ? ? Hc. rewrite <- (to_uint32_small c Hc).
    by eapply rasterize_to_pixels_2dgs_bwd_dispatches.
  - intros * ? ? ? ? ? ? ? ? ? Hc Hrgb. rewrite <- (to_uint32_small c Hc).
    eapply rasterize_to_pixels_from_world_3dgs_fwd_dispatches; try done.
    by rewrite (to_uint32_small c Hc).
  - intros * ? ? ? ? Hc. rewrite <- (to_uint32_small c Hc).
    by eapply rasterize_to_pixels_from_world_3dgs_bwd_dispatches.
  - intros * ? ? ? ? ? ? Hc ? Hrgb.
    eapply rasterize_to_pixels_from_world_3dgs_fwd_aborts; try done.
    by rewrite (to_uint32_small c Hc).
Qed.

(** ** The configuration errors and no others *)












(** C9.  [rasterize_to_pixels_from_world_3dgs_fwd] asserts [channels == 3]
    before it dispatches.  Every call that reaches the assertion with another
    width, supported elsewhere or not, fails it: built with assertions the
    call aborts there, before any allocation or launch.  The switch behind the
    assertion still lists every supported width: with [assert] compiled out
    the call dispatches on the whole list, as the other entry points do. *)
Theorem from_world_forward_asserts_rgb
    means quats scales colors opacities backgrounds masks image_width
    image_height tile_size viewmats0 viewmats1 Ks camera_model ut_params
    rs_type radial_coeffs tangential_coeffs thin_prism_coeffs ftheta_coeffs
    tile_offsets flatten_ids n_cameras c :
  Forall checked
    [means; quats; scales; colors; opacities; tile_offsets; flatten_ids] →
  checked_opt backgrounds →
  checked_opt masks →
  2 ≤ dim means →
  shape_ok means →
  0 ≤ image_height →
  0 ≤ image_width →
  size viewmats0 (-3) = Ok n_cameras →
  size colors (-1) = Ok c →
  to_uint32 c ≠ 3 →
  (NDEBUG = false →
   ∀ s, (rasterize_to_pixels_from_world_3dgs_fwd kernel NDEBUG means quats scales
          colors opacities backgrounds masks image_width image_height
          tile_size viewmats0 viewmats1 Ks camera_model ut_params rs_type
          radial_coeffs tangential_coeffs thin_prism_coeffs ftheta_coeffs
          tile_offsets flatten_ids) s = (Abort, s)) ∧
  (NDEBUG = true →
   dispatches
     (rasterize_to_pixels_from_world_3dgs_fwd kernel NDEBUG means quats scales
       colors opacities backgrounds masks image_width image_height tile_size
       viewmats0 viewmats1 Ks camera_model ut_params rs_type radial_coeffs
       tangential_coeffs thin_prism_coeffs ftheta_coeffs tile_offsets
       flatten_ids)
     (to_uint32 c)
     (λ N k, ∃ a, k = launch_rasterize_to_pixels_from_world_3dgs_fwd_kernel N a)).
Proof.
  intros. split.
  - intros. by eapply rasterize_to_pixels_from_world_3dgs_fwd_aborts.
  - intros. eapply rasterize_to_pixels_from_world_3dgs_fwd_dispatches; eauto.
Qed.

(** ** Reading the store *)

Lemma lookup_snoc_here (h : heap) b : (h ++ [b]) !! length h = Some b.
Proof. by apply list_lookup_middle. Qed.

Lemma lookup_snoc_before (h : heap) b n x :
  h !! n = Some x → (h ++ [b]) !! n = Some x.
Proof. intros H. by apply lookup_app_l_Some. Qed.

(** Look up a buffer allocated during the call. *)
Ltac heap_lookup :=
  match goal with
  | |- context [ (?h ++ [?b]) !! ?n ] =>
      let H := fresh in
      eassert (H : (h ++ [b]) !! n = Some _)
        by (repeat first [apply lookup_snoc_here | apply lookup_snoc_before]);
      rewrite H; clear H
  end.

Lemma read_apply_write h w t i :
  ¬ (w.1.1 = storage t ∧ w.1.2 = i) →
  read (apply_write h w) t !! i = read h t !! i.
Proof.
  destruct w as [[b j] v]. simpl. intros Hw. unfold read, apply_write.
  rewrite list_lookup_alter. destruct (decide (b = storage t)) as [->|Hb]; [|done].
  destruct (h !! storage t) as [buf|]; simpl; [|done].
  apply list_lookup_insert_ne. intros ->. by apply Hw.
Qed.

Lemma read_apply_writes ws h t i :
  (∀ w, w ∈ ws → ¬ (w.1.1 = storage t ∧ w.1.2 = i)) →
  read (apply_writes ws h) t !! i = read h t !! i.
Proof.
  unfold apply_writes. revert h. induction ws as [|w ws IH]; intros h Hws; [done|].
  simpl. rewrite IH.
  - apply read_apply_write. apply Hws. by left.
  - intros w' Hw'. apply Hws. by right.
Qed.

(** Turn a goal about a run [H] that returned into a [wp] goal. *)
Ltac wp_of_ok H :=
  lazymatch type of H with
  | _ = (Ok ?v, _) =>
      let r := fresh "r" in
      let Hr := fresh "Hr" in
      remember (Ok v) as r eqn:Hr in H;
      revert Hr; wp_of H
  end.

Ltac solve_zero_gradient :=
  split; [reflexivity|]; split; [reflexivity|];
  split;
  [ unfold read; simpl; heap_lookup; reflexivity
  | intros i Hi Hw; rewrite read_apply_writes by exact Hw;
    unfold read; simpl; heap_lookup; simpl; by apply lookup_replicate_2 ].


Lemma rasterize_to_pixels_3dgs_bwd_gradients
    means2d conics colors opacities backgrounds masks image_width image_height
    tile_size tile_offsets flatten_ids render_alphas last_ids v_render_colors
    v_render_alphas absgrad s v_means2d_abs v_means2d v_conics v_colors
    v_opacities s' :
  (rasterize_to_pixels_3dgs_bwd kernel means2d conics colors opacities
     backgrounds masks image_width image_height tile_size tile_offsets
     flatten_ids render_alphas last_ids v_render_colors v_render_alphas
     absgrad) s =
    (Ok (v_means2d_abs, v_means2d, v_conics, v_colors, v_opacities), s') →
  ∃ N a h, let k := launch_rasterize_to_pixels_3dgs_bwd_kernel N a in
    launched s s' [(k, h)] ∧
    k3b_v_means2d a = v_means2d ∧
    k3b_v_conics a = v_conics ∧
    k3b_v_colors a = v_colors ∧
    k3b_v_opacities a = v_opacities ∧
    zero_gradient_of kernel means2d v_means2d k h (mem s') ∧
    zero_gradient_of kernel conics v_conics k h (mem s') ∧
    zero_gradient_of kernel colors v_colors k h (mem s') ∧
    zero_gradient_of kernel opacities v_opacities k h (mem s') ∧
    if absgrad then
      ∃ t, v_means2d_abs = DefinedTensor t ∧
           k3b_v_means2d_abs a = Some (DefinedTensor t) ∧
           zero_gradient_of kernel means2d t k h (mem s')
    else
      v_means2d_abs = UndefinedTensor ∧ k3b_v_means2d_abs a = None ∧
      length h = (length (mem s) + 4)%nat.
Proof.
  intros Hrun. wp_of_ok Hrun. unfold rasterize_to_pixels_3dgs_bwd.
  wp_run ltac:(done).
  - intros [= <- <- <- <- <-].
    do 3 eexists. cbv zeta. split; [reflexivity|]. simpl.
    do 4 (split; [reflexivity|]).
    do 4 (split; [solve_zero_gradient|]).
    eexists. split; [reflexivity|]. split; [reflexivity|].
    solve_zero_gradient.
  - intros [= <- <- <- <- <-].
    do 3 eexists. cbv zeta. split; [reflexivity|]. simpl.
    do 4 (split; [reflexivity|]).
    do 4 (split; [solve_zero_gradient|]).
    split; [reflexivity|]. split; [reflexivity|].
    rewrite !length_app. simpl. lia.
Qed.

Lemma rasterize_to_pixels_2dgs_bwd_gradients
    means2d ray_transforms colors opacities normals densify backgrounds masks
    image_width image_height tile_size tile_offsets flatten_ids render_colors
    render_alphas last_ids median_ids v_render_colors v_render_alphas
    v_render_normals v_render_distort v_render_median absgrad s v_means2d_abs
    v_means2d v_ray_transforms v_colors v_opacities v_normals v_densify s' :
  (rasterize_to_pixels_2dgs_bwd kernel means2d ray_transforms colors opacities
     normals densify backgrounds masks image_width image_height tile_size
     tile_offsets flatten_ids render_colors render_alphas last_ids median_ids
     v_render_colors v_render_alphas v_render_normals v_render_distort
     v_render_median absgrad) s =
    (Ok (v_means2d_abs, v_means2d, v_ray_transforms, v_colors, v_opacities, v_normals, v_densify), s') →
  ∃ N a h, let k := launch_rasterize_to_pixels_2dgs_bwd_kernel N a in
    launched s s' [(k, h)] ∧
    k2b_v_means2d a = v_means2d ∧
    k2b_v_ray_transforms a = v_ray_transforms ∧
    k2b_v_colors a = v_colors ∧
    k2b_v_opacities a = v_opacities ∧
    k2b_v_normals a = v_normals ∧
    k2b_v_densify a = v_densify ∧
    zero_gradient_of kernel means2d v_means2d k h (mem s') ∧
    zero_gradient_of kernel ray_transforms v_ray_transforms k h (mem s') ∧
    zero_gradient_of kernel colors v_colors k h (mem s') ∧
    zero_gradient_of kernel opacities v_opacities k h (mem s') ∧
    zero_gradient_of kernel normals v_normals k h (mem s') ∧
    zero_gradient_of kernel densify v_densify k h (mem s') ∧
    if absgrad then
      ∃ t, v_means2d_abs = DefinedTensor t ∧
           k2b_v_means2d_abs a = Some (DefinedTensor t) ∧
           zero_gradient_of kernel means2d t k h (mem s')
    else
      v_means2d_abs = UndefinedTensor ∧ k2b_v_means2d_abs a = None ∧
      length h = (length (mem s) + 6)%nat.
Proof.
  intros Hrun. wp_of_ok Hrun. unfold rasterize_to_pixels_2dgs_bwd.
  wp_run ltac:(done).
  - intros [= <- <- <- <- <- <- <-].
    do 3 eexists. cbv zeta. split; [reflexivity|]. simpl.
    do 6 (split; [reflexivity|]).
    do 6 (split; [solve_zero_gradient|]).
    eexists. split; [reflexivity|]. split; [reflexivity|].
    solve_zero_gradient.
  - intros [= <- <- <- <- <- <- <-].
    do 3 eexists. cbv zeta. split; [reflexivity|]. simpl.
    do 6 (split; [reflexivity|]).
    do 6 (split; [solve_zero_gradient|]).
    split; [reflexivity|]. split; [reflexivity|].
    rewrite !length_app. simpl. lia.
Qed.

Lemma rasterize_to_pixels_from_world_3dgs_bwd_gradients
    means quats scales colors opacities backgrounds masks image_width
    image_height tile_size viewmats0 viewmats1 Ks camera_model ut_params
    rs_type radial_coeffs tangential_coeffs thin_prism_coeffs ftheta_coeffs
    tile_offsets flatten_ids render_alphas last_ids v_render_colors
    v_render_alphas s v_means v_quats v_scales v_colors v_opacities s' :
  (rasterize_to_pixels_from_world_3dgs_bwd kernel means quats scales colors
     opacities backgrounds masks image_width image_height tile_size viewmats0
     viewmats1 Ks camera_model ut_params rs_type radial_coeffs
     tangential_coeffs thin_prism_coeffs ftheta_coeffs tile_offsets
     flatten_ids render_alphas last_ids v_render_colors v_render_alphas) s =
    (Ok (v_means, v_quats, v_scales, v_colors, v_opacities), s') →
  ∃ N a h, let k := launch_rasterize_to_pixels_from_world_3dgs_bwd_kernel N a in
    launched s s' [(k, h)] ∧
    kwb_v_means a = v_means ∧
    kwb_v_quats a = v_quats ∧
    kwb_v_scales a = v_scales ∧
    kwb_v_colors a = v_colors ∧
    kwb_v_opacities a = v_opacities ∧
    zero_gradient_of kernel means v_means k h (mem s') ∧
    zero_gradient_of kernel quats v_quats k h (mem s') ∧
    zero_gradient_of kernel scales v_scales k h (mem s') ∧
    zero_gradient_of kernel colors v_colors k h (mem s') ∧
    zero_gradient_of kernel opacities v_opacities k h (mem s').
Proof.
  intros Hrun. wp_of_ok Hrun. unfold rasterize_to_pixels_from_world_3dgs_bwd.
  wp_run ltac:(done).
  intros [= <- <- <- <- <-].
  do 3 eexists. cbv zeta. split; [reflexivity|]. simpl.
  do 5 (split; [reflexivity|]).
  do 4 (split; [solve_zero_gradient|]).
  solve_zero_gradient.
Qed.

(** C4.  In every backward call that returns, the launch received one
    gradient buffer for each primitive array the kernel consumes, and these
    are the tensors the call returns.  Each has the shape and dtype of its
    array and was filled with zeros before the kernel started, so a cell that
    receives no gradient, that is no store of the kernel, is exactly zero
    when the call returns.  And the backward calls do return: each of the
    three does whenever the tensors it checks pass [CHECK_INPUT] and the
    width of the colors is a supported one. *)
Theorem backward_gradients_start_from_zero :
  (∀ means2d conics colors opacities backgrounds masks image_width image_height
     tile_size tile_offsets flatten_ids render_alphas last_ids v_render_colors
     v_render_alphas absgrad s v_means2d_abs v_means2d v_conics v_colors
     v_opacities s',
     (rasterize_to_pixels_3dgs_bwd kernel means2d conics colors opacities
        backgrounds masks image_width image_height tile_size tile_offsets
        flatten_ids render_alphas last_ids v_render_colors v_render_alphas
        absgrad) s =
       (Ok (v_means2d_abs, v_means2d, v_conics, v_colors, v_opacities), s') →
     ∃ N a h, let k := launch_rasterize_to_pixels_3dgs_bwd_kernel N a in
       launched s s' [(k, h)] ∧
       k3b_v_means2d a = v_means2d ∧
       k3b_v_conics a = v_conics ∧
       k3b_v_colors a = v_colors ∧
       k3b_v_opacities a = v_opacities ∧
       zero_gradient_of kernel means2d v_means2d k h (mem s') ∧
       zero_gradient_of kernel conics v_conics k h (mem s') ∧
       zero_gradient_of kernel colors v_colors k h (mem s') ∧
       zero_gradient_of kernel opacities v_opacities k h (mem s')) ∧
  (∀ means2d ray_transforms colors opacities normals densify backgrounds masks
     image_width image_height tile_size tile_offsets flatten_ids render_colors
     render_alphas last_ids median_ids v_render_colors v_render_alphas
     v_render_normals v_render_distort v_render_median absgrad s v_means2d_abs
     v_means2d v_ray_transforms v_colors v_opacities v_normals v_densify s',
     (rasterize_to_pixels_2dgs_bwd kernel means2d ray_transforms colors opacities
        normals densify backgrounds masks image_width image_height tile_size
        tile_offsets flatten_ids render_colors render_alphas last_ids
        median_ids v_render_colors v_render_alphas v_render_normals
        v_render_distort v_render_median absgrad) s =
       (Ok (v_means2d_abs, v_means2d, v_ray_transforms, v_colors, v_opacities, v_normals, v_densify), s') →
     ∃ N a h, let k := launch_rasterize_to_pixels_2dgs_bwd_kernel N a in
       launched s s' [(k, h)] ∧
       k2b_v_means2d a = v_means2d ∧
       k2b_v_ray_transforms a = v_ray_transforms ∧
       k2b_v_colors a = v_colors ∧
       k2b_v_opacities a = v_opacities ∧
       k2b_v_normals a = v_normals ∧
       k2b_v_densify a = v_densify ∧
       zero_gradient_of kernel means2d v_means2d k h (mem s') ∧
       zero_gradient_of kernel ray_transforms v_ray_transforms k h (mem s') ∧
       zero_gradient_of kernel colors v_colors k h (mem s') ∧
       zero_gradient_of kernel opacities v_opacities k h (mem s') ∧
       zero_gradient_of kernel normals v_normals k h (mem s') ∧
       zero_gradient_of kernel densify v_densify k h (mem s')) ∧
  (∀ means quats scales colors opacities backgrounds masks image_width image_height
     tile_size viewmats0 viewmats1 Ks camera_model ut_params rs_type
     radial_coeffs tangential_coeffs thin_prism_coeffs ftheta_coeffs
     tile_offsets flatten_ids render_alphas last_ids v_render_colors
     v_render_alphas s v_means v_quats v_scales v_colors v_opacities s',
     (rasterize_to_pixels_from_world_3dgs_bwd kernel means quats scales colors
        opacities backgrounds masks image_width image_height tile_size
        viewmats0 viewmats1 Ks camera_model ut_params rs_type radial_coeffs
        tangential_coeffs thin_prism_coeffs ftheta_coeffs tile_offsets
        flatten_ids render_alphas last_ids v_render_colors v_render_alphas) s =
       (Ok (v_means, v_quats, v_scales, v_colors, v_opacities), s') →
     ∃ N a h, let k := launch_rasterize_to_pixels_from_world_3dgs_bwd_kernel N a in
       launched s s' [(k, h)] ∧
       kwb_v_means a = v_means ∧
       kwb_v_quats a = v_quats ∧
       kwb_v_scales a = v_scales ∧
       kwb_v_colors a = v_colors ∧
       kwb_v_opacities a = v_opacities ∧
       zero_gradient_of kernel means v_means k h (mem s') ∧
       zero_gradient_of kernel quats v_quats k h (mem s') ∧
       zero_gradient_of kernel scales v_scales k h (mem s') ∧
       zero_gradient_of kernel colors v_colors k h (mem s') ∧
       zero_gradient_of kernel opacities v_opacities k h (mem s')) ∧
  (∀ means2d conics colors opacities backgrounds masks image_width image_height
     tile_size tile_offsets flatten_ids render_alphas last_ids v_render_colors
     v_render_alphas absgrad c s,
     Forall checked
       [means2d; conics; colors; opacities; tile_offsets; flatten_ids; render_alphas; last_ids; v_render_colors; v_render_alphas] →
     checked_opt backgrounds →
     checked_opt masks →
     size colors (-1) = Ok c →
     In (to_uint32 c) supported_channels →
     ∃ out s',
       (rasterize_to_pixels_3dgs_bwd kernel means2d conics colors opacities
          backgrounds masks image_width image_height tile_size tile_offsets
          flatten_ids render_alphas last_ids v_render_colors v_render_alphas
          absgrad) s = (Ok out, s')) ∧
  (∀ means2d ray_transforms colors opacities normals densify backgrounds masks
     image_width image_height tile_size tile_offsets flatten_ids render_colors
     render_alphas last_ids median_ids v_render_colors v_render_alphas
     v_render_normals v_render_distort v_render_median absgrad c s,
     Forall checked
       [means2d; ray_transforms; colors; opacities; normals; densify; tile_offsets; flatten_ids; render_colors; render_alphas; last_ids; median_ids; v_render_colors; v_render_alphas; v_render_normals; v_render_distort; v_render_median] →
     checked_opt backgrounds →
     checked_opt masks →
     size colors (-1) = Ok c →
     In (to_uint32 c) supported_channels →
     ∃ out s',
       (rasterize_to_pixels_2dgs_bwd kernel means2d ray_transforms colors opacities
          normals densify backgrounds masks image_width image_height tile_size
          tile_offsets flatten_ids render_colors render_alphas last_ids
          median_ids v_render_colors v_render_alphas v_render_normals
          v_render_distort v_render_median absgrad) s = (Ok out, s')) ∧
  (∀ means quats scales colors opacities backgrounds masks image_width image_height
     tile_size viewmats0 viewmats1 Ks camera_model ut_params rs_type
     radial_coeffs tangential_coeffs thin_prism_coeffs ftheta_coeffs
     tile_offsets flatten_ids render_alphas last_ids v_render_colors
     v_render_alphas c s,
     Forall checked
       [means; quats; scales; colors; opacities; tile_offsets; flatten_ids; render_alphas; last_ids; v_render_colors; v_render_alphas] →
     checked_opt backgrounds →
     checked_opt masks →
     size colors (-1) = Ok c →
     In (to_uint32 c) supported_channels →
     ∃ out s',
       (rasterize_to_pixels_from_world_3dgs_bwd kernel means quats scales colors
          opacities backgrounds masks image_width image_height tile_size
          viewmats0 viewmats1 Ks camera_model ut_params rs_type radial_coeffs
          tangential_coeffs thin_prism_coeffs ftheta_coeffs tile_offsets
          flatten_ids render_alphas last_ids v_render_colors v_render_alphas) s = (Ok out, s')).
Proof.
  repeat apply conj.
  - intros * Hrun.
    apply rasterize_to_pixels_3dgs_bwd_gradients in Hrun
      as (N & a & h & Hrun).
    exists N, a, h. cbv zeta in *. tauto.
  - intros * Hrun.
    apply rasterize_to_pixels_2dgs_bwd_gradients in Hrun
      as (N & a & h & Hrun).
    exists N, a, h. cbv zeta in *. tauto.
  - intros * Hrun.
    apply rasterize_to_pixels_from_world_3dgs_bwd_gradients in Hrun
      as (N & a & h & Hrun).
    exists N, a, h. cbv zeta in *. tauto.
  - intros * ? ? ? ? Hin. eapply dispatches_returns; [|exact Hin].
    by eapply rasterize_to_pixels_3dgs_bwd_dispatches.
  - intros * ? ? ? ? Hin. eapply dispatches_returns; [|exact Hin].
    by eapply rasterize_to_pixels_2dgs_bwd_dispatches.
  - intros * ? ? ? ? Hin. eapply dispatches_returns; [|exact Hin].
    by eapply rasterize_to_pixels_from_world_3dgs_bwd_dispatches.
Qed.

(** C10.  The first tensor the 3DGS and 2DGS backward calls return is the
    absolute-value gradient of the means.  Without [absgrad] it is the
    undefined tensor: no buffer is allocated for it and the kernel receives
    [nullopt] in its place.  With [absgrad] it is a tensor with the shape and
    dtype of [means2d], filled with zeros before the kernel starts, and the
    kernel receives that tensor. *)
Theorem absgrad_output :
  (∀ means2d conics colors opacities backgrounds masks image_width image_height
     tile_size tile_offsets flatten_ids render_alphas last_ids v_render_colors
     v_render_alphas absgrad s v_means2d_abs v_means2d v_conics v_colors
     v_opacities s',
     (rasterize_to_pixels_3dgs_bwd kernel means2d conics colors opacities
        backgrounds masks image_width image_height tile_size tile_offsets
        flatten_ids render_alphas last_ids v_render_colors v_render_alphas
        absgrad) s =
       (Ok (v_means2d_abs, v_means2d, v_conics, v_colors, v_opacities), s') →
     ∃ N a h, let k := launch_rasterize_to_pixels_3dgs_bwd_kernel N a in
       launched s s' [(k, h)] ∧
       if absgrad then
         ∃ t, v_means2d_abs = DefinedTensor t ∧
              k3b_v_means2d_abs a = Some (DefinedTensor t) ∧
              zero_gradient_of kernel means2d t k h (mem s')
       else
         v_means2d_abs = UndefinedTensor ∧ k3b_v_means2d_abs a = None ∧
         length h = (length (mem s) + 4)%nat) ∧
  (∀ means2d ray_transforms colors opacities normals densify backgrounds masks
     image_width image_height tile_size tile_offsets flatten_ids render_colors
     render_alphas last_ids median_ids v_render_colors v_render_alphas
     v_render_normals v_render_distort v_render_median absgrad s v_means2d_abs
     v_means2d v_ray_transforms v_colors v_opacities v_normals v_densify s',
     (rasterize_to_pixels_2dgs_bwd kernel means2d ray_transforms colors opacities
        normals densify backgrounds masks image_width image_height tile_size
        tile_offsets flatten_ids render_colors render_alphas last_ids
        median_ids v_render_colors v_render_alphas v_render_normals
        v_render_distort v_render_median absgrad) s =
       (Ok (v_means2d_abs, v_means2d, v_ray_transforms, v_colors, v_opacities, v_normals, v_densify), s') →
     ∃ N a h, let k := launch_rasterize_to_pixels_2dgs_bwd_kernel N a in
       launched s s' [(k, h)] ∧
       if absgrad then
         ∃ t, v_means2d_abs = DefinedTensor t ∧
              k2b_v_means2d_abs a = Some (DefinedTensor t) ∧
              zero_gradient_of kernel means2d t k h (mem s')
       else
         v_means2d_abs = UndefinedTensor ∧ k2b_v_means2d_abs a = None ∧
         length h = (length (mem s) + 6)%nat).
Proof.
  repeat apply conj; intros * Hrun.
  - apply rasterize_to_pixels_3dgs_bwd_gradients in Hrun
      as (N & a & h & Hrun).
    exists N, a, h. cbv zeta in *. tauto.
  - apply rasterize_to_pixels_2dgs_bwd_gradients in Hrun
      as (N & a & h & Hrun).
    exists N, a, h. cbv zeta in *. tauto.
Qed.

(** ** The shapes of the forward outputs *)

Lemma length_read_apply_write h w t :
  length (read (apply_write h w) t) = length (read h t).
Proof.
  destruct w as [[b j] v]. unfold read, apply_write.
  rewrite list_lookup_alter.
  destruct (decide (b = storage t)) as [->|Hb]; [|done].
  destruct (h !! storage t) as [buf|]; simpl; [|done].
  apply length_insert.
Qed.

Lemma length_read_apply_writes ws h t :
  length (read (apply_writes ws h) t) = length (read h t).
Proof.
  unfold apply_writes. revert h.
  induction ws as [|w ws IH]; intros h; [done|].
  simpl. rewrite IH. apply length_read_apply_write.
Qed.

(** A tensor of rank two or more ends in two dimensions; for
    [tile_offsets] these are the numbers of tile rows and tile columns. *)
Lemma sizes_split_last_two t :
  0 ≤ dim t - 2 ≤ Z.of_nat (length (sizes t)) →
  ∃ y x, sizes t = take (Z.to_nat (dim t - 2)) (sizes t) ++ [y; x].
Proof.
  unfold dim. intros Hd.
  set (n := Z.to_nat (Z.of_nat (length (sizes t)) - 2)).
  assert (Hl : length (drop n (sizes t)) = 2%nat)
    by (rewrite length_drop; lia).
  destruct (drop n (sizes t)) as [|y [|x [|? ?]]] eqn:Hdrop; simplify_eq/=.
  exists y, x. rewrite <- Hdrop. by rewrite take_drop.
Qed.

Ltac solve_output_length :=
  rewrite length_read_apply_writes; unfold read; simpl; heap_lookup; simpl;
  apply length_replicate.

Lemma rasterize_to_pixels_3dgs_fwd_shapes
    means2d conics colors opacities backgrounds masks image_width image_height
    tile_size tile_offsets flatten_ids s renders alphas last_ids s' :
  (rasterize_to_pixels_3dgs_fwd kernel means2d conics colors opacities
     backgrounds masks image_width image_height tile_size tile_offsets
     flatten_ids) s =
    (Ok (renders, alphas, last_ids), s') →
  ∃ image_dims tile_height tile_width colors_width channels,
    sizes tile_offsets = image_dims ++ [tile_height; tile_width] ∧
    size colors (-1) = Ok colors_width ∧
    channels = to_uint32 colors_width ∧
    In channels supported_channels ∧
    sizes renders = image_dims ++ [image_height; image_width; channels] ∧ dtype renders = dtype means2d ∧
    length (read (mem s') renders) = Z.to_nat (shape_numel (sizes renders)) ∧
    sizes alphas = image_dims ++ [image_height; image_width; 1] ∧ dtype alphas = dtype means2d ∧
    length (read (mem s') alphas) = Z.to_nat (shape_numel (sizes alphas)) ∧
    sizes last_ids = image_dims ++ [image_height; image_width] ∧ dtype last_ids = kInt ∧
    length (read (mem s') last_ids) = Z.to_nat (shape_numel (sizes last_ids)).
Proof.
  intros Hrun. wp_of_ok Hrun. unfold rasterize_to_pixels_3dgs_fwd.
  wp_run ltac:(done).
  intros [= <- <- <-].
  match goal with
  | H : 0 ≤ dim tile_offsets - 2 ≤ _ |- _ =>
      destruct (sizes_split_last_two _ H) as (th & tw & Hsizes)
  end.
  eexists _, th, tw, _, _. split; [exact Hsizes|].
  split; [eassumption|]. split; [reflexivity|]. split; [assumption|].
  simpl.
  repeat (first [split | reflexivity | solve_output_length]).
Qed.

Lemma rasterize_to_pixels_2dgs_fwd_shapes
    means2d ray_transforms colors opacities normals backgrounds masks
    image_width image_height tile_size tile_offsets flatten_ids s renders
    alphas render_normals render_distort render_median last_ids median_ids s' :
  (rasterize_to_pixels_2dgs_fwd kernel means2d ray_transforms colors opacities
     normals backgrounds masks image_width image_height tile_size tile_offsets
     flatten_ids) s =
    (Ok (renders, alphas, render_normals, render_distort, render_median, last_ids, median_ids), s') →
  ∃ image_dims tile_height tile_width colors_width channels,
    sizes tile_offsets = image_dims ++ [tile_height; tile_width] ∧
    size colors (-1) = Ok colors_width ∧
    channels = to_uint32 colors_width ∧
    In channels supported_channels ∧
    sizes renders = image_dims ++ [image_height; image_width; channels] ∧ dtype renders = dtype means2d ∧
    length (read (mem s') renders) = Z.to_nat (shape_numel (sizes renders)) ∧
    sizes alphas = image_dims ++ [image_height; image_width; 1] ∧ dtype alphas = dtype means2d ∧
    length (read (mem s') alphas) = Z.to_nat (shape_numel (sizes alphas)) ∧
    sizes render_normals = image_dims ++ [image_height; image_width; 3] ∧ dtype render_normals = dtype means2d ∧
    length (read (mem s') render_normals) = Z.to_nat (shape_numel (sizes render_normals)) ∧
    sizes render_distort = image_dims ++ [image_height; image_width; 1] ∧ dtype render_distort = dtype means2d ∧
    length (read (mem s') render_distort) = Z.to_nat (shape_numel (sizes render_distort)) ∧
    sizes render_median = image_dims ++ [image_height; image_width; 1] ∧ dtype render_median = dtype means2d ∧
    length (read (mem s') render_median) = Z.to_nat (shape_numel (sizes render_median)) ∧
    sizes last_ids = image_dims ++ [image_height; image_width] ∧ dtype last_ids = kInt ∧
    length (read (mem s') last_ids) = Z.to_nat (shape_numel (sizes last_ids)) ∧
    sizes median_ids = image_dims ++ [image_height; image_width] ∧ dtype median_ids = kInt ∧
    length (read (mem s') median_ids) = Z.to_nat (shape_numel (sizes median_ids)).
Proof.
  intros Hrun. wp_of_ok Hrun. unfold rasterize_to_pixels_2dgs_fwd.
  wp_run ltac:(done).
  intros [= <- <- <- <- <- <- <-].
  match goal with
  | H : 0 ≤ dim tile_offsets - 2 ≤ _ |- _ =>
      destruct (sizes_split_last_two _ H) as (th & tw & Hsizes)
  end.
  eexists _, th, tw, _, _. split; [exact Hsizes|].
  split; [eassumption|]. split; [reflexivity|]. split; [assumption|].
  simpl.
  repeat (first [split | reflexivity | solve_output_length]).
Qed.

(** C7.  A forward call that returns has outputs of the advertised shapes.
    With [...] the leading dimensions of [tile_offsets], [H] and [W] the image
    height and width and [channels] the dispatched width, the 3DGS call
    returns colors [..., H, W, channels], alphas [..., H, W, 1] and an [int]
    map of last indices [..., H, W]; the 2DGS call also returns normals
    [..., H, W, 3], distortions [..., H, W, 1], median depths [..., H, W, 1]
    and an [int] map of median indices [..., H, W].  Each buffer has as many
    cells as its shape says.  And the forward calls do return: each of the
    two does whenever the tensors it checks pass [CHECK_INPUT],
    [tile_offsets] has two dimensions or more, none of them negative, and the
    width of the colors is a supported one. *)
Theorem forward_output_shapes :
  (∀ means2d conics colors opacities backgrounds masks image_width image_height
     tile_size tile_offsets flatten_ids s renders alphas last_ids s',
     (rasterize_to_pixels_3dgs_fwd kernel means2d conics colors opacities
        backgrounds masks image_width image_height tile_size tile_offsets
        flatten_ids) s =
       (Ok (renders, alphas, last_ids), s') →
     ∃ image_dims tile_height tile_width colors_width channels,
       sizes tile_offsets = image_dims ++ [tile_height; tile_width] ∧
       size colors (-1) = Ok colors_width ∧
       channels = to_uint32 colors_width ∧
       In channels supported_channels ∧
       sizes renders = image_dims ++ [image_height; image_width; channels] ∧ dtype renders = dtype means2d ∧
       length (read (mem s') renders) = Z.to_nat (shape_numel (sizes renders)) ∧
       sizes alphas = image_dims ++ [image_height; image_width; 1] ∧ dtype alphas = dtype means2d ∧
       length (read (mem s') alphas) = Z.to_nat (shape_numel (sizes alphas)) ∧
       sizes last_ids = image_dims ++ [image_height; image_width] ∧ dtype last_ids = kInt ∧
       length (read (mem s') last_ids) = Z.to_nat (shape_numel (sizes last_ids))) ∧
  (∀ means2d ray_transforms colors opacities normals backgrounds masks image_width
     image_height tile_size tile_offsets flatten_ids s renders alphas
     render_normals render_distort render_median last_ids median_ids s',
     (rasterize_to_pixels_2dgs_fwd kernel means2d ray_transforms colors opacities
        normals backgrounds masks image_width image_height tile_size
        tile_offsets flatten_ids) s =
       (Ok (renders, alphas, render_normals, render_distort, render_median, last_ids, median_ids), s') →
     ∃ image_dims tile_height tile_width colors_width channels,
       sizes tile_offsets = image_dims ++ [tile_height; tile_width] ∧
       size colors (-1) = Ok colors_width ∧
       channels = to_uint32 colors_width ∧
       In channels supported_channels ∧
       sizes renders = image_dims ++ [image_height; image_width; channels] ∧ dtype renders = dtype means2d ∧
       length (read (mem s') renders) = Z.to_nat (shape_numel (sizes renders)) ∧
       sizes alphas = image_dims ++ [image_height; image_width; 1] ∧ dtype alphas = dtype means2d ∧
       length (read (mem s') alphas) = Z.to_nat (shape_numel (sizes alphas)) ∧
       sizes render_normals = image_dims ++ [image_height; image_width; 3] ∧ dtype render_normals = dtype means2d ∧
       length (read (mem s') render_normals) = Z.to_nat (shape_numel (sizes render_normals)) ∧
       sizes render_distort = image_dims ++ [image_height; image_width; 1] ∧ dtype render_distort = dtype means2d ∧
       length (read (mem s') render_distort) = Z.to_nat (shape_numel (sizes render_distort)) ∧
       sizes render_median = image_dims ++ [image_height; image_width; 1] ∧ dtype render_median = dtype means2d ∧
       length (read (mem s') render_median) = Z.to_nat (shape_numel (sizes render_median)) ∧
       sizes last_ids = image_dims ++ [image_height; image_width] ∧ dtype last_ids = kInt ∧
       length (read (mem s') last_ids) = Z.to_nat (shape_numel (sizes last_ids)) ∧
       sizes median_ids = image_dims ++ [image_height; image_width] ∧ dtype median_ids = kInt ∧
       length (read (mem s') median_ids) = Z.to_nat (shape_numel (sizes median_ids))) ∧
  (∀ means2d conics colors opacities backgrounds masks image_width image_height
     tile_size tile_offsets flatten_ids c s,
     Forall checked
       [means2d; conics; colors; opacities; tile_offsets; flatten_ids] →
     checked_opt backgrounds →
     checked_opt masks →
     2 ≤ dim tile_offsets →
     shape_ok tile_offsets →
     0 ≤ image_height →
     0 ≤ image_width →
     size colors (-1) = Ok c →
     In (to_uint32 c) supported_channels →
     ∃ out s',
       (rasterize_to_pixels_3dgs_fwd kernel means2d conics colors opacities
          backgrounds masks image_width image_height tile_size tile_offsets
          flatten_ids) s = (Ok out, s')) ∧
  (∀ means2d ray_transforms colors opacities normals backgrounds masks image_width
     image_height tile_size tile_offsets flatten_ids c s,
     Forall checked
       [means2d; ray_transforms; colors; opacities; normals; tile_offsets; flatten_ids] →
     checked_opt backgrounds →
     checked_opt masks →
     2 ≤ dim tile_offsets →
     shape_ok tile_offsets →
     0 ≤ image_height →
     0 ≤ image_width →
     size colors (-1) = Ok c →
     In (to_uint32 c) supported_channels →
     ∃ out s',
       (rasterize_to_pixels_2dgs_fwd kernel means2d ray_transforms colors opacities
          normals backgrounds masks image_width image_height tile_size
          tile_offsets flatten_ids) s = (Ok out, s')).
Proof.
  repeat apply conj.
  - intros *. apply rasterize_to_pixels_3dgs_fwd_shapes.
  - intros *. apply rasterize_to_pixels_2dgs_fwd_shapes.
  - intros * ? ? ? ? ? ? ? ? Hin. eapply dispatches_returns; [|exact Hin].
    by eapply rasterize_to_pixels_3dgs_fwd_dispatches.
  - intros * ? ? ? ? ? ? ? ? Hin. eapply dispatches_returns; [|exact Hin].
    by eapply rasterize_to_pixels_2dgs_fwd_dispatches.
Qed.

(** ** The two passes of the index extraction *)

Lemma length_apply_writes ws (h : heap) :
  length (apply_writes ws h) = length h.
Proof.
  unfold apply_writes. revert h.
  induction ws as [|[[b j] v] ws IH]; intros h; [done|].
  simpl. rewrite IH. apply length_alter.
Qed.

Lemma read_snoc_here (h : heap) b t :
  storage t = length h → read (h ++ [b]) t = b.
Proof. intros Ht. unfold read. by rewrite Ht, lookup_snoc_here. Qed.

Lemma read_snoc_before (h : heap) b t :
  (storage t < length h)%nat → read (h ++ [b]) t = read h t.
Proof. intros Ht. unfold read. by rewrite lookup_app_l. Qed.

Lemma read_apply_writes_other ws h t :
  (∀ w, w ∈ ws → w.1.1 ≠ storage t) →
  read (apply_writes ws h) t = read h t.
Proof.
  unfold apply_writes. revert h.
  induction ws as [|[[b j] v] ws IH]; intros h Hws; [done|].
  simpl. rewrite IH.
  - unfold read. simpl. rewrite list_lookup_alter_ne; [done|].
    apply (Hws (b, j, v)). by left.
  - intros w Hw. apply Hws. by right.
Qed.

Lemma initialised_fmap (buf : buffer) :
  Forall is_Some buf → ∃ l, buf = Some <$> l.
Proof.
  induction 1 as [|c buf [v ->] _ [l ->]].
  - by exists [].
  - by exists (v :: l).
Qed.

(** Stores keep a buffer initialised. *)
Lemma read_apply_writes_initialised ws h t :
  Forall is_Some (read h t) →
  ∃ l, read (apply_writes ws h) t = Some <$> l ∧
       length l = length (read h t).
Proof.
  intros Hinit.
  assert (Forall is_Some (read (apply_writes ws h) t)) as Hinit'.
  { unfold apply_writes. revert h Hinit.
    induction ws as [|[[b j] v] ws IH]; intros h Hinit; [done|].
    simpl. apply IH. unfold read, apply_write.
    rewrite list_lookup_alter.
    destruct (decide (b = storage t)) as [->|Hb]; [|done].
    unfold read in Hinit.
    destruct (h !! storage t) as [buf|]; simpl in *; [|done].
    apply Forall_insert; [done|by eexists]. }
  destruct (initialised_fmap _ Hinit') as [l Hl].
  exists l. split; [done|].
  rewrite <- (length_read_apply_writes ws h t), Hl. by rewrite length_fmap.
Qed.

(** *** Arithmetic of the [int32] prefix sums *)


Lemma to_int32_add_l a b : to_int32 (to_int32 a + b) = to_int32 (a + b).
Proof.
  unfold to_int32. f_equal.
  replace ((a + 2 ^ 31) `mod` 2 ^ 32 - 2 ^ 31 + b + 2 ^ 31)
    with ((a + 2 ^ 31) `mod` 2 ^ 32 + b) by lia.
  rewrite Zplus_mod_idemp_l. f_equal. lia.
Qed.


Lemma to_int32_idemp a : to_int32 (to_int32 a) = to_int32 a.
Proof.
  pose proof (to_int32_add_l a 0) as H. by rewrite !Z.add_0_r in H.
Qed.

(** The running sums and their last element, computed in [int32]. *)
Lemma last_cumsum_from (acc : Z) (counts : list Z) a :
  counts ≠ [] → to_int32 a = to_int32 acc →
  last (cumsum_from (Some a) (Some <$> counts))
  = Some (Some (to_int32 (acc + total counts))).
Proof.
  revert acc a. induction counts as [|c counts IH]; intros acc a Hne Ha; [done|].
  simpl. destruct counts as [|c' counts'].
  - simpl. do 2 f_equal. rewrite <- to_int32_add_l, Ha, to_int32_add_l.
    f_equal. unfold total. simpl. lia.
  - change (total (c :: c' :: counts')) with (c + total (c' :: counts')).
    rewrite Z.add_assoc.
    rewrite <- (IH (acc + c) (to_int32 (a + c))); [done|done|].
    rewrite to_int32_idemp.
    by rewrite <- to_int32_add_l, Ha, to_int32_add_l.
Qed.




(** Name the pieces of the state after the counting pass. *)
Ltac name_indices_state s :=
  cbn [mem launches] in *;
  try (let n := fresh "n_pixels" in
       set (n := to_uint32 (to_uint32 (_ * _) * _)) in * );
  try (let h1 := fresh "h1" in
       set (h1 := mem s ++ [replicate _ (Some 0)]) in *;
       let cnts := fresh "chunk_cnts" in
       match goal with
       | H : context [Some {| storage := length (mem s); sizes := ?sz;
                              dtype := ?d; is_cuda := ?c;
                              is_contiguous := ?g |}] |- _ =>
           set (cnts := {| storage := length (mem s); sizes := sz;
                           dtype := d; is_cuda := c;
                           is_contiguous := g |}) in *
       | |- context [Some {| storage := length (mem s); sizes := ?sz;
                              dtype := ?d; is_cuda := ?c;
                              is_contiguous := ?g |}] =>
           set (cnts := {| storage := length (mem s); sizes := sz;
                           dtype := d; is_cuda := c;
                           is_contiguous := g |}) in *
       end;
       let k1 := fresh "k1" in
       match goal with
       | H : context [kernel ?k h1] |- _ => set (k1 := k) in *
       | |- context [kernel ?k h1] => set (k1 := k) in *
       end;
       let h1' := fresh "h1'" in
       set (h1' := apply_writes _ h1) in * ).


Lemma size_0_of_sizes t n : sizes t = [n] → size t 0 = Ok n.
Proof. intros Ht. unfold size, dim. rewrite Ht. reflexivity. Qed.

Lemma shape_numel_1 n : shape_numel [n] = n.
Proof. unfold shape_numel. simpl. lia. Qed.




Ltac heap_lengths :=
  repeat match goal with x := _ |- _ => subst x end;
  simpl;
  repeat first [rewrite length_app | rewrite length_apply_writes];
  simpl; lia.


Ltac solve_ids_length :=
  rewrite ?length_read_apply_writes; unfold read; simpl; heap_lookup; simpl;
  rewrite ?length_replicate; unfold shape_numel; simpl; lia.

Ltac flatten_ids_empty :=
  match goal with
  | Hs : sizes ?t = [0], H1 : size ?t 0 = Ok ?n, H2 : negb (to_uint32 ?n =? 0) = true
    |- _ =>
      rewrite (size_0_of_sizes _ _ Hs) in H1; injection H1 as <-;
      discriminate H2
  end.

Ltac absurd_dims :=
  match goal with
  | H : ¬ Forall (Z.le 0) _ |- _ =>
      exfalso; apply H; repeat apply Forall_cons_2; try apply Forall_nil_2;
      first [assumption | lia | apply to_uint32_range]
  end.

Lemma rasterize_to_indices_3dgs_lengths
    range_start range_end transmittances means2d conics opacities
    image_width image_height tile_size tile_offsets flatten_ids
    s gaussian_ids pixel_ids s' :
  rasterize_to_indices_3dgs kernel range_start range_end transmittances
    means2d conics opacities image_width image_height tile_size
    tile_offsets flatten_ids s = (Ok (gaussian_ids, pixel_ids), s') →
  dtype gaussian_ids = kLong ∧ dtype pixel_ids = kLong ∧
  ∃ n_elems ks,
    0 ≤ n_elems ∧
    sizes gaussian_ids = [n_elems] ∧ sizes pixel_ids = [n_elems] ∧
    length (read (mem s') gaussian_ids) = Z.to_nat n_elems ∧
    length (read (mem s') pixel_ids) = Z.to_nat n_elems ∧
    launched s s' ks ∧
    (sizes flatten_ids = [0] → n_elems = 0 ∧ ks = []) ∧
    (n_elems = 0 →
     ∀ k h, (k, h) ∈ ks →
       ∃ a, k = launch_rasterize_to_indices_3dgs_kernel a ∧
            k3i_gaussian_ids a = None ∧ k3i_pixel_ids a = None).
Proof.
  intros Hrun. wp_of_ok Hrun. unfold rasterize_to_indices_3dgs.
  wp_run ltac:(done).
  - (* both passes *)
    intros [= <- <-]. split; [reflexivity|]. split; [reflexivity|].
    match goal with H : Forall (Z.le 0) [_] |- _ => inversion H; subst end.
    eexists _, [_; _]. split; [eassumption|].
    split; [reflexivity|]. split; [reflexivity|].
    split; [solve_ids_length|]. split; [solve_ids_length|].
    split; [unfold launched; simpl; by rewrite <- app_assoc|].
    split; [intros; flatten_ids_empty|].
    intros ->. discriminate.
  - (* the counts add up to zero *)
    intros [= <- <-]. split; [reflexivity|]. split; [reflexivity|].
    match goal with H : Forall (Z.le 0) [_] |- _ => inversion H; subst end.
    eexists _, [_]. split; [eassumption|].
    split; [reflexivity|]. split; [reflexivity|].
    split; [solve_ids_length|]. split; [solve_ids_length|].
    split; [reflexivity|].
    split; [intros; flatten_ids_empty|].
    intros _ k h [= -> ->]%list_elem_of_singleton. by eexists.
  - (* no intersection *)
    intros [= <- <-]. split; [reflexivity|]. split; [reflexivity|].
    exists 0, []. split; [done|].
    split; [reflexivity|]. split; [reflexivity|].
    split; [solve_ids_length|]. split; [solve_ids_length|].
    split; [unfold launched; simpl; by rewrite app_nil_r|].
    split; [done|].
    intros _ k h Hin. by apply elem_of_nil in Hin.
Qed.

(** A call with an empty intersection list returns, provided its tensors
    pass the checks and the divisor [2 * N] is not zero. *)
Lemma rasterize_to_indices_3dgs_early_exit
    range_start range_end transmittances means2d conics opacities
    image_width image_height tile_size tile_offsets flatten_ids n s r s' :
  Forall checked [means2d; conics; opacities; tile_offsets; flatten_ids] →
  size means2d (-2) = Ok n → to_uint32 (2 * to_uint32 n) ≠ 0 →
  sizes flatten_ids = [0] →
  rasterize_to_indices_3dgs kernel range_start range_end transmittances
    means2d conics opacities image_width image_height tile_size
    tile_offsets flatten_ids s = (r, s') →
  returns r ∧ launched s s' [].
Proof.
  intros Hchecked Hn Hdiv Hflat Hrun. split_checked.
  pose proof (size_0_of_sizes _ _ Hflat) as Hsize.
  wp_of Hrun. unfold rasterize_to_indices_3dgs.
  wp_run ltac:(first [absurd_branch | exfalso; flatten_ids_empty
                      | absurd_dims]).
  split; [exact I|]. unfold launched. simpl. by rewrite app_nil_r.
Qed.

Ltac solve_no_launch :=
  exists []; split; [unfold launched; simpl; by rewrite app_nil_r|by left].

Ltac solve_one_launch :=
  eexists [_]; split; [reflexivity|]; right; left;
  eexists _, _; split; [reflexivity|]; eexists; split; reflexivity.

Lemma rasterize_to_indices_3dgs_passes
    range_start range_end transmittances means2d conics opacities
    image_width image_height tile_size tile_offsets flatten_ids s r s' :
  rasterize_to_indices_3dgs kernel range_start range_end transmittances
    means2d conics opacities image_width image_height tile_size
    tile_offsets flatten_ids s = (r, s') →
  let inputs :=
    (range_start, range_end, transmittances, means2d, conics, opacities,
     image_width, image_height, tile_size, tile_offsets, flatten_ids) in
  ∃ ks, launched s s' ks ∧
    (ks = [] ∨
     (∃ a1 h1, ks = [(launch_rasterize_to_indices_3dgs_kernel a1, h1)] ∧
        ∃ chunk_cnts,
          inputs_3dgs_indices a1 = inputs ∧
          outputs_3dgs_indices a1 = (None, Some chunk_cnts, None, None)) ∨
     (∃ a1 h1 a2 h2,
        ks = [(launch_rasterize_to_indices_3dgs_kernel a1, h1);
              (launch_rasterize_to_indices_3dgs_kernel a2, h2)] ∧
        returns r ∧
        inputs_3dgs_indices a1 = inputs ∧
        inputs_3dgs_indices a2 = inputs_3dgs_indices a1 ∧
        (∃ chunk_cnts,
           outputs_3dgs_indices a1 = (None, Some chunk_cnts, None, None)) ∧
        (∃ chunk_starts gaussian_ids pixel_ids,
           outputs_3dgs_indices a2
           = (Some (DefinedTensor chunk_starts), None,
              Some gaussian_ids, Some pixel_ids)) ∧
        ∀ t, (storage t < length (mem s))%nat →
          (∀ w, w ∈ kernel (launch_rasterize_to_indices_3dgs_kernel a1) h1 →
             w.1.1 ≠ storage t) →
          read h2 t = read h1 t)).
Proof.
  intros Hrun. cbv zeta. wp_of Hrun. unfold rasterize_to_indices_3dgs.
  wp_run ltac:(first [solve_no_launch | solve_one_launch]).
  eexists [_; _]. split; [unfold launched; simpl; by rewrite <- app_assoc|].
  right; right. eexists _, _, _, _. split; [reflexivity|].
  split; [exact I|]. split; [reflexivity|]. split; [reflexivity|].
  split; [by eexists|]. split; [by eexists _, _, _|].
  intros t Ht Hw.
  rewrite !read_snoc_before
    by (repeat first [rewrite length_app | rewrite length_apply_writes];
        simpl; lia).
  rewrite read_apply_writes_other by exact Hw.
  by rewrite read_snoc_before.
Qed.


Lemma rasterize_to_indices_2dgs_lengths
    range_start range_end transmittances means2d ray_transforms opacities
    image_width image_height tile_size tile_offsets flatten_ids
    s gaussian_ids pixel_ids s' :
  rasterize_to_indices_2dgs kernel range_start range_end transmittances
    means2d ray_transforms opacities image_width image_height tile_size
    tile_offsets flatten_ids s = (Ok (gaussian_ids, pixel_ids), s') →
  dtype gaussian_ids = kLong ∧ dtype pixel_ids = kLong ∧
  ∃ n_elems ks,
    0 ≤ n_elems ∧
    sizes gaussian_ids = [n_elems] ∧ sizes pixel_ids = [n_elems] ∧
    length (read (mem s') gaussian_ids) = Z.to_nat n_elems ∧
    length (read (mem s') pixel_ids) = Z.to_nat n_elems ∧
    launched s s' ks ∧
    (sizes flatten_ids = [0] → n_elems = 0 ∧ ks = []) ∧
    (n_elems = 0 →
     ∀ k h, (k, h) ∈ ks →
       ∃ a, k = launch_rasterize_to_indices_2dgs_kernel a ∧
            k2i_gaussian_ids a = None ∧ k2i_pixel_ids a = None).
Proof.
  intros Hrun. wp_of_ok Hrun. unfold rasterize_to_indices_2dgs.
  wp_run ltac:(done).
  - (* both passes *)
    intros [= <- <-]. split; [reflexivity|]. split; [reflexivity|].
    match goal with H : Forall (Z.le 0) [_] |- _ => inversion H; subst end.
    eexists _, [_; _]. split; [eassumption|].
    split; [reflexivity|]. split; [reflexivity|].
    split; [solve_ids_length|]. split; [solve_ids_length|].
    split; [unfold launched; simpl; by rewrite <- app_assoc|].
    split; [intros; flatten_ids_empty|].
    intros ->. discriminate.
  - (* the counts add up to zero *)
    intros [= <- <-]. split; [reflexivity|]. split; [reflexivity|].
    match goal with H : Forall (Z.le 0) [_] |- _ => inversion H; subst end.
    eexists _, [_]. split; [eassumption|].
    split; [reflexivity|]. split; [reflexivity|].
    split; [solve_ids_length|]. split; [solve_ids_length|].
    split; [reflexivity|].
    split; [intros; flatten_ids_empty|].
    intros _ k h [= -> ->]%list_elem_of_singleton. by eexists.
  - (* no intersection *)
    intros [= <- <-]. split; [reflexivity|]. split; [reflexivity|].
    exists 0, []. split; [done|].
    split; [reflexivity|]. split; [reflexivity|].
    split; [solve_ids_length|]. split; [solve_ids_length|].
    split; [unfold launched; simpl; by rewrite app_nil_r|].
    split; [done|].
    intros _ k h Hin. by apply elem_of_nil in Hin.
Qed.

(** A call with an empty intersection list returns, provided its tensors
    pass the checks and the divisor [2 * N] is not zero. *)
Lemma rasterize_to_indices_2dgs_early_exit
    range_start range_end transmittances means2d ray_transforms opacities
    image_width image_height tile_size tile_offsets flatten_ids n s r s' :
  Forall checked [means2d; ray_transforms; opacities; tile_offsets; flatten_ids] →
  size means2d (-2) = Ok n → to_uint32 (2 * to_uint32 n) ≠ 0 →
  sizes flatten_ids = [0] →
  rasterize_to_indices_2dgs kernel range_start range_end transmittances
    means2d ray_transforms opacities image_width image_height tile_size
    tile_offsets flatten_ids s = (r, s') →
  returns r ∧ launched s s' [].
Proof.
  intros Hchecked Hn Hdiv Hflat Hrun. split_checked.
  pose proof (size_0_of_sizes _ _ Hflat) as Hsize.
  wp_of Hrun. unfold rasterize_to_indices_2dgs.
  wp_run ltac:(first [absurd_branch | exfalso; flatten_ids_empty
                      | absurd_dims]).
  split; [exact I|]. unfold launched. simpl. by rewrite app_nil_r.
Qed.

Lemma rasterize_to_indices_2dgs_passes
    range_start range_end transmittances means2d ray_transforms opacities
    image_width image_height tile_size tile_offsets flatten_ids s r s' :
  rasterize_to_indices_2dgs kernel range_start range_end transmittances
    means2d ray_transforms opacities image_width image_height tile_size
    tile_offsets flatten_ids s = (r, s') →
  let inputs :=
    (range_start, range_end, transmittances, means2d, ray_transforms, opacities,
     image_width, image_height, tile_size, tile_offsets, flatten_ids) in
  ∃ ks, launched s s' ks ∧
    (ks = [] ∨
     (∃ a1 h1, ks = [(launch_rasterize_to_indices_2dgs_kernel a1, h1)] ∧
        ∃ chunk_cnts,
          inputs_2dgs_indices a1 = inputs ∧
          outputs_2dgs_indices a1 = (None, Some chunk_cnts, None, None)) ∨
     (∃ a1 h1 a2 h2,
        ks = [(launch_rasterize_to_indices_2dgs_kernel a1, h1);
              (launch_rasterize_to_indices_2dgs_kernel a2, h2)] ∧
        returns r ∧
        inputs_2dgs_indices a1 = inputs ∧
        inputs_2dgs_indices a2 = inputs_2dgs_indices a1 ∧
        (∃ chunk_cnts,
           outputs_2dgs_indices a1 = (None, Some chunk_cnts, None, None)) ∧
        (∃ chunk_starts gaussian_ids pixel_ids,
           outputs_2dgs_indices a2
           = (Some (DefinedTensor chunk_starts), None,
              Some gaussian_ids, Some pixel_ids)) ∧
        ∀ t, (storage t < length (mem s))%nat →
          (∀ w, w ∈ kernel (launch_rasterize_to_indices_2dgs_kernel a1) h1 →
             w.1.1 ≠ storage t) →
          read h2 t = read h1 t)).
Proof.
  intros Hrun. cbv zeta. wp_of Hrun. unfold rasterize_to_indices_2dgs.
  wp_run ltac:(first [solve_no_launch | solve_one_launch]).
  eexists [_; _]. split; [unfold launched; simpl; by rewrite <- app_assoc|].
  right; right. eexists _, _, _, _. split; [reflexivity|].
  split; [exact I|]. split; [reflexivity|]. split; [reflexivity|].
  split; [by eexists|]. split; [by eexists _, _, _|].
  intros t Ht Hw.
  rewrite !read_snoc_before
    by (repeat first [rewrite length_app | rewrite length_apply_writes];
        simpl; lia).
  rewrite read_apply_writes_other by exact Hw.
  by rewrite read_snoc_before.
Qed.


(** X12.  The two arrays a call of the index extraction returns are
    [int64] arrays of one length, and their buffers have that many cells.
    When [flatten_ids] is empty that length is zero and no kernel is
    launched; when the counts add up to zero no launch receives the id
    buffers, so the compaction pass does not run.  A call with an empty
    [flatten_ids] does return when its tensors pass the checks and the
    divisor [2 * N] is not zero. *)
Theorem index_outputs_have_equal_length :
  (∀ range_start range_end transmittances means2d conics opacities
     image_width image_height tile_size tile_offsets flatten_ids s
     gaussian_ids pixel_ids s',
     rasterize_to_indices_3dgs kernel range_start range_end transmittances
       means2d conics opacities image_width image_height tile_size
       tile_offsets flatten_ids s = (Ok (gaussian_ids, pixel_ids), s') →
     dtype gaussian_ids = kLong ∧ dtype pixel_ids = kLong ∧
     ∃ n_elems ks,
       0 ≤ n_elems ∧
       sizes gaussian_ids = [n_elems] ∧ sizes pixel_ids = [n_elems] ∧
       length (read (mem s') gaussian_ids) = Z.to_nat n_elems ∧
       length (read (mem s') pixel_ids) = Z.to_nat n_elems ∧
       launched s s' ks ∧
       (sizes flatten_ids = [0] → n_elems = 0 ∧ ks = []) ∧
       (n_elems = 0 →
        ∀ k h, (k, h) ∈ ks →
          ∃ a, k = launch_rasterize_to_indices_3dgs_kernel a ∧
               k3i_gaussian_ids a = None ∧ k3i_pixel_ids a = None)) ∧
  (∀ range_start range_end transmittances means2d conics opacities
     image_width image_height tile_size tile_offsets flatten_ids n s r s',
     Forall checked [means2d; conics; opacities; tile_offsets; flatten_ids] →
     size means2d (-2) = Ok n → to_uint32 (2 * to_uint32 n) ≠ 0 →
     sizes flatten_ids = [0] →
     rasterize_to_indices_3dgs kernel range_start range_end transmittances
       means2d conics opacities image_width image_height tile_size
       tile_offsets flatten_ids s = (r, s') →
     returns r ∧ launched s s' []) ∧
  (∀ range_start range_end transmittances means2d ray_transforms opacities
     image_width image_height tile_size tile_offsets flatten_ids s
     gaussian_ids pixel_ids s',
     rasterize_to_indices_2dgs kernel range_start range_end transmittances
       means2d ray_transforms opacities image_width image_height tile_size
       tile_offsets flatten_ids s = (Ok (gaussian_ids, pixel_ids), s') →
     dtype gaussian_ids = kLong ∧ dtype pixel_ids = kLong ∧
     ∃ n_elems ks,
       0 ≤ n_elems ∧
       sizes gaussian_ids = [n_elems] ∧ sizes pixel_ids = [n_elems] ∧
       length (read (mem s') gaussian_ids) = Z.to_nat n_elems ∧
       length (read (mem s') pixel_ids) = Z.to_nat n_elems ∧
       launched s s' ks ∧
       (sizes flatten_ids = [0] → n_elems = 0 ∧ ks = []) ∧
       (n_elems = 0 →
        ∀ k h, (k, h) ∈ ks →
          ∃ a, k = launch_rasterize_to_indices_2dgs_kernel a ∧
               k2i_gaussian_ids a = None ∧ k2i_pixel_ids a = None)) ∧
  (∀ range_start range_end transmittances means2d ray_transforms opacities
     image_width image_height tile_size tile_offsets flatten_ids n s r s',
     Forall checked [means2d; ray_transforms; opacities; tile_offsets; flatten_ids] →
     size means2d (-2) = Ok n → to_uint32 (2 * to_uint32 n) ≠ 0 →
     sizes flatten_ids = [0] →
     rasterize_to_indices_2dgs kernel range_start range_end transmittances
       means2d ray_transforms opacities image_width image_height tile_size
       tile_offsets flatten_ids s = (r, s') →
     returns r ∧ launched s s' []).
Proof.
  repeat apply conj; intros *.
  - apply rasterize_to_indices_3dgs_lengths.
  - apply rasterize_to_indices_3dgs_early_exit.
  - apply rasterize_to_indices_2dgs_lengths.
  - apply rasterize_to_indices_2dgs_early_exit.
Qed.

(** ** Masked tiles *)

Lemma apply_writes_snoc ws w (h : heap) :
  apply_writes (ws ++ [w]) h = apply_write (apply_writes ws h) w.
Proof. unfold apply_writes. by rewrite foldl_app. Qed.

(** A cell that some store of a kernel targets, all such stores agreeing on
    the value, holds that value afterwards. *)
Lemma read_apply_writes_written ws h t i v :
  (i < length (read h t))%nat →
  (∃ w, In w ws ∧ w.1.1 = storage t ∧ w.1.2 = i) →
  (∀ w, In w ws → w.1.1 = storage t → w.1.2 = i → w.2 = v) →
  read (apply_writes ws h) t !! i = Some (Some v).
Proof.
  intros Hi. induction ws as [|w ws IH] using rev_ind.
  - intros (w & [] & _).
  - intros (w0 & Hin & Hw0) Hall. rewrite apply_writes_snoc.
    destruct (decide (w.1.1 = storage t ∧ w.1.2 = i)) as [[Hb Hj]|Hne].
    + rewrite <- (Hall w) by (try apply in_or_app; simpl; auto).
      destruct w as [[b j] x]. simpl in *. subst b j.
      assert (Hlen := length_read_apply_writes ws h t).
      unfold read, apply_write in *. rewrite list_lookup_alter.
      rewrite decide_True by done.
      destruct (apply_writes ws h !! storage t) as [buf|]; simpl in *.
      * apply list_lookup_insert_eq. lia.
      * lia.
    + rewrite read_apply_write by done. apply IH.
      * apply in_app_or in Hin as [Hin|[<-|[]]]; [by exists w0|].
        by destruct Hne.
      * intros w' Hw'. apply Hall, in_or_app. by left.
Qed.

(** Flat indices [a * width + k] with [0 ≤ k < width] name distinct cells. *)
Lemma flat_index_inj width a b k k' :
  0 ≤ a → 0 ≤ b → 0 ≤ k < width → 0 ≤ k' < width →
  Z.to_nat (a * width + k) = Z.to_nat (b * width + k') →
  a = b ∧ k = k'.
Proof.
  intros Ha Hb Hk Hk' Heq.
  assert (0 ≤ a * width) by (apply Z.mul_nonneg_nonneg; lia).
  assert (0 ≤ b * width) by (apply Z.mul_nonneg_nonneg; lia).
  apply Z2Nat.inj in Heq; [|lia..].
  assert ((a * width + k) `div` width = a) as Hqa
    by (rewrite Z.div_add_l by lia; rewrite Z.div_small; lia).
  assert ((b * width + k') `div` width = b) as Hqb
    by (rewrite Z.div_add_l by lia; rewrite Z.div_small; lia).
  rewrite Heq, Hqb in Hqa. subst b. lia.
Qed.

(** Elements of a list whose keys are all different are told apart by
    their keys. *)
Lemma NoDup_fmap_same {A B} (f : A → B) (l : list A) x y :
  NoDup (f <$> l) → x ∈ l → y ∈ l → f x = f y → x = y.
Proof.
  intros Hnd Hx Hy Hf.
  apply list_elem_of_lookup in Hx as [i Hi].
  apply list_elem_of_lookup in Hy as [j Hj].
  assert (i = j) as ->; [|congruence].
  apply (NoDup_lookup (f <$> l) i j (f x)); [done|..].
  - by rewrite list_lookup_fmap, Hi.
  - by rewrite list_lookup_fmap, Hj, Hf.
Qed.

Lemma flat_map_fmap {A B C} (f : B → list C) (g : A → B) (l : list A) :
  flat_map f (g <$> l) = flat_map (λ x, f (g x)) l.
Proof.
  induction l as [|x l IH]; [done|].
  rewrite fmap_cons. cbn [flat_map]. by rewrite IH.
Qed.

(** A cell inside a buffer of [n] pixels with [width] values each belongs
    to one pixel. *)
Lemma flat_index_split n width i :
  0 < width → 0 ≤ n → (i < Z.to_nat (n * width))%nat →
  ∃ pix k, 0 ≤ pix < n ∧ 0 ≤ k < width ∧ i = Z.to_nat (pix * width + k).
Proof.
  intros Hw Hn Hi.
  exists (Z.of_nat i `div` width), (Z.of_nat i `mod` width).
  assert (0 ≤ Z.of_nat i `div` width) by (apply Z.div_pos; lia).
  assert (0 ≤ Z.of_nat i `mod` width < width) by (apply Z.mod_pos_bound; lia).
  assert (Z.of_nat i = Z.of_nat i `div` width * width + Z.of_nat i `mod` width)
    as Heq by (rewrite Z.mul_comm; apply Z.div_mod; lia).
  split; [|split; [done|lia]].
  split; [done|].
  apply Z.div_lt_upper_bound; [lia|]. rewrite Z.mul_comm.
  assert (0 ≤ n * width) by (apply Z.mul_nonneg_nonneg; lia). lia.
Qed.

Section MaskedTiles.

Variable composite : heap → forward_view → Z → nat → Z → Z.
Variable h : heap.
Variable v : forward_view.

Hypothesis width_pos : 0 < fv_image_width v.
Hypothesis height_pos : 0 < fv_image_height v.

Lemma pixel_col_id img y x :
  0 ≤ x < fv_image_width v → pixel_col v (pixel_id v img y x) = x.
Proof.
  intros Hx. unfold pixel_col, pixel_id.
  rewrite Z.add_comm, Z.mod_add by lia. by apply Z.mod_small.
Qed.

Lemma pixel_div_width img y x :
  0 ≤ x < fv_image_width v →
  pixel_id v img y x `div` fv_image_width v = img * fv_image_height v + y.
Proof.
  intros Hx. unfold pixel_id.
  rewrite Z.add_comm, Z.div_add by lia. rewrite Z.div_small; lia.
Qed.

Lemma pixel_row_id img y x :
  0 ≤ x < fv_image_width v → 0 ≤ y < fv_image_height v →
  pixel_row v (pixel_id v img y x) = y.
Proof.
  intros Hx Hy. unfold pixel_row. rewrite pixel_div_width by done.
  rewrite Z.add_comm, Z.mod_add by lia. by apply Z.mod_small.
Qed.

Lemma pixel_image_id img y x :
  0 ≤ x < fv_image_width v → 0 ≤ y < fv_image_height v →
  pixel_image v (pixel_id v img y x) = img.
Proof.
  intros Hx Hy. unfold pixel_image. rewrite pixel_div_width by done.
  rewrite Z.add_comm, Z.div_add by lia. rewrite Z.div_small; lia.
Qed.

Lemma pixel_id_range img y x :
  0 ≤ img < n_images v → 0 ≤ y < fv_image_height v →
  0 ≤ x < fv_image_width v →
  0 ≤ pixel_id v img y x
    < n_images v * fv_image_height v * fv_image_width v.
Proof.
  intros Hi Hy Hx. unfold pixel_id.
  assert (0 ≤ img * fv_image_height v + y) by nia.
  assert (img * fv_image_height v + y + 1
          ≤ n_images v * fv_image_height v) by nia.
  assert ((img * fv_image_height v + y + 1) * fv_image_width v
          ≤ n_images v * fv_image_height v * fv_image_width v)
    by (apply Z.mul_le_mono_nonneg_r; lia).
  nia.
Qed.


(** The stores of one pixel, output by output. *)
Lemma pixel_writes_outputs pix :
  pixel_writes composite h v pix
  = flat_map
      (λ o : Tensor * Z * (Z → Z),
         (λ k, (storage o.1.1, Z.to_nat (pix * o.1.2 + k),
                if tile_excluded h v
                     (tile_id v (pixel_image v pix) (pixel_row v pix)
                        (pixel_col v pix))
                then o.2 k else composite h v pix (storage o.1.1) k))
           <$> seqZ 0 o.1.2)
      (forward_outputs h v (pixel_image v pix)).
Proof.
  unfold pixel_writes, forward_outputs. cbv zeta. cbn [flat_map].
  rewrite flat_map_fmap. reflexivity.
Qed.

Lemma in_forward_kernel_writes w :
  In w (forward_kernel_writes composite h v) ↔
  ∃ pix o k,
    0 ≤ pix < n_images v * fv_image_height v * fv_image_width v ∧
    In o (forward_outputs h v (pixel_image v pix)) ∧ 0 ≤ k < o.1.2 ∧
    w = (storage o.1.1, Z.to_nat (pix * o.1.2 + k),
         if tile_excluded h v
              (tile_id v (pixel_image v pix) (pixel_row v pix)
                 (pixel_col v pix))
         then o.2 k else composite h v pix (storage o.1.1) k).
Proof.
  unfold forward_kernel_writes. rewrite in_flat_map. split.
  - intros (pix & Hpix & Hin).
    apply list_elem_of_In, elem_of_seqZ in Hpix.
    rewrite pixel_writes_outputs in Hin.
    apply in_flat_map in Hin as (o & Ho & Hin).
    apply list_elem_of_In, list_elem_of_fmap in Hin as (k & -> & Hk).
    apply elem_of_seqZ in Hk.
    exists pix, o, k. split; [lia|]. split; [done|]. split; [lia|done].
  - intros (pix & o & k & Hpix & Ho & Hk & ->).
    exists pix. split; [apply list_elem_of_In, elem_of_seqZ; lia|].
    rewrite pixel_writes_outputs. apply in_flat_map.
    exists o. split; [done|].
    apply list_elem_of_In, list_elem_of_fmap.
    exists k. split; [done|]. apply elem_of_seqZ. lia.
Qed.

(** The tensors of the outputs are the tensors of the launch. *)
Lemma forward_outputs_tensors img :
  (forward_outputs h v img).*1.*1 = forward_tensors v.
Proof.
  unfold forward_outputs, forward_tensors. simpl. do 2 f_equal.
  rewrite <- !list_fmap_compose. by apply list_fmap_ext.
Qed.

Hypothesis outputs_apart : NoDup (storage <$> forward_tensors v).

(** Two outputs in one buffer are the same output. *)
Lemma forward_outputs_same img o o' :
  In o (forward_outputs h v img) → In o' (forward_outputs h v img) →
  storage o.1.1 = storage o'.1.1 → o = o'.
Proof.
  intros Ho Ho' Hs.
  apply (NoDup_fmap_same (λ o : Tensor * Z * (Z → Z), storage o.1.1)
           (forward_outputs h v img)); [|by apply list_elem_of_In..|done].
  rewrite <- (forward_outputs_tensors img) in outputs_apart.
  by rewrite <- !list_fmap_compose in outputs_apart.
Qed.

Lemma forward_outputs_width img img' o o' :
  In o (forward_outputs h v img) → In o' (forward_outputs h v img') →
  storage o.1.1 = storage o'.1.1 → o.1.2 = o'.1.2.
Proof.
  intros Ho Ho' Hs.
  assert (∀ i (x : Tensor * Z * (Z → Z)),
            In x (forward_outputs h v i) →
            In x.1 ((fv_renders v, fv_CDIM v) :: (fv_alphas v, 1)
                    :: fv_others v)) as Hslot.
  { intros i x Hx. unfold forward_outputs in Hx.
    destruct Hx as [<-|[<-|Hx]]; [by left|by right; left|].
    right; right.
    apply list_elem_of_In, list_elem_of_fmap in Hx as ([t w] & -> & Hp).
    simpl. by apply list_elem_of_In. }
  assert (o.1 = o'.1) as Heq; [|by rewrite Heq].
  apply (NoDup_fmap_same (λ p : Tensor * Z, storage p.1)
           ((fv_renders v, fv_CDIM v) :: (fv_alphas v, 1) :: fv_others v));
    [|by apply list_elem_of_In, (Hslot img)
     |by apply list_elem_of_In, (Hslot img')|done].
  unfold forward_tensors in outputs_apart. simpl in *.
  by rewrite <- list_fmap_compose in outputs_apart.
Qed.

(** What the launch leaves in the cell [k] of output [o] at pixel [pix]. *)
Lemma forward_kernel_cell pix o k :
  0 ≤ pix < n_images v * fv_image_height v * fv_image_width v →
  In o (forward_outputs h v (pixel_image v pix)) → 0 ≤ k < o.1.2 →
  (Z.to_nat (pix * o.1.2 + k) < length (read h o.1.1))%nat →
  read (apply_writes (forward_kernel_writes composite h v) h) o.1.1
    !! Z.to_nat (pix * o.1.2 + k)
  = Some (Some (if tile_excluded h v
                     (tile_id v (pixel_image v pix) (pixel_row v pix)
                        (pixel_col v pix))
                then o.2 k else composite h v pix (storage o.1.1) k)).
Proof.
  intros Hpix Ho Hk Hlen.
  apply read_apply_writes_written; [done| |].
  - eexists (storage o.1.1, Z.to_nat (pix * o.1.2 + k), _).
    split; [|done]. apply in_forward_kernel_writes.
    exists pix, o, k. do 3 (split; [done|]). reflexivity.
  - intros w Hin Hb Hj.
    apply in_forward_kernel_writes in Hin
      as (pix' & o' & k' & Hpix' & Ho' & Hk' & ->).
    simpl in *.
    pose proof (forward_outputs_width _ _ _ _ Ho' Ho Hb) as Hw.
    rewrite Hw in Hj, Hk'.
    destruct (flat_index_inj o.1.2 pix' pix k' k) as [-> ->];
      [lia..|done|].
    by rewrite (forward_outputs_same _ _ _ Ho' Ho Hb).
Qed.

End MaskedTiles.

Lemma shape_numel_app l1 l2 :
  shape_numel (l1 ++ l2) = shape_numel l1 * shape_numel l2.
Proof.
  unfold shape_numel. induction l1 as [|d l1 IH]; simpl; [lia|].
  rewrite IH. lia.
Qed.

Lemma shape_numel_nonneg l : Forall (Z.le 0) l → 0 ≤ shape_numel l.
Proof.
  unfold shape_numel. induction 1 as [|d l Hd _ IH]; simpl; [lia|].
  by apply Z.mul_nonneg_nonneg.
Qed.

(** The cells of pixel [pix] lie inside an image buffer of [n] pixels with
    [width] values each. *)
Lemma flat_index_in_buffer n width pix k :
  0 ≤ pix < n → 0 ≤ k < width →
  (Z.to_nat (pix * width + k) < Z.to_nat (n * width))%nat.
Proof.
  intros Hpix Hk.
  assert (0 ≤ pix * width) by (apply Z.mul_nonneg_nonneg; lia).
  assert ((pix + 1) * width ≤ n * width)
    by (apply Z.mul_le_mono_nonneg_r; lia).
  lia.
Qed.


Lemma take_all_but_three (dims : list Z) a b c :
  take (length (dims ++ [a; b; c]) - 3) (dims ++ [a; b; c]) = dims.
Proof.
  rewrite length_app. simpl.
  replace (length dims + 3 - 3)%nat with (length dims) by lia.
  by rewrite take_app_length.
Qed.

Section ForwardResult.

Variable composite : heap → forward_view → Z → nat → Z → Z.
Variable h : heap.
Variable v : forward_view.
Variable dims : list Z.

Let slots := (fv_renders v, fv_CDIM v) :: (fv_alphas v, 1) :: fv_others v.
Let n := shape_numel dims * fv_image_height v * fv_image_width v.
Let h' := apply_writes (forward_kernel_writes composite h v) h.

Hypothesis alphas_shape :
  sizes (fv_alphas v) = dims ++ [fv_image_height v; fv_image_width v; 1].
Hypothesis dims_ok : Forall (Z.le 0) dims.
Hypothesis height_ok : 0 ≤ fv_image_height v.
Hypothesis width_ok : 0 ≤ fv_image_width v.
Hypothesis outputs_apart : NoDup (storage <$> forward_tensors v).
Hypothesis buffers :
  Forall (λ o : Tensor * Z,
            0 < o.2 ∧ length (read h o.1) = Z.to_nat (n * o.2)) slots.

Lemma n_images_dims : n_images v = shape_numel dims.
Proof.
  unfold n_images. rewrite alphas_shape. by rewrite take_all_but_three.
Qed.

Lemma n_pixels_nonneg : 0 ≤ n.
Proof.
  unfold n. pose proof (shape_numel_nonneg dims dims_ok).
  apply Z.mul_nonneg_nonneg; [apply Z.mul_nonneg_nonneg|]; lia.
Qed.

Lemma forward_outputs_slot img t width :
  In (t, width) slots →
  ∃ skipped, In (t, width, skipped) (forward_outputs h v img).
Proof.
  unfold slots, forward_outputs. intros [[= <- <-]|[[= <- <-]|Ho]].
  - eexists. by left.
  - eexists. by right; left.
  - exists (λ _, 0). right; right.
    apply list_elem_of_In, list_elem_of_fmap. exists (t, width).
    split; [done|]. by apply list_elem_of_In.
Qed.

(** No cell of an output is left unwritten. *)
Lemma forward_kernel_initialises t width :
  In (t, width) slots → Forall is_Some (read h' t).
Proof.
  intros Hslot.
  pose proof buffers as Hb. rewrite Forall_forall in Hb.
  destruct (Hb (t, width)) as [Hw Hlen]; [by apply list_elem_of_In|].
  simpl in Hw, Hlen.
  apply Forall_lookup. intros i c Hi.
  assert (i < Z.to_nat (n * width))%nat as Hlt.
  { rewrite <- Hlen. unfold h' in Hi.
    rewrite <- (length_read_apply_writes (forward_kernel_writes composite h v)).
    by apply lookup_lt_Some in Hi. }
  destruct (flat_index_split n width i Hw n_pixels_nonneg Hlt)
    as (pix & k & Hpix & Hk & ->).
  destruct (forward_outputs_slot (pixel_image v pix) t width Hslot)
    as [skipped Ho].
  unfold h' in Hi.
  pose proof (forward_kernel_cell composite h v outputs_apart pix
                (t, width, skipped) k) as Hcell.
  simpl in Hcell. rewrite Hcell in Hi; try done.
  - injection Hi as <-. by eexists.
  - rewrite n_images_dims. exact Hpix.
  - rewrite Hlen. by apply flat_index_in_buffer.
Qed.

(** A pixel of an excluded tile holds what its outputs get when skipped. *)
Lemma forward_kernel_excluded img y x t width skipped k :
  0 ≤ img < n_images v → 0 ≤ y < fv_image_height v →
  0 ≤ x < fv_image_width v →
  tile_excluded h v (tile_id v img y x) = true →
  In (t, width, skipped) (forward_outputs h v img) → 0 ≤ k < width →
  read h' t !! Z.to_nat (pixel_id v img y x * width + k)
  = Some (Some (skipped k)).
Proof.
  intros Himg Hy Hx Hex Ho Hk.
  assert (0 < fv_image_width v) as Hwp by lia.
  assert (0 < fv_image_height v) as Hhp by lia.
  pose proof (pixel_id_range v Hwp Hhp img y x Himg Hy Hx) as Hpix.
  pose proof buffers as Hb. rewrite Forall_forall in Hb.
  assert (In (t, width) slots) as Hslot.
  { unfold slots. unfold forward_outputs in Ho.
    destruct Ho as [[= <- <- _]|[[= <- <- _]|Ho]];
      [by left|by right; left|].
    right; right.
    apply list_elem_of_In, list_elem_of_fmap in Ho as ([t' w'] & [= -> -> _] & Hp).
    by apply list_elem_of_In. }
  destruct (Hb (t, width)) as [Hw Hlen]; [by apply list_elem_of_In|].
  simpl in Hw, Hlen.
  unfold h'.
  pose proof (forward_kernel_cell composite h v outputs_apart
                (pixel_id v img y x) (t, width, skipped) k) as Hcell.
  simpl in Hcell. rewrite Hcell; try done.
  - rewrite pixel_image_id, pixel_row_id, pixel_col_id by done.
    by rewrite Hex.
  - by rewrite pixel_image_id.
  - rewrite Hlen. apply flat_index_in_buffer; [|done].
    rewrite n_images_dims in Hpix. exact Hpix.
Qed.

Lemma forward_kernel_result :
  Forall (λ t, Forall is_Some (read h' t)) (forward_tensors v) ∧
  ∀ img y x,
    0 ≤ img < n_images v → 0 ≤ y < fv_image_height v →
    0 ≤ x < fv_image_width v →
    tile_excluded h v (tile_id v img y x) = true →
    read h' (fv_alphas v) !! Z.to_nat (pixel_id v img y x) = Some (Some 0) ∧
    (∀ k, 0 ≤ k < fv_CDIM v →
       read h' (fv_renders v)
         !! Z.to_nat (pixel_id v img y x * fv_CDIM v + k)
       = Some (Some (background_or_zero h v img k))) ∧
    (∀ o k, In o (fv_others v) → 0 ≤ k < o.2 →
       read h' o.1 !! Z.to_nat (pixel_id v img y x * o.2 + k)
       = Some (Some 0)).
Proof.
  split.
  - apply Forall_forall. intros t Ht.
    apply list_elem_of_In in Ht. unfold forward_tensors in Ht.
    destruct Ht as [<-|[<-|Ht]].
    + apply (forward_kernel_initialises _ (fv_CDIM v)). by left.
    + apply (forward_kernel_initialises _ 1). by right; left.
    + apply list_elem_of_In, list_elem_of_fmap in Ht as ([t' w] & -> & Ho).
      apply (forward_kernel_initialises _ w). right; right.
      by apply list_elem_of_In.
  - intros img y x Himg Hy Hx Hex. split; [|split].
    + replace (pixel_id v img y x) with (pixel_id v img y x * 1 + 0) by lia.
      apply (forward_kernel_excluded img y x _ 1 (λ _, 0) 0); try done.
      by right; left.
    + intros k Hk.
      apply (forward_kernel_excluded img y x _ _
               (background_or_zero h v img) k); try done.
      by left.
    + intros [t w] k Ho Hk. simpl in *.
      apply (forward_kernel_excluded img y x t w (λ _, 0) k); try done.
      right; right. apply list_elem_of_In, list_elem_of_fmap.
      exists (t, w). split; [done|]. by apply list_elem_of_In.
Qed.

End ForwardResult.

Lemma supported_channels_positive ch : In ch supported_channels → 0 < ch.
Proof.
  intros H. simpl in H.
  repeat (destruct H as [<-|H]; [lia|]). destruct H.
Qed.

Ltac solve_apart :=
  simpl; repeat first [rewrite length_app | rewrite length_apply_writes];
  simpl;
  repeat (apply NoDup_cons_2;
          [ rewrite ?not_elem_of_cons;
            repeat split; first [lia | apply not_elem_of_nil] |]);
  apply NoDup_nil_2.

Ltac solve_buffer :=
  split;
  [ simpl; first [lia | by apply supported_channels_positive]
  | unfold read; simpl; heap_lookup; simpl; rewrite length_replicate;
    f_equal; rewrite ?shape_numel_app; unfold shape_numel; simpl; lia ].

Ltac solve_unwritten :=
  repeat apply Forall_cons_2; try apply Forall_nil_2;
  (unfold read; simpl; heap_lookup; by apply Forall_replicate).

Section MaskedForward.

Variable composite : heap → forward_view → Z → nat → Z → Z.

Lemma rasterize_to_pixels_3dgs_fwd_masked
    means2d conics colors opacities backgrounds masks image_width image_height
    tile_size tile_offsets flatten_ids s renders alphas last_ids s' :
  (∀ N a h,
     kernel (launch_rasterize_to_pixels_3dgs_fwd_kernel N a) h
     = forward_kernel_writes composite h (view_3dgs_fwd N a)) →
  rasterize_to_pixels_3dgs_fwd kernel means2d conics colors opacities
    backgrounds masks image_width image_height tile_size tile_offsets
    flatten_ids s = (Ok (renders, alphas, last_ids), s') →
  ∃ N a h, let v := view_3dgs_fwd N a in
    launched s s' [(launch_rasterize_to_pixels_3dgs_fwd_kernel N a, h)] ∧
    fv_masks v = masks ∧ fv_backgrounds v = backgrounds ∧
    fv_tile_offsets v = tile_offsets ∧ fv_tile_size v = tile_size ∧
    fv_image_height v = image_height ∧ fv_image_width v = image_width ∧
    forward_tensors v = [renders; alphas; last_ids] ∧
    Forall (λ t, Forall (λ c, c = None) (read h t))
      [renders; alphas; last_ids] ∧
    Forall (λ t, Forall is_Some (read (mem s') t))
      [renders; alphas; last_ids] ∧
    ∀ img y x,
      0 ≤ img < n_images v → 0 ≤ y < image_height → 0 ≤ x < image_width →
      tile_excluded h v (tile_id v img y x) = true →
      read (mem s') alphas !! Z.to_nat (pixel_id v img y x) = Some (Some 0) ∧
      (∀ k, 0 ≤ k < fv_CDIM v →
         read (mem s') renders
           !! Z.to_nat (pixel_id v img y x * fv_CDIM v + k)
         = Some (Some (background_or_zero h v img k))) ∧
      (∀ o k, In o (fv_others v) → 0 ≤ k < o.2 →
         read (mem s') o.1 !! Z.to_nat (pixel_id v img y x * o.2 + k)
         = Some (Some 0)).
Proof.
  intros Hkernel Hrun. wp_of_ok Hrun. unfold rasterize_to_pixels_3dgs_fwd.
  wp_run ltac:(done).
  intros [= <- <- <-].
  do 3 eexists. cbv zeta. split; [reflexivity|].
  do 7 (split; [reflexivity|]).
  split; [solve_unwritten|].
  simpl. rewrite Hkernel.
  match goal with
  | |- context [forward_kernel_writes _ ?h ?v] =>
      set (hh := h) in *; set (vv := v) in *
  end.
  lazymatch goal with
  | H : Forall (Z.le 0) (?dims ++ [_; _; _]) |- _ =>
      apply Forall_app in H as [Hdims Hrest];
      apply Forall_cons_1 in Hrest as [Hheight Hrest];
      apply Forall_cons_1 in Hrest as [Hwidth _];
      destruct (forward_kernel_result composite hh vv dims) as [Hinit Hex]
  end.
  - rewrite <- ?app_assoc. reflexivity.
  - assumption.
  - simpl. lia.
  - simpl. lia.
  - solve_apart.
  - subst hh vv.
    repeat apply Forall_cons_2; try apply Forall_nil_2; solve_buffer.
  - split; [exact Hinit | exact Hex].
Qed.

Lemma rasterize_to_pixels_2dgs_fwd_masked
    means2d ray_transforms colors opacities normals backgrounds masks
    image_width image_height tile_size tile_offsets flatten_ids s renders alphas
    render_normals render_distort render_median last_ids median_ids s' :
  (∀ N a h,
     kernel (launch_rasterize_to_pixels_2dgs_fwd_kernel N a) h
     = forward_kernel_writes composite h (view_2dgs_fwd N a)) →
  rasterize_to_pixels_2dgs_fwd kernel means2d ray_transforms colors
    opacities normals backgrounds masks image_width image_height tile_size
    tile_offsets flatten_ids s =
    (Ok (renders, alphas, render_normals, render_distort, render_median,
         last_ids, median_ids), s') →
  ∃ N a h, let v := view_2dgs_fwd N a in
    launched s s' [(launch_rasterize_to_pixels_2dgs_fwd_kernel N a, h)] ∧
    fv_masks v = masks ∧ fv_backgrounds v = backgrounds ∧
    fv_tile_offsets v = tile_offsets ∧ fv_tile_size v = tile_size ∧
    fv_image_height v = image_height ∧ fv_image_width v = image_width ∧
    forward_tensors v =
      [renders; alphas; render_normals; render_distort; render_median;
       last_ids; median_ids] ∧
    Forall (λ t, Forall (λ c, c = None) (read h t))
      [renders; alphas; render_normals; render_distort; render_median;
       last_ids; median_ids] ∧
    Forall (λ t, Forall is_Some (read (mem s') t))
      [renders; alphas; render_normals; render_distort; render_median;
       last_ids; median_ids] ∧
    ∀ img y x,
      0 ≤ img < n_images v → 0 ≤ y < image_height → 0 ≤ x < image_width →
      tile_excluded h v (tile_id v img y x) = true →
      read (mem s') alphas !! Z.to_nat (pixel_id v img y x) = Some (Some 0) ∧
      (∀ k, 0 ≤ k < fv_CDIM v →
         read (mem s') renders
           !! Z.to_nat (pixel_id v img y x * fv_CDIM v + k)
         = Some (Some (background_or_zero h v img k))) ∧
      (∀ o k, In o (fv_others v) → 0 ≤ k < o.2 →
         read (mem s') o.1 !! Z.to_nat (pixel_id v img y x * o.2 + k)
         = Some (Some 0)).
Proof.
  intros Hkernel Hrun. wp_of_ok Hrun. unfold rasterize_to_pixels_2dgs_fwd.
  wp_run ltac:(done).
  intros [= <- <- <- <- <- <- <-].
  do 3 eexists. cbv zeta. split; [reflexivity|].
  do 7 (split; [reflexivity|]).
  split; [solve_unwritten|].
  simpl. rewrite Hkernel.
  match goal with
  | |- context [forward_kernel_writes _ ?h ?v] =>
      set (hh := h) in *; set (vv := v) in *
  end.
  lazymatch goal with
  | H : Forall (Z.le 0) (?dims ++ [_; _; _]) |- _ =>
      apply Forall_app in H as [Hdims Hrest];
      apply Forall_cons_1 in Hrest as [Hheight Hrest];
      apply Forall_cons_1 in Hrest as [Hwidth _];
      destruct (forward_kernel_result composite hh vv dims) as [Hinit Hex]
  end.
  - rewrite <- ?app_assoc. reflexivity.
  - assumption.
  - simpl. lia.
  - simpl. lia.
  - solve_apart.
  - subst hh vv.
    repeat apply Forall_cons_2; try apply Forall_nil_2; solve_buffer.
  - split; [exact Hinit | exact Hex].
Qed.

Lemma rasterize_to_pixels_from_world_3dgs_fwd_masked
    means quats scales colors opacities backgrounds masks image_width image_height
    tile_size viewmats0 viewmats1 Ks camera_model ut_params rs_type
    radial_coeffs tangential_coeffs thin_prism_coeffs ftheta_coeffs
    tile_offsets flatten_ids s renders alphas last_ids s' :
  (∀ N a h,
     kernel (launch_rasterize_to_pixels_from_world_3dgs_fwd_kernel N a) h
     = forward_kernel_writes composite h (view_from_world_3dgs_fwd N a)) →
  rasterize_to_pixels_from_world_3dgs_fwd kernel NDEBUG means quats scales
    colors opacities backgrounds masks image_width image_height tile_size
    viewmats0 viewmats1 Ks camera_model ut_params rs_type radial_coeffs
    tangential_coeffs thin_prism_coeffs ftheta_coeffs tile_offsets flatten_ids
    s =
    (Ok (renders, alphas, last_ids), s') →
  ∃ N a h, let v := view_from_world_3dgs_fwd N a in
    launched s s' [(launch_rasterize_to_pixels_from_world_3dgs_fwd_kernel N a, h)] ∧
    fv_masks v = masks ∧ fv_backgrounds v = backgrounds ∧
    fv_tile_offsets v = tile_offsets ∧ fv_tile_size v = tile_size ∧
    fv_image_height v = image_height ∧ fv_image_width v = image_width ∧
    forward_tensors v = [renders; alphas; last_ids] ∧
    Forall (λ t, Forall (λ c, c = None) (read h t))
      [renders; alphas; last_ids] ∧
    Forall (λ t, Forall is_Some (read (mem s') t))
      [renders; alphas; last_ids] ∧
    ∀ img y x,
      0 ≤ img < n_images v → 0 ≤ y < image_height → 0 ≤ x < image_width →
      tile_excluded h v (tile_id v img y x) = true →
      read (mem s') alphas !! Z.to_nat (pixel_id v img y x) = Some (Some 0) ∧
      (∀ k, 0 ≤ k < fv_CDIM v →
         read (mem s') renders
           !! Z.to_nat (pixel_id v img y x * fv_CDIM v + k)
         = Some (Some (background_or_zero h v img k))) ∧
      (∀ o k, In o (fv_others v) → 0 ≤ k < o.2 →
         read (mem s') o.1 !! Z.to_nat (pixel_id v img y x * o.2 + k)
         = Some (Some 0)).
Proof.
  intros Hkernel Hrun. wp_of_ok Hrun. unfold rasterize_to_pixels_from_world_3dgs_fwd.
  wp_run ltac:(done).
  intros [= <- <- <-].
  do 3 eexists. cbv zeta. split; [reflexivity|].
  do 7 (split; [reflexivity|]).
  split; [solve_unwritten|].
  simpl. rewrite Hkernel.
  match goal with
  | |- context [forward_kernel_writes _ ?h ?v] =>
      set (hh := h) in *; set (vv := v) in *
  end.
  lazymatch goal with
  | H : Forall (Z.le 0) (?batch ++ [?C; _; _; _]) |- _ =>
      apply Forall_app in H as [Hbatch Hrest];
      apply Forall_cons_1 in Hrest as [Hcameras Hrest];
      apply Forall_cons_1 in Hrest as [Hheight Hrest];
      apply Forall_cons_1 in Hrest as [Hwidth _];
      destruct (forward_kernel_result composite hh vv (batch ++ [C]))
        as [Hinit Hex]
  end.
  - rewrite <- ?app_assoc. reflexivity.
  - apply Forall_app. split; [assumption|]. by apply Forall_singleton.
  - simpl. lia.
  - simpl. lia.
  - solve_apart.
  - subst hh vv.
    repeat apply Forall_cons_2; try apply Forall_nil_2; solve_buffer.
  - split; [exact Hinit | exact Hex].
Qed.

End MaskedForward.

(** C8.  The forward kernels are not among the sources; the statement is about
    the wrappers run with the kernel the specification describes
    ([forward_kernel_writes]).  In a 3DGS, 2DGS or from-world forward call
    that returns, every output is allocated uninitialised and handed to the
    one launch together with the mask and the background of the call: the
    view of the launch names exactly the tensors the call returns.  When the
    launch is done, no cell of any output is left unwritten, and every pixel
    of a tile whose mask entry is false holds the background color, or zero
    without a background, in each channel, alpha zero, and zero in every
    other output.  And the calls do return: each of the three does whenever
    the tensors it checks pass [CHECK_INPUT], the tensor the leading
    dimensions are taken from has two dimensions or more, none of them
    negative, and the width of the colors is a supported one (for the
    from-world call, one that passes the assertion). *)
Theorem masked_tiles_hold_the_background
    (composite : heap → forward_view → Z → nat → Z → Z) :
  (∀ means2d conics colors opacities backgrounds masks image_width
     image_height tile_size tile_offsets flatten_ids s renders alphas
     last_ids s',
     (∀ N a h,
        kernel (launch_rasterize_to_pixels_3dgs_fwd_kernel N a) h
        = forward_kernel_writes composite h (view_3dgs_fwd N a)) →
     rasterize_to_pixels_3dgs_fwd kernel means2d conics colors opacities
       backgrounds masks image_width image_height tile_size tile_offsets
       flatten_ids s = (Ok (renders, alphas, last_ids), s') →
     ∃ N a h, let v := view_3dgs_fwd N a in
       launched s s' [(launch_rasterize_to_pixels_3dgs_fwd_kernel N a, h)] ∧
       fv_masks v = masks ∧ fv_backgrounds v = backgrounds ∧
       fv_tile_offsets v = tile_offsets ∧ fv_tile_size v = tile_size ∧
       fv_image_height v = image_height ∧ fv_image_width v = image_width ∧
       forward_tensors v = [renders; alphas; last_ids] ∧
       Forall (λ t, Forall (λ c, c = None) (read h t))
         [renders; alphas; last_ids] ∧
       Forall (λ t, Forall is_Some (read (mem s') t))
         [renders; alphas; last_ids] ∧
       ∀ img y x,
         0 ≤ img < n_images v → 0 ≤ y < image_height → 0 ≤ x < image_width →
         tile_excluded h v (tile_id v img y x) = true →
         read (mem s') alphas !! Z.to_nat (pixel_id v img y x) = Some (Some 0) ∧
         (∀ k, 0 ≤ k < fv_CDIM v →
            read (mem s') renders
              !! Z.to_nat (pixel_id v img y x * fv_CDIM v + k)
            = Some (Some (background_or_zero h v img k))) ∧
         (∀ o k, In o (fv_others v) → 0 ≤ k < o.2 →
            read (mem s') o.1 !! Z.to_nat (pixel_id v img y x * o.2 + k)
            = Some (Some 0))) ∧
  (∀ means2d ray_transforms colors opacities normals backgrounds masks
     image_width image_height tile_size tile_offsets flatten_ids s renders
     alphas render_normals render_distort render_median last_ids median_ids
     s',
     (∀ N a h,
        kernel (launch_rasterize_to_pixels_2dgs_fwd_kernel N a) h
        = forward_kernel_writes composite h (view_2dgs_fwd N a)) →
     rasterize_to_pixels_2dgs_fwd kernel means2d ray_transforms colors
       opacities normals backgrounds masks image_width image_height tile_size
       tile_offsets flatten_ids s =
       (Ok (renders, alphas, render_normals, render_distort, render_median,
            last_ids, median_ids), s') →
     ∃ N a h, let v := view_2dgs_fwd N a in
       launched s s' [(launch_rasterize_to_pixels_2dgs_fwd_kernel N a, h)] ∧
       fv_masks v = masks ∧ fv_backgrounds v = backgrounds ∧
       fv_tile_offsets v = tile_offsets ∧ fv_tile_size v = tile_size ∧
       fv_image_height v = image_height ∧ fv_image_width v = image_width ∧
       forward_tensors v =
         [renders; alphas; render_normals; render_distort; render_median;
          last_ids; median_ids] ∧
       Forall (λ t, Forall (λ c, c = None) (read h t))
         [renders; alphas; render_normals; render_distort; render_median;
          last_ids; median_ids] ∧
       Forall (λ t, Forall is_Some (read (mem s') t))
         [renders; alphas; render_normals; render_distort; render_median;
          last_ids; median_ids] ∧
       ∀ img y x,
         0 ≤ img < n_images v → 0 ≤ y < image_height → 0 ≤ x < image_width →
         tile_excluded h v (tile_id v img y x) = true →
         read (mem s') alphas !! Z.to_nat (pixel_id v img y x) = Some (Some 0) ∧
         (∀ k, 0 ≤ k < fv_CDIM v →
            read (mem s') renders
              !! Z.to_nat (pixel_id v img y x * fv_CDIM v + k)
            = Some (Some (background_or_zero h v img k))) ∧
         (∀ o k, In o (fv_others v) → 0 ≤ k < o.2 →
            read (mem s') o.1 !! Z.to_nat (pixel_id v img y x * o.2 + k)
            = Some (Some 0))) ∧
  (∀ means quats scales colors opacities backgrounds masks image_width
     image_height tile_size viewmats0 viewmats1 Ks camera_model ut_params
     rs_type radial_coeffs tangential_coeffs thin_prism_coeffs ftheta_coeffs
     tile_offsets flatten_ids s renders alphas last_ids s',
     (∀ N a h,
        kernel (launch_rasterize_to_pixels_from_world_3dgs_fwd_kernel N a) h
        = forward_kernel_writes composite h (view_from_world_3dgs_fwd N a)) →
     rasterize_to_pixels_from_world_3dgs_fwd kernel NDEBUG means quats scales
       colors opacities backgrounds masks image_width image_height tile_size
       viewmats0 viewmats1 Ks camera_model ut_params rs_type radial_coeffs
       tangential_coeffs thin_prism_coeffs ftheta_coeffs tile_offsets flatten_ids
       s =
       (Ok (renders, alphas, last_ids), s') →
     ∃ N a h, let v := view_from_world_3dgs_fwd N a in
       launched s s' [(launch_rasterize_to_pixels_from_world_3dgs_fwd_kernel N a, h)] ∧
       fv_masks v = masks ∧ fv_backgrounds v = backgrounds ∧
       fv_tile_offsets v = tile_offsets ∧ fv_tile_size v = tile_size ∧
       fv_image_height v = image_height ∧ fv_image_width v = image_width ∧
       forward_tensors v = [renders; alphas; last_ids] ∧
       Forall (λ t, Forall (λ c, c = None) (read h t))
         [renders; alphas; last_ids] ∧
       Forall (λ t, Forall is_Some (read (mem s') t))
         [renders; alphas; last_ids] ∧
       ∀ img y x,
         0 ≤ img < n_images v → 0 ≤ y < image_height → 0 ≤ x < image_width →
         tile_excluded h v (tile_id v img y x) = true →
         read (mem s') alphas !! Z.to_nat (pixel_id v img y x) = Some (Some 0) ∧
         (∀ k, 0 ≤ k < fv_CDIM v →
            read (mem s') renders
              !! Z.to_nat (pixel_id v img y x * fv_CDIM v + k)
            = Some (Some (background_or_zero h v img k))) ∧
         (∀ o k, In o (fv_others v) → 0 ≤ k < o.2 →
            read (mem s') o.1 !! Z.to_nat (pixel_id v img y x * o.2 + k)
            = Some (Some 0))) ∧
  (∀ means2d conics colors opacities backgrounds masks image_width
     image_height tile_size tile_offsets flatten_ids c s,
     Forall checked
       [means2d; conics; colors; opacities; tile_offsets; flatten_ids] →
     checked_opt backgrounds →
     checked_opt masks →
     2 ≤ dim tile_offsets →
     shape_ok tile_offsets →
     0 ≤ image_height →
     0 ≤ image_width →
     size colors (-1) = Ok c →
     In (to_uint32 c) supported_channels →
     ∃ out s',
       rasterize_to_pixels_3dgs_fwd kernel means2d conics colors opacities
         backgrounds masks image_width image_height tile_size tile_offsets
         flatten_ids s = (Ok out, s')) ∧
  (∀ means2d ray_transforms colors opacities normals backgrounds masks
     image_width image_height tile_size tile_offsets flatten_ids c s,
     Forall checked
       [means2d; ray_transforms; colors; opacities; normals; tile_offsets; flatten_ids] →
     checked_opt backgrounds →
     checked_opt masks →
     2 ≤ dim tile_offsets →
     shape_ok tile_offsets →
     0 ≤ image_height →
     0 ≤ image_width →
     size colors (-1) = Ok c →
     In (to_uint32 c) supported_channels →
     ∃ out s',
       rasterize_to_pixels_2dgs_fwd kernel means2d ray_transforms colors opacities
         normals backgrounds masks image_width image_height tile_size
         tile_offsets flatten_ids s = (Ok out, s')) ∧
  (∀ means quats scales colors opacities backgrounds masks image_width
     image_height tile_size viewmats0 viewmats1 Ks camera_model ut_params
     rs_type radial_coeffs tangential_coeffs thin_prism_coeffs ftheta_coeffs
     tile_offsets flatten_ids n_cameras c s,
     Forall checked
       [means; quats; scales; colors; opacities; tile_offsets; flatten_ids] →
     checked_opt backgrounds →
     checked_opt masks →
     2 ≤ dim means →
     shape_ok means →
     0 ≤ image_height →
     0 ≤ image_width →
     size viewmats0 (-3) = Ok n_cameras →
     size colors (-1) = Ok c →
     NDEBUG = true ∨ to_uint32 c = 3 →
     In (to_uint32 c) supported_channels →
     ∃ out s',
       rasterize_to_pixels_from_world_3dgs_fwd kernel NDEBUG means quats scales
         colors opacities backgrounds masks image_width image_height tile_size
         viewmats0 viewmats1 Ks camera_model ut_params rs_type radial_coeffs
         tangential_coeffs thin_prism_coeffs ftheta_coeffs tile_offsets
         flatten_ids s = (Ok out, s')).
Proof.
  repeat apply conj; intros *.
  - apply rasterize_to_pixels_3dgs_fwd_masked.
  - apply rasterize_to_pixels_2dgs_fwd_masked.
  - apply rasterize_to_pixels_from_world_3dgs_fwd_masked.
  - intros Hc Hb Hm Hdim Hshape Hh Hw Hsize Hin.
    eapply dispatches_returns; [|exact Hin].
    by eapply rasterize_to_pixels_3dgs_fwd_dispatches.
  - intros Hc Hb Hm Hdim Hshape Hh Hw Hsize Hin.
    eapply dispatches_returns; [|exact Hin].
    by eapply rasterize_to_pixels_2dgs_fwd_dispatches.
  - intros Hc Hb Hm Hdim Hshape Hh Hw Hcam Hsize Hassert Hin.
    eapply dispatches_returns; [|exact Hin].
    by eapply rasterize_to_pixels_from_world_3dgs_fwd_dispatches.
Qed.

(** ** The pairs of the two passes *)

Section IndexPasses.

Variable walk : Z → Z → Z → Z → Z → list (list Z * buffer) → Z → list Z.

(** The walk sees the same data wherever the tensors read hold the same. *)
Lemma contributing_same h h' v v' pix :
  iv_range_start v' = iv_range_start v →
  iv_range_end v' = iv_range_end v →
  iv_image_width v' = iv_image_width v →
  iv_image_height v' = iv_image_height v →
  iv_tile_size v' = iv_tile_size v →
  iv_inputs v' = iv_inputs v →
  Forall (λ t, read h' t = read h t) (iv_inputs v) →
  contributing walk h' v' pix = contributing walk h v pix.
Proof.
  intros H1 H2 H3 H4 H5 H6 Hread. unfold contributing.
  rewrite H1, H2, H3, H4, H5, H6. clear H6.
  assert ((λ t, (sizes t, read h' t)) <$> iv_inputs v
          = (λ t, (sizes t, read h t)) <$> iv_inputs v) as ->; [|done].
  induction Hread as [|t ts Ht _ IH]; [done|].
  rewrite !fmap_cons, Ht, IH. reflexivity.
Qed.

Lemma enumerated_same h h' v v' :
  index_pixels v' = index_pixels v →
  (∀ pix, contributing walk h' v' pix = contributing walk h v pix) →
  enumerated walk h' v' = enumerated walk h v.
Proof.
  intros Hp Hc. unfold enumerated. rewrite Hp.
  induction (seqZ 0 (index_pixels v)) as [|pix l IH]; [done|].
  simpl. by rewrite Hc, IH.
Qed.

(** Storing [f i] in cell [i] of a buffer, for every [i]. *)
Lemma apply_writes_tabulate (h : heap) t (f : Z → Z) n :
  length (read h t) = Z.to_nat n →
  read (apply_writes ((λ i, (storage t, Z.to_nat i, f i)) <$> seqZ 0 n) h) t
  = Some <$> (f <$> seqZ 0 n).
Proof.
  intros Hlen.
  set (ws := (λ i, (storage t, Z.to_nat i, f i)) <$> seqZ 0 n).
  apply list_eq. intros i.
  destruct (decide (i < Z.to_nat n)%nat) as [Hi|Hi].
  - rewrite !list_lookup_fmap, lookup_seqZ_lt by lia. simpl.
    apply read_apply_writes_written.
    + lia.
    + exists (storage t, i, f (Z.of_nat i)). split; [|done].
      apply list_elem_of_In, list_elem_of_fmap.
      exists (Z.of_nat i). split.
      * by rewrite Nat2Z.id.
      * apply elem_of_seqZ. lia.
    + intros w Hw _ Hi'.
      apply list_elem_of_In, list_elem_of_fmap in Hw as (j & -> & Hj).
      apply elem_of_seqZ in Hj. simpl in *. f_equal. lia.
  - rewrite !lookup_ge_None_2; [done| |].
    + rewrite !length_fmap, length_seqZ. lia.
    + rewrite length_read_apply_writes. lia.
Qed.

(** What the counting pass leaves in the zeroed buffer of counts: for every
    pixel the number of primitives of its walk; and the last running sum
    over them. *)
Lemma counting_pass_counts (h : heap) v t n :
  iv_chunk_cnts v = Some t → storage t = length h → sizes t = [n] →
  let h1 := h ++ [replicate (Z.to_nat n) (Some 0)] in
  let counts :=
    (λ pix, Z.of_nat (length (contributing walk h1 v pix))) <$> seqZ 0 n in
  read (apply_writes (index_kernel_writes walk h1 v) h1) t = Some <$> counts.
Proof.
  intros Hcnts Ht Hsizes h1 counts.
  unfold index_kernel_writes, counting_writes, index_pixels.
  rewrite Hcnts. unfold numel. rewrite Hsizes.
  replace (foldr Z.mul 1 [n]) with n by (simpl; lia).
  apply (apply_writes_tabulate h1 t
           (λ pix, Z.of_nat (length (contributing walk h1 v pix)))).
  unfold h1. rewrite read_snoc_here by done. apply length_replicate.
Qed.

Lemma last_cumsum_counts counts :
  counts ≠ [] →
  last (cumsum_int32 (Some <$> counts))
  = Some (Some (to_int32 (total counts))).
Proof.
  destruct counts as [|c counts]; [done|]. intros _.
  unfold cumsum_int32. by rewrite (last_cumsum_from 0 (c :: counts) 0).
Qed.

Lemma counting_pass_total (h : heap) v t n :
  iv_chunk_cnts v = Some t → storage t = length h → sizes t = [n] →
  0 < n →
  let h1 := h ++ [replicate (Z.to_nat n) (Some 0)] in
  let counts :=
    (λ pix, Z.of_nat (length (contributing walk h1 v pix))) <$> seqZ 0 n in
  last (cumsum_int32
          (read (apply_writes (index_kernel_writes walk h1 v) h1) t))
  = Some (Some (to_int32 (total counts))).
Proof.
  intros Hcnts Ht Hsizes Hn h1 counts.
  unfold h1. rewrite (counting_pass_counts h v t n) by done.
  apply last_cumsum_counts. intros Hnil.
  apply (f_equal length) in Hnil. unfold counts in Hnil.
  rewrite length_fmap, length_seqZ in Hnil. simpl in Hnil. lia.
Qed.

(** The counting pass stores to the counts alone: a tensor that was there
    before the buffer of counts reads the same after it. *)
Lemma read_after_counting (h : heap) b v t t' :
  iv_chunk_cnts v = Some t → storage t = length h →
  (storage t' < length h)%nat →
  read (apply_writes (index_kernel_writes walk (h ++ [b]) v) (h ++ [b])) t'
  = read h t'.
Proof.
  intros Hcnts Ht Ht'. rewrite read_apply_writes_other.
  - by apply read_snoc_before.
  - intros w Hw. unfold index_kernel_writes in Hw. rewrite Hcnts in Hw.
    apply list_elem_of_fmap in Hw as (pix & -> & _). simpl. lia.
Qed.

End IndexPasses.

Section IndexAgreement.

Variable walk : Z → Z → Z → Z → Z → list (list Z * buffer) → Z → list Z.

Lemma rasterize_to_indices_3dgs_agree
    range_start range_end transmittances means2d conics opacities
    image_width image_height tile_size tile_offsets flatten_ids
    n n_isects s r s' :
  (∀ a h, kernel (launch_rasterize_to_indices_3dgs_kernel a) h
          = index_kernel_writes walk h (view_3dgs_indices a)) →
  Forall checked [means2d; conics; opacities; tile_offsets; flatten_ids] →
  Forall (λ t, (storage t < length (mem s))%nat)
    [transmittances; means2d; conics; opacities; tile_offsets;
     flatten_ids] →
  size means2d (-2) = Ok n →
  to_uint32 (2 * to_uint32 n) ≠ 0 →
  size flatten_ids 0 = Ok n_isects →
  to_uint32 n_isects ≠ 0 →
  let I := to_uint32 (numel means2d `quot` to_uint32 (2 * to_uint32 n)) in
  let n_pixels := to_uint32 (to_uint32 (I * image_height) * image_width) in
  n_pixels ≠ 0 →
  rasterize_to_indices_3dgs kernel range_start range_end transmittances
    means2d conics opacities image_width image_height tile_size
    tile_offsets flatten_ids s = (r, s') →
  ∃ chunk_cnts,
    let a1 :=
      {| k3i_range_start := range_start; k3i_range_end := range_end;
         k3i_transmittances := transmittances; k3i_means2d := means2d;
         k3i_conics := conics; k3i_opacities := opacities;
         k3i_image_width := image_width;
         k3i_image_height := image_height; k3i_tile_size := tile_size;
         k3i_tile_offsets := tile_offsets;
         k3i_flatten_ids := flatten_ids;
         k3i_chunk_starts := None; k3i_chunk_cnts := Some chunk_cnts;
         k3i_gaussian_ids := None; k3i_pixel_ids := None |} in
    let v1 := view_3dgs_indices a1 in
    let k1 := launch_rasterize_to_indices_3dgs_kernel a1 in
    let h1 := mem s ++ [replicate (Z.to_nat n_pixels) (Some 0)] in
    let counts :=
      (λ pix, Z.of_nat (length (contributing walk h1 v1 pix)))
        <$> seqZ 0 n_pixels in
    storage chunk_cnts = length (mem s) ∧
    sizes chunk_cnts = [n_pixels] ∧
    read (apply_writes (kernel k1 h1) h1) chunk_cnts = Some <$> counts ∧
    (to_int32 (total counts) = 0 →
     ∃ gaussian_ids pixel_ids,
       r = Ok (gaussian_ids, pixel_ids) ∧ launched s s' [(k1, h1)]) ∧
    (0 < to_int32 (total counts) →
     ∃ chunk_starts gaussian_ids pixel_ids h2,
       let a2 :=
         {| k3i_range_start := range_start; k3i_range_end := range_end;
            k3i_transmittances := transmittances; k3i_means2d := means2d;
            k3i_conics := conics; k3i_opacities := opacities;
            k3i_image_width := image_width;
            k3i_image_height := image_height; k3i_tile_size := tile_size;
            k3i_tile_offsets := tile_offsets;
            k3i_flatten_ids := flatten_ids;
            k3i_chunk_starts := Some (DefinedTensor chunk_starts);
            k3i_chunk_cnts := None;
            k3i_gaussian_ids := Some gaussian_ids;
            k3i_pixel_ids := Some pixel_ids |} in
       let v2 := view_3dgs_indices a2 in
       r = Ok (gaussian_ids, pixel_ids) ∧
       launched s s'
         [(k1, h1); (launch_rasterize_to_indices_3dgs_kernel a2, h2)] ∧
       kernel (launch_rasterize_to_indices_3dgs_kernel a2) h2
       = compaction_writes walk h2 v2 chunk_starts gaussian_ids pixel_ids ∧
       index_pixels v2 = index_pixels v1 ∧
       (∀ pix, contributing walk h2 v2 pix = contributing walk h1 v1 pix) ∧
       enumerated walk h2 v2 = enumerated walk h1 v1 ∧
       read h2 chunk_cnts
       = Some <$> ((λ pix, Z.of_nat (length (contributing walk h2 v2 pix)))
                     <$> seqZ 0 (index_pixels v2))).
Proof.
  intros Hkernel Hchecked Halloc Hn Hdiv Hisects Hne. cbv zeta.
  intros Hpix Hrun.
  split_checked. wp_of Hrun. unfold rasterize_to_indices_3dgs.
  wp_run ltac:(first [absurd_branch | absurd_dims]);
    unify_sizes; rewrite ?shape_numel_1 in *; name_indices_state s.
  all: rewrite ?read_snoc_here in * by done.
  all: try match goal with
       | H : (_ =? 0) = true |- _ => apply Z.eqb_eq in H; contradiction
       | H : negb (_ =? 0) = false |- _ =>
           apply negb_false_iff, Z.eqb_eq in H; contradiction
       end.
  all: assert (0 ≤ n_pixels) as Hge by apply to_uint32_range.
  all: assert (0 < n_pixels) as Hpos by lia.
  all: exists chunk_cnts.
  all: match eval unfold k1 in k1 with
       | launch_rasterize_to_indices_3dgs_kernel ?a =>
           pose proof (counting_pass_counts walk (mem s)
                         (view_3dgs_indices a) chunk_cnts n_pixels
                         eq_refl eq_refl eq_refl) as Hcounts;
           pose proof (counting_pass_total walk (mem s)
                         (view_3dgs_indices a) chunk_cnts n_pixels
                         eq_refl eq_refl eq_refl Hpos) as Hlast
       end.
  all: cbv zeta in Hcounts, Hlast; rewrite <- Hkernel in Hcounts, Hlast.
  all: fold h1 in Hcounts, Hlast; fold k1 in Hcounts, Hlast;
       fold h1' in Hcounts, Hlast.
  all: match type of Hcounts with
       | _ = Some <$> ?c => set (counts := c) in *
       end.
  all: match goal with
       | Hx : last (cumsum_int32 _) = ?rhs |- _ =>
           lazymatch rhs with
           | Some (Some (to_int32 _)) => fail
           | _ => rewrite Hlast in Hx;
                  first [discriminate Hx | injection Hx as Hv]
           end
       end.
  all: do 2 (split; [reflexivity|]); (split; [exact Hcounts|]).
  - (* both passes *)
    split.
    { intros Hz. exfalso. rewrite Hz in Hv. subst v. discriminate. }
    intros _. eexists _, _, _, _. split; [reflexivity|].
    split; [unfold launched; simpl; by rewrite <- app_assoc|].
    split; [by rewrite Hkernel|].
    split; [reflexivity|].
    match goal with
    | |- (∀ pix, contributing walk ?h2 ?v2 pix
                 = contributing walk _ ?v1 pix) ∧ _ =>
        set (hh := h2); set (vv := v2);
        assert (∀ pix, contributing walk hh vv pix
                       = contributing walk h1 v1 pix) as Hsame
    end.
    { intros pix. apply contributing_same; try reflexivity.
      apply (Forall_impl _ _ _ Halloc). intros t Ht. unfold hh.
      rewrite !read_snoc_before by heap_lengths.
      unfold h1', k1, h1. rewrite Hkernel.
      rewrite (read_after_counting walk (mem s) _ _ chunk_cnts) by done.
      by rewrite read_snoc_before. }
    split; [exact Hsame|].
    split; [apply enumerated_same; [reflexivity|exact Hsame]|].
    assert (read hh chunk_cnts = read h1' chunk_cnts) as ->
      by (unfold hh; by rewrite !read_snoc_before by heap_lengths).
    rewrite Hcounts. unfold counts.
    replace (index_pixels vv) with n_pixels
      by (unfold index_pixels, numel; simpl; lia).
    f_equal. apply list_fmap_ext. intros i pix _.
    by rewrite Hsame.
  - (* the counts add up to zero *)
    split.
    + intros _. by eexists _, _.
    + intros Hgt. exfalso.
      match goal with
      | H : negb (v =? 0) = false |- _ =>
          apply negb_false_iff, Z.eqb_eq in H
      end. lia.
  - (* the counts add up to a negative number *)
    match goal with
    | H : ¬ Forall (Z.le 0) [v] |- _ => rewrite Forall_singleton in H
    end.
    split; intros; exfalso; lia.
Qed.

Lemma rasterize_to_indices_2dgs_agree
    range_start range_end transmittances means2d ray_transforms opacities
    image_width image_height tile_size tile_offsets flatten_ids
    n n_isects s r s' :
  (∀ a h, kernel (launch_rasterize_to_indices_2dgs_kernel a) h
          = index_kernel_writes walk h (view_2dgs_indices a)) →
  Forall checked
    [means2d; ray_transforms; opacities; tile_offsets; flatten_ids] →
  Forall (λ t, (storage t < length (mem s))%nat)
    [transmittances; means2d; ray_transforms; opacities; tile_offsets;
     flatten_ids] →
  size means2d (-2) = Ok n →
  to_uint32 (2 * to_uint32 n) ≠ 0 →
  size flatten_ids 0 = Ok n_isects →
  to_uint32 n_isects ≠ 0 →
  let I := to_uint32 (numel means2d `quot` to_uint32 (2 * to_uint32 n)) in
  let n_pixels := to_uint32 (to_uint32 (I * image_height) * image_width) in
  n_pixels ≠ 0 →
  rasterize_to_indices_2dgs kernel range_start range_end transmittances
    means2d ray_transforms opacities image_width image_height tile_size
    tile_offsets flatten_ids s = (r, s') →
  ∃ chunk_cnts,
    let a1 :=
      {| k2i_range_start := range_start; k2i_range_end := range_end;
         k2i_transmittances := transmittances; k2i_means2d := means2d;
         k2i_ray_transforms := ray_transforms;
         k2i_opacities := opacities;
         k2i_image_width := image_width;
         k2i_image_height := image_height; k2i_tile_size := tile_size;
         k2i_tile_offsets := tile_offsets;
         k2i_flatten_ids := flatten_ids;
         k2i_chunk_starts := None; k2i_chunk_cnts := Some chunk_cnts;
         k2i_gaussian_ids := None; k2i_pixel_ids := None |} in
    let v1 := view_2dgs_indices a1 in
    let k1 := launch_rasterize_to_indices_2dgs_kernel a1 in
    let h1 := mem s ++ [replicate (Z.to_nat n_pixels) (Some 0)] in
    let counts :=
      (λ pix, Z.of_nat (length (contributing walk h1 v1 pix)))
        <$> seqZ 0 n_pixels in
    storage chunk_cnts = length (mem s) ∧
    sizes chunk_cnts = [n_pixels] ∧
    read (apply_writes (kernel k1 h1) h1) chunk_cnts = Some <$> counts ∧
    (to_int32 (total counts) = 0 →
     ∃ gaussian_ids pixel_ids,
       r = Ok (gaussian_ids, pixel_ids) ∧ launched s s' [(k1, h1)]) ∧
    (0 < to_int32 (total counts) →
     ∃ chunk_starts gaussian_ids pixel_ids h2,
       let a2 :=
         {| k2i_range_start := range_start; k2i_range_end := range_end;
            k2i_transmittances := transmittances; k2i_means2d := means2d;
            k2i_ray_transforms := ray_transforms;
            k2i_opacities := opacities;
            k2i_image_width := image_width;
            k2i_image_height := image_height; k2i_tile_size := tile_size;
            k2i_tile_offsets := tile_offsets;
            k2i_flatten_ids := flatten_ids;
            k2i_chunk_starts := Some (DefinedTensor chunk_starts);
            k2i_chunk_cnts := None;
            k2i_gaussian_ids := Some gaussian_ids;
            k2i_pixel_ids := Some pixel_ids |} in
       let v2 := view_2dgs_indices a2 in
       r = Ok (gaussian_ids, pixel_ids) ∧
       launched s s'
         [(k1, h1); (launch_rasterize_to_indices_2dgs_kernel a2, h2)] ∧
       kernel (launch_rasterize_to_indices_2dgs_kernel a2) h2
       = compaction_writes walk h2 v2 chunk_starts gaussian_ids pixel_ids ∧
       index_pixels v2 = index_pixels v1 ∧
       (∀ pix, contributing walk h2 v2 pix = contributing walk h1 v1 pix) ∧
       enumerated walk h2 v2 = enumerated walk h1 v1 ∧
       read h2 chunk_cnts
       = Some <$> ((λ pix, Z.of_nat (length (contributing walk h2 v2 pix)))
                     <$> seqZ 0 (index_pixels v2))).
Proof.
  intros Hkernel Hchecked Halloc Hn Hdiv Hisects Hne. cbv zeta.
  intros Hpix Hrun.
  split_checked. wp_of Hrun. unfold rasterize_to_indices_2dgs.
  wp_run ltac:(first [absurd_branch | absurd_dims]);
    unify_sizes; rewrite ?shape_numel_1 in *; name_indices_state s.
  all: rewrite ?read_snoc_here in * by done.
  all: try match goal with
       | H : (_ =? 0) = true |- _ => apply Z.eqb_eq in H; contradiction
       | H : negb (_ =? 0) = false |- _ =>
           apply negb_false_iff, Z.eqb_eq in H; contradiction
       end.
  all: assert (0 ≤ n_pixels) as Hge by apply to_uint32_range.
  all: assert (0 < n_pixels) as Hpos by lia.
  all: exists chunk_cnts.
  all: match eval unfold k1 in k1 with
       | launch_rasterize_to_indices_2dgs_kernel ?a =>
           pose proof (counting_pass_counts walk (mem s)
                         (view_2dgs_indices a) chunk_cnts n_pixels
                         eq_refl eq_refl eq_refl) as Hcounts;
           pose proof (counting_pass_total walk (mem s)
                         (view_2dgs_indices a) chunk_cnts n_pixels
                         eq_refl eq_refl eq_refl Hpos) as Hlast
       end.
  all: cbv zeta in Hcounts, Hlast; rewrite <- Hkernel in Hcounts, Hlast.
  all: fold h1 in Hcounts, Hlast; fold k1 in Hcounts, Hlast;
       fold h1' in Hcounts, Hlast.
  all: match type of Hcounts with
       | _ = Some <$> ?c => set (counts := c) in *
       end.
  all: match goal with
       | Hx : last (cumsum_int32 _) = ?rhs |- _ =>
           lazymatch rhs with
           | Some (Some (to_int32 _)) => fail
           | _ => rewrite Hlast in Hx;
                  first [discriminate Hx | injection Hx as Hv]
           end
       end.
  all: do 2 (split; [reflexivity|]); (split; [exact Hcounts|]).
  - (* both passes *)
    split.
    { intros Hz. exfalso. rewrite Hz in Hv. subst v. discriminate. }
    intros _. eexists _, _, _, _. split; [reflexivity|].
    split; [unfold launched; simpl; by rewrite <- app_assoc|].
    split; [by rewrite Hkernel|].
    split; [reflexivity|].
    match goal with
    | |- (∀ pix, contributing walk ?h2 ?v2 pix
                 = contributing walk _ ?v1 pix) ∧ _ =>
        set (hh := h2); set (vv := v2);
        assert (∀ pix, contributing walk hh vv pix
                       = contributing walk h1 v1 pix) as Hsame
    end.
    { intros pix. apply contributing_same; try reflexivity.
      apply (Forall_impl _ _ _ Halloc). intros t Ht. unfold hh.
      rewrite !read_snoc_before by heap_lengths.
      unfold h1', k1, h1. rewrite Hkernel.
      rewrite (read_after_counting walk (mem s) _ _ chunk_cnts) by done.
      by rewrite read_snoc_before. }
    split; [exact Hsame|].
    split; [apply enumerated_same; [reflexivity|exact Hsame]|].
    assert (read hh chunk_cnts = read h1' chunk_cnts) as ->
      by (unfold hh; by rewrite !read_snoc_before by heap_lengths).
    rewrite Hcounts. unfold counts.
    replace (index_pixels vv) with n_pixels
      by (unfold index_pixels, numel; simpl; lia).
    f_equal. apply list_fmap_ext. intros i pix _.
    by rewrite Hsame.
  - (* the counts add up to zero *)
    split.
    + intros _. by eexists _, _.
    + intros Hgt. exfalso.
      match goal with
      | H : negb (v =? 0) = false |- _ =>
          apply negb_false_iff, Z.eqb_eq in H
      end. lia.
  - (* the counts add up to a negative number *)
    match goal with
    | H : ¬ Forall (Z.le 0) [v] |- _ => rewrite Forall_singleton in H
    end.
    split; intros; exfalso; lia.
Qed.

End IndexAgreement.

(** C2.  The index kernels are not among the sources; the statement is about
    the wrappers run with the kernel the specification describes
    ([index_kernel_writes]), for any walk of a pixel that is a function of
    the window, the geometry and the data of the tensors read.  Take a call
    of [rasterize_to_indices_3dgs] or [rasterize_to_indices_2dgs] on tensors
    that exist, with intersections and pixels.  It runs the counting pass on
    the [range_start], [range_end], transmittances, primitive arrays, image
    dimensions, [tile_offsets] and [flatten_ids] of the call and a zeroed
    buffer of counts as the only output; the pass leaves, for every pixel,
    the number of pairs of its walk.  When no pair was counted the call
    returns after this launch.  When pairs were counted the call returns
    after a second launch of the same kernel on the same inputs, with the
    offsets and the two id buffers as the only outputs; the walk of every
    pixel finds the same primitives as in the counting pass, so both passes
    enumerate the same (primitive, pixel) pairs; the second launch writes
    these pairs from the offsets on, and the count of a pixel is the number
    of pairs it writes for it. *)
Theorem index_passes_agree
    (walk : Z → Z → Z → Z → Z → list (list Z * buffer) → Z → list Z) :
  (∀ range_start range_end transmittances means2d conics opacities
     image_width image_height tile_size tile_offsets flatten_ids n n_isects
     s,
     (∀ a h, kernel (launch_rasterize_to_indices_3dgs_kernel a) h
             = index_kernel_writes walk h (view_3dgs_indices a)) →
     Forall checked [means2d; conics; opacities; tile_offsets; flatten_ids] →
     Forall (λ t, (storage t < length (mem s))%nat)
       [transmittances; means2d; conics; opacities; tile_offsets;
        flatten_ids] →
     size means2d (-2) = Ok n →
     to_uint32 (2 * to_uint32 n) ≠ 0 →
     size flatten_ids 0 = Ok n_isects →
     to_uint32 n_isects ≠ 0 →
     let I := to_uint32 (numel means2d `quot` to_uint32 (2 * to_uint32 n)) in
     let n_pixels := to_uint32 (to_uint32 (I * image_height) * image_width) in
     n_pixels ≠ 0 →
     ∃ chunk_cnts,
       let a1 :=
         {| k3i_range_start := range_start; k3i_range_end := range_end;
            k3i_transmittances := transmittances; k3i_means2d := means2d;
            k3i_conics := conics; k3i_opacities := opacities;
            k3i_image_width := image_width;
            k3i_image_height := image_height; k3i_tile_size := tile_size;
            k3i_tile_offsets := tile_offsets;
            k3i_flatten_ids := flatten_ids;
            k3i_chunk_starts := None; k3i_chunk_cnts := Some chunk_cnts;
            k3i_gaussian_ids := None; k3i_pixel_ids := None |} in
       let v1 := view_3dgs_indices a1 in
       let k1 := launch_rasterize_to_indices_3dgs_kernel a1 in
       let h1 := mem s ++ [replicate (Z.to_nat n_pixels) (Some 0)] in
       let counts :=
         (λ pix, Z.of_nat (length (contributing walk h1 v1 pix)))
           <$> seqZ 0 n_pixels in
       storage chunk_cnts = length (mem s) ∧
       sizes chunk_cnts = [n_pixels] ∧
       read (apply_writes (kernel k1 h1) h1) chunk_cnts = Some <$> counts ∧
       (to_int32 (total counts) = 0 →
        ∃ gaussian_ids pixel_ids s',
          rasterize_to_indices_3dgs kernel range_start range_end transmittances
            means2d conics opacities image_width image_height tile_size
            tile_offsets flatten_ids s
          = (Ok (gaussian_ids, pixel_ids), s') ∧
          launched s s' [(k1, h1)]) ∧
       (0 < to_int32 (total counts) →
        ∃ chunk_starts gaussian_ids pixel_ids h2 s',
          let a2 :=
            {| k3i_range_start := range_start; k3i_range_end := range_end;
               k3i_transmittances := transmittances; k3i_means2d := means2d;
               k3i_conics := conics; k3i_opacities := opacities;
               k3i_image_width := image_width;
               k3i_image_height := image_height; k3i_tile_size := tile_size;
               k3i_tile_offsets := tile_offsets;
               k3i_flatten_ids := flatten_ids;
               k3i_chunk_starts := Some (DefinedTensor chunk_starts);
               k3i_chunk_cnts := None;
               k3i_gaussian_ids := Some gaussian_ids;
               k3i_pixel_ids := Some pixel_ids |} in
          let v2 := view_3dgs_indices a2 in
          rasterize_to_indices_3dgs kernel range_start range_end transmittances
            means2d conics opacities image_width image_height tile_size
            tile_offsets flatten_ids s
          = (Ok (gaussian_ids, pixel_ids), s') ∧
          launched s s'
            [(k1, h1); (launch_rasterize_to_indices_3dgs_kernel a2, h2)] ∧
          kernel (launch_rasterize_to_indices_3dgs_kernel a2) h2
          = compaction_writes walk h2 v2 chunk_starts gaussian_ids pixel_ids ∧
          index_pixels v2 = index_pixels v1 ∧
          (∀ pix, contributing walk h2 v2 pix = contributing walk h1 v1 pix) ∧
          enumerated walk h2 v2 = enumerated walk h1 v1 ∧
          read h2 chunk_cnts
          = Some <$> ((λ pix, Z.of_nat (length (contributing walk h2 v2 pix)))
                        <$> seqZ 0 (index_pixels v2)))) ∧
  (∀ range_start range_end transmittances means2d ray_transforms opacities
     image_width image_height tile_size tile_offsets flatten_ids n n_isects
     s,
     (∀ a h, kernel (launch_rasterize_to_indices_2dgs_kernel a) h
             = index_kernel_writes walk h (view_2dgs_indices a)) →
     Forall checked
       [means2d; ray_transforms; opacities; tile_offsets; flatten_ids] →
     Forall (λ t, (storage t < length (mem s))%nat)
       [transmittances; means2d; ray_transforms; opacities; tile_offsets;
        flatten_ids] →
     size means2d (-2) = Ok n →
     to_uint32 (2 * to_uint32 n) ≠ 0 →
     size flatten_ids 0 = Ok n_isects →
     to_uint32 n_isects ≠ 0 →
     let I := to_uint32 (numel means2d `quot` to_uint32 (2 * to_uint32 n)) in
     let n_pixels := to_uint32 (to_uint32 (I * image_height) * image_width) in
     n_pixels ≠ 0 →
     ∃ chunk_cnts,
       let a1 :=
         {| k2i_range_start := range_start; k2i_range_end := range_end;
            k2i_transmittances := transmittances; k2i_means2d := means2d;
            k2i_ray_transforms := ray_transforms;
            k2i_opacities := opacities;
            k2i_image_width := image_width;
            k2i_image_height := image_height; k2i_tile_size := tile_size;
            k2i_tile_offsets := tile_offsets;
            k2i_flatten_ids := flatten_ids;
            k2i_chunk_starts := None; k2i_chunk_cnts := Some chunk_cnts;
            k2i_gaussian_ids := None; k2i_pixel_ids := None |} in
       let v1 := view_2dgs_indices a1 in
       let k1 := launch_rasterize_to_indices_2dgs_kernel a1 in
       let h1 := mem s ++ [replicate (Z.to_nat n_pixels) (Some 0)] in
       let counts :=
         (λ pix, Z.of_nat (length (contributing walk h1 v1 pix)))
           <$> seqZ 0 n_pixels in
       storage chunk_cnts = length (mem s) ∧
       sizes chunk_cnts = [n_pixels] ∧
       read (apply_writes (kernel k1 h1) h1) chunk_cnts = Some <$> counts ∧
       (to_int32 (total counts) = 0 →
        ∃ gaussian_ids pixel_ids s',
          rasterize_to_indices_2dgs kernel range_start range_end transmittances
            means2d ray_transforms opacities image_width image_height tile_size
            tile_offsets flatten_ids s
          = (Ok (gaussian_ids, pixel_ids), s') ∧
          launched s s' [(k1, h1)]) ∧
       (0 < to_int32 (total counts) →
        ∃ chunk_starts gaussian_ids pixel_ids h2 s',
          let a2 :=
            {| k2i_range_start := range_start; k2i_range_end := range_end;
               k2i_transmittances := transmittances; k2i_means2d := means2d;
               k2i_ray_transforms := ray_transforms;
               k2i_opacities := opacities;
               k2i_image_width := image_width;
               k2i_image_height := image_height; k2i_tile_size := tile_size;
               k2i_tile_offsets := tile_offsets;
               k2i_flatten_ids := flatten_ids;
               k2i_chunk_starts := Some (DefinedTensor chunk_starts);
               k2i_chunk_cnts := None;
               k2i_gaussian_ids := Some gaussian_ids;
               k2i_pixel_ids := Some pixel_ids |} in
          let v2 := view_2dgs_indices a2 in
          rasterize_to_indices_2dgs kernel range_start range_end transmittances
            means2d ray_transforms opacities image_width image_height tile_size
            tile_offsets flatten_ids s
          = (Ok (gaussian_ids, pixel_ids), s') ∧
          launched s s'
            [(k1, h1); (launch_rasterize_to_indices_2dgs_kernel a2, h2)] ∧
          kernel (launch_rasterize_to_indices_2dgs_kernel a2) h2
          = compaction_writes walk h2 v2 chunk_starts gaussian_ids pixel_ids ∧
          index_pixels v2 = index_pixels v1 ∧
          (∀ pix, contributing walk h2 v2 pix = contributing walk h1 v1 pix) ∧
          enumerated walk h2 v2 = enumerated walk h1 v1 ∧
          read h2 chunk_cnts
          = Some <$> ((λ pix, Z.of_nat (length (contributing walk h2 v2 pix)))
                        <$> seqZ 0 (index_pixels v2)))).
Proof.
  split; intros *.
  - intros Hkernel Hchecked Halloc Hn Hdiv Hisects Hne. cbv zeta.
    intros Hpix.
    match goal with
    | |- context [rasterize_to_indices_3dgs kernel ?a ?b ?c ?d ?e ?f ?g ?h ?i ?j
                    ?k s] =>
        destruct (rasterize_to_indices_3dgs kernel a b c d e f g h i j k s)
          as [r s'] eqn:Hrun
    end.
    destruct (rasterize_to_indices_3dgs_agree walk _ _ _ _ _ _ _ _ _ _ _ n
                n_isects s r s' Hkernel Hchecked Halloc Hn Hdiv Hisects Hne
                Hpix Hrun)
      as (chunk_cnts & Hstorage & Hsizes & Hcounts & Hzero & Hpos).
    exists chunk_cnts. do 3 (split; [assumption|]). split.
    + intros Hz. destruct (Hzero Hz) as (g & p & -> & Hl). by exists g, p, s'.
    + intros Hgt.
      destruct (Hpos Hgt) as (st & g & p & h2 & -> & Hrest).
      by exists st, g, p, h2, s'.
  - intros Hkernel Hchecked Halloc Hn Hdiv Hisects Hne. cbv zeta.
    intros Hpix.
    match goal with
    | |- context [rasterize_to_indices_2dgs kernel ?a ?b ?c ?d ?e ?f ?g ?h ?i ?j
                    ?k s] =>
        destruct (rasterize_to_indices_2dgs kernel a b c d e f g h i j k s)
          as [r s'] eqn:Hrun
    end.
    destruct (rasterize_to_indices_2dgs_agree walk _ _ _ _ _ _ _ _ _ _ _ n
                n_isects s r s' Hkernel Hchecked Halloc Hn Hdiv Hisects Hne
                Hpix Hrun)
      as (chunk_cnts & Hstorage & Hsizes & Hcounts & Hzero & Hpos).
    exists chunk_cnts. do 3 (split; [assumption|]). split.
    + intros Hz. destruct (Hzero Hz) as (g & p & -> & Hl). by exists g, p, s'.
    + intros Hgt.
      destruct (Hpos Hgt) as (st & g & p & h2 & -> & Hrest).
      by exists st, g, p, h2, s'.
Qed.

(** ** What a call leaves alone *)

Lemma preserved_refl (s : ST) : preserved kernel s s.
Proof.
  exists []. split; [unfold launched; by rewrite app_nil_r|].
  split; [done|]. by intros t Ht _.
Qed.

Lemma preserved_alloc (s : ST) M L b :
  preserved kernel s {| mem := M; launches := L |} →
  preserved kernel s {| mem := M ++ [b]; launches := L |}.
Proof.
  intros (ks & Hl & Hlen & Hread). simpl in *.
  exists ks. split; [exact Hl|]. simpl.
  split; [rewrite length_app; lia|].
  intros t Ht Hks. destruct (Hread t Ht Hks) as [Hstart Hend].
  split; [exact Hstart|].
  rewrite read_snoc_before by lia. exact Hend.
Qed.

Lemma preserved_launch (s : ST) M L k :
  preserved kernel s {| mem := M; launches := L |} →
  preserved kernel s {| mem := apply_writes (kernel k M) M;
                        launches := L ++ [(k, M)] |}.
Proof.
  intros (ks & Hl & Hlen & Hread). unfold launched in Hl. simpl in *.
  exists (ks ++ [(k, M)]). split.
  { unfold launched. simpl. by rewrite Hl, app_assoc. }
  simpl. split; [by rewrite length_apply_writes|].
  intros t Ht Hks. apply Forall_app in Hks as [Hks Hk].
  rewrite Forall_singleton in Hk. simpl in Hk.
  destruct (Hread t Ht Hks) as [Hstart Hend].
  split.
  - apply Forall_app. split; [exact Hstart|].
    by apply Forall_singleton.
  - rewrite read_apply_writes_other by exact Hk. exact Hend.
Qed.

(** Follow the allocations and launches that led to the state of the goal. *)
Ltac solve_preserved :=
  repeat first
    [ apply preserved_refl
    | apply preserved_alloc
    | apply preserved_launch ];
  match goal with
  | |- preserved _ ?s {| mem := mem ?s; launches := launches ?s |} =>
      destruct s; apply preserved_refl
  end.

Lemma rasterize_to_pixels_3dgs_fwd_preserves
    means2d conics colors opacities backgrounds masks image_width image_height
    tile_size tile_offsets flatten_ids s r s' :
  (rasterize_to_pixels_3dgs_fwd kernel means2d conics colors opacities
     backgrounds masks image_width image_height tile_size tile_offsets
     flatten_ids) s = (r, s') →
  preserved kernel s s'.
Proof.
  intros Hrun. wp_of Hrun. unfold rasterize_to_pixels_3dgs_fwd.
  wp_run ltac:(solve_preserved).
Qed.

Lemma rasterize_to_pixels_3dgs_bwd_preserves
    means2d conics colors opacities backgrounds masks image_width image_height
    tile_size tile_offsets flatten_ids render_alphas last_ids v_render_colors
    v_render_alphas absgrad s r s' :
  (rasterize_to_pixels_3dgs_bwd kernel means2d conics colors opacities
     backgrounds masks image_width image_height tile_size tile_offsets
     flatten_ids render_alphas last_ids v_render_colors v_render_alphas
     absgrad) s = (r, s') →
  preserved kernel s s'.
Proof.
  intros Hrun. wp_of Hrun. unfold rasterize_to_pixels_3dgs_bwd.
  wp_run ltac:(solve_preserved).
Qed.

Lemma rasterize_to_indices_3dgs_preserves
    range_start range_end transmittances means2d conics opacities image_width
    image_height tile_size tile_offsets flatten_ids s r s' :
  (rasterize_to_indices_3dgs kernel range_start range_end transmittances means2d
     conics opacities image_width image_height tile_size tile_offsets
     flatten_ids) s = (r, s') →
  preserved kernel s s'.
Proof.
  intros Hrun. wp_of Hrun. unfold rasterize_to_indices_3dgs.
  wp_run ltac:(solve_preserved).
Qed.

Lemma rasterize_to_pixels_2dgs_fwd_preserves
    means2d ray_transforms colors opacities normals backgrounds masks
    image_width image_height tile_size tile_offsets flatten_ids s r s' :
  (rasterize_to_pixels_2dgs_fwd kernel means2d ray_transforms colors opacities
     normals backgrounds masks image_width image_height tile_size tile_offsets
     flatten_ids) s = (r, s') →
  preserved kernel s s'.
Proof.
  intros Hrun. wp_of Hrun. unfold rasterize_to_pixels_2dgs_fwd.
  wp_run ltac:(solve_preserved).
Qed.

Lemma rasterize_to_pixels_2dgs_bwd_preserves
    means2d ray_transforms colors opacities normals densify backgrounds masks
    image_width image_height tile_size tile_offsets flatten_ids render_colors
    render_alphas last_ids median_ids v_render_colors v_render_alphas
    v_render_normals v_render_distort v_render_median absgrad s r s' :
  (rasterize_to_pixels_2dgs_bwd kernel means2d ray_transforms colors opacities
     normals densify backgrounds masks image_width image_height tile_size
     tile_offsets flatten_ids render_colors render_alphas last_ids median_ids
     v_render_colors v_render_alphas v_render_normals v_render_distort
     v_render_median absgrad) s = (r, s') →
  preserved kernel s s'.
Proof.
  intros Hrun. wp_of Hrun. unfold rasterize_to_pixels_2dgs_bwd.
  wp_run ltac:(solve_preserved).
Qed.

Lemma rasterize_to_indices_2dgs_preserves
    range_start range_end transmittances means2d ray_transforms opacities
    image_width image_height tile_size tile_offsets flatten_ids s r s' :
  (rasterize_to_indices_2dgs kernel range_start range_end transmittances means2d
     ray_transforms opacities image_width image_height tile_size tile_offsets
     flatten_ids) s = (r, s') →
  preserved kernel s s'.
Proof.
  intros Hrun. wp_of Hrun. unfold rasterize_to_indices_2dgs.
  wp_run ltac:(solve_preserved).
Qed.

Lemma rasterize_to_pixels_from_world_3dgs_fwd_preserves
    means quats scales colors opacities backgrounds masks image_width
    image_height tile_size viewmats0 viewmats1 Ks camera_model ut_params
    rs_type radial_coeffs tangential_coeffs thin_prism_coeffs ftheta_coeffs
    tile_offsets flatten_ids s r s' :
  (rasterize_to_pixels_from_world_3dgs_fwd kernel NDEBUG means quats scales
     colors opacities backgrounds masks image_width image_height tile_size
     viewmats0 viewmats1 Ks camera_model ut_params rs_type radial_coeffs
     tangential_coeffs thin_prism_coeffs ftheta_coeffs tile_offsets
     flatten_ids) s = (r, s') →
  preserved kernel s s'.
Proof.
  intros Hrun. wp_of Hrun. unfold rasterize_to_pixels_from_world_3dgs_fwd.
  wp_run ltac:(solve_preserved).
Qed.

Lemma rasterize_to_pixels_from_world_3dgs_bwd_preserves
    means quats scales colors opacities backgrounds masks image_width
    image_height tile_size viewmats0 viewmats1 Ks camera_model ut_params
    rs_type radial_coeffs tangential_coeffs thin_prism_coeffs ftheta_coeffs
    tile_offsets flatten_ids render_alphas last_ids v_render_colors
    v_render_alphas s r s' :
  (rasterize_to_pixels_from_world_3dgs_bwd kernel means quats scales colors
     opacities backgrounds masks image_width image_height tile_size viewmats0
     viewmats1 Ks camera_model ut_params rs_type radial_coeffs
     tangential_coeffs thin_prism_coeffs ftheta_coeffs tile_offsets
     flatten_ids render_alphas last_ids v_render_colors v_render_alphas) s = (r, s') →
  preserved kernel s s'.
Proof.
  intros Hrun. wp_of Hrun. unfold rasterize_to_pixels_from_world_3dgs_bwd.
  wp_run ltac:(solve_preserved).
Qed.

(** X4.  Whatever one of the eight entry points does and however it ends, it
    only appends to the list of launches and to the store.  A tensor that
    existed before the call and that no launch of the call stores to holds the
    caller's data when each launch starts and when the call is over: the
    wrapper itself writes to no buffer it was given. *)
Theorem calls_preserve_what_kernels_spare :
  (∀ means2d conics colors opacities backgrounds masks image_width image_height
     tile_size tile_offsets flatten_ids s r s',
     (rasterize_to_pixels_3dgs_fwd kernel means2d conics colors opacities
        backgrounds masks image_width image_height tile_size tile_offsets
        flatten_ids) s = (r, s') →
     preserved kernel s s') ∧
  (∀ means2d conics colors opacities backgrounds masks image_width image_height
     tile_size tile_offsets flatten_ids render_alphas last_ids v_render_colors
     v_render_alphas absgrad s r s',
     (rasterize_to_pixels_3dgs_bwd kernel means2d conics colors opacities
        backgrounds masks image_width image_height tile_size tile_offsets
        flatten_ids render_alphas last_ids v_render_colors v_render_alphas
        absgrad) s = (r, s') →
     preserved kernel s s') ∧
  (∀ range_start range_end transmittances means2d conics opacities image_width
     image_height tile_size tile_offsets flatten_ids s r s',
     (rasterize_to_indices_3dgs kernel range_start range_end transmittances means2d
        conics opacities image_width image_height tile_size tile_offsets
        flatten_ids) s = (r, s') →
     preserved kernel s s') ∧
  (∀ means2d ray_transforms colors opacities normals backgrounds masks image_width
     image_height tile_size tile_offsets flatten_ids s r s',
     (rasterize_to_pixels_2dgs_fwd kernel means2d ray_transforms colors opacities
        normals backgrounds masks image_width image_height tile_size
        tile_offsets flatten_ids) s = (r, s') →
     preserved kernel s s') ∧
  (∀ means2d ray_transforms colors opacities normals densify backgrounds masks
     image_width image_height tile_size tile_offsets flatten_ids render_colors
     render_alphas last_ids median_ids v_render_colors v_render_alphas
     v_render_normals v_render_distort v_render_median absgrad s r s',
     (rasterize_to_pixels_2dgs_bwd kernel means2d ray_transforms colors opacities
        normals densify backgrounds masks image_width image_height tile_size
        tile_offsets flatten_ids render_colors render_alphas last_ids
        median_ids v_render_colors v_render_alphas v_render_normals
        v_render_distort v_render_median absgrad) s = (r, s') →
     preserved kernel s s') ∧
  (∀ range_start range_end transmittances means2d ray_transforms opacities
     image_width image_height tile_size tile_offsets flatten_ids s r s',
     (rasterize_to_indices_2dgs kernel range_start range_end transmittances means2d
        ray_transforms opacities image_width image_height tile_size
        tile_offsets flatten_ids) s = (r, s') →
     preserved kernel s s') ∧
  (∀ means quats scales colors opacities backgrounds masks image_width image_height
     tile_size viewmats0 viewmats1 Ks camera_model ut_params rs_type
     radial_coeffs tangential_coeffs thin_prism_coeffs ftheta_coeffs
     tile_offsets flatten_ids s r s',
     (rasterize_to_pixels_from_world_3dgs_fwd kernel NDEBUG means quats scales
        colors opacities backgrounds masks image_width image_height tile_size
        viewmats0 viewmats1 Ks camera_model ut_params rs_type radial_coeffs
        tangential_coeffs thin_prism_coeffs ftheta_coeffs tile_offsets
        flatten_ids) s = (r, s') →
     preserved kernel s s') ∧
  (∀ means quats scales colors opacities backgrounds masks image_width image_height
     tile_size viewmats0 viewmats1 Ks camera_model ut_params rs_type
     radial_coeffs tangential_coeffs thin_prism_coeffs ftheta_coeffs
     tile_offsets flatten_ids render_alphas last_ids v_render_colors
     v_render_alphas s r s',
     (rasterize_to_pixels_from_world_3dgs_bwd kernel means quats scales colors
        opacities backgrounds masks image_width image_height tile_size
        viewmats0 viewmats1 Ks camera_model ut_params rs_type radial_coeffs
        tangential_coeffs thin_prism_coeffs ftheta_coeffs tile_offsets
        flatten_ids render_alphas last_ids v_render_colors v_render_alphas) s = (r, s') →
     preserved kernel s s').
Proof.
  repeat apply conj; intros *.
  - apply rasterize_to_pixels_3dgs_fwd_preserves.
  - apply rasterize_to_pixels_3dgs_bwd_preserves.
  - apply rasterize_to_indices_3dgs_preserves.
  - apply rasterize_to_pixels_2dgs_fwd_preserves.
  - apply rasterize_to_pixels_2dgs_bwd_preserves.
  - apply rasterize_to_indices_2dgs_preserves.
  - apply rasterize_to_pixels_from_world_3dgs_fwd_preserves.
  - apply rasterize_to_pixels_from_world_3dgs_bwd_preserves.
Qed.

(** ** The launch and the tensors a pixel call returns *)

Ltac solve_nodup :=
  simpl; repeat first [rewrite length_app | rewrite length_apply_writes];
  simpl;
  repeat (apply NoDup_cons_2;
          [ rewrite ?not_elem_of_cons;
            repeat split; first [lia | apply not_elem_of_nil] |]);
  apply NoDup_nil_2.

Ltac solve_fresh :=
  split;
  [ solve_nodup
  | repeat apply Forall_cons_2; try apply Forall_nil_2; simpl;
    repeat first [rewrite length_app | rewrite length_apply_writes];
    simpl; lia ].

Ltac solve_checked :=
  repeat apply Forall_cons_2; try apply Forall_nil_2;
  (split; [simpl; assumption | reflexivity]).

Ltac solve_uninitialised :=
  repeat apply Forall_cons_2; try apply Forall_nil_2;
  (unfold read; simpl; heap_lookup; reflexivity).

Lemma rasterize_to_pixels_3dgs_fwd_launch
    means2d conics colors opacities backgrounds masks image_width image_height
    tile_size tile_offsets flatten_ids s renders alphas last_ids s' :
  (rasterize_to_pixels_3dgs_fwd kernel means2d conics colors opacities
     backgrounds masks image_width image_height tile_size tile_offsets
     flatten_ids) s =
    (Ok (renders, alphas, last_ids), s') →
  ∃ N h,
    launched s s'
      [(launch_rasterize_to_pixels_3dgs_fwd_kernel N
          {| k3f_means2d := means2d; k3f_conics := conics; k3f_colors := colors;
             k3f_opacities := opacities; k3f_backgrounds := backgrounds;
             k3f_masks := masks; k3f_image_width := image_width;
             k3f_image_height := image_height; k3f_tile_size := tile_size;
             k3f_tile_offsets := tile_offsets; k3f_flatten_ids := flatten_ids;
             k3f_renders := renders; k3f_alphas := alphas;
             k3f_last_ids := last_ids |}, h)] ∧
    In N supported_channels ∧
    fresh s s'
      [renders; alphas; last_ids] ∧
    Forall checked
      [renders; alphas; last_ids] ∧
    Forall (λ t, read h t
                   = replicate (Z.to_nat (shape_numel (sizes t))) None)
      [renders; alphas; last_ids].
Proof.
  intros Hrun. wp_of_ok Hrun. unfold rasterize_to_pixels_3dgs_fwd.
  wp_run ltac:(done).
  all: intros [= <- <- <-].
  all: eexists _, _; split; [reflexivity|]; split; [assumption|].
  all: split; [solve_fresh|].
  all: split; [solve_checked|]. solve_uninitialised.
Qed.

Lemma rasterize_to_pixels_2dgs_fwd_launch
    means2d ray_transforms colors opacities normals backgrounds masks
    image_width image_height tile_size tile_offsets flatten_ids s renders
    alphas render_normals render_distort render_median last_ids median_ids s' :
  (rasterize_to_pixels_2dgs_fwd kernel means2d ray_transforms colors opacities
     normals backgrounds masks image_width image_height tile_size tile_offsets
     flatten_ids) s =
    (Ok (renders, alphas, render_normals, render_distort, render_median, last_ids, median_ids), s') →
  ∃ N h,
    launched s s'
      [(launch_rasterize_to_pixels_2dgs_fwd_kernel N
          {| k2f_means2d := means2d; k2f_ray_transforms := ray_transforms;
             k2f_colors := colors; k2f_opacities := opacities;
             k2f_normals := normals; k2f_backgrounds := backgrounds;
             k2f_masks := masks; k2f_image_width := image_width;
             k2f_image_height := image_height; k2f_tile_size := tile_size;
             k2f_tile_offsets := tile_offsets; k2f_flatten_ids := flatten_ids;
             k2f_renders := renders; k2f_alphas := alphas;
             k2f_render_normals := render_normals;
             k2f_render_distort := render_distort;
             k2f_render_median := render_median;
             k2f_last_ids := last_ids; k2f_median_ids := median_ids |}, h)] ∧
    In N supported_channels ∧
    fresh s s'
      [renders; alphas; render_normals; render_distort; render_median; last_ids; median_ids] ∧
    Forall checked
      [renders; alphas; render_normals; render_distort; render_median; last_ids; median_ids] ∧
    Forall (λ t, read h t
                   = replicate (Z.to_nat (shape_numel (sizes t))) None)
      [renders; alphas; render_normals; render_distort; render_median; last_ids; median_ids].
Proof.
  intros Hrun. wp_of_ok Hrun. unfold rasterize_to_pixels_2dgs_fwd.
  wp_run ltac:(done).
  all: intros [= <- <- <- <- <- <- <-].
  all: eexists _, _; split; [reflexivity|]; split; [assumption|].
  all: split; [solve_fresh|].
  all: split; [solve_checked|]. solve_uninitialised.
Qed.

Lemma rasterize_to_pixels_from_world_3dgs_fwd_launch
    means quats scales colors opacities backgrounds masks image_width
    image_height tile_size viewmats0 viewmats1 Ks camera_model ut_params
    rs_type radial_coeffs tangential_coeffs thin_prism_coeffs ftheta_coeffs
    tile_offsets flatten_ids s renders alphas last_ids s' :
  (rasterize_to_pixels_from_world_3dgs_fwd kernel NDEBUG means quats scales
     colors opacities backgrounds masks image_width image_height tile_size
     viewmats0 viewmats1 Ks camera_model ut_params rs_type radial_coeffs
     tangential_coeffs thin_prism_coeffs ftheta_coeffs tile_offsets
     flatten_ids) s =
    (Ok (renders, alphas, last_ids), s') →
  ∃ N h,
    launched s s'
      [(launch_rasterize_to_pixels_from_world_3dgs_fwd_kernel N
          {| kwf_means := means; kwf_quats := quats; kwf_scales := scales;
             kwf_colors := colors; kwf_opacities := opacities;
             kwf_backgrounds := backgrounds; kwf_masks := masks;
             kwf_image_width := image_width; kwf_image_height := image_height;
             kwf_tile_size := tile_size; kwf_viewmats0 := viewmats0;
             kwf_viewmats1 := viewmats1; kwf_Ks := Ks;
             kwf_camera_model := camera_model; kwf_ut_params := ut_params;
             kwf_rs_type := rs_type; kwf_radial_coeffs := radial_coeffs;
             kwf_tangential_coeffs := tangential_coeffs;
             kwf_thin_prism_coeffs := thin_prism_coeffs;
             kwf_ftheta_coeffs := ftheta_coeffs;
             kwf_tile_offsets := tile_offsets; kwf_flatten_ids := flatten_ids;
             kwf_renders := renders; kwf_alphas := alphas;
             kwf_last_ids := last_ids |}, h)] ∧
    In N supported_channels ∧
    fresh s s'
      [renders; alphas; last_ids] ∧
    Forall checked
      [renders; alphas; last_ids] ∧
    Forall (λ t, read h t
                   = replicate (Z.to_nat (shape_numel (sizes t))) None)
      [renders; alphas; last_ids].
Proof.
  intros Hrun. wp_of_ok Hrun. unfold rasterize_to_pixels_from_world_3dgs_fwd.
  wp_run ltac:(done).
  all: intros [= <- <- <-].
  all: eexists _, _; split; [reflexivity|]; split; [assumption|].
  all: split; [solve_fresh|].
  all: split; [solve_checked|]. solve_uninitialised.
Qed.

Lemma rasterize_to_pixels_3dgs_bwd_launch
    means2d conics colors opacities backgrounds masks image_width image_height
    tile_size tile_offsets flatten_ids render_alphas last_ids v_render_colors
    v_render_alphas absgrad s v_means2d_abs v_means2d v_conics v_colors
    v_opacities s' :
  (rasterize_to_pixels_3dgs_bwd kernel means2d conics colors opacities
     backgrounds masks image_width image_height tile_size tile_offsets
     flatten_ids render_alphas last_ids v_render_colors v_render_alphas
     absgrad) s =
    (Ok (v_means2d_abs, v_means2d, v_conics, v_colors, v_opacities), s') →
  ∃ N h,
    launched s s'
      [(launch_rasterize_to_pixels_3dgs_bwd_kernel N
          {| k3b_means2d := means2d; k3b_conics := conics; k3b_colors := colors;
             k3b_opacities := opacities; k3b_backgrounds := backgrounds;
             k3b_masks := masks; k3b_image_width := image_width;
             k3b_image_height := image_height; k3b_tile_size := tile_size;
             k3b_tile_offsets := tile_offsets; k3b_flatten_ids := flatten_ids;
             k3b_render_alphas := render_alphas; k3b_last_ids := last_ids;
             k3b_v_render_colors := v_render_colors;
             k3b_v_render_alphas := v_render_alphas;
             k3b_v_means2d_abs := if absgrad then Some v_means2d_abs else None;
             k3b_v_means2d := v_means2d; k3b_v_conics := v_conics;
             k3b_v_colors := v_colors; k3b_v_opacities := v_opacities |}, h)] ∧
    In N supported_channels ∧
    fresh s s'
      (defined_tensors v_means2d_abs ++ [v_means2d; v_conics; v_colors; v_opacities]) ∧
    Forall checked
      (defined_tensors v_means2d_abs ++ [v_means2d; v_conics; v_colors; v_opacities]).
Proof.
  intros Hrun. wp_of_ok Hrun. unfold rasterize_to_pixels_3dgs_bwd.
  wp_run ltac:(done).
  all: intros [= <- <- <- <- <-].
  all: eexists _, _; split; [reflexivity|]; split; [assumption|].
  all: split; [solve_fresh|].
  all: solve_checked.
Qed.

Lemma rasterize_to_pixels_2dgs_bwd_launch
    means2d ray_transforms colors opacities normals densify backgrounds masks
    image_width image_height tile_size tile_offsets flatten_ids render_colors
    render_alphas last_ids median_ids v_render_colors v_render_alphas
    v_render_normals v_render_distort v_render_median absgrad s v_means2d_abs
    v_means2d v_ray_transforms v_colors v_opacities v_normals v_densify s' :
  (rasterize_to_pixels_2dgs_bwd kernel means2d ray_transforms colors opacities
     normals densify backgrounds masks image_width image_height tile_size
     tile_offsets flatten_ids render_colors render_alphas last_ids median_ids
     v_render_colors v_render_alphas v_render_normals v_render_distort
     v_render_median absgrad) s =
    (Ok (v_means2d_abs, v_means2d, v_ray_transforms, v_colors, v_opacities, v_normals, v_densify), s') →
  ∃ N h,
    launched s s'
      [(launch_rasterize_to_pixels_2dgs_bwd_kernel N
          {| k2b_means2d := means2d; k2b_ray_transforms := ray_transforms;
             k2b_colors := colors; k2b_opacities := opacities;
             k2b_normals := normals; k2b_densify := densify;
             k2b_backgrounds := backgrounds; k2b_masks := masks;
             k2b_image_width := image_width; k2b_image_height := image_height;
             k2b_tile_size := tile_size; k2b_tile_offsets := tile_offsets;
             k2b_flatten_ids := flatten_ids; k2b_render_colors := render_colors;
             k2b_render_alphas := render_alphas; k2b_last_ids := last_ids;
             k2b_median_ids := median_ids;
             k2b_v_render_colors := v_render_colors;
             k2b_v_render_alphas := v_render_alphas;
             k2b_v_render_normals := v_render_normals;
             k2b_v_render_distort := v_render_distort;
             k2b_v_render_median := v_render_median;
             k2b_v_means2d_abs := if absgrad then Some v_means2d_abs else None;
             k2b_v_means2d := v_means2d;
             k2b_v_ray_transforms := v_ray_transforms;
             k2b_v_colors := v_colors; k2b_v_opacities := v_opacities;
             k2b_v_normals := v_normals; k2b_v_densify := v_densify |}, h)] ∧
    In N supported_channels ∧
    fresh s s'
      (defined_tensors v_means2d_abs ++ [v_means2d; v_ray_transforms; v_colors; v_opacities; v_normals; v_densify]) ∧
    Forall checked
      (defined_tensors v_means2d_abs ++ [v_means2d; v_ray_transforms; v_colors; v_opacities; v_normals; v_densify]).
Proof.
  intros Hrun. wp_of_ok Hrun. unfold rasterize_to_pixels_2dgs_bwd.
  wp_run ltac:(done).
  all: intros [= <- <- <- <- <- <- <-].
  all: eexists _, _; split; [reflexivity|]; split; [assumption|].
  all: split; [solve_fresh|].
  all: solve_checked.
Qed.

Lemma rasterize_to_pixels_from_world_3dgs_bwd_launch
    means quats scales colors opacities backgrounds masks image_width
    image_height tile_size viewmats0 viewmats1 Ks camera_model ut_params
    rs_type radial_coeffs tangential_coeffs thin_prism_coeffs ftheta_coeffs
    tile_offsets flatten_ids render_alphas last_ids v_render_colors
    v_render_alphas s v_means v_quats v_scales v_colors v_opacities s' :
  (rasterize_to_pixels_from_world_3dgs_bwd kernel means quats scales colors
     opacities backgrounds masks image_width image_height tile_size viewmats0
     viewmats1 Ks camera_model ut_params rs_type radial_coeffs
     tangential_coeffs thin_prism_coeffs ftheta_coeffs tile_offsets
     flatten_ids render_alphas last_ids v_render_colors v_render_alphas) s =
    (Ok (v_means, v_quats, v_scales, v_colors, v_opacities), s') →
  ∃ N h,
    launched s s'
      [(launch_rasterize_to_pixels_from_world_3dgs_bwd_kernel N
          {| kwb_means := means; kwb_quats := quats; kwb_scales := scales;
             kwb_colors := colors; kwb_opacities := opacities;
             kwb_backgrounds := backgrounds; kwb_masks := masks;
             kwb_image_width := image_width; kwb_image_height := image_height;
             kwb_tile_size := tile_size; kwb_viewmats0 := viewmats0;
             kwb_viewmats1 := viewmats1; kwb_Ks := Ks;
             kwb_camera_model := camera_model; kwb_ut_params := ut_params;
             kwb_rs_type := rs_type; kwb_radial_coeffs := radial_coeffs;
             kwb_tangential_coeffs := tangential_coeffs;
             kwb_thin_prism_coeffs := thin_prism_coeffs;
             kwb_ftheta_coeffs := ftheta_coeffs;
             kwb_tile_offsets := tile_offsets; kwb_flatten_ids := flatten_ids;
             kwb_render_alphas := render_alphas; kwb_last_ids := last_ids;
             kwb_v_render_colors := v_render_colors;
             kwb_v_render_alphas := v_render_alphas;
             kwb_v_means := v_means; kwb_v_quats := v_quats;
             kwb_v_scales := v_scales; kwb_v_colors := v_colors;
             kwb_v_opacities := v_opacities |}, h)] ∧
    In N supported_channels ∧
    fresh s s'
      [v_means; v_quats; v_scales; v_colors; v_opacities] ∧
    Forall checked
      [v_means; v_quats; v_scales; v_colors; v_opacities].
Proof.
  intros Hrun. wp_of_ok Hrun. unfold rasterize_to_pixels_from_world_3dgs_bwd.
  wp_run ltac:(done).
  all: intros [= <- <- <- <- <-].
  all: eexists _, _; split; [reflexivity|]; split; [assumption|].
  all: split; [solve_fresh|].
  all: solve_checked.
Qed.

(** X2.  A forward call that returns has made one launch, of a kernel for a
    supported width.  The launch received every argument of the call
    unchanged and in its own slot, and as output buffers the tensors the call
    returns.  These were allocated by the call, each in a buffer of its own
    that no tensor of the caller shares; they are contiguous and on the
    device of the means, so they pass [CHECK_INPUT] in a later call; and
    when the kernel starts every cell of them is uninitialised. *)
Theorem forward_launch_and_outputs :
  (∀ means2d conics colors opacities backgrounds masks image_width image_height
     tile_size tile_offsets flatten_ids s renders alphas last_ids s',
     (rasterize_to_pixels_3dgs_fwd kernel means2d conics colors opacities
        backgrounds masks image_width image_height tile_size tile_offsets
        flatten_ids) s =
       (Ok (renders, alphas, last_ids), s') →
     ∃ N h,
       launched s s'
         [(launch_rasterize_to_pixels_3dgs_fwd_kernel N
             {| k3f_means2d := means2d; k3f_conics := conics; k3f_colors := colors;
                k3f_opacities := opacities; k3f_backgrounds := backgrounds;
                k3f_masks := masks; k3f_image_width := image_width;
                k3f_image_height := image_height; k3f_tile_size := tile_size;
                k3f_tile_offsets := tile_offsets; k3f_flatten_ids := flatten_ids;
                k3f_renders := renders; k3f_alphas := alphas;
                k3f_last_ids := last_ids |}, h)] ∧
       In N supported_channels ∧
       fresh s s'
         [renders; alphas; last_ids] ∧
       Forall checked
         [renders; alphas; last_ids] ∧
       Forall (λ t, read h t
                      = replicate (Z.to_nat (shape_numel (sizes t))) None)
         [renders; alphas; last_ids]) ∧
  (∀ means2d ray_transforms colors opacities normals backgrounds masks image_width
     image_height tile_size tile_offsets flatten_ids s renders alphas
     render_normals render_distort render_median last_ids median_ids s',
     (rasterize_to_pixels_2dgs_fwd kernel means2d ray_transforms colors opacities
        normals backgrounds masks image_width image_height tile_size
        tile_offsets flatten_ids) s =
       (Ok (renders, alphas, render_normals, render_distort, render_median, last_ids, median_ids), s') →
     ∃ N h,
       launched s s'
         [(launch_rasterize_to_pixels_2dgs_fwd_kernel N
             {| k2f_means2d := means2d; k2f_ray_transforms := ray_transforms;
                k2f_colors := colors; k2f_opacities := opacities;
                k2f_normals := normals; k2f_backgrounds := backgrounds;
                k2f_masks := masks; k2f_image_width := image_width;
                k2f_image_height := image_height; k2f_tile_size := tile_size;
                k2f_tile_offsets := tile_offsets; k2f_flatten_ids := flatten_ids;
                k2f_renders := renders; k2f_alphas := alphas;
                k2f_render_normals := render_normals;
                k2f_render_distort := render_distort;
                k2f_render_median := render_median;
                k2f_last_ids := last_ids; k2f_median_ids := median_ids |}, h)] ∧
       In N supported_channels ∧
       fresh s s'
         [renders; alphas; render_normals; render_distort; render_median; last_ids; median_ids] ∧
       Forall checked
         [renders; alphas; render_normals; render_distort; render_median; last_ids; median_ids] ∧
       Forall (λ t, read h t
                      = replicate (Z.to_nat (shape_numel (sizes t))) None)
         [renders; alphas; render_normals; render_distort; render_median; last_ids; median_ids]) ∧
  (∀ means quats scales colors opacities backgrounds masks image_width image_height
     tile_size viewmats0 viewmats1 Ks camera_model ut_params rs_type
     radial_coeffs tangential_coeffs thin_prism_coeffs ftheta_coeffs
     tile_offsets flatten_ids s renders alphas last_ids s',
     (rasterize_to_pixels_from_world_3dgs_fwd kernel NDEBUG means quats scales
        colors opacities backgrounds masks image_width image_height tile_size
        viewmats0 viewmats1 Ks camera_model ut_params rs_type radial_coeffs
        tangential_coeffs thin_prism_coeffs ftheta_coeffs tile_offsets
        flatten_ids) s =
       (Ok (renders, alphas, last_ids), s') →
     ∃ N h,
       launched s s'
         [(launch_rasterize_to_pixels_from_world_3dgs_fwd_kernel N
             {| kwf_means := means; kwf_quats := quats; kwf_scales := scales;
                kwf_colors := colors; kwf_opacities := opacities;
                kwf_backgrounds := backgrounds; kwf_masks := masks;
                kwf_image_width := image_width; kwf_image_height := image_height;
                kwf_tile_size := tile_size; kwf_viewmats0 := viewmats0;
                kwf_viewmats1 := viewmats1; kwf_Ks := Ks;
                kwf_camera_model := camera_model; kwf_ut_params := ut_params;
                kwf_rs_type := rs_type; kwf_radial_coeffs := radial_coeffs;
                kwf_tangential_coeffs := tangential_coeffs;
                kwf_thin_prism_coeffs := thin_prism_coeffs;
                kwf_ftheta_coeffs := ftheta_coeffs;
                kwf_tile_offsets := tile_offsets; kwf_flatten_ids := flatten_ids;
                kwf_renders := renders; kwf_alphas := alphas;
                kwf_last_ids := last_ids |}, h)] ∧
       In N supported_channels ∧
       fresh s s'
         [renders; alphas; last_ids] ∧
       Forall checked
         [renders; alphas; last_ids] ∧
       Forall (λ t, read h t
                      = replicate (Z.to_nat (shape_numel (sizes t))) None)
         [renders; alphas; last_ids]).
Proof.
  repeat apply conj; intros *.
  - apply rasterize_to_pixels_3dgs_fwd_launch.
  - apply rasterize_to_pixels_2dgs_fwd_launch.
  - apply rasterize_to_pixels_from_world_3dgs_fwd_launch.
Qed.

(** X3.  A backward call that returns has made one launch, of a kernel for a
    supported width.  The launch received every argument of the call
    unchanged and in its own slot, and as gradient buffers the tensors the
    call returns; the absolute gradient is passed only with [absgrad].  The
    gradient tensors were allocated by the call, each in a buffer of its own
    that no tensor of the caller shares, and they are contiguous and on the
    device of the array they belong to. *)
Theorem backward_launch_and_outputs :
  (∀ means2d conics colors opacities backgrounds masks image_width image_height
     tile_size tile_offsets flatten_ids render_alphas last_ids v_render_colors
     v_render_alphas absgrad s v_means2d_abs v_means2d v_conics v_colors
     v_opacities s',
     (rasterize_to_pixels_3dgs_bwd kernel means2d conics colors opacities
        backgrounds masks image_width image_height tile_size tile_offsets
        flatten_ids render_alphas last_ids v_render_colors v_render_alphas
        absgrad) s =
       (Ok (v_means2d_abs, v_means2d, v_conics, v_colors, v_opacities), s') →
     ∃ N h,
       launched s s'
         [(launch_rasterize_to_pixels_3dgs_bwd_kernel N
             {| k3b_means2d := means2d; k3b_conics := conics; k3b_colors := colors;
                k3b_opacities := opacities; k3b_backgrounds := backgrounds;
                k3b_masks := masks; k3b_image_width := image_width;
                k3b_image_height := image_height; k3b_tile_size := tile_size;
                k3b_tile_offsets := tile_offsets; k3b_flatten_ids := flatten_ids;
                k3b_render_alphas := render_alphas; k3b_last_ids := last_ids;
                k3b_v_render_colors := v_render_colors;
                k3b_v_render_alphas := v_render_alphas;
                k3b_v_means2d_abs := if absgrad then Some v_means2d_abs else None;
                k3b_v_means2d := v_means2d; k3b_v_conics := v_conics;
                k3b_v_colors := v_colors; k3b_v_opacities := v_opacities |}, h)] ∧
       In N supported_channels ∧
       fresh s s'
         (defined_tensors v_means2d_abs ++ [v_means2d; v_conics; v_colors; v_opacities]) ∧
       Forall checked
         (defined_tensors v_means2d_abs ++ [v_means2d; v_conics; v_colors; v_opacities])) ∧
  (∀ means2d ray_transforms colors opacities normals densify backgrounds masks
     image_width image_height tile_size tile_offsets flatten_ids render_colors
     render_alphas last_ids median_ids v_render_colors v_render_alphas
     v_render_normals v_render_distort v_render_median absgrad s v_means2d_abs
     v_means2d v_ray_transforms v_colors v_opacities v_normals v_densify s',
     (rasterize_to_pixels_2dgs_bwd kernel means2d ray_transforms colors opacities
        normals densify backgrounds masks image_width image_height tile_size
        tile_offsets flatten_ids render_colors render_alphas last_ids
        median_ids v_render_colors v_render_alphas v_render_normals
        v_render_distort v_render_median absgrad) s =
       (Ok (v_means2d_abs, v_means2d, v_ray_transforms, v_colors, v_opacities, v_normals, v_densify), s') →
     ∃ N h,
       launched s s'
         [(launch_rasterize_to_pixels_2dgs_bwd_kernel N
             {| k2b_means2d := means2d; k2b_ray_transforms := ray_transforms;
                k2b_colors := colors; k2b_opacities := opacities;
                k2b_normals := normals; k2b_densify := densify;
                k2b_backgrounds := backgrounds; k2b_masks := masks;
                k2b_image_width := image_width; k2b_image_height := image_height;
                k2b_tile_size := tile_size; k2b_tile_offsets := tile_offsets;
                k2b_flatten_ids := flatten_ids; k2b_render_colors := render_colors;
                k2b_render_alphas := render_alphas; k2b_last_ids := last_ids;
                k2b_median_ids := median_ids;
                k2b_v_render_colors := v_render_colors;
                k2b_v_render_alphas := v_render_alphas;
                k2b_v_render_normals := v_render_normals;
                k2b_v_render_distort := v_render_distort;
                k2b_v_render_median := v_render_median;
                k2b_v_means2d_abs := if absgrad then Some v_means2d_abs else None;
                k2b_v_means2d := v_means2d;
                k2b_v_ray_transforms := v_ray_transforms;
                k2b_v_colors := v_colors; k2b_v_opacities := v_opacities;
                k2b_v_normals := v_normals; k2b_v_densify := v_densify |}, h)] ∧
       In N supported_channels ∧
       fresh s s'
         (defined_tensors v_means2d_abs ++ [v_means2d; v_ray_transforms; v_colors; v_opacities; v_normals; v_densify]) ∧
       Forall checked
         (defined_tensors v_means2d_abs ++ [v_means2d; v_ray_transforms; v_colors; v_opacities; v_normals; v_densify])) ∧
  (∀ means quats scales colors opacities backgrounds masks image_width image_height
     tile_size viewmats0 viewmats1 Ks camera_model ut_params rs_type
     radial_coeffs tangential_coeffs thin_prism_coeffs ftheta_coeffs
     tile_offsets flatten_ids render_alphas last_ids v_render_colors
     v_render_alphas s v_means v_quats v_scales v_colors v_opacities s',
     (rasterize_to_pixels_from_world_3dgs_bwd kernel means quats scales colors
        opacities backgrounds masks image_width image_height tile_size
        viewmats0 viewmats1 Ks camera_model ut_params rs_type radial_coeffs
        tangential_coeffs thin_prism_coeffs ftheta_coeffs tile_offsets
        flatten_ids render_alphas last_ids v_render_colors v_render_alphas) s =
       (Ok (v_means, v_quats, v_scales, v_colors, v_opacities), s') →
     ∃ N h,
       launched s s'
         [(launch_rasterize_to_pixels_from_world_3dgs_bwd_kernel N
             {| kwb_means := means; kwb_quats := quats; kwb_scales := scales;
                kwb_colors := colors; kwb_opacities := opacities;
                kwb_backgrounds := backgrounds; kwb_masks := masks;
                kwb_image_width := image_width; kwb_image_height := image_height;
                kwb_tile_size := tile_size; kwb_viewmats0 := viewmats0;
                kwb_viewmats1 := viewmats1; kwb_Ks := Ks;
                kwb_camera_model := camera_model; kwb_ut_params := ut_params;
                kwb_rs_type := rs_type; kwb_radial_coeffs := radial_coeffs;
                kwb_tangential_coeffs := tangential_coeffs;
                kwb_thin_prism_coeffs := thin_prism_coeffs;
                kwb_ftheta_coeffs := ftheta_coeffs;
                kwb_tile_offsets := tile_offsets; kwb_flatten_ids := flatten_ids;
                kwb_render_alphas := render_alphas; kwb_last_ids := last_ids;
                kwb_v_render_colors := v_render_colors;
                kwb_v_render_alphas := v_render_alphas;
                kwb_v_means := v_means; kwb_v_quats := v_quats;
                kwb_v_scales := v_scales; kwb_v_colors := v_colors;
                kwb_v_opacities := v_opacities |}, h)] ∧
       In N supported_channels ∧
       fresh s s'
         [v_means; v_quats; v_scales; v_colors; v_opacities] ∧
       Forall checked
         [v_means; v_quats; v_scales; v_colors; v_opacities]).
Proof.
  repeat apply conj; intros *.
  - apply rasterize_to_pixels_3dgs_bwd_launch.
  - apply rasterize_to_pixels_2dgs_bwd_launch.
  - apply rasterize_to_pixels_from_world_3dgs_bwd_launch.
Qed.

Lemma rasterize_to_indices_3dgs_fresh
    range_start range_end transmittances means2d conics opacities image_width
    image_height tile_size tile_offsets flatten_ids s gaussian_ids pixel_ids
    s' :
  (rasterize_to_indices_3dgs kernel range_start range_end transmittances means2d
     conics opacities image_width image_height tile_size tile_offsets
     flatten_ids) s =
    (Ok (gaussian_ids, pixel_ids), s') →
  fresh s s' [gaussian_ids; pixel_ids] ∧
  Forall checked [gaussian_ids; pixel_ids].
Proof.
  intros Hrun. wp_of_ok Hrun. unfold rasterize_to_indices_3dgs.
  wp_run ltac:(done).
  all: intros [= <- <-].
  all: split; [solve_fresh|solve_checked].
Qed.

Lemma rasterize_to_indices_2dgs_fresh
    range_start range_end transmittances means2d ray_transforms opacities
    image_width image_height tile_size tile_offsets flatten_ids s gaussian_ids
    pixel_ids s' :
  (rasterize_to_indices_2dgs kernel range_start range_end transmittances means2d
     ray_transforms opacities image_width image_height tile_size tile_offsets
     flatten_ids) s =
    (Ok (gaussian_ids, pixel_ids), s') →
  fresh s s' [gaussian_ids; pixel_ids] ∧
  Forall checked [gaussian_ids; pixel_ids].
Proof.
  intros Hrun. wp_of_ok Hrun. unfold rasterize_to_indices_2dgs.
  wp_run ltac:(done).
  all: intros [= <- <-].
  all: split; [solve_fresh|solve_checked].
Qed.

(** X11.  The two id arrays an index call returns were allocated by the
    call, each in a buffer of its own that no tensor of the caller shares,
    whether or not a pass was launched; they are contiguous and on the
    device of [means2d], so they pass [CHECK_INPUT] in a later call. *)
Theorem index_outputs_are_fresh :
  (∀ range_start range_end transmittances means2d conics opacities image_width
     image_height tile_size tile_offsets flatten_ids s gaussian_ids pixel_ids
     s',
     (rasterize_to_indices_3dgs kernel range_start range_end transmittances means2d
        conics opacities image_width image_height tile_size tile_offsets
        flatten_ids) s =
       (Ok (gaussian_ids, pixel_ids), s') →
     fresh s s' [gaussian_ids; pixel_ids] ∧
     Forall checked [gaussian_ids; pixel_ids]) ∧
  (∀ range_start range_end transmittances means2d ray_transforms opacities
     image_width image_height tile_size tile_offsets flatten_ids s
     gaussian_ids pixel_ids s',
     (rasterize_to_indices_2dgs kernel range_start range_end transmittances means2d
        ray_transforms opacities image_width image_height tile_size
        tile_offsets flatten_ids) s =
       (Ok (gaussian_ids, pixel_ids), s') →
     fresh s s' [gaussian_ids; pixel_ids] ∧
     Forall checked [gaussian_ids; pixel_ids]).
Proof.
  split; intros *.
  - apply rasterize_to_indices_3dgs_fresh.
  - apply rasterize_to_indices_2dgs_fresh.
Qed.

(** ** Where a pixel call can fail *)

(** A later allocation cannot fail on a dimension an earlier one accepted. *)
Ltac absurd_alloc :=
  match goal with
  | H1 : Forall (Z.le 0) (?pre ++ _), H2 : ¬ Forall (Z.le 0) (?pre ++ _)
    |- _ =>
      exfalso; apply H2;
      let Hpre := fresh in let Htl := fresh in
      apply Forall_app in H1 as [Hpre Htl];
      apply Forall_app; split; [exact Hpre|];
      repeat (apply Forall_cons_1 in Htl as [? Htl]);
      repeat apply Forall_cons_2; try apply Forall_nil_2;
      first [assumption | lia]
  end.

Ltac solve_failure :=
  first
    [ exact I
    | reflexivity
    | absurd_alloc
    | split; [reflexivity|];
      eexists; split; [rewrite <- !app_assoc; reflexivity | reflexivity] ].

Lemma rasterize_to_pixels_3dgs_fwd_failures
    means2d conics colors opacities backgrounds masks image_width image_height
    tile_size tile_offsets flatten_ids s r s' :
  (rasterize_to_pixels_3dgs_fwd kernel means2d conics colors opacities
     backgrounds masks image_width image_height tile_size tile_offsets
     flatten_ids) s = (r, s') →
  match r with
  | Ok _ => True
  | Throw (UnsupportedChannels _) =>
      launches s' = launches s ∧
      ∃ bufs, mem s' = mem s ++ bufs ∧ length bufs = 3%nat
  | _ => s' = s
  end.
Proof.
  intros Hrun. wp_of Hrun. unfold rasterize_to_pixels_3dgs_fwd.
  wp_run ltac:(solve_failure).
Qed.

Lemma rasterize_to_pixels_3dgs_bwd_failures
    means2d conics colors opacities backgrounds masks image_width image_height
    tile_size tile_offsets flatten_ids render_alphas last_ids v_render_colors
    v_render_alphas absgrad s r s' :
  (rasterize_to_pixels_3dgs_bwd kernel means2d conics colors opacities
     backgrounds masks image_width image_height tile_size tile_offsets
     flatten_ids render_alphas last_ids v_render_colors v_render_alphas
     absgrad) s = (r, s') →
  match r with
  | Ok _ => True
  | Throw (UnsupportedChannels _) =>
      launches s' = launches s ∧
      ∃ bufs, mem s' = mem s ++ bufs ∧ length bufs = (if absgrad then 5 else 4)%nat
  | _ => s' = s
  end.
Proof.
  intros Hrun. wp_of Hrun. unfold rasterize_to_pixels_3dgs_bwd.
  wp_run ltac:(solve_failure).
Qed.

Lemma rasterize_to_pixels_2dgs_fwd_failures
    means2d ray_transforms colors opacities normals backgrounds masks
    image_width image_height tile_size tile_offsets flatten_ids s r s' :
  (rasterize_to_pixels_2dgs_fwd kernel means2d ray_transforms colors opacities
     normals backgrounds masks image_width image_height tile_size tile_offsets
     flatten_ids) s = (r, s') →
  match r with
  | Ok _ => True
  | Throw (UnsupportedChannels _) =>
      launches s' = launches s ∧
      ∃ bufs, mem s' = mem s ++ bufs ∧ length bufs = 7%nat
  | _ => s' = s
  end.
Proof.
  intros Hrun. wp_of Hrun. unfold rasterize_to_pixels_2dgs_fwd.
  wp_run ltac:(solve_failure).
Qed.

Lemma rasterize_to_pixels_2dgs_bwd_failures
    means2d ray_transforms colors opacities normals densify backgrounds masks
    image_width image_height tile_size tile_offsets flatten_ids render_colors
    render_alphas last_ids median_ids v_render_colors v_render_alphas
    v_render_normals v_render_distort v_render_median absgrad s r s' :
  (rasterize_to_pixels_2dgs_bwd kernel means2d ray_transforms colors opacities
     normals densify backgrounds masks image_width image_height tile_size
     tile_offsets flatten_ids render_colors render_alphas last_ids median_ids
     v_render_colors v_render_alphas v_render_normals v_render_distort
     v_render_median absgrad) s = (r, s') →
  match r with
  | Ok _ => True
  | Throw (UnsupportedChannels _) =>
      launches s' = launches s ∧
      ∃ bufs, mem s' = mem s ++ bufs ∧ length bufs = (if absgrad then 7 else 6)%nat
  | _ => s' = s
  end.
Proof.
  intros Hrun. wp_of Hrun. unfold rasterize_to_pixels_2dgs_bwd.
  wp_run ltac:(solve_failure).
Qed.

Lemma rasterize_to_pixels_from_world_3dgs_fwd_failures
    means quats scales colors opacities backgrounds masks image_width
    image_height tile_size viewmats0 viewmats1 Ks camera_model ut_params
    rs_type radial_coeffs tangential_coeffs thin_prism_coeffs ftheta_coeffs
    tile_offsets flatten_ids s r s' :
  (rasterize_to_pixels_from_world_3dgs_fwd kernel NDEBUG means quats scales
     colors opacities backgrounds masks image_width image_height tile_size
     viewmats0 viewmats1 Ks camera_model ut_params rs_type radial_coeffs
     tangential_coeffs thin_prism_coeffs ftheta_coeffs tile_offsets
     flatten_ids) s = (r, s') →
  match r with
  | Ok _ => True
  | Throw (UnsupportedChannels _) =>
      launches s' = launches s ∧
      ∃ bufs, mem s' = mem s ++ bufs ∧ length bufs = 3%nat
  | _ => s' = s
  end.
Proof.
  intros Hrun. wp_of Hrun. unfold rasterize_to_pixels_from_world_3dgs_fwd.
  wp_run ltac:(solve_failure).
Qed.

Lemma rasterize_to_pixels_from_world_3dgs_bwd_failures
    means quats scales colors opacities backgrounds masks image_width
    image_height tile_size viewmats0 viewmats1 Ks camera_model ut_params
    rs_type radial_coeffs tangential_coeffs thin_prism_coeffs ftheta_coeffs
    tile_offsets flatten_ids render_alphas last_ids v_render_colors
    v_render_alphas s r s' :
  (rasterize_to_pixels_from_world_3dgs_bwd kernel means quats scales colors
     opacities backgrounds masks image_width image_height tile_size viewmats0
     viewmats1 Ks camera_model ut_params rs_type radial_coeffs
     tangential_coeffs thin_prism_coeffs ftheta_coeffs tile_offsets
     flatten_ids render_alphas last_ids v_render_colors v_render_alphas) s = (r, s') →
  match r with
  | Ok _ => True
  | Throw (UnsupportedChannels _) =>
      launches s' = launches s ∧
      ∃ bufs, mem s' = mem s ++ bufs ∧ length bufs = 5%nat
  | _ => s' = s
  end.
Proof.
  intros Hrun. wp_of Hrun. unfold rasterize_to_pixels_from_world_3dgs_bwd.
  wp_run ltac:(solve_failure).
Qed.

(** X5.  A pixel call validates everything but the channel width before it
    allocates.  When it fails a [CHECK_INPUT], on a rank, on a negative
    dimension or on the assertion, the state is the one it started from: no
    buffer was allocated.  The width is looked at last: a call that raises
    "Unsupported number of channels" has launched nothing but has allocated
    all its output buffers: three in the 3DGS and from-world forward calls,
    seven in the 2DGS forward call, four, six and five gradient buffers in
    the backward calls, and one more with [absgrad]. *)
Theorem pixel_calls_validate_before_allocating :
  (∀ means2d conics colors opacities backgrounds masks image_width image_height
     tile_size tile_offsets flatten_ids s r s',
     (rasterize_to_pixels_3dgs_fwd kernel means2d conics colors opacities
        backgrounds masks image_width image_height tile_size tile_offsets
        flatten_ids) s = (r, s') →
     match r with
     | Ok _ => True
     | Throw (UnsupportedChannels _) =>
         launches s' = launches s ∧
         ∃ bufs, mem s' = mem s ++ bufs ∧ length bufs = 3%nat
     | _ => s' = s
     end) ∧
  (∀ means2d conics colors opacities backgrounds masks image_width image_height
     tile_size tile_offsets flatten_ids render_alphas last_ids v_render_colors
     v_render_alphas absgrad s r s',
     (rasterize_to_pixels_3dgs_bwd kernel means2d conics colors opacities
        backgrounds masks image_width image_height tile_size tile_offsets
        flatten_ids render_alphas last_ids v_render_colors v_render_alphas
        absgrad) s = (r, s') →
     match r with
     | Ok _ => True
     | Throw (UnsupportedChannels _) =>
         launches s' = launches s ∧
         ∃ bufs, mem s' = mem s ++ bufs ∧ length bufs = (if absgrad then 5 else 4)%nat
     | _ => s' = s
     end) ∧
  (∀ means2d ray_transforms colors opacities normals backgrounds masks image_width
     image_height tile_size tile_offsets flatten_ids s r s',
     (rasterize_to_pixels_2dgs_fwd kernel means2d ray_transforms colors opacities
        normals backgrounds masks image_width image_height tile_size
        tile_offsets flatten_ids) s = (r, s') →
     match r with
     | Ok _ => True
     | Throw (UnsupportedChannels _) =>
         launches s' = launches s ∧
         ∃ bufs, mem s' = mem s ++ bufs ∧ length bufs = 7%nat
     | _ => s' = s
     end) ∧
  (∀ means2d ray_transforms colors opacities normals densify backgrounds masks
     image_width image_height tile_size tile_offsets flatten_ids render_colors
     render_alphas last_ids median_ids v_render_colors v_render_alphas
     v_render_normals v_render_distort v_render_median absgrad s r s',
     (rasterize_to_pixels_2dgs_bwd kernel means2d ray_transforms colors opacities
        normals densify backgrounds masks image_width image_height tile_size
        tile_offsets flatten_ids render_colors render_alphas last_ids
        median_ids v_render_colors v_render_alphas v_render_normals
        v_render_distort v_render_median absgrad) s = (r, s') →
     match r with
     | Ok _ => True
     | Throw (UnsupportedChannels _) =>
         launches s' = launches s ∧
         ∃ bufs, mem s' = mem s ++ bufs ∧ length bufs = (if absgrad then 7 else 6)%nat
     | _ => s' = s
     end) ∧
  (∀ means quats scales colors opacities backgrounds masks image_width image_height
     tile_size viewmats0 viewmats1 Ks camera_model ut_params rs_type
     radial_coeffs tangential_coeffs thin_prism_coeffs ftheta_coeffs
     tile_offsets flatten_ids s r s',
     (rasterize_to_pixels_from_world_3dgs_fwd kernel NDEBUG means quats scales
        colors opacities backgrounds masks image_width image_height tile_size
        viewmats0 viewmats1 Ks camera_model ut_params rs_type radial_coeffs
        tangential_coeffs thin_prism_coeffs ftheta_coeffs tile_offsets
        flatten_ids) s = (r, s') →
     match r with
     | Ok _ => True
     | Throw (UnsupportedChannels _) =>
         launches s' = launches s ∧
         ∃ bufs, mem s' = mem s ++ bufs ∧ length bufs = 3%nat
     | _ => s' = s
     end) ∧
  (∀ means quats scales colors opacities backgrounds masks image_width image_height
     tile_size viewmats0 viewmats1 Ks camera_model ut_params rs_type
     radial_coeffs tangential_coeffs thin_prism_coeffs ftheta_coeffs
     tile_offsets flatten_ids render_alphas last_ids v_render_colors
     v_render_alphas s r s',
     (rasterize_to_pixels_from_world_3dgs_bwd kernel means quats scales colors
        opacities backgrounds masks image_width image_height tile_size
        viewmats0 viewmats1 Ks camera_model ut_params rs_type radial_coeffs
        tangential_coeffs thin_prism_coeffs ftheta_coeffs tile_offsets
        flatten_ids render_alphas last_ids v_render_colors v_render_alphas) s = (r, s') →
     match r with
     | Ok _ => True
     | Throw (UnsupportedChannels _) =>
         launches s' = launches s ∧
         ∃ bufs, mem s' = mem s ++ bufs ∧ length bufs = 5%nat
     | _ => s' = s
     end).
Proof.
  repeat apply conj; intros *.
  - apply rasterize_to_pixels_3dgs_fwd_failures.
  - apply rasterize_to_pixels_3dgs_bwd_failures.
  - apply rasterize_to_pixels_2dgs_fwd_failures.
  - apply rasterize_to_pixels_2dgs_bwd_failures.
  - apply rasterize_to_pixels_from_world_3dgs_fwd_failures.
  - apply rasterize_to_pixels_from_world_3dgs_bwd_failures.
Qed.

(** ** The shapes of the from-world forward outputs *)

(** X1.  A from-world forward call that returns has outputs shaped by the
    means and the cameras.  With [...] the dimensions of [means] without its
    last two (the batch), [C] the number of cameras read from
    [viewmats0.size(-3)] into 32 bits, [H] and [W] the image height and
    width and [channels] the dispatched width, it returns colors
    [..., C, H, W, channels], alphas [..., C, H, W, 1] and an [int] map of
    last indices [..., C, H, W]; colors and alphas have the dtype of the
    means.  Each buffer has as many cells as its shape says, and built with
    assertions the width is 3. *)
Theorem from_world_forward_output_shapes
    means quats scales colors opacities backgrounds masks image_width
    image_height tile_size viewmats0 viewmats1 Ks camera_model ut_params
    rs_type radial_coeffs tangential_coeffs thin_prism_coeffs ftheta_coeffs
    tile_offsets flatten_ids s renders alphas last_ids s' :
  (rasterize_to_pixels_from_world_3dgs_fwd kernel NDEBUG means quats scales
     colors opacities backgrounds masks image_width image_height tile_size
     viewmats0 viewmats1 Ks camera_model ut_params rs_type radial_coeffs
     tangential_coeffs thin_prism_coeffs ftheta_coeffs tile_offsets
     flatten_ids) s =
    (Ok (renders, alphas, last_ids), s') →
  ∃ batch_dims n_gaussians width n_cameras C colors_width channels,
    sizes means = batch_dims ++ [n_gaussians; width] ∧
    size viewmats0 (-3) = Ok n_cameras ∧
    C = to_uint32 n_cameras ∧
    size colors (-1) = Ok colors_width ∧
    channels = to_uint32 colors_width ∧
    In channels supported_channels ∧
    (NDEBUG = false → channels = 3) ∧
    sizes renders = batch_dims ++ [C; image_height; image_width; channels] ∧
    dtype renders = dtype means ∧
    length (read (mem s') renders) = Z.to_nat (shape_numel (sizes renders)) ∧
    sizes alphas = batch_dims ++ [C; image_height; image_width; 1] ∧
    dtype alphas = dtype means ∧
    length (read (mem s') alphas) = Z.to_nat (shape_numel (sizes alphas)) ∧
    sizes last_ids = batch_dims ++ [C; image_height; image_width] ∧
    dtype last_ids = kInt ∧
    length (read (mem s') last_ids) = Z.to_nat (shape_numel (sizes last_ids)).
Proof.
  intros Hrun. wp_of_ok Hrun. unfold rasterize_to_pixels_from_world_3dgs_fwd.
  wp_run ltac:(done).
  intros [= <- <- <-].
  match goal with
  | H : 0 ≤ dim means - 2 ≤ _ |- _ =>
      destruct (sizes_split_last_two _ H) as (ng & wd & Hsizes)
  end.
  eexists _, ng, wd, _, _, _, _. split; [exact Hsizes|].
  split; [eassumption|]. split; [reflexivity|].
  split; [eassumption|]. split; [reflexivity|]. split; [assumption|].
  split.
  { intros Hdebug.
    match goal with
    | H : NDEBUG = true ∨ _ |- _ =>
        destruct H as [H|H]; [congruence|by apply Z.eqb_eq in H]
    end. }
  simpl.
  repeat (first [split | reflexivity | solve_output_length]).
Qed.

(** ** Ranks *)

Lemma size_out_of_range t d : ¬ (- dim t ≤ d < dim t) → size t d = Throw IndexError.
Proof.
  intros Hd. unfold size.
  destruct (- dim t <=? d) eqn:E1, (d <? dim t) eqn:E2; simpl; try done.
  exfalso. apply Hd. lia.
Qed.

(** A size that was read is in range. *)
Ltac absurd_rank :=
  exfalso;
  match goal with
  | H : size ?t ?d = Ok _ |- _ =>
      rewrite size_out_of_range in H by (unfold dim in *; lia);
      discriminate H
  | H : 0 ≤ dim ?t - 2 ≤ _ |- _ => unfold dim in *; lia
  end.

Lemma rasterize_to_pixels_3dgs_fwd_rank
    means2d conics colors opacities backgrounds masks image_width image_height
    tile_size tile_offsets flatten_ids s :
  Forall checked
    [means2d; conics; colors; opacities; tile_offsets; flatten_ids] →
  checked_opt backgrounds →
  checked_opt masks →
  dim tile_offsets < 2 →
  (rasterize_to_pixels_3dgs_fwd kernel means2d conics colors opacities
     backgrounds masks image_width image_height tile_size tile_offsets
     flatten_ids) s = (Throw InvalidSlice, s).
Proof.
  intros Hchecked. intros.
  destruct ((rasterize_to_pixels_3dgs_fwd kernel means2d conics colors opacities
             backgrounds masks image_width image_height tile_size tile_offsets
             flatten_ids) s)
    as [r s'] eqn:Hrun.
  enough (r = Throw InvalidSlice ∧ s' = s) as [-> ->] by done.
  split_checked. wp_of Hrun. unfold rasterize_to_pixels_3dgs_fwd.
  wp_run ltac:(first [absurd_branch | absurd_rank]); done.
Qed.

Lemma rasterize_to_pixels_2dgs_fwd_rank
    means2d ray_transforms colors opacities normals backgrounds masks
    image_width image_height tile_size tile_offsets flatten_ids s :
  Forall checked
    [means2d; ray_transforms; colors; opacities; normals; tile_offsets; flatten_ids] →
  checked_opt backgrounds →
  checked_opt masks →
  dim tile_offsets < 2 →
  (rasterize_to_pixels_2dgs_fwd kernel means2d ray_transforms colors opacities
     normals backgrounds masks image_width image_height tile_size tile_offsets
     flatten_ids) s = (Throw InvalidSlice, s).
Proof.
  intros Hchecked. intros.
  destruct ((rasterize_to_pixels_2dgs_fwd kernel means2d ray_transforms colors opacities
             normals backgrounds masks image_width image_height tile_size
             tile_offsets flatten_ids) s)
    as [r s'] eqn:Hrun.
  enough (r = Throw InvalidSlice ∧ s' = s) as [-> ->] by done.
  split_checked. wp_of Hrun. unfold rasterize_to_pixels_2dgs_fwd.
  wp_run ltac:(first [absurd_branch | absurd_rank]); done.
Qed.

Lemma rasterize_to_pixels_from_world_3dgs_fwd_rank
    means quats scales colors opacities backgrounds masks image_width
    image_height tile_size viewmats0 viewmats1 Ks camera_model ut_params
    rs_type radial_coeffs tangential_coeffs thin_prism_coeffs ftheta_coeffs
    tile_offsets flatten_ids s :
  Forall checked
    [means; quats; scales; colors; opacities; tile_offsets; flatten_ids] →
  checked_opt backgrounds →
  checked_opt masks →
  dim means < 2 →
  (rasterize_to_pixels_from_world_3dgs_fwd kernel NDEBUG means quats scales
     colors opacities backgrounds masks image_width image_height tile_size
     viewmats0 viewmats1 Ks camera_model ut_params rs_type radial_coeffs
     tangential_coeffs thin_prism_coeffs ftheta_coeffs tile_offsets
     flatten_ids) s = (Throw InvalidSlice, s).
Proof.
  intros Hchecked. intros.
  destruct ((rasterize_to_pixels_from_world_3dgs_fwd kernel NDEBUG means quats scales
             colors opacities backgrounds masks image_width image_height
             tile_size viewmats0 viewmats1 Ks camera_model ut_params rs_type
             radial_coeffs tangential_coeffs thin_prism_coeffs ftheta_coeffs
             tile_offsets flatten_ids) s)
    as [r s'] eqn:Hrun.
  enough (r = Throw InvalidSlice ∧ s' = s) as [-> ->] by done.
  split_checked. wp_of Hrun. unfold rasterize_to_pixels_from_world_3dgs_fwd.
  wp_run ltac:(first [absurd_branch | absurd_rank]); done.
Qed.

Lemma rasterize_to_indices_3dgs_rank
    range_start range_end transmittances means2d conics opacities image_width
    image_height tile_size tile_offsets flatten_ids s :
  Forall checked
    [means2d; conics; opacities; tile_offsets; flatten_ids] →
  dim means2d < 2 →
  (rasterize_to_indices_3dgs kernel range_start range_end transmittances means2d
     conics opacities image_width image_height tile_size tile_offsets
     flatten_ids) s = (Throw IndexError, s).
Proof.
  intros Hchecked. intros.
  destruct ((rasterize_to_indices_3dgs kernel range_start range_end transmittances means2d
             conics opacities image_width image_height tile_size tile_offsets
             flatten_ids) s)
    as [r s'] eqn:Hrun.
  enough (r = Throw IndexError ∧ s' = s) as [-> ->] by done.
  split_checked. wp_of Hrun. unfold rasterize_to_indices_3dgs.
  wp_run ltac:(first [absurd_branch | absurd_rank]); done.
Qed.

Lemma rasterize_to_indices_2dgs_rank
    range_start range_end transmittances means2d ray_transforms opacities
    image_width image_height tile_size tile_offsets flatten_ids s :
  Forall checked
    [means2d; ray_transforms; opacities; tile_offsets; flatten_ids] →
  dim means2d < 2 →
  (rasterize_to_indices_2dgs kernel range_start range_end transmittances means2d
     ray_transforms opacities image_width image_height tile_size tile_offsets
     flatten_ids) s = (Throw IndexError, s).
Proof.
  intros Hchecked. intros.
  destruct ((rasterize_to_indices_2dgs kernel range_start range_end transmittances means2d
             ray_transforms opacities image_width image_height tile_size
             tile_offsets flatten_ids) s)
    as [r s'] eqn:Hrun.
  enough (r = Throw IndexError ∧ s' = s) as [-> ->] by done.
  split_checked. wp_of Hrun. unfold rasterize_to_indices_2dgs.
  wp_run ltac:(first [absurd_branch | absurd_rank]); done.
Qed.

(** X6.  The ranks the wrapper relies on.  A forward call reads the leading
    dimensions of [tile_offsets] (of [means] in the from-world call) as
    everything but the last two: on a tensor of rank below two the slice is
    invalid and the call raises before it allocates.  An index call reads
    [means2d.size(-2)]: on a tensor of rank below two this is an index error,
    again with the state unchanged. *)
Theorem rank_errors :
  (∀ means2d conics colors opacities backgrounds masks image_width image_height
     tile_size tile_offsets flatten_ids s,
     Forall checked
       [means2d; conics; colors; opacities; tile_offsets; flatten_ids] →
     checked_opt backgrounds →
     checked_opt masks →
     dim tile_offsets < 2 →
     (rasterize_to_pixels_3dgs_fwd kernel means2d conics colors opacities
        backgrounds masks image_width image_height tile_size tile_offsets
        flatten_ids) s = (Throw InvalidSlice, s)) ∧
  (∀ means2d ray_transforms colors opacities normals backgrounds masks image_width
     image_height tile_size tile_offsets flatten_ids s,
     Forall checked
       [means2d; ray_transforms; colors; opacities; normals; tile_offsets; flatten_ids] →
     checked_opt backgrounds →
     checked_opt masks →
     dim tile_offsets < 2 →
     (rasterize_to_pixels_2dgs_fwd kernel means2d ray_transforms colors opacities
        normals backgrounds masks image_width image_height tile_size
        tile_offsets flatten_ids) s = (Throw InvalidSlice, s)) ∧
  (∀ means quats scales colors opacities backgrounds masks image_width image_height
     tile_size viewmats0 viewmats1 Ks camera_model ut_params rs_type
     radial_coeffs tangential_coeffs thin_prism_coeffs ftheta_coeffs
     tile_offsets flatten_ids s,
     Forall checked
       [means; quats; scales; colors; opacities; tile_offsets; flatten_ids] →
     checked_opt backgrounds →
     checked_opt masks →
     dim means < 2 →
     (rasterize_to_pixels_from_world_3dgs_fwd kernel NDEBUG means quats scales
        colors opacities backgrounds masks image_width image_height tile_size
        viewmats0 viewmats1 Ks camera_model ut_params rs_type radial_coeffs
        tangential_coeffs thin_prism_coeffs ftheta_coeffs tile_offsets
        flatten_ids) s = (Throw InvalidSlice, s)) ∧
  (∀ range_start range_end transmittances means2d conics opacities image_width
     image_height tile_size tile_offsets flatten_ids s,
     Forall checked
       [means2d; conics; opacities; tile_offsets; flatten_ids] →
     dim means2d < 2 →
     (rasterize_to_indices_3dgs kernel range_start range_end transmittances means2d
        conics opacities image_width image_height tile_size tile_offsets
        flatten_ids) s = (Throw IndexError, s)) ∧
  (∀ range_start range_end transmittances means2d ray_transforms opacities
     image_width image_height tile_size tile_offsets flatten_ids s,
     Forall checked
       [means2d; ray_transforms; opacities; tile_offsets; flatten_ids] →
     dim means2d < 2 →
     (rasterize_to_indices_2dgs kernel range_start range_end transmittances means2d
        ray_transforms opacities image_width image_height tile_size
        tile_offsets flatten_ids) s = (Throw IndexError, s)).
Proof.
  repeat apply conj; intros *.
  - apply rasterize_to_pixels_3dgs_fwd_rank.
  - apply rasterize_to_pixels_2dgs_fwd_rank.
  - apply rasterize_to_pixels_from_world_3dgs_fwd_rank.
  - apply rasterize_to_indices_3dgs_rank.
  - apply rasterize_to_indices_2dgs_rank.
Qed.

Lemma rasterize_to_indices_3dgs_empty_scene
    range_start range_end transmittances means2d conics opacities image_width
    image_height tile_size tile_offsets flatten_ids n s :
  Forall checked
    [means2d; conics; opacities; tile_offsets; flatten_ids] →
  size means2d (-2) = Ok n →
  to_uint32 (2 * to_uint32 n) = 0 →
  (rasterize_to_indices_3dgs kernel range_start range_end transmittances means2d
     conics opacities image_width image_height tile_size tile_offsets
     flatten_ids) s = (Undefined, s).
Proof.
  intros Hchecked Hn Hdiv.
  destruct ((rasterize_to_indices_3dgs kernel range_start range_end transmittances means2d
             conics opacities image_width image_height tile_size tile_offsets
             flatten_ids) s)
    as [r s'] eqn:Hrun.
  enough (r = Undefined ∧ s' = s) as [-> ->] by done.
  split_checked. wp_of Hrun. unfold rasterize_to_indices_3dgs.
  wp_run ltac:(first [absurd_branch | absurd_rank]).
  all: unify_sizes; try done.
  all: match goal with
       | H : (_ =? 0) = false |- _ => apply Z.eqb_neq in H; contradiction
       end.
Qed.

Lemma rasterize_to_indices_2dgs_empty_scene
    range_start range_end transmittances means2d ray_transforms opacities
    image_width image_height tile_size tile_offsets flatten_ids n s :
  Forall checked
    [means2d; ray_transforms; opacities; tile_offsets; flatten_ids] →
  size means2d (-2) = Ok n →
  to_uint32 (2 * to_uint32 n) = 0 →
  (rasterize_to_indices_2dgs kernel range_start range_end transmittances means2d
     ray_transforms opacities image_width image_height tile_size tile_offsets
     flatten_ids) s = (Undefined, s).
Proof.
  intros Hchecked Hn Hdiv.
  destruct ((rasterize_to_indices_2dgs kernel range_start range_end transmittances means2d
             ray_transforms opacities image_width image_height tile_size
             tile_offsets flatten_ids) s)
    as [r s'] eqn:Hrun.
  enough (r = Undefined ∧ s' = s) as [-> ->] by done.
  split_checked. wp_of Hrun. unfold rasterize_to_indices_2dgs.
  wp_run ltac:(first [absurd_branch | absurd_rank]).
  all: unify_sizes; try done.
  all: match goal with
       | H : (_ =? 0) = false |- _ => apply Z.eqb_neq in H; contradiction
       end.
Qed.

(** X7.  An index call on a scene without primitives divides by zero.  The
    number of images is computed as [means2d.numel() / (2 * N)] with a 32-bit
    [N]; when [2 * N] is zero in 32 bits, as it is for [N = 0], the call runs
    into the division right after the checks, before the test for an empty
    intersection list, with nothing allocated and nothing launched. *)
Theorem index_call_without_primitives_divides_by_zero :
  (∀ range_start range_end transmittances means2d conics opacities image_width
     image_height tile_size tile_offsets flatten_ids n s,
     Forall checked
       [means2d; conics; opacities; tile_offsets; flatten_ids] →
     size means2d (-2) = Ok n →
     to_uint32 (2 * to_uint32 n) = 0 →
     (rasterize_to_indices_3dgs kernel range_start range_end transmittances means2d
        conics opacities image_width image_height tile_size tile_offsets
        flatten_ids) s = (Undefined, s)) ∧
  (∀ range_start range_end transmittances means2d ray_transforms opacities
     image_width image_height tile_size tile_offsets flatten_ids n s,
     Forall checked
       [means2d; ray_transforms; opacities; tile_offsets; flatten_ids] →
     size means2d (-2) = Ok n →
     to_uint32 (2 * to_uint32 n) = 0 →
     (rasterize_to_indices_2dgs kernel range_start range_end transmittances means2d
        ray_transforms opacities image_width image_height tile_size
        tile_offsets flatten_ids) s = (Undefined, s)).
Proof.
  split; intros *.
  - apply rasterize_to_indices_3dgs_empty_scene.
  - apply rasterize_to_indices_2dgs_empty_scene.
Qed.

(** ** How an index call ends *)

(** What the counting pass leaves in a zeroed buffer of [n] cells, and the
    last running sum over it. *)
Lemma counting_pass_result (h : heap) ws n t :
  storage t = length h →
  let h1 := h ++ [replicate n (Some 0)] in
  let h1' := apply_writes ws h1 in
  ∃ counts,
    read h1' t = Some <$> counts ∧ length counts = n ∧
    last (cumsum_int32 (read h1' t))
    = match counts with
      | [] => None
      | _ => Some (Some (to_int32 (total counts)))
      end.
Proof.
  intros Ht h1 h1'.
  destruct (read_apply_writes_initialised ws h1 t) as (counts & Hcounts & Hlen).
  { unfold h1. rewrite read_snoc_here by done.
    apply Forall_replicate. by eexists. }
  fold h1' in Hcounts. exists counts. split; [exact Hcounts|]. split.
  - rewrite Hlen. unfold h1. rewrite read_snoc_here by done.
    apply length_replicate.
  - rewrite Hcounts. destruct counts as [|c counts]; [done|].
    unfold cumsum_int32.
    by rewrite (last_cumsum_from 0 (c :: counts) 0).
Qed.

Lemma rasterize_to_indices_3dgs_outcome
    range_start range_end transmittances means2d conics opacities
    image_width image_height tile_size tile_offsets flatten_ids
    n n_isects s r s' :
  Forall checked [means2d; conics; opacities; tile_offsets; flatten_ids] →
  size means2d (-2) = Ok n →
  to_uint32 (2 * to_uint32 n) ≠ 0 →
  size flatten_ids 0 = Ok n_isects →
  to_uint32 n_isects ≠ 0 →
  rasterize_to_indices_3dgs kernel range_start range_end transmittances
    means2d conics opacities image_width image_height tile_size
    tile_offsets flatten_ids s = (r, s') →
  let I := to_uint32 (numel means2d `quot` to_uint32 (2 * to_uint32 n)) in
  let n_pixels := to_uint32 (to_uint32 (I * image_height) * image_width) in
  ∃ a1 chunk_cnts counts ks,
    let k1 := launch_rasterize_to_indices_3dgs_kernel a1 in
    let h1 := mem s ++ [replicate (Z.to_nat n_pixels) (Some 0)] in
    launched s s' ((k1, h1) :: ks) ∧
    k3i_chunk_cnts a1 = Some chunk_cnts ∧
    storage chunk_cnts = length (mem s) ∧
    sizes chunk_cnts = [n_pixels] ∧ dtype chunk_cnts = kInt ∧
    read (apply_writes (kernel k1 h1) h1) chunk_cnts = Some <$> counts ∧
    length counts = Z.to_nat n_pixels ∧
    (n_pixels = 0 → r = Throw IndexError ∧ ks = []) ∧
    (n_pixels ≠ 0 →
     (to_int32 (total counts) < 0 →
      r = Throw NegativeDimension ∧ ks = []) ∧
     (to_int32 (total counts) = 0 → returns r ∧ ks = []) ∧
     (0 < to_int32 (total counts) →
      returns r ∧
      ∃ a2 h2, ks = [(launch_rasterize_to_indices_3dgs_kernel a2, h2)])).
Proof.
  intros Hchecked Hn Hdiv Hisects Hne Hrun. cbv zeta.
  split_checked. wp_of Hrun. unfold rasterize_to_indices_3dgs.
  wp_run ltac:(first [absurd_branch | absurd_rank | absurd_dims]);
    unify_sizes; rewrite ?shape_numel_1 in *; name_indices_state s.
  all: rewrite ?read_snoc_here in * by done.
  all: try match goal with
       | H : (_ =? 0) = true |- _ => apply Z.eqb_eq in H; contradiction
       | H : negb (_ =? 0) = false |- _ =>
           apply negb_false_iff, Z.eqb_eq in H; contradiction
       end.
  all: destruct (counting_pass_result (mem s) (kernel k1 h1)
                   (Z.to_nat n_pixels) chunk_cnts eq_refl)
         as (counts & Hcounts & Hlen & Hlast).
  all: fold h1 in Hcounts, Hlast; fold h1' in Hcounts, Hlast.
  all: match goal with
       | Hx : last (cumsum_int32 (read _ _)) = ?rhs |- _ =>
           lazymatch rhs with
           | match _ with _ => _ end => fail
           | _ => rewrite Hx in Hlast
           end
       end.
  all: assert (0 ≤ n_pixels) as Hpixels by apply to_uint32_range.
  - (* both passes *)
    destruct counts as [|c counts]; [discriminate Hlast|].
    injection Hlast as Hv.
    eexists _, chunk_cnts, (c :: counts), [_]. split.
    { unfold launched. simpl. by rewrite <- app_assoc. }
    do 4 (split; [reflexivity|]).
    split; [exact Hcounts|]. split; [exact Hlen|]. split.
    { intros Hz. rewrite Hz in Hlen. discriminate Hlen. }
    intros _.
    change (total (c :: counts)) with (c + total counts). rewrite <- Hv.
    match goal with
    | H : Forall (Z.le 0) [v] |- _ => rewrite Forall_singleton in H
    end.
    match goal with
    | H : negb (v =? 0) = true |- _ =>
        apply negb_true_iff, Z.eqb_neq in H
    end.
    split; [intros; exfalso; lia|]. split; [intros; exfalso; lia|].
    intros _. split; [exact I|]. by eexists _, _.
  - (* the counts add up to zero *)
    destruct counts as [|c counts]; [discriminate Hlast|].
    injection Hlast as Hv.
    eexists _, chunk_cnts, (c :: counts), []. split; [reflexivity|].
    do 4 (split; [reflexivity|]).
    split; [exact Hcounts|]. split; [exact Hlen|]. split.
    { intros Hz. rewrite Hz in Hlen. discriminate Hlen. }
    intros _.
    change (total (c :: counts)) with (c + total counts). rewrite <- Hv.
    match goal with
    | H : negb (v =? 0) = false |- _ =>
        apply negb_false_iff, Z.eqb_eq in H
    end.
    split; [intros; exfalso; lia|]. split; [done|].
    intros; exfalso; lia.
  - (* the counts add up to a negative number *)
    destruct counts as [|c counts]; [discriminate Hlast|].
    injection Hlast as Hv.
    eexists _, chunk_cnts, (c :: counts), []. split; [reflexivity|].
    do 4 (split; [reflexivity|]).
    split; [exact Hcounts|]. split; [exact Hlen|]. split.
    { intros Hz. rewrite Hz in Hlen. discriminate Hlen. }
    intros _.
    change (total (c :: counts)) with (c + total counts). rewrite <- Hv.
    match goal with
    | H : ¬ Forall (Z.le 0) [v] |- _ => rewrite Forall_singleton in H
    end.
    split; [done|]. split; intros; exfalso; lia.
  - (* an image without pixels *)
    destruct counts as [|c counts]; [|discriminate Hlast].
    eexists _, chunk_cnts, [], []. split; [reflexivity|].
    do 4 (split; [reflexivity|]).
    split; [exact Hcounts|]. split; [exact Hlen|]. split; [done|].
    intros Hnz. exfalso. simpl in Hlen. lia.
  - (* the counts are initialised *)
    destruct counts; discriminate Hlast.
Qed.

(** ** The number of images *)

Lemma size_second_last t batch m k :
  sizes t = batch ++ [m; k] → size t (-2) = Ok m.
Proof.
  intros Ht. unfold size, dim. rewrite Ht.
  assert (Z.of_nat (length (batch ++ [m; k])) = Z.of_nat (length batch) + 2)
    as -> by (rewrite length_app; simpl; lia).
  assert ((- (Z.of_nat (length batch) + 2) <=? -2)
          && (-2 <? Z.of_nat (length batch) + 2) = true) as ->.
  { apply andb_true_iff. split; [apply Z.leb_le|apply Z.ltb_lt]; lia. }
  change (-2 <? 0) with true. cbv iota.
  replace (Z.to_nat (-2 + (Z.of_nat (length batch) + 2))) with (length batch)
    by lia.
  by rewrite (list_lookup_middle batch [k] m).
Qed.

(** For [means2d] of shape [..., N, 2] the quotient [numel / (2 * N)] is the
    number of images, the product of the leading dimensions. *)
Lemma images_of_means2d means2d batch m n :
  sizes means2d = batch ++ [m; 2] →
  size means2d (-2) = Ok n →
  Forall (Z.le 0) batch → 0 < m → 2 * m < 2 ^ 32 →
  shape_numel batch < 2 ^ 32 →
  to_uint32 (numel means2d `quot` to_uint32 (2 * to_uint32 n))
  = shape_numel batch.
Proof.
  intros Hs Hn Hbatch Hm Hm2 Hb.
  rewrite (size_second_last _ _ _ _ Hs) in Hn. injection Hn as <-.
  assert (0 ≤ shape_numel batch) by by apply shape_numel_nonneg.
  rewrite (to_uint32_small m) by lia.
  rewrite (to_uint32_small (2 * m)) by lia.
  change (numel means2d) with (shape_numel (sizes means2d)).
  rewrite Hs, shape_numel_app.
  change (shape_numel [m; 2]) with (m * (2 * 1)).
  replace (shape_numel batch * (m * (2 * 1))) with (shape_numel batch * (2 * m))
    by lia.
  rewrite Z.quot_mul by lia.
  by apply to_uint32_small.
Qed.

Lemma rasterize_to_indices_2dgs_outcome
    range_start range_end transmittances means2d ray_transforms opacities
    image_width image_height tile_size tile_offsets flatten_ids
    n n_isects s r s' :
  Forall checked [means2d; ray_transforms; opacities; tile_offsets; flatten_ids] →
  size means2d (-2) = Ok n →
  to_uint32 (2 * to_uint32 n) ≠ 0 →
  size flatten_ids 0 = Ok n_isects →
  to_uint32 n_isects ≠ 0 →
  rasterize_to_indices_2dgs kernel range_start range_end transmittances
    means2d ray_transforms opacities image_width image_height tile_size
    tile_offsets flatten_ids s = (r, s') →
  let I := to_uint32 (numel means2d `quot` to_uint32 (2 * to_uint32 n)) in
  let n_pixels := to_uint32 (to_uint32 (I * image_height) * image_width) in
  ∃ a1 chunk_cnts counts ks,
    let k1 := launch_rasterize_to_indices_2dgs_kernel a1 in
    let h1 := mem s ++ [replicate (Z.to_nat n_pixels) (Some 0)] in
    launched s s' ((k1, h1) :: ks) ∧
    k2i_chunk_cnts a1 = Some chunk_cnts ∧
    storage chunk_cnts = length (mem s) ∧
    sizes chunk_cnts = [n_pixels] ∧ dtype chunk_cnts = kInt ∧
    read (apply_writes (kernel k1 h1) h1) chunk_cnts = Some <$> counts ∧
    length counts = Z.to_nat n_pixels ∧
    (n_pixels = 0 → r = Throw IndexError ∧ ks = []) ∧
    (n_pixels ≠ 0 →
     (to_int32 (total counts) < 0 →
      r = Throw NegativeDimension ∧ ks = []) ∧
     (to_int32 (total counts) = 0 → returns r ∧ ks = []) ∧
     (0 < to_int32 (total counts) →
      returns r ∧
      ∃ a2 h2, ks = [(launch_rasterize_to_indices_2dgs_kernel a2, h2)])).
Proof.
  intros Hchecked Hn Hdiv Hisects Hne Hrun. cbv zeta.
  split_checked. wp_of Hrun. unfold rasterize_to_indices_2dgs.
  wp_run ltac:(first [absurd_branch | absurd_rank | absurd_dims]);
    unify_sizes; rewrite ?shape_numel_1 in *; name_indices_state s.
  all: rewrite ?read_snoc_here in * by done.
  all: try match goal with
       | H : (_ =? 0) = true |- _ => apply Z.eqb_eq in H; contradiction
       | H : negb (_ =? 0) = false |- _ =>
           apply negb_false_iff, Z.eqb_eq in H; contradiction
       end.
  all: destruct (counting_pass_result (mem s) (kernel k1 h1)
                   (Z.to_nat n_pixels) chunk_cnts eq_refl)
         as (counts & Hcounts & Hlen & Hlast).
  all: fold h1 in Hcounts, Hlast; fold h1' in Hcounts, Hlast.
  all: match goal with
       | Hx : last (cumsum_int32 (read _ _)) = ?rhs |- _ =>
           lazymatch rhs with
           | match _ with _ => _ end => fail
           | _ => rewrite Hx in Hlast
           end
       end.
  all: assert (0 ≤ n_pixels) as Hpixels by apply to_uint32_range.
  - (* both passes *)
    destruct counts as [|c counts]; [discriminate Hlast|].
    injection Hlast as Hv.
    eexists _, chunk_cnts, (c :: counts), [_]. split.
    { unfold launched. simpl. by rewrite <- app_assoc. }
    do 4 (split; [reflexivity|]).
    split; [exact Hcounts|]. split; [exact Hlen|]. split.
    { intros Hz. rewrite Hz in Hlen. discriminate Hlen. }
    intros _.
    change (total (c :: counts)) with (c + total counts). rewrite <- Hv.
    match goal with
    | H : Forall (Z.le 0) [v] |- _ => rewrite Forall_singleton in H
    end.
    match goal with
    | H : negb (v =? 0) = true |- _ =>
        apply negb_true_iff, Z.eqb_neq in H
    end.
    split; [intros; exfalso; lia|]. split; [intros; exfalso; lia|].
    intros _. split; [exact I|]. by eexists _, _.
  - (* the counts add up to zero *)
    destruct counts as [|c counts]; [discriminate Hlast|].
    injection Hlast as Hv.
    eexists _, chunk_cnts, (c :: counts), []. split; [reflexivity|].
    do 4 (split; [reflexivity|]).
    split; [exact Hcounts|]. split; [exact Hlen|]. split.
    { intros Hz. rewrite Hz in Hlen. discriminate Hlen. }
    intros _.
    change (total (c :: counts)) with (c + total counts). rewrite <- Hv.
    match goal with
    | H : negb (v =? 0) = false |- _ =>
        apply negb_false_iff, Z.eqb_eq in H
    end.
    split; [intros; exfalso; lia|]. split; [done|].
    intros; exfalso; lia.
  - (* the counts add up to a negative number *)
    destruct counts as [|c counts]; [discriminate Hlast|].
    injection Hlast as Hv.
    eexists _, chunk_cnts, (c :: counts), []. split; [reflexivity|].
    do 4 (split; [reflexivity|]).
    split; [exact Hcounts|]. split; [exact Hlen|]. split.
    { intros Hz. rewrite Hz in Hlen. discriminate Hlen. }
    intros _.
    change (total (c :: counts)) with (c + total counts). rewrite <- Hv.
    match goal with
    | H : ¬ Forall (Z.le 0) [v] |- _ => rewrite Forall_singleton in H
    end.
    split; [done|]. split; intros; exfalso; lia.
  - (* an image without pixels *)
    destruct counts as [|c counts]; [|discriminate Hlast].
    eexists _, chunk_cnts, [], []. split; [reflexivity|].
    do 4 (split; [reflexivity|]).
    split; [exact Hcounts|]. split; [exact Hlen|]. split; [done|].
    intros Hnz. exfalso. simpl in Hlen. lia.
  - (* the counts are initialised *)
    destruct counts; discriminate Hlast.
Qed.


(** X8.  The buffer of counts.  When the counting pass of an index call is
    launched, it receives a tensor the call has just allocated: an [int]
    vector with one cell for every pixel of every image, all zero when the
    kernel starts.  The number of cells is [I * image_height * image_width]
    in 32-bit arithmetic, where [I = means2d.numel() / (2 * N)]; for
    [means2d] of shape [..., N, 2] with [N > 0] that is the number of
    images, the product of the leading dimensions. *)
Theorem index_counts_start_from_zero :
  (∀ range_start range_end transmittances means2d conics opacities
     image_width image_height tile_size tile_offsets flatten_ids n n_isects
     s r s',
     Forall checked [means2d; conics; opacities; tile_offsets; flatten_ids] →
     size means2d (-2) = Ok n →
     to_uint32 (2 * to_uint32 n) ≠ 0 →
     size flatten_ids 0 = Ok n_isects →
     to_uint32 n_isects ≠ 0 →
     rasterize_to_indices_3dgs kernel range_start range_end transmittances
       means2d conics opacities image_width image_height tile_size
       tile_offsets flatten_ids s = (r, s') →
     let I := to_uint32 (numel means2d `quot` to_uint32 (2 * to_uint32 n)) in
     let n_pixels := to_uint32 (to_uint32 (I * image_height) * image_width) in
     (∃ a1 chunk_cnts ks,
        let h1 := mem s ++ [replicate (Z.to_nat n_pixels) (Some 0)] in
        launched s s' ((launch_rasterize_to_indices_3dgs_kernel a1, h1) :: ks) ∧
        k3i_chunk_cnts a1 = Some chunk_cnts ∧
        storage chunk_cnts = length (mem s) ∧
        sizes chunk_cnts = [n_pixels] ∧ dtype chunk_cnts = kInt ∧
        read h1 chunk_cnts = replicate (Z.to_nat n_pixels) (Some 0)) ∧
     (∀ batch m,
        sizes means2d = batch ++ [m; 2] →
        Forall (Z.le 0) batch → 0 < m → 2 * m < 2 ^ 32 →
        shape_numel batch < 2 ^ 32 →
        I = shape_numel batch)) ∧
  (∀ range_start range_end transmittances means2d ray_transforms opacities
     image_width image_height tile_size tile_offsets flatten_ids n n_isects
     s r s',
     Forall checked [means2d; ray_transforms; opacities; tile_offsets; flatten_ids] →
     size means2d (-2) = Ok n →
     to_uint32 (2 * to_uint32 n) ≠ 0 →
     size flatten_ids 0 = Ok n_isects →
     to_uint32 n_isects ≠ 0 →
     rasterize_to_indices_2dgs kernel range_start range_end transmittances
       means2d ray_transforms opacities image_width image_height tile_size
       tile_offsets flatten_ids s = (r, s') →
     let I := to_uint32 (numel means2d `quot` to_uint32 (2 * to_uint32 n)) in
     let n_pixels := to_uint32 (to_uint32 (I * image_height) * image_width) in
     (∃ a1 chunk_cnts ks,
        let h1 := mem s ++ [replicate (Z.to_nat n_pixels) (Some 0)] in
        launched s s' ((launch_rasterize_to_indices_2dgs_kernel a1, h1) :: ks) ∧
        k2i_chunk_cnts a1 = Some chunk_cnts ∧
        storage chunk_cnts = length (mem s) ∧
        sizes chunk_cnts = [n_pixels] ∧ dtype chunk_cnts = kInt ∧
        read h1 chunk_cnts = replicate (Z.to_nat n_pixels) (Some 0)) ∧
     (∀ batch m,
        sizes means2d = batch ++ [m; 2] →
        Forall (Z.le 0) batch → 0 < m → 2 * m < 2 ^ 32 →
        shape_numel batch < 2 ^ 32 →
        I = shape_numel batch)).
Proof.
  split; intros * Hchecked Hn Hdiv Hisects Hne Hrun; cbv zeta.
  - split.
    + destruct (rasterize_to_indices_3dgs_outcome
                  _ _ _ _ _ _ _ _ _ _ _ _ _ _ _ _ Hchecked Hn Hdiv Hisects
                  Hne Hrun)
        as (a1 & cnts & counts & ks & Hl & Ha & Hst & Hsz & Hdt & _).
      exists a1, cnts, ks. cbv zeta.
      split; [exact Hl|]. split; [exact Ha|]. split; [exact Hst|].
      split; [exact Hsz|]. split; [exact Hdt|].
      by apply read_snoc_here.
    + intros batch m Hs Hbatch Hm Hm2 Hb.
      by apply (images_of_means2d _ batch m).
  - split.
    + destruct (rasterize_to_indices_2dgs_outcome
                  _ _ _ _ _ _ _ _ _ _ _ _ _ _ _ _ Hchecked Hn Hdiv Hisects
                  Hne Hrun)
        as (a1 & cnts & counts & ks & Hl & Ha & Hst & Hsz & Hdt & _).
      exists a1, cnts, ks. cbv zeta.
      split; [exact Hl|]. split; [exact Ha|]. split; [exact Hst|].
      split; [exact Hsz|]. split; [exact Hdt|].
      by apply read_snoc_here.
    + intros batch m Hs Hbatch Hm Hm2 Hb.
      by apply (images_of_means2d _ batch m).
Qed.

(** ** From the forward pass to the backward pass *)

Ltac solve_inputs_checked :=
  repeat apply Forall_cons_2; try apply Forall_nil_2;
  first [assumption | split; assumption].

Lemma rasterize_to_pixels_3dgs_fwd_returns
    means2d conics colors opacities backgrounds masks image_width image_height
    tile_size tile_offsets flatten_ids s renders alphas last_ids s' :
  (rasterize_to_pixels_3dgs_fwd kernel means2d conics colors opacities
     backgrounds masks image_width image_height tile_size tile_offsets
     flatten_ids) s =
    (Ok (renders, alphas, last_ids), s') →
  Forall checked
    [means2d; conics; colors; opacities; tile_offsets; flatten_ids] ∧
  checked_opt backgrounds ∧ checked_opt masks ∧
  Forall checked
    [renders; alphas; last_ids] ∧
  ∃ c a h,
    size colors (-1) = Ok c ∧ In (to_uint32 c) supported_channels ∧
    launched s s' [(launch_rasterize_to_pixels_3dgs_fwd_kernel (to_uint32 c) a, h)].
Proof.
  intros Hrun. wp_of_ok Hrun. unfold rasterize_to_pixels_3dgs_fwd.
  wp_run ltac:(done).
  intros [= <- <- <-].
  split; [solve_inputs_checked|]. split; [assumption|]. split; [assumption|].
  split; [solve_checked|].
  eexists _, _, _. split; [eassumption|]. split; [assumption|]. reflexivity.
Qed.

Lemma rasterize_to_pixels_2dgs_fwd_returns
    means2d ray_transforms colors opacities normals backgrounds masks
    image_width image_height tile_size tile_offsets flatten_ids s renders
    alphas render_normals render_distort render_median last_ids median_ids s' :
  (rasterize_to_pixels_2dgs_fwd kernel means2d ray_transforms colors opacities
     normals backgrounds masks image_width image_height tile_size tile_offsets
     flatten_ids) s =
    (Ok (renders, alphas, render_normals, render_distort, render_median, last_ids, median_ids), s') →
  Forall checked
    [means2d; ray_transforms; colors; opacities; normals; tile_offsets; flatten_ids] ∧
  checked_opt backgrounds ∧ checked_opt masks ∧
  Forall checked
    [renders; alphas; render_normals; render_distort; render_median; last_ids; median_ids] ∧
  ∃ c a h,
    size colors (-1) = Ok c ∧ In (to_uint32 c) supported_channels ∧
    launched s s' [(launch_rasterize_to_pixels_2dgs_fwd_kernel (to_uint32 c) a, h)].
Proof.
  intros Hrun. wp_of_ok Hrun. unfold rasterize_to_pixels_2dgs_fwd.
  wp_run ltac:(done).
  intros [= <- <- <- <- <- <- <-].
  split; [solve_inputs_checked|]. split; [assumption|]. split; [assumption|].
  split; [solve_checked|].
  eexists _, _, _. split; [eassumption|]. split; [assumption|]. reflexivity.
Qed.

Lemma rasterize_to_pixels_from_world_3dgs_fwd_returns
    means quats scales colors opacities backgrounds masks image_width
    image_height tile_size viewmats0 viewmats1 Ks camera_model ut_params
    rs_type radial_coeffs tangential_coeffs thin_prism_coeffs ftheta_coeffs
    tile_offsets flatten_ids s renders alphas last_ids s' :
  (rasterize_to_pixels_from_world_3dgs_fwd kernel NDEBUG means quats scales
     colors opacities backgrounds masks image_width image_height tile_size
     viewmats0 viewmats1 Ks camera_model ut_params rs_type radial_coeffs
     tangential_coeffs thin_prism_coeffs ftheta_coeffs tile_offsets
     flatten_ids) s =
    (Ok (renders, alphas, last_ids), s') →
  Forall checked
    [means; quats; scales; colors; opacities; tile_offsets; flatten_ids] ∧
  checked_opt backgrounds ∧ checked_opt masks ∧
  Forall checked
    [renders; alphas; last_ids] ∧
  ∃ c a h,
    size colors (-1) = Ok c ∧ In (to_uint32 c) supported_channels ∧
    launched s s' [(launch_rasterize_to_pixels_from_world_3dgs_fwd_kernel (to_uint32 c) a, h)].
Proof.
  intros Hrun. wp_of_ok Hrun. unfold rasterize_to_pixels_from_world_3dgs_fwd.
  wp_run ltac:(done).
  intros [= <- <- <-].
  split; [solve_inputs_checked|]. split; [assumption|]. split; [assumption|].
  split; [solve_checked|].
  eexists _, _, _. split; [eassumption|]. split; [assumption|]. reflexivity.
Qed.

Lemma rasterize_to_pixels_3dgs_fwd_then_bwd
    means2d conics colors opacities backgrounds masks image_width image_height
    tile_size tile_offsets flatten_ids v_render_colors v_render_alphas absgrad
    s renders alphas last_ids s1 r s2 :
  (rasterize_to_pixels_3dgs_fwd kernel means2d conics colors opacities
     backgrounds masks image_width image_height tile_size tile_offsets
     flatten_ids) s =
    (Ok (renders, alphas, last_ids), s1) →
  Forall checked
    [v_render_colors; v_render_alphas] →
  (rasterize_to_pixels_3dgs_bwd kernel means2d conics colors opacities
     backgrounds masks image_width image_height tile_size tile_offsets
     flatten_ids alphas last_ids v_render_colors v_render_alphas absgrad) s1 = (r, s2) →
  returns r ∧
  ∃ N a b h1 h2,
    In N supported_channels ∧
    launches s2
    = launches s ++ [(launch_rasterize_to_pixels_3dgs_fwd_kernel N a, h1);
                     (launch_rasterize_to_pixels_3dgs_bwd_kernel N b, h2)].
Proof.
  intros Hfwd Hextra Hbwd.
  destruct (rasterize_to_pixels_3dgs_fwd_returns _ _ _ _ _ _ _ _ _ _ _ _ _ _ _ _ Hfwd)
    as (Hins & Hb & Hm & Houts & c & a & h1 & Hc & Hsup & Hl1).
  split_checked.
  destruct (rasterize_to_pixels_3dgs_bwd_dispatches
              means2d conics colors opacities backgrounds masks image_width image_height tile_size tile_offsets flatten_ids alphas last_ids v_render_colors v_render_alphas absgrad c)
    with (s := s1) (r := r) (s' := s2) as [Hyes _];
    [solve_inputs_checked|assumption|assumption|assumption|exact Hbwd|].
  destruct (Hyes Hsup) as (Hret & k & h2 & Hl2 & b & ->).
  split; [exact Hret|].
  exists (to_uint32 c), a, b, h1, h2. split; [exact Hsup|].
  unfold launched in *. rewrite Hl2, Hl1. by rewrite <- app_assoc.
Qed.

Lemma rasterize_to_pixels_2dgs_fwd_then_bwd
    means2d ray_transforms colors opacities normals backgrounds masks
    image_width image_height tile_size tile_offsets flatten_ids densify
    v_render_colors v_render_alphas v_render_normals v_render_distort
    v_render_median absgrad s renders alphas render_normals render_distort
    render_median last_ids median_ids s1 r s2 :
  (rasterize_to_pixels_2dgs_fwd kernel means2d ray_transforms colors opacities
     normals backgrounds masks image_width image_height tile_size tile_offsets
     flatten_ids) s =
    (Ok (renders, alphas, render_normals, render_distort, render_median, last_ids, median_ids), s1) →
  Forall checked
    [densify; v_render_colors; v_render_alphas; v_render_normals; v_render_distort; v_render_median] →
  (rasterize_to_pixels_2dgs_bwd kernel means2d ray_transforms colors opacities
     normals densify backgrounds masks image_width image_height tile_size
     tile_offsets flatten_ids renders alphas last_ids median_ids
     v_render_colors v_render_alphas v_render_normals v_render_distort
     v_render_median absgrad) s1 = (r, s2) →
  returns r ∧
  ∃ N a b h1 h2,
    In N supported_channels ∧
    launches s2
    = launches s ++ [(launch_rasterize_to_pixels_2dgs_fwd_kernel N a, h1);
                     (launch_rasterize_to_pixels_2dgs_bwd_kernel N b, h2)].
Proof.
  intros Hfwd Hextra Hbwd.
  destruct (rasterize_to_pixels_2dgs_fwd_returns _ _ _ _ _ _ _ _ _ _ _ _ _ _ _ _ _ _ _ _ _ Hfwd)
    as (Hins & Hb & Hm & Houts & c & a & h1 & Hc & Hsup & Hl1).
  split_checked.
  destruct (rasterize_to_pixels_2dgs_bwd_dispatches
              means2d ray_transforms colors opacities normals densify backgrounds masks image_width image_height tile_size tile_offsets flatten_ids renders alphas last_ids median_ids v_render_colors v_render_alphas v_render_normals v_render_distort v_render_median absgrad c)
    with (s := s1) (r := r) (s' := s2) as [Hyes _];
    [solve_inputs_checked|assumption|assumption|assumption|exact Hbwd|].
  destruct (Hyes Hsup) as (Hret & k & h2 & Hl2 & b & ->).
  split; [exact Hret|].
  exists (to_uint32 c), a, b, h1, h2. split; [exact Hsup|].
  unfold launched in *. rewrite Hl2, Hl1. by rewrite <- app_assoc.
Qed.

Lemma rasterize_to_pixels_from_world_3dgs_fwd_then_bwd
    means quats scales colors opacities backgrounds masks image_width
    image_height tile_size viewmats0 viewmats1 Ks camera_model ut_params
    rs_type radial_coeffs tangential_coeffs thin_prism_coeffs ftheta_coeffs
    tile_offsets flatten_ids v_render_colors v_render_alphas s renders alphas
    last_ids s1 r s2 :
  (rasterize_to_pixels_from_world_3dgs_fwd kernel NDEBUG means quats scales
     colors opacities backgrounds masks image_width image_height tile_size
     viewmats0 viewmats1 Ks camera_model ut_params rs_type radial_coeffs
     tangential_coeffs thin_prism_coeffs ftheta_coeffs tile_offsets
     flatten_ids) s =
    (Ok (renders, alphas, last_ids), s1) →
  Forall checked
    [v_render_colors; v_render_alphas] →
  (rasterize_to_pixels_from_world_3dgs_bwd kernel means quats scales colors
     opacities backgrounds masks image_width image_height tile_size viewmats0
     viewmats1 Ks camera_model ut_params rs_type radial_coeffs
     tangential_coeffs thin_prism_coeffs ftheta_coeffs tile_offsets
     flatten_ids alphas last_ids v_render_colors v_render_alphas) s1 = (r, s2) →
  returns r ∧
  ∃ N a b h1 h2,
    In N supported_channels ∧
    launches s2
    = launches s ++ [(launch_rasterize_to_pixels_from_world_3dgs_fwd_kernel N a, h1);
                     (launch_rasterize_to_pixels_from_world_3dgs_bwd_kernel N b, h2)].
Proof.
  intros Hfwd Hextra Hbwd.
  destruct (rasterize_to_pixels_from_world_3dgs_fwd_returns _ _ _ _ _ _ _ _ _ _ _ _ _ _ _ _ _ _ _ _ _ _ _ _ _ _ _ Hfwd)
    as (Hins & Hb & Hm & Houts & c & a & h1 & Hc & Hsup & Hl1).
  split_checked.
  destruct (rasterize_to_pixels_from_world_3dgs_bwd_dispatches
              means quats scales colors opacities backgrounds masks image_width image_height tile_size viewmats0 viewmats1 Ks camera_model ut_params rs_type radial_coeffs tangential_coeffs thin_prism_coeffs ftheta_coeffs tile_offsets flatten_ids alphas last_ids v_render_colors v_render_alphas c)
    with (s := s1) (r := r) (s' := s2) as [Hyes _];
    [solve_inputs_checked|assumption|assumption|assumption|exact Hbwd|].
  destruct (Hyes Hsup) as (Hret & k & h2 & Hl2 & b & ->).
  split; [exact Hret|].
  exists (to_uint32 c), a, b, h1, h2. split; [exact Hsup|].
  unfold launched in *. rewrite Hl2, Hl1. by rewrite <- app_assoc.
Qed.

(** X10.  The backward pass accepts what the forward pass returns.  Take a
    forward call that returned and call the matching backward entry point in
    the state it left, with the same primitives, options and geometry, the
    forward outputs in the places of the rendered images and index maps, and
    incoming gradients that pass [CHECK_INPUT] (and a checked [densify] for
    2DGS).  Then the backward call returns as well: no check fails, the
    width that was dispatched forward is dispatched again, and the two
    launches are all the device has run. *)
Theorem backward_accepts_forward_outputs :
  (∀ means2d conics colors opacities backgrounds masks image_width image_height
     tile_size tile_offsets flatten_ids v_render_colors v_render_alphas
     absgrad s renders alphas last_ids s1 r s2,
     (rasterize_to_pixels_3dgs_fwd kernel means2d conics colors opacities
        backgrounds masks image_width image_height tile_size tile_offsets
        flatten_ids) s =
       (Ok (renders, alphas, last_ids), s1) →
     Forall checked
       [v_render_colors; v_render_alphas] →
     (rasterize_to_pixels_3dgs_bwd kernel means2d conics colors opacities
        backgrounds masks image_width image_height tile_size tile_offsets
        flatten_ids alphas last_ids v_render_colors v_render_alphas absgrad) s1 = (r, s2) →
     returns r ∧
     ∃ N a b h1 h2,
       In N supported_channels ∧
       launches s2
       = launches s ++ [(launch_rasterize_to_pixels_3dgs_fwd_kernel N a, h1);
                        (launch_rasterize_to_pixels_3dgs_bwd_kernel N b, h2)]) ∧
  (∀ means2d ray_transforms colors opacities normals backgrounds masks image_width
     image_height tile_size tile_offsets flatten_ids densify v_render_colors
     v_render_alphas v_render_normals v_render_distort v_render_median absgrad
     s renders alphas render_normals render_distort render_median last_ids
     median_ids s1 r s2,
     (rasterize_to_pixels_2dgs_fwd kernel means2d ray_transforms colors opacities
        normals backgrounds masks image_width image_height tile_size
        tile_offsets flatten_ids) s =
       (Ok (renders, alphas, render_normals, render_distort, render_median, last_ids, median_ids), s1) →
     Forall checked
       [densify; v_render_colors; v_render_alphas; v_render_normals; v_render_distort; v_render_median] →
     (rasterize_to_pixels_2dgs_bwd kernel means2d ray_transforms colors opacities
        normals densify backgrounds masks image_width image_height tile_size
        tile_offsets flatten_ids renders alphas last_ids median_ids
        v_render_colors v_render_alphas v_render_normals v_render_distort
        v_render_median absgrad) s1 = (r, s2) →
     returns r ∧
     ∃ N a b h1 h2,
       In N supported_channels ∧
       launches s2
       = launches s ++ [(launch_rasterize_to_pixels_2dgs_fwd_kernel N a, h1);
                        (launch_rasterize_to_pixels_2dgs_bwd_kernel N b, h2)]) ∧
  (∀ means quats scales colors opacities backgrounds masks image_width image_height
     tile_size viewmats0 viewmats1 Ks camera_model ut_params rs_type
     radial_coeffs tangential_coeffs thin_prism_coeffs ftheta_coeffs
     tile_offsets flatten_ids v_render_colors v_render_alphas s renders alphas
     last_ids s1 r s2,
     (rasterize_to_pixels_from_world_3dgs_fwd kernel NDEBUG means quats scales
        colors opacities backgrounds masks image_width image_height tile_size
        viewmats0 viewmats1 Ks camera_model ut_params rs_type radial_coeffs
        tangential_coeffs thin_prism_coeffs ftheta_coeffs tile_offsets
        flatten_ids) s =
       (Ok (renders, alphas, last_ids), s1) →
     Forall checked
       [v_render_colors; v_render_alphas] →
     (rasterize_to_pixels_from_world_3dgs_bwd kernel means quats scales colors
        opacities backgrounds masks image_width image_height tile_size
        viewmats0 viewmats1 Ks camera_model ut_params rs_type radial_coeffs
        tangential_coeffs thin_prism_coeffs ftheta_coeffs tile_offsets
        flatten_ids alphas last_ids v_render_colors v_render_alphas) s1 = (r, s2) →
     returns r ∧
     ∃ N a b h1 h2,
       In N supported_channels ∧
       launches s2
       = launches s ++ [(launch_rasterize_to_pixels_from_world_3dgs_fwd_kernel N a, h1);
                        (launch_rasterize_to_pixels_from_world_3dgs_bwd_kernel N b, h2)]).
Proof.
  repeat apply conj; intros *.
  - apply rasterize_to_pixels_3dgs_fwd_then_bwd.
  - apply rasterize_to_pixels_2dgs_fwd_then_bwd.
  - apply rasterize_to_pixels_from_world_3dgs_fwd_then_bwd.
Qed.

End Proofs.

(** * Examples on the small scenes *)

(** Discharge a side condition on concrete data. *)
Ltac concrete :=
  first
    [ reflexivity
    | lia
    | by vm_compute
    | by (intros ? [= <-]; split)
    | by intros ? [=]
    | by (repeat constructor) ].

(** C1: the 3DGS forward pass on three channels dispatches. *)
Lemma channel_dispatch_witness :
  dispatches
    (rasterize_to_pixels_3dgs_fwd idle_kernel demo_means2d demo_conics
       demo_colors demo_opacities (Some demo_backgrounds) (Some demo_masks)
       2 2 16 demo_tile_offsets demo_flatten_ids)
    3 (λ N k, ∃ a, k = launch_rasterize_to_pixels_3dgs_fwd_kernel N a).
Proof.
  apply (proj1 (channel_dispatch idle_kernel true)); concrete.
Defined.

(** C1 as stated fails twice.  Built with assertions, the from-world forward
    pass aborts on the supported width 4 and launches nothing.  And colors
    whose last dimension is 2^32 + 3, which is not a supported width, are
    accepted: the width is cut to 32 bits and the kernel for 3 is launched. *)
Lemma channel_dispatch_counterexample :
  (size demo_colors4 (-1) = Ok 4 ∧ In 4 supported_channels ∧
   demo_from_world false = (Abort, demo_state)) ∧
  (size wide_colors (-1) = Ok 4294967299 ∧
   ¬ In 4294967299 supported_channels ∧
   ∃ out s' a h,
     wide_forward = (Ok out, s') ∧
     launches s' = [(launch_rasterize_to_pixels_3dgs_fwd_kernel 3 a, h)]).
Proof.
  split.
  - split; [reflexivity|]. split; [simpl; tauto|]. reflexivity.
  - split; [reflexivity|]. split.
    + simpl. intros H.
      repeat (destruct H as [H|H]; [discriminate H|]). destruct H.
    + do 4 eexists. split; vm_compute; reflexivity.
Qed.

(** C2: on the small scene, with the walk that finds the pairs (0, 0),
    (1, 2) and (2, 2), the 3DGS and the 2DGS call run both passes, both
    passes enumerate these pairs and the arrays returned have three
    entries. *)
Lemma index_passes_agree_witness :
  (∃ gaussian_ids pixel_ids s' a1 h1 a2 h2,
     demo_pairs_3dgs = (Ok (gaussian_ids, pixel_ids), s') ∧
     sizes gaussian_ids = [3] ∧ sizes pixel_ids = [3] ∧
     launched demo_state s'
       [(launch_rasterize_to_indices_3dgs_kernel a1, h1);
        (launch_rasterize_to_indices_3dgs_kernel a2, h2)] ∧
     enumerated demo_walk h1 (view_3dgs_indices a1) = [(0, 0); (1, 2); (2, 2)] ∧
     enumerated demo_walk h2 (view_3dgs_indices a2) = [(0, 0); (1, 2); (2, 2)]) ∧
  (∃ gaussian_ids pixel_ids s' a1 h1 a2 h2,
     demo_pairs_2dgs = (Ok (gaussian_ids, pixel_ids), s') ∧
     sizes gaussian_ids = [3] ∧ sizes pixel_ids = [3] ∧
     launched demo_state s'
       [(launch_rasterize_to_indices_2dgs_kernel a1, h1);
        (launch_rasterize_to_indices_2dgs_kernel a2, h2)] ∧
     enumerated demo_walk h1 (view_2dgs_indices a1) = [(0, 0); (1, 2); (2, 2)] ∧
     enumerated demo_walk h2 (view_2dgs_indices a2) = [(0, 0); (1, 2); (2, 2)]).
Proof.
  split.
  - destruct
      ((proj1 (index_passes_agree demo_index_kernel demo_walk))
         0 10 demo_transmittances demo_means2d demo_conics demo_opacities 2 2
         16 demo_tile_offsets demo_flatten_ids 4 3 demo_state)
      as (chunk_cnts & _ & Hsizes & _ & _ & Hpairs);
      [ by intros | by repeat constructor
      | repeat constructor; simpl; lia | reflexivity | by vm_compute
      | reflexivity | by vm_compute | by vm_compute |].
    destruct Hpairs
      as (chunk_starts & gaussian_ids & pixel_ids & h2 & s' & Hrun & Hl & _
          & _ & _ & Hsame & _); [by vm_compute|].
    pose proof Hrun as Hvalue. vm_compute in Hvalue.
    injection Hvalue as Hg Hp Hs.
    eexists gaussian_ids, pixel_ids, s', _, _, _, h2.
    split; [exact Hrun|].
    split; [by rewrite <- Hg|]. split; [by rewrite <- Hp|].
    split; [exact Hl|].
    match type of Hsame with
    | _ = ?e => assert (e = [(0, 0); (1, 2); (2, 2)]) as Hfirst
    end.
    { unfold enumerated, index_pixels, numel. simpl. rewrite Hsizes.
      reflexivity. }
    split; [exact Hfirst|]. rewrite <- Hfirst. exact Hsame.
  - destruct
      ((proj2 (index_passes_agree demo_index_kernel demo_walk))
         0 10 demo_transmittances demo_means2d demo_ray_transforms
         demo_opacities 2 2 16 demo_tile_offsets demo_flatten_ids 4 3 demo_state)
      as (chunk_cnts & _ & Hsizes & _ & _ & Hpairs);
      [ by intros | by repeat constructor
      | repeat constructor; simpl; lia | reflexivity | by vm_compute
      | reflexivity | by vm_compute | by vm_compute |].
    destruct Hpairs
      as (chunk_starts & gaussian_ids & pixel_ids & h2 & s' & Hrun & Hl & _
          & _ & _ & Hsame & _); [by vm_compute|].
    pose proof Hrun as Hvalue. vm_compute in Hvalue.
    injection Hvalue as Hg Hp Hs.
    eexists gaussian_ids, pixel_ids, s', _, _, _, h2.
    split; [exact Hrun|].
    split; [by rewrite <- Hg|]. split; [by rewrite <- Hp|].
    split; [exact Hl|].
    match type of Hsame with
    | _ = ?e => assert (e = [(0, 0); (1, 2); (2, 2)]) as Hfirst
    end.
    { unfold enumerated, index_pixels, numel. simpl. rewrite Hsizes.
      reflexivity. }
    split; [exact Hfirst|]. rewrite <- Hfirst. exact Hsame.
Defined.



(** C4: on the small scene the gradient buffers of the 3DGS, the 2DGS and
    the from-world backward pass are zero gradients of the arrays they
    belong to. *)
Lemma backward_gradients_start_from_zero_witness :
  (∃ v_means2d_abs v_means2d v_conics v_colors v_opacities s',
     demo_backward true
     = (Ok (v_means2d_abs, v_means2d, v_conics, v_colors, v_opacities), s') ∧
     length (launches s') = 1%nat ∧
     ∃ k h,
       launched demo_state s' [(k, h)] ∧
       zero_gradient_of idle_kernel demo_means2d v_means2d k h (mem s') ∧
       zero_gradient_of idle_kernel demo_conics v_conics k h (mem s') ∧
       zero_gradient_of idle_kernel demo_colors v_colors k h (mem s') ∧
       zero_gradient_of idle_kernel demo_opacities v_opacities k h (mem s')) ∧
  (∃ v_means2d_abs v_means2d v_ray_transforms v_colors v_opacities v_normals
    v_densify s',
     demo_backward_2dgs true
     = (Ok (v_means2d_abs, v_means2d, v_ray_transforms, v_colors, v_opacities,
       v_normals, v_densify), s') ∧
     length (launches s') = 1%nat ∧
     ∃ k h,
       launched demo_state s' [(k, h)] ∧
       zero_gradient_of idle_kernel demo_means2d v_means2d k h (mem s') ∧
       zero_gradient_of idle_kernel demo_ray_transforms v_ray_transforms k h
         (mem s') ∧
       zero_gradient_of idle_kernel demo_colors v_colors k h (mem s') ∧
       zero_gradient_of idle_kernel demo_opacities v_opacities k h (mem s') ∧
       zero_gradient_of idle_kernel demo_normals v_normals k h (mem s') ∧
       zero_gradient_of idle_kernel demo_densify v_densify k h (mem s')) ∧
  (∃ v_means v_quats v_scales v_colors v_opacities s',
     demo_from_world_backward
     = (Ok (v_means, v_quats, v_scales, v_colors, v_opacities), s') ∧
     length (launches s') = 1%nat ∧
     ∃ k h,
       launched demo_state s' [(k, h)] ∧
       zero_gradient_of idle_kernel demo_means v_means k h (mem s') ∧
       zero_gradient_of idle_kernel demo_quats v_quats k h (mem s') ∧
       zero_gradient_of idle_kernel demo_scales v_scales k h (mem s') ∧
       zero_gradient_of idle_kernel demo_colors v_colors k h (mem s') ∧
       zero_gradient_of idle_kernel demo_opacities v_opacities k h (mem s')).
Proof.
  repeat apply conj.
  - do 6 eexists. split; [vm_compute; reflexivity|].
    split; [reflexivity|].
    edestruct
      ((proj1 (backward_gradients_start_from_zero idle_kernel))
         demo_means2d demo_conics demo_colors demo_opacities
         (Some demo_backgrounds) (Some demo_masks) 2 2 16 demo_tile_offsets
         demo_flatten_ids demo_render_alphas demo_last_ids
         demo_v_render_colors demo_v_render_alphas true demo_state)
      as (N & a & h & Hl & _ & _ & _ & _ & Hz0 & Hz1 & Hz2 & Hz3);
      [vm_compute; reflexivity|].
    exists (launch_rasterize_to_pixels_3dgs_bwd_kernel N a), h.
    split; [exact Hl|]. split; [exact Hz0|]. split; [exact Hz1|]. split;
      [exact Hz2|]. exact Hz3.
  - do 8 eexists. split; [vm_compute; reflexivity|].
    split; [reflexivity|].
    edestruct
      ((proj1 (proj2 (backward_gradients_start_from_zero idle_kernel)))
         demo_means2d demo_ray_transforms demo_colors demo_opacities
         demo_normals demo_densify (Some demo_backgrounds) (Some demo_masks) 2
         2 16 demo_tile_offsets demo_flatten_ids demo_render_colors
         demo_render_alphas demo_last_ids demo_median_ids demo_v_render_colors
         demo_v_render_alphas demo_v_render_normals demo_v_render_distort
         demo_v_render_median true demo_state)
      as (N & a & h & Hl & _ & _ & _ & _ & _ & _ & Hz0 & Hz1 & Hz2 & Hz3 & Hz4
        & Hz5);
      [vm_compute; reflexivity|].
    exists (launch_rasterize_to_pixels_2dgs_bwd_kernel N a), h.
    split; [exact Hl|]. split; [exact Hz0|]. split; [exact Hz1|]. split;
      [exact Hz2|]. split; [exact Hz3|]. split; [exact Hz4|]. exact Hz5.
  - do 6 eexists. split; [vm_compute; reflexivity|].
    split; [reflexivity|].
    edestruct
      ((proj1 (proj2 (proj2 (backward_gradients_start_from_zero
        idle_kernel))))
         demo_means demo_quats demo_scales demo_colors demo_opacities
         (Some demo_backgrounds) (Some demo_masks) 2 2 16 demo_viewmats0 None
         demo_Ks () () () None None None () demo_tile_offsets demo_flatten_ids
         demo_render_alphas demo_last_ids demo_v_render_colors
         demo_v_render_alphas demo_state)
      as (N & a & h & Hl & _ & _ & _ & _ & _ & Hz0 & Hz1 & Hz2 & Hz3 & Hz4);
      [vm_compute; reflexivity|].
    exists (launch_rasterize_to_pixels_from_world_3dgs_bwd_kernel N a), h.
    split; [exact Hl|]. split; [exact Hz0|]. split; [exact Hz1|]. split;
      [exact Hz2|]. split; [exact Hz3|]. exact Hz4.
Defined.



(** C6.  The claim fails on a scene without primitives, for both calls.
    With 2D means of shape [1, 0, 2] and an empty [flatten_ids], all on the
    device and contiguous, the wrapper divides the number of elements by
    [2 * N = 0] before it looks at the length of [flatten_ids]: the call
    has no defined result and returns no arrays, where the claim has it
    return two empty ones. *)
Theorem index_call_on_empty_scene_is_undefined :
  Forall checked
    [no_means2d; no_conics; no_ray_transforms; no_opacities;
     demo_tile_offsets; demo_no_flatten_ids] ∧
  size no_means2d (-2) = Ok 0 ∧ size demo_no_flatten_ids 0 = Ok 0 ∧
  demo_indices_no_primitives = (Undefined, demo_state) ∧
  demo_indices_2dgs_no_primitives = (Undefined, demo_state).
Proof.
  split; [by repeat constructor|]. repeat split; vm_compute; reflexivity.
Qed.

(** C7: on the small scene the images of the 3DGS and of the 2DGS forward
    pass share their leading dimensions and end in 2 x 2. *)
Lemma forward_output_shapes_witness :
  (∃ renders alphas last_ids s',
     demo_forward = (Ok (renders, alphas, last_ids), s') ∧
     length (launches s') = 1%nat ∧
     ∃ image_dims channels,
       In channels supported_channels ∧
       sizes renders = image_dims ++ [2; 2; channels] ∧
       sizes alphas = image_dims ++ [2; 2; 1] ∧
       sizes last_ids = image_dims ++ [2; 2] ∧
       dtype last_ids = kInt) ∧
  (∃ renders alphas render_normals render_distort render_median last_ids
    median_ids s',
     demo_forward_2dgs = (Ok (renders, alphas, render_normals, render_distort,
       render_median, last_ids, median_ids), s') ∧
     length (launches s') = 1%nat ∧
     ∃ image_dims channels,
       In channels supported_channels ∧
       sizes renders = image_dims ++ [2; 2; channels] ∧
       sizes alphas = image_dims ++ [2; 2; 1] ∧
       sizes render_normals = image_dims ++ [2; 2; 3] ∧
       sizes render_distort = image_dims ++ [2; 2; 1] ∧
       sizes render_median = image_dims ++ [2; 2; 1] ∧
       sizes last_ids = image_dims ++ [2; 2] ∧
       dtype last_ids = kInt ∧
       sizes median_ids = image_dims ++ [2; 2] ∧
       dtype median_ids = kInt).
Proof.
  split.
  - do 4 eexists. split; [vm_compute; reflexivity|].
    split; [reflexivity|].
    edestruct
      ((proj1 (forward_output_shapes demo_forward_kernel))
         demo_means2d demo_conics demo_colors demo_opacities
         (Some demo_backgrounds) (Some demo_masks) 2 2 16 demo_tile_offsets
         demo_flatten_ids demo_state)
      as (image_dims & th & tw & cw & channels & _ & _ & _ & Hin & Hs0 & Hd0 &
        _ & Hs1 & Hd1 & _ & Hs2 & Hd2 & _);
      [vm_compute; reflexivity|].
    exists image_dims, channels.
    split; [exact Hin|]. split; [exact Hs0|]. split; [exact Hs1|]. split;
      [exact Hs2|]. exact Hd2.
  - do 8 eexists. split; [vm_compute; reflexivity|].
    split; [reflexivity|].
    edestruct
      ((proj1 (proj2 (forward_output_shapes demo_forward_kernel)))
         demo_means2d demo_ray_transforms demo_colors demo_opacities
         demo_normals (Some demo_backgrounds) (Some demo_masks) 2 2 16
         demo_tile_offsets demo_flatten_ids demo_state)
      as (image_dims & th & tw & cw & channels & _ & _ & _ & Hin & Hs0 & Hd0 &
        _ & Hs1 & Hd1 & _ & Hs2 & Hd2 & _ & Hs3 & Hd3 & _ & Hs4 & Hd4 & _ &
        Hs5 & Hd5 & _ & Hs6 & Hd6 & _);
      [vm_compute; reflexivity|].
    exists image_dims, channels.
    split; [exact Hin|]. split; [exact Hs0|]. split; [exact Hs1|]. split;
      [exact Hs2|]. split; [exact Hs3|]. split; [exact Hs4|]. split; [exact
      Hs5|]. split; [exact Hd5|]. split; [exact Hs6|]. exact Hd6.
Defined.

(** C8: on the small scene the only tile is masked out.  After the 3DGS,
    the 2DGS and the from-world forward pass every cell of every output is
    written, and the pixel in row 1, column 0 has alpha zero, the
    background in its second channel and zero in every other output. *)
Lemma masked_tiles_hold_the_background_witness :
  (∃ renders alphas last_ids s',
     demo_forward = (Ok (renders, alphas, last_ids), s') ∧
     Forall (λ t, Forall is_Some (read (mem s') t))
       [renders; alphas; last_ids] ∧
     read (mem s') alphas !! 2%nat = Some (Some 0) ∧
     read (mem s') renders !! 7%nat = Some (Some 2) ∧
     read (mem s') last_ids !! 2%nat = Some (Some 0)) ∧
  (∃ renders alphas render_normals render_distort render_median last_ids
    median_ids s',
     demo_forward_2dgs = (Ok (renders, alphas, render_normals, render_distort,
       render_median, last_ids, median_ids), s') ∧
     Forall (λ t, Forall is_Some (read (mem s') t))
       [renders; alphas; render_normals; render_distort; render_median;
         last_ids; median_ids] ∧
     read (mem s') alphas !! 2%nat = Some (Some 0) ∧
     read (mem s') renders !! 7%nat = Some (Some 2) ∧
     read (mem s') render_normals !! 6%nat = Some (Some 0) ∧
     read (mem s') render_distort !! 2%nat = Some (Some 0) ∧
     read (mem s') render_median !! 2%nat = Some (Some 0) ∧
     read (mem s') last_ids !! 2%nat = Some (Some 0) ∧
     read (mem s') median_ids !! 2%nat = Some (Some 0)) ∧
  (∃ renders alphas last_ids s',
     demo_from_world_forward = (Ok (renders, alphas, last_ids), s') ∧
     Forall (λ t, Forall is_Some (read (mem s') t))
       [renders; alphas; last_ids] ∧
     read (mem s') alphas !! 2%nat = Some (Some 0) ∧
     read (mem s') renders !! 7%nat = Some (Some 2) ∧
     read (mem s') last_ids !! 2%nat = Some (Some 0)).
Proof.
  repeat apply conj.
  - do 4 eexists. split; [vm_compute; reflexivity|].
    edestruct
      ((proj1 (masked_tiles_hold_the_background demo_forward_kernel false
            (λ _ _ _ _ _, 9)))
         demo_means2d demo_conics demo_colors demo_opacities
         (Some demo_backgrounds) (Some demo_masks) 2 2 16 demo_tile_offsets
         demo_flatten_ids demo_state)
      as (N & a & h & Hl & _ & _ & _ & _ & _ & _ & _ & _ & Hinit & Hpix);
      [reflexivity | vm_compute; reflexivity |].
    unfold launched in Hl. simpl in Hl. injection Hl as HN Ha Hh.
    subst N a h.
    destruct (Hpix 0 1 0) as (Halpha & Hcolor & Hothers);
      [by vm_compute | lia | lia | reflexivity |].
    split; [exact Hinit|]. split; [exact Halpha|].
    split; [apply (Hcolor 1); by vm_compute|].
    match goal with
      | |- read _ ?t !! _ = _ =>
          apply (Hothers (t, 1) 0); [simpl; tauto | simpl; lia]
      end.
  - do 8 eexists. split; [vm_compute; reflexivity|].
    edestruct
      ((proj1 (proj2 (masked_tiles_hold_the_background demo_forward_kernel false
            (λ _ _ _ _ _, 9))))
         demo_means2d demo_ray_transforms demo_colors demo_opacities
         demo_normals (Some demo_backgrounds) (Some demo_masks) 2 2 16
         demo_tile_offsets demo_flatten_ids demo_state)
      as (N & a & h & Hl & _ & _ & _ & _ & _ & _ & _ & _ & Hinit & Hpix);
      [reflexivity | vm_compute; reflexivity |].
    unfold launched in Hl. simpl in Hl. injection Hl as HN Ha Hh.
    subst N a h.
    destruct (Hpix 0 1 0) as (Halpha & Hcolor & Hothers);
      [by vm_compute | lia | lia | reflexivity |].
    split; [exact Hinit|]. split; [exact Halpha|].
    split; [apply (Hcolor 1); by vm_compute|].
    split.
    { match goal with
        | |- read _ ?t !! _ = _ =>
            apply (Hothers (t, 3) 0); [simpl; tauto | simpl; lia]
        end. }
    split.
    { match goal with
        | |- read _ ?t !! _ = _ =>
            apply (Hothers (t, 1) 0); [simpl; tauto | simpl; lia]
        end. }
    split.
    { match goal with
        | |- read _ ?t !! _ = _ =>
            apply (Hothers (t, 1) 0); [simpl; tauto | simpl; lia]
        end. }
    split.
    { match goal with
        | |- read _ ?t !! _ = _ =>
            apply (Hothers (t, 1) 0); [simpl; tauto | simpl; lia]
        end. }
    match goal with
      | |- read _ ?t !! _ = _ =>
          apply (Hothers (t, 1) 0); [simpl; tauto | simpl; lia]
      end.
  - do 4 eexists. split; [vm_compute; reflexivity|].
    edestruct
      ((proj1 (proj2 (proj2 (masked_tiles_hold_the_background demo_forward_kernel false
            (λ _ _ _ _ _, 9)))))
         demo_means demo_quats demo_scales demo_colors demo_opacities
         (Some demo_backgrounds) (Some demo_masks) 2 2 16 demo_viewmats0 None
         demo_Ks () () () None None None () demo_tile_offsets demo_flatten_ids
           demo_state)
      as (N & a & h & Hl & _ & _ & _ & _ & _ & _ & _ & _ & Hinit & Hpix);
      [reflexivity | vm_compute; reflexivity |].
    unfold launched in Hl. simpl in Hl. injection Hl as HN Ha Hh.
    subst N a h.
    destruct (Hpix 0 1 0) as (Halpha & Hcolor & Hothers);
      [by vm_compute | lia | lia | reflexivity |].
    split; [exact Hinit|]. split; [exact Halpha|].
    split; [apply (Hcolor 1); by vm_compute|].
    match goal with
      | |- read _ ?t !! _ = _ =>
          apply (Hothers (t, 1) 0); [simpl; tauto | simpl; lia]
      end.
Defined.

(** C9: built with assertions, the from-world forward pass aborts on colors
    with four channels. *)
Lemma from_world_forward_asserts_rgb_witness :
  size demo_colors4 (-1) = Ok 4 ∧
  demo_from_world false = (Abort, demo_state).
Proof.
  split; [reflexivity|].
  refine
    (proj1
       (from_world_forward_asserts_rgb idle_kernel false demo_means
          demo_quats demo_scales demo_colors4 demo_opacities None None 2 2
          16 demo_viewmats0 None demo_Ks () () () None None None ()
          demo_tile_offsets demo_flatten_ids 1 4 _ _ _ _ _ _ _ _ _ _)
       eq_refl demo_state); concrete.
Defined.

(** C10: on the small scene the first output of the 3DGS and of the 2DGS
    backward pass is undefined without [absgrad] and a zero gradient of the
    2D means with it. *)
Lemma absgrad_output_witness :
  (∃ v_means2d_abs v_means2d v_conics v_colors v_opacities s',
     demo_backward false
     = (Ok (v_means2d_abs, v_means2d, v_conics, v_colors, v_opacities), s') ∧
     length (launches s') = 1%nat ∧
     v_means2d_abs = UndefinedTensor) ∧
  (∃ v_means2d_abs v_means2d v_conics v_colors v_opacities s',
     demo_backward true
     = (Ok (v_means2d_abs, v_means2d, v_conics, v_colors, v_opacities), s') ∧
     length (launches s') = 1%nat ∧
     ∃ t k h,
       v_means2d_abs = DefinedTensor t ∧
       launched demo_state s' [(k, h)] ∧
       zero_gradient_of idle_kernel demo_means2d t k h (mem s')) ∧
  (∃ v_means2d_abs v_means2d v_ray_transforms v_colors v_opacities v_normals
     v_densify s',
     demo_backward_2dgs false
     = (Ok (v_means2d_abs, v_means2d, v_ray_transforms, v_colors,
            v_opacities, v_normals, v_densify), s') ∧
     length (launches s') = 1%nat ∧
     v_means2d_abs = UndefinedTensor) ∧
  (∃ v_means2d_abs v_means2d v_ray_transforms v_colors v_opacities v_normals
     v_densify s',
     demo_backward_2dgs true
     = (Ok (v_means2d_abs, v_means2d, v_ray_transforms, v_colors,
            v_opacities, v_normals, v_densify), s') ∧
     length (launches s') = 1%nat ∧
     ∃ t k h,
       v_means2d_abs = DefinedTensor t ∧
       launched demo_state s' [(k, h)] ∧
       zero_gradient_of idle_kernel demo_means2d t k h (mem s')).
Proof.
  repeat apply conj.
  - do 6 eexists. split; [vm_compute; reflexivity|].
    split; [reflexivity|].
    edestruct
      (proj1 (absgrad_output idle_kernel)
         demo_means2d demo_conics demo_colors demo_opacities
         (Some demo_backgrounds) (Some demo_masks) 2 2 16 demo_tile_offsets
         demo_flatten_ids demo_render_alphas demo_last_ids
         demo_v_render_colors demo_v_render_alphas false demo_state)
      as (N & a & h & _ & Habs & _); [vm_compute; reflexivity|].
    exact Habs.
  - do 6 eexists. split; [vm_compute; reflexivity|].
    split; [reflexivity|].
    edestruct
      (proj1 (absgrad_output idle_kernel)
         demo_means2d demo_conics demo_colors demo_opacities
         (Some demo_backgrounds) (Some demo_masks) 2 2 16 demo_tile_offsets
         demo_flatten_ids demo_render_alphas demo_last_ids
         demo_v_render_colors demo_v_render_alphas true demo_state)
      as (N & a & h & Hl & t & Habs & _ & Hzero); [vm_compute; reflexivity|].
    exists t, (launch_rasterize_to_pixels_3dgs_bwd_kernel N a), h.
    split; [exact Habs|]. split; [exact Hl | exact Hzero].
  - do 8 eexists. split; [vm_compute; reflexivity|].
    split; [reflexivity|].
    edestruct
      (proj2 (absgrad_output idle_kernel)
         demo_means2d demo_ray_transforms demo_colors demo_opacities
         demo_normals demo_densify (Some demo_backgrounds) (Some demo_masks) 2
         2 16 demo_tile_offsets demo_flatten_ids demo_render_colors
         demo_render_alphas demo_last_ids demo_median_ids demo_v_render_colors
         demo_v_render_alphas demo_v_render_normals demo_v_render_distort
         demo_v_render_median false demo_state)
      as (N & a & h & _ & Habs & _); [vm_compute; reflexivity|].
    exact Habs.
  - do 8 eexists. split; [vm_compute; reflexivity|].
    split; [reflexivity|].
    edestruct
      (proj2 (absgrad_output idle_kernel)
         demo_means2d demo_ray_transforms demo_colors demo_opacities
         demo_normals demo_densify (Some demo_backgrounds) (Some demo_masks) 2
         2 16 demo_tile_offsets demo_flatten_ids demo_render_colors
         demo_render_alphas demo_last_ids demo_median_ids demo_v_render_colors
         demo_v_render_alphas demo_v_render_normals demo_v_render_distort
         demo_v_render_median true demo_state)
      as (N & a & h & Hl & t & Habs & _ & Hzero); [vm_compute; reflexivity|].
    exists t, (launch_rasterize_to_pixels_2dgs_bwd_kernel N a), h.
    split; [exact Habs|]. split; [exact Hl | exact Hzero].
Defined.

(** * More examples on the small scenes *)

(** X1: built with assertions, the from-world forward pass on RGB colors
    returns three images whose shapes start with the same dimensions. *)
Lemma from_world_forward_output_shapes_witness :
  ∃ renders alphas last_ids s',
    demo_from_world_rgb = (Ok (renders, alphas, last_ids), s') ∧
    ∃ batch_dims C,
      sizes renders = batch_dims ++ [C; 2; 2; 3] ∧
      sizes alphas = batch_dims ++ [C; 2; 2; 1] ∧
      sizes last_ids = batch_dims ++ [C; 2; 2].
Proof.
  do 4 eexists. split; [vm_compute; reflexivity|].
  edestruct
    (from_world_forward_output_shapes idle_kernel false demo_means
       demo_quats demo_scales demo_colors demo_opacities None None 2 2 16
       demo_viewmats0 None demo_Ks () () () None None None ()
       demo_tile_offsets demo_flatten_ids demo_state)
    as (batch_dims & ng & wd & nc & C & cw & channels & _ & _ & _ & _ & _
        & _ & Hrgb & Hr & _ & _ & Ha & _ & _ & Hl & _);
    [vm_compute; reflexivity|].
  exists batch_dims, C. rewrite (Hrgb eq_refl) in Hr.
  split; [exact Hr|]. split; [exact Ha | exact Hl].
Defined.

(** X2: the images of the 3DGS, the 2DGS and the from-world forward pass
    on the small scene are fresh and pass the checks. *)
Lemma forward_launch_and_outputs_witness :
  (∃ renders alphas last_ids s',
     demo_forward_idle = (Ok (renders, alphas, last_ids), s') ∧
     length (launches s') = 1%nat ∧
     fresh demo_state s' [renders; alphas; last_ids] ∧
     Forall checked [renders; alphas; last_ids]) ∧
  (∃ renders alphas render_normals render_distort render_median last_ids
     median_ids s',
     demo_forward_2dgs
     = (Ok (renders, alphas, render_normals, render_distort, render_median,
            last_ids, median_ids), s') ∧
     length (launches s') = 1%nat ∧
     fresh demo_state s'
       [renders; alphas; render_normals; render_distort; render_median;
        last_ids; median_ids] ∧
     Forall checked
       [renders; alphas; render_normals; render_distort; render_median;
        last_ids; median_ids]) ∧
  (∃ renders alphas last_ids s',
     demo_from_world_forward = (Ok (renders, alphas, last_ids), s') ∧
     length (launches s') = 1%nat ∧
     fresh demo_state s' [renders; alphas; last_ids] ∧
     Forall checked [renders; alphas; last_ids]).
Proof.
  repeat apply conj.
  - do 4 eexists. split; [vm_compute; reflexivity|].
    split; [reflexivity|].
    edestruct
      (proj1 (forward_launch_and_outputs idle_kernel true)
         demo_means2d demo_conics demo_colors demo_opacities
         (Some demo_backgrounds) (Some demo_masks) 2 2 16 demo_tile_offsets
         demo_flatten_ids demo_state)
      as (N & h & _ & _ & Hfresh & Hchecked & _); [vm_compute; reflexivity|].
    split; [exact Hfresh | exact Hchecked].
  - do 8 eexists. split; [vm_compute; reflexivity|].
    split; [reflexivity|].
    edestruct
      (proj1 (proj2 (forward_launch_and_outputs demo_forward_kernel true))
         demo_means2d demo_ray_transforms demo_colors demo_opacities
         demo_normals (Some demo_backgrounds) (Some demo_masks) 2 2 16
         demo_tile_offsets demo_flatten_ids demo_state)
      as (N & h & _ & _ & Hfresh & Hchecked & _); [vm_compute; reflexivity|].
    split; [exact Hfresh | exact Hchecked].
  - do 4 eexists. split; [vm_compute; reflexivity|].
    split; [reflexivity|].
    edestruct
      (proj2 (proj2 (forward_launch_and_outputs demo_forward_kernel false))
         demo_means demo_quats demo_scales demo_colors demo_opacities
         (Some demo_backgrounds) (Some demo_masks) 2 2 16 demo_viewmats0 None
         demo_Ks () () () None None None () demo_tile_offsets demo_flatten_ids demo_state)
      as (N & h & _ & _ & Hfresh & Hchecked & _); [vm_compute; reflexivity|].
    split; [exact Hfresh | exact Hchecked].
Defined.

(** X3: the gradients of the 3DGS, the 2DGS and the from-world backward
    pass on the small scene are fresh. *)
Lemma backward_launch_and_outputs_witness :
  (∃ v_means2d_abs v_means2d v_conics v_colors v_opacities s',
     demo_backward true
     = (Ok (v_means2d_abs, v_means2d, v_conics, v_colors, v_opacities), s') ∧
     length (launches s') = 1%nat ∧
     fresh demo_state s'
       (defined_tensors v_means2d_abs
        ++ [v_means2d; v_conics; v_colors; v_opacities])) ∧
  (∃ v_means2d_abs v_means2d v_ray_transforms v_colors v_opacities v_normals
     v_densify s',
     demo_backward_2dgs true
     = (Ok (v_means2d_abs, v_means2d, v_ray_transforms, v_colors,
            v_opacities, v_normals, v_densify), s') ∧
     length (launches s') = 1%nat ∧
     fresh demo_state s'
       (defined_tensors v_means2d_abs
        ++ [v_means2d; v_ray_transforms; v_colors; v_opacities; v_normals;
            v_densify])) ∧
  (∃ v_means v_quats v_scales v_colors v_opacities s',
     demo_from_world_backward
     = (Ok (v_means, v_quats, v_scales, v_colors, v_opacities), s') ∧
     length (launches s') = 1%nat ∧
     fresh demo_state s' [v_means; v_quats; v_scales; v_colors; v_opacities]).
Proof.
  repeat apply conj.
  - do 6 eexists. split; [vm_compute; reflexivity|].
    split; [reflexivity|].
    edestruct
      (proj1 (backward_launch_and_outputs idle_kernel)
         demo_means2d demo_conics demo_colors demo_opacities
         (Some demo_backgrounds) (Some demo_masks) 2 2 16 demo_tile_offsets
         demo_flatten_ids demo_render_alphas demo_last_ids
         demo_v_render_colors demo_v_render_alphas true demo_state)
      as (N & h & _ & _ & Hfresh & _); [vm_compute; reflexivity|].
    exact Hfresh.
  - do 8 eexists. split; [vm_compute; reflexivity|].
    split; [reflexivity|].
    edestruct
      (proj1 (proj2 (backward_launch_and_outputs idle_kernel))
         demo_means2d demo_ray_transforms demo_colors demo_opacities
         demo_normals demo_densify (Some demo_backgrounds) (Some demo_masks) 2
         2 16 demo_tile_offsets demo_flatten_ids demo_render_colors
         demo_render_alphas demo_last_ids demo_median_ids demo_v_render_colors
         demo_v_render_alphas demo_v_render_normals demo_v_render_distort
         demo_v_render_median true demo_state)
      as (N & h & _ & _ & Hfresh & _); [vm_compute; reflexivity|].
    exact Hfresh.
  - do 6 eexists. split; [vm_compute; reflexivity|].
    split; [reflexivity|].
    edestruct
      (proj2 (proj2 (backward_launch_and_outputs idle_kernel))
         demo_means demo_quats demo_scales demo_colors demo_opacities
         (Some demo_backgrounds) (Some demo_masks) 2 2 16 demo_viewmats0 None
         demo_Ks () () () None None None () demo_tile_offsets demo_flatten_ids
         demo_render_alphas demo_last_ids demo_v_render_colors
         demo_v_render_alphas demo_state)
      as (N & h & _ & _ & Hfresh & _); [vm_compute; reflexivity|].
    exact Hfresh.
Defined.

(** X4: the backward pass on the small scene preserves what was there. *)
Lemma calls_preserve_what_kernels_spare_witness :
  ∃ r s', demo_backward true = (r, s') ∧ preserved idle_kernel demo_state s'.
Proof.
  do 2 eexists. split; [vm_compute; reflexivity|].
  eapply
    (proj1 (proj2 (calls_preserve_what_kernels_spare idle_kernel true))
       demo_means2d demo_conics demo_colors demo_opacities
       (Some demo_backgrounds) (Some demo_masks) 2 2 16 demo_tile_offsets
       demo_flatten_ids demo_render_alphas demo_last_ids
       demo_v_render_colors demo_v_render_alphas true demo_state).
  vm_compute. reflexivity.
Defined.

(** X5: on colors with six channels the forward pass raises after it has
    allocated its three images. *)
Lemma pixel_calls_validate_before_allocating_witness :
  ∃ s',
    demo_forward_six = (Throw (UnsupportedChannels 6), s') ∧
    launches s' = launches demo_state ∧
    ∃ bufs, mem s' = mem demo_state ++ bufs ∧ length bufs = 3%nat.
Proof.
  eexists. split; [vm_compute; reflexivity|].
  eapply
    (proj1 (pixel_calls_validate_before_allocating idle_kernel true)
       demo_means2d demo_conics demo_colors6 demo_opacities None None
       2 2 16 demo_tile_offsets demo_flatten_ids demo_state
       (Throw (UnsupportedChannels 6))).
  vm_compute. reflexivity.
Defined.

(** X6: on tile offsets of rank one the forward pass raises an invalid
    slice. *)
Lemma rank_errors_witness :
  demo_forward_flat = (Throw InvalidSlice, demo_state).
Proof.
  apply (proj1 (rank_errors idle_kernel true)); concrete.
Defined.

(** X7: the 3DGS and the 2DGS index extraction on a scene without
    primitives. *)
Lemma index_call_without_primitives_divides_by_zero_witness :
  size no_means2d (-2) = Ok 0 ∧
  demo_indices_no_primitives = (Undefined, demo_state) ∧
  demo_indices_2dgs_no_primitives = (Undefined, demo_state).
Proof.
  split; [reflexivity|]. split.
  - apply (proj1 (index_call_without_primitives_divides_by_zero idle_kernel))
      with (n := 0); concrete.
  - apply (proj2 (index_call_without_primitives_divides_by_zero idle_kernel))
      with (n := 0); concrete.
Defined.

(** X8: the counting pass on the small scene starts from four zeroed
    cells. *)
Lemma index_counts_start_from_zero_witness :
  ∃ r s',
    demo_indices demo_flatten_ids = (r, s') ∧
    ∃ a1 chunk_cnts ks,
      let h1 := mem demo_state ++ [replicate 4 (Some 0)] in
      launched demo_state s'
        ((launch_rasterize_to_indices_3dgs_kernel a1, h1) :: ks) ∧
      k3i_chunk_cnts a1 = Some chunk_cnts ∧
      read h1 chunk_cnts = replicate 4 (Some 0).
Proof.
  do 2 eexists. split; [vm_compute; reflexivity|].
  edestruct
    (proj1 (index_counts_start_from_zero (counting_kernel [2; 0; 1; 0]))
       0 10 demo_transmittances demo_means2d demo_conics demo_opacities
       2 2 16 demo_tile_offsets demo_flatten_ids 4 3 demo_state)
    as [(a1 & chunk_cnts & ks & Hl & Ha & _ & _ & _ & Hread) _];
    [by repeat constructor | reflexivity | by vm_compute | reflexivity
    | by vm_compute | vm_compute; reflexivity |].
  exists a1, chunk_cnts, ks. split; [exact Hl|]. split; [exact Ha|].
  exact Hread.
Defined.


(** X10: the backward pass on the images the forward pass returned. *)
Lemma backward_accepts_forward_outputs_witness :
  ∃ renders alphas last_ids s1 r s2,
    demo_forward_idle = (Ok (renders, alphas, last_ids), s1) ∧
    demo_backward_after alphas last_ids s1 = (r, s2) ∧
    returns r.
Proof.
  do 6 eexists. split; [vm_compute; reflexivity|].
  split; [vm_compute; reflexivity|].
  eapply
    (proj1 (backward_accepts_forward_outputs idle_kernel true)
       demo_means2d demo_conics demo_colors demo_opacities
       (Some demo_backgrounds) (Some demo_masks) 2 2 16 demo_tile_offsets
       demo_flatten_ids demo_v_render_colors demo_v_render_alphas false
       demo_state);
    [vm_compute; reflexivity | by repeat constructor
    | vm_compute; reflexivity].
Defined.

(** X11: the two id arrays of the 3DGS and of the 2DGS index extraction
    on the small scene are fresh. *)
Lemma index_outputs_are_fresh_witness :
  (∃ gaussian_ids pixel_ids s',
     demo_indices demo_flatten_ids = (Ok (gaussian_ids, pixel_ids), s') ∧
     length (launches s') = 2%nat ∧
     fresh demo_state s' [gaussian_ids; pixel_ids]) ∧
  (∃ gaussian_ids pixel_ids s',
     demo_indices_2dgs demo_flatten_ids
     = (Ok (gaussian_ids, pixel_ids), s') ∧
     length (launches s') = 2%nat ∧
     fresh demo_state s' [gaussian_ids; pixel_ids]).
Proof.
  split.
  - do 3 eexists. split; [vm_compute; reflexivity|].
    split; [reflexivity|].
    eapply
      (proj1 (index_outputs_are_fresh (counting_kernel [2; 0; 1; 0]))
         0 10 demo_transmittances demo_means2d demo_conics demo_opacities 2 2
         16 demo_tile_offsets demo_flatten_ids demo_state).
    vm_compute. reflexivity.
  - do 3 eexists. split; [vm_compute; reflexivity|].
    split; [reflexivity|].
    eapply
      (proj2 (index_outputs_are_fresh (counting_kernel [2; 0; 1; 0]))
         0 10 demo_transmittances demo_means2d demo_ray_transforms
         demo_opacities 2 2 16 demo_tile_offsets demo_flatten_ids demo_state).
    vm_compute. reflexivity.
Defined.

(** X12: on the small scene the arrays of the 3DGS and of the 2DGS index
    extraction are 64-bit integer arrays of one length, and without
    intersections nothing is launched. *)
Lemma index_outputs_have_equal_length_witness :
  (∃ gaussian_ids pixel_ids s',
     demo_indices demo_flatten_ids = (Ok (gaussian_ids, pixel_ids), s') ∧
     length (launches s') = 2%nat ∧
     dtype gaussian_ids = kLong ∧ dtype pixel_ids = kLong ∧
     ∃ n_elems, sizes gaussian_ids = [n_elems] ∧ sizes pixel_ids = [n_elems]) ∧
  (∃ r s',
     demo_indices demo_no_flatten_ids = (r, s') ∧
     returns r ∧ launched demo_state s' []) ∧
  (∃ gaussian_ids pixel_ids s',
     demo_indices_2dgs demo_flatten_ids = (Ok (gaussian_ids, pixel_ids), s') ∧
     length (launches s') = 2%nat ∧
     dtype gaussian_ids = kLong ∧ dtype pixel_ids = kLong ∧
     ∃ n_elems, sizes gaussian_ids = [n_elems] ∧ sizes pixel_ids = [n_elems]) ∧
  (∃ r s',
     demo_indices_2dgs demo_no_flatten_ids = (r, s') ∧
     returns r ∧ launched demo_state s' []).
Proof.
  repeat apply conj.
  - do 3 eexists. split; [vm_compute; reflexivity|].
    split; [reflexivity|].
    edestruct
      ((proj1 (index_outputs_have_equal_length (counting_kernel [2; 0; 1; 0])))
         0 10 demo_transmittances demo_means2d demo_conics demo_opacities 2 2
         16 demo_tile_offsets demo_flatten_ids demo_state)
      as (Hg & Hp & n_elems & ks & _ & Hsg & Hsp & _);
      [vm_compute; reflexivity|].
    split; [exact Hg|]. split; [exact Hp|].
    exists n_elems. split; [exact Hsg | exact Hsp].
  - do 2 eexists. split; [vm_compute; reflexivity|].
    eapply
      ((proj1 (proj2 (index_outputs_have_equal_length (counting_kernel [2; 0; 1; 0]))))
         0 10 demo_transmittances demo_means2d demo_conics demo_opacities 2 2
         16 demo_tile_offsets demo_no_flatten_ids 4 demo_state);
      [by repeat constructor | reflexivity | by vm_compute | reflexivity
      | vm_compute; reflexivity].
  - do 3 eexists. split; [vm_compute; reflexivity|].
    split; [reflexivity|].
    edestruct
      ((proj1 (proj2 (proj2 (index_outputs_have_equal_length (counting_kernel [2; 0; 1; 0])))))
         0 10 demo_transmittances demo_means2d demo_ray_transforms
         demo_opacities 2 2 16 demo_tile_offsets demo_flatten_ids demo_state)
      as (Hg & Hp & n_elems & ks & _ & Hsg & Hsp & _);
      [vm_compute; reflexivity|].
    split; [exact Hg|]. split; [exact Hp|].
    exists n_elems. split; [exact Hsg | exact Hsp].
  - do 2 eexists. split; [vm_compute; reflexivity|].
    eapply
      ((proj2 (proj2 (proj2 (index_outputs_have_equal_length (counting_kernel [2; 0; 1; 0])))))
         0 10 demo_transmittances demo_means2d demo_ray_transforms
         demo_opacities 2 2 16 demo_tile_offsets demo_no_flatten_ids 4 demo_state);
      [by repeat constructor | reflexivity | by vm_compute | reflexivity
      | vm_compute; reflexivity].
Defined.
